(** * TelegramHabitBot: notification and settlement engine

    A shallow embedding of the store operations ([database.py] and
    [habit_tracker/database.py]), of the log handlers ([handlers.py]) and of
    the two scheduler variants ([scheduler.py] and
    [habit_tracker/scheduler.py]), followed by the properties of the
    settlement, logging and expiry logic.

    Conventions of the embedding.
    - A table is the list of its rows, in table order; a query is a [filter]
      or a [find] over it, an UPDATE is a [map], a DELETE is a [filter].
    - INTEGER columns are [Z]; the 0/1 flags ([is_active], [completed],
      [responded]) are [bool]; a nullable column is an [option].
    - A Python float is a finite number, an infinity or NaN ([PyFloat]); a
      REAL cell ([daily_goal], [value]) holds such a float or NULL.  Finite
      numbers are exact rationals [Q]: sums and comparisons of finite numbers
      are the mathematical ones, the rounding and the overflow of binary
      floating point are not modelled, and a statement that depends on an
      exact sum says so by asking the numbers to be representable
      ([is_real4]).  The REAL column [total_points] only ever receives
      [+ 1] and is an exact rational.  The efficiency percentage and the
      average of [get_habit_stats] are quotients rounded by Python and are
      modelled on binary64 floats, as Python computes them.  The 4-byte
      REAL of PostgreSQL is modelled on its own ([Real4]), where its
      rounding decides the outcome.
    - What depends on the database is an interface ([Backend]): the order of
      ORDER BY, and the storage of NaN, which SQLite turns into NULL and
      PostgreSQL keeps.
    - Calendar dates are day ordinals and timestamps are readings of a clock
      in minutes, both [Z]; the clocks and the current date are arguments.
      The sqlite variant reads two clocks, the local one and the one of
      Asia/Almaty.
    - A Python exception is the [None] of an [option]; the store keeps the
      writes made before it.  Where the store after an exception matters,
      the function returns it with the outcome. *)

From Stdlib Require Import ZArith QArith Qround List Bool Lia Lqa String Permutation.
From Stdlib Require Import Floats.PrimFloat Floats.FloatOps Floats.SpecFloat Uint63.
From Stdlib Require Import DecimalString Sorted.
Import ListNotations.

Set Warnings "-inexact-float".

Local Open Scope Z_scope.

(** ** REAL values *)

(** A Python float. *)
Inductive PyFloat : Type :=
| Finite (q : Q)
| Infinite (negative : bool)
| NaN.

(** [a + b] on floats. *)
Definition float_add (a b : PyFloat) : PyFloat :=
  match a, b with
  | NaN, _ => NaN
  | _, NaN => NaN
  | Finite x, Finite y => Finite (x + y)
  | Finite _, Infinite s => Infinite s
  | Infinite s, Finite _ => Infinite s
  | Infinite s, Infinite t => if Bool.eqb s t then Infinite s else NaN
  end.

(** [a >= b] on floats: false when either side is NaN. *)
Definition float_ge (a b : PyFloat) : bool :=
  match a, b with
  | NaN, _ => false
  | _, NaN => false
  | Finite x, Finite y => Qle_bool y x
  | Finite _, Infinite t => t
  | Infinite s, Finite _ => negb s
  | Infinite s, Infinite t => negb s || t
  end.

(** [a > b] on floats. *)
Definition float_gt (a b : PyFloat) : bool :=
  match a, b with
  | NaN, _ => false
  | _, NaN => false
  | Finite x, Finite y => negb (Qle_bool x y)
  | Finite _, Infinite t => t
  | Infinite s, Finite _ => negb s
  | Infinite s, Infinite t => negb s && t
  end.

Arguments float_add : simpl nomatch.
Arguments float_ge : simpl nomatch.
Arguments float_gt : simpl nomatch.

(** A REAL cell: [None] is NULL. *)
Definition Real : Type := option PyFloat.

(** The cell that holds the number [q]. *)
Definition real (q : Q) : Real := Some (Finite q).

(** [a + b] and [a >= b] where the left or the right operand was read from
    a cell: Python raises TypeError on [None]. *)
Definition cell_add (a : Real) (b : PyFloat) : option PyFloat :=
  match a with
  | Some x => Some (float_add x b)
  | None => None
  end.

Definition cell_ge (a b : Real) : option bool :=
  match a, b with
  | Some x, Some y => Some (float_ge x y)
  | _, _ => None
  end.

(** What SQLite makes of a float that is bound to a statement: NaN is stored
    as NULL. *)
Definition nan_to_null (x : PyFloat) : Real :=
  match x with
  | NaN => None
  | _ => Some x
  end.

(** ** Data model (the CREATE TABLE statements of [init_db]) *)

Inductive HabitType : Type := Boolean | Numeric.

Record User : Type := mkUser {
  u_user_id : Z;
  notification_times : list string
}.

Record Habit : Type := mkHabit {
  h_id : Z;
  h_user_id : Z;
  category_id : option Z;
  h_name : string;
  habit_type : HabitType;
  daily_goal : Real;
  h_unit : string;
  streak : Z;
  max_streak : Z;
  is_active : bool;
  h_marathon_id : option Z
}.

Record HabitLog : Type := mkHabitLog {
  hl_id : Z;
  hl_habit_id : Z;
  hl_user_id : Z;
  log_date : Z;
  log_value : Real;
  log_completed : bool
}.

Record PendingNotification : Type := mkPending {
  pn_id : Z;
  pn_user_id : Z;
  pn_habit_id : Z;
  message_id : option Z;
  chat_id : option Z;
  sent_at : Z;
  expires_at : Z;
  responded : bool
}.

Record MarathonParticipant : Type := mkParticipant {
  mp_marathon_id : Z;
  mp_user_id : Z;
  total_points : Q
}.

(** The store: the tables the engine reads and writes, with the id sequences
    of the two tables it inserts into. *)
Record Store : Type := mkStore {
  users : list User;
  habits : list Habit;
  habit_logs : list HabitLog;
  next_log_id : Z;
  pending_notifications : list PendingNotification;
  next_notification_id : Z;
  marathon_participants : list MarathonParticipant
}.

Definition set_habits (st : Store) (hs : list Habit) : Store :=
  mkStore (users st) hs (habit_logs st) (next_log_id st)
          (pending_notifications st) (next_notification_id st)
          (marathon_participants st).

Definition set_habit_logs (st : Store) (ls : list HabitLog) (next : Z) : Store :=
  mkStore (users st) (habits st) ls next
          (pending_notifications st) (next_notification_id st)
          (marathon_participants st).

Definition set_pending_notifications (st : Store)
    (ps : list PendingNotification) (next : Z) : Store :=
  mkStore (users st) (habits st) (habit_logs st) (next_log_id st)
          ps next (marathon_participants st).

Definition set_marathon_participants (st : Store)
    (ps : list MarathonParticipant) : Store :=
  mkStore (users st) (habits st) (habit_logs st) (next_log_id st)
          (pending_notifications st) (next_notification_id st) ps.

(** The row updates of the UPDATE statements. *)
Definition set_streak (h : Habit) (new_streak new_max : Z) : Habit :=
  mkHabit (h_id h) (h_user_id h) (category_id h) (h_name h) (habit_type h)
          (daily_goal h) (h_unit h) new_streak new_max (is_active h) (h_marathon_id h).

Definition set_log_value (l : HabitLog) (v : Real) (completed : bool) : HabitLog :=
  mkHabitLog (hl_id l) (hl_habit_id l) (hl_user_id l) (log_date l) v completed.

Definition set_responded (n : PendingNotification) : PendingNotification :=
  mkPending (pn_id n) (pn_user_id n) (pn_habit_id n) (message_id n) (chat_id n)
            (sent_at n) (expires_at n) true.

Definition add_points (p : MarathonParticipant) (points : Q) : MarathonParticipant :=
  mkParticipant (mp_marathon_id p) (mp_user_id p) (total_points p + points)%Q.

(** What depends on the database.  [ORDER BY category_id, name] of
    [get_user_habits] depends on NULL placement and collation: all that is
    used of it is that it rearranges the selected rows.  A NaN is stored as
    NULL by SQLite and as NaN by PostgreSQL. *)
Class Backend : Type := {
  order_by_category_name : list Habit -> list Habit;
  order_by_category_name_perm :
    forall l, Permutation (order_by_category_name l) l;
  nan_is_null : bool
}.

(** SQLite's order: NULL categories first, then ascending category id, names
    compared bytewise; rows that compare equal keep their table order. *)
Definition category_leb (a b : option Z) : bool :=
  match a, b with
  | None, _ => true
  | Some _, None => false
  | Some x, Some y => x <=? y
  end.

Definition category_eqb (a b : option Z) : bool :=
  match a, b with
  | None, None => true
  | Some x, Some y => x =? y
  | _, _ => false
  end.

Definition habit_leb (a b : Habit) : bool :=
  if category_eqb (category_id a) (category_id b)
  then String.leb (h_name a) (h_name b)
  else category_leb (category_id a) (category_id b).

(** A stable insertion sort, for the ORDER BY clauses. *)
Fixpoint insert_by {A : Type} (leb : A -> A -> bool) (a : A) (l : list A) : list A :=
  match l with
  | [] => [a]
  | x :: tl => if leb a x then a :: l else x :: insert_by leb a tl
  end.

Definition sort_by {A : Type} (leb : A -> A -> bool) (l : list A) : list A :=
  fold_right (insert_by leb) [] l.

Definition sqlite_order (l : list Habit) : list Habit := sort_by habit_leb l.

(** Python truthiness of an optional integer: [None] and [0] are false. *)
Definition truthy (o : option Z) : bool :=
  match o with
  | Some n => negb (n =? 0)
  | None => false
  end.

(** ** database.py / habit_tracker/database.py *)

Module Database.

Section WithBackend.
Context `{Backend}.

(** A REAL cell as the driver returns it, and a float as the driver stores
    it: with SQLite a NaN is NULL, so a cell reads as a number, an infinity
    or [None]. *)
Definition sql_real (c : Real) : Real :=
  match c with
  | Some NaN => if nan_is_null then None else c
  | _ => c
  end.

(** [get_all_users]: SELECT * FROM users. *)
Definition get_all_users (st : Store) : list User := users st.

(** [get_user_habits(user_id)] with the default [active_only=True]. *)
Definition get_user_habits (st : Store) (user_id : Z) : list Habit :=
  order_by_category_name
    (filter (fun h => (h_user_id h =? user_id) && is_active h) (habits st)).

(** [get_habit]: the first row with that id, if any. *)
Definition get_habit (st : Store) (habit_id : Z) : option Habit :=
  find (fun h => h_id h =? habit_id) (habits st).

(** [get_daily_log(habit_id, log_date)]. *)
Definition get_daily_log (st : Store) (habit_id : Z) (d : Z) : option HabitLog :=
  find (fun l => (hl_habit_id l =? habit_id) && (log_date l =? d)) (habit_logs st).

(** What [log_habit] returns. *)
Record LogResult : Type := mkLogResult {
  lr_habit : Habit;
  new_value : PyFloat;
  lr_daily_goal : Real;
  lr_completed : bool
}.

(** [log_habit(habit_id, user_id, value, log_date)].  [dict(None)] raises
    when the habit does not exist; otherwise the day's row is updated by
    adding [value] to it, or inserted.  The sum raises TypeError when the
    value of the row reads as [None], the comparison with the goal when the
    goal does; nothing is written then. *)
Definition log_habit (st : Store) (habit_id user_id : Z) (value : PyFloat) (d : Z)
    : option (Store * LogResult) :=
  match get_habit st habit_id with
  | None => None
  | Some habit =>
      match get_daily_log st habit_id d with
      | Some existing =>
          match cell_add (sql_real (log_value existing)) value with
          | None => None
          | Some new_value =>
              match cell_ge (Some new_value) (sql_real (daily_goal habit)) with
              | None => None
              | Some completed =>
                  Some (set_habit_logs st
                          (map (fun l =>
                                  if hl_id l =? hl_id existing
                                  then set_log_value l (sql_real (Some new_value)) completed
                                  else l)
                               (habit_logs st))
                          (next_log_id st),
                        mkLogResult habit new_value (sql_real (daily_goal habit)) completed)
              end
          end
      | None =>
          let new_value := value in
          match cell_ge (Some new_value) (sql_real (daily_goal habit)) with
          | None => None
          | Some completed =>
              Some (set_habit_logs st
                      (habit_logs st ++
                       [mkHabitLog (next_log_id st) habit_id user_id d
                                   (sql_real (Some new_value)) completed])
                      (next_log_id st + 1),
                    mkLogResult habit new_value (sql_real (daily_goal habit)) completed)
          end
      end
  end.

(** A Python dict built from rows, later rows overriding earlier ones. *)
Definition LogDict : Type := list (Z * HabitLog).

Definition dict_get (d : LogDict) (k : Z) : option HabitLog :=
  option_map snd (find (fun p => fst p =? k) (rev d)).

(** [get_daily_logs_batch(habit_ids, log_date)] (habit_tracker only). *)
Definition get_daily_logs_batch (st : Store) (habit_ids : list Z) (d : Z) : LogDict :=
  match habit_ids with
  | [] => []
  | _ =>
      map (fun l => (hl_habit_id l, l))
          (filter (fun l => existsb (Z.eqb (hl_habit_id l)) habit_ids && (log_date l =? d))
                  (habit_logs st))
  end.

(** [get_habit_logs_range]: rows of the habit with start <= log_date <= end,
    ORDER BY log_date. *)
Definition get_habit_logs_range (st : Store) (habit_id start_date end_date : Z)
    : list HabitLog :=
  sort_by (fun a b => log_date a <=? log_date b)
    (filter (fun l => (hl_habit_id l =? habit_id)
                      && (start_date <=? log_date l) && (log_date l <=? end_date))
            (habit_logs st)).

(** [update_streak(habit_id, completed)].  Unpacking the missing row raises. *)
Definition update_streak (st : Store) (habit_id : Z) (completed : bool)
    : option (Store * (Z * bool)) :=
  match get_habit st habit_id with
  | None => None
  | Some row =>
      let current_streak := streak row in
      let max_streak0 := max_streak row in
      let new_streak := if completed then current_streak + 1 else 0 in
      let new_max := if completed then Z.max max_streak0 new_streak else max_streak0 in
      Some (set_habits st
              (map (fun h =>
                      if h_id h =? habit_id
                      then set_streak h new_streak new_max
                      else h)
                   (habits st)),
            (new_streak, completed))
  end.

(** [create_pending_notification]: the sqlite variant is given [expires_at]
    and no message reference, and writes its own clock as [sent_at]; the
    postgres variant stores the message and chat ids and takes NOW() and
    NOW() + 10 minutes of the database clock. *)
Definition create_pending_notification (st : Store) (user_id habit_id : Z)
    (message chat : option Z) (now expires : Z) : Store :=
  set_pending_notifications st
    (pending_notifications st ++
     [mkPending (next_notification_id st) user_id habit_id message chat now expires false])
    (next_notification_id st + 1).

(** [mark_notification_responded(user_id, habit_id)]. *)
Definition mark_notification_responded (st : Store) (user_id habit_id : Z) : Store :=
  set_pending_notifications st
    (map (fun n =>
            if (pn_user_id n =? user_id) && (pn_habit_id n =? habit_id)
               && negb (responded n)
            then set_responded n
            else n)
         (pending_notifications st))
    (next_notification_id st).

(** [get_expired_notifications]: responded = 0 AND expires_at < now. *)
Definition get_expired_notifications (st : Store) (now : Z)
    : list PendingNotification :=
  filter (fun n => negb (responded n) && (expires_at n <? now))
         (pending_notifications st).

(** [delete_expired_notifications]: DELETE ... WHERE responded = 1 OR
    expires_at < now. *)
Definition delete_expired_notifications (st : Store) (now : Z) : Store :=
  set_pending_notifications st
    (filter (fun n => negb (responded n || (expires_at n <? now)))
            (pending_notifications st))
    (next_notification_id st).

(** [update_marathon_points(user_id, marathon_id, points)]. *)
Definition update_marathon_points (st : Store) (user_id marathon_id : Z) (points : Q)
    : Store :=
  set_marathon_participants st
    (map (fun p =>
            if (mp_user_id p =? user_id) && (mp_marathon_id p =? marathon_id)
            then add_points p points
            else p)
         (marathon_participants st)).

(** *** Analytics *)

(** Python's [int / int] and [float * int] on binary64.  The counts and day
    differences converted here are far below 2^53 (a [date] is at most
    3652059 days), so the conversion is exact. *)
Definition float_of_Z (z : Z) : float :=
  if z <? 0 then PrimFloat.opp (PrimFloat.of_uint63 (Uint63.of_Z (- z)))
  else PrimFloat.of_uint63 (Uint63.of_Z z).

(** [n / d] rounded to the nearest integer, ties to the even one ([d > 0]). *)
Definition half_even_div (n d : Z) : Z :=
  let q := n / d in
  let r := n mod d in
  match 2 * r ?= d with
  | Lt => q
  | Gt => q + 1
  | Eq => if Z.even q then q else q + 1
  end.

(** [round(x, 1)] on a float: the exact binary value of [x] is rounded to
    tenths, ties to even, and the decimal obtained is converted back to the
    nearest float; zeros, infinities and NaN are returned as they are. *)
Definition py_round1 (x : float) : float :=
  match Prim2SF x with
  | S754_finite s m e =>
      let n := match e with
               | Z.neg p => half_even_div (10 * Z.pos m) (Z.pow_pos 2 p)
               | _ => 10 * Z.pos m * 2 ^ e
               end in
      let r := PrimFloat.div (float_of_Z n) (float_of_Z 10) in
      if s then PrimFloat.opp r else r
  | _ => x
  end.

(** [round(x, 2)] on a float, as [py_round1] with hundredths. *)
Definition py_round2 (x : float) : float :=
  match Prim2SF x with
  | S754_finite s m e =>
      let n := match e with
               | Z.neg p => half_even_div (100 * Z.pos m) (Z.pow_pos 2 p)
               | _ => 100 * Z.pos m * 2 ^ e
               end in
      let r := PrimFloat.div (float_of_Z n) (float_of_Z 100) in
      if s then PrimFloat.opp r else r
  | _ => x
  end.

(** The binary64 float a value is held as: of a finite value the float
    nearest to it (numerator and denominator below 2^53, so that the one
    division rounds once). *)
Definition to_binary64 (x : PyFloat) : float :=
  match x with
  | Finite q => PrimFloat.div (float_of_Z (Qnum q)) (float_of_Z (Z.pos (Qden q)))
  | Infinite false => PrimFloat.infinity
  | Infinite true => PrimFloat.neg_infinity
  | NaN => PrimFloat.nan
  end.

(** [round(total_value / total_days, 2)] for [total_days > 0]: the quotient
    is the binary64 one, and it is the quotient that is rounded. *)
Definition average_of (total_value : PyFloat) (total_days : Z) : float :=
  py_round2 (to_binary64 total_value / float_of_Z total_days)%float.

(** [sum(log['value'] for log in logs)]: the values are added to the integer
    0 in the order of the rows; TypeError on the first that reads as
    [None]. *)
Definition sum_values (logs : list HabitLog) : option PyFloat :=
  fold_left (fun total l =>
               match total, sql_real (log_value l) with
               | Some t, Some v => Some (float_add t v)
               | _, _ => None
               end)
            logs (Some (Finite 0)).

(** [max(logs, key=lambda x: x['value'])]: the first row of maximal value,
    a row replacing the best so far when its value is greater.  It is
    evaluated after the sum, which has raised if a value reads as [None]. *)
Definition max_by_value (logs : list HabitLog) : option HabitLog :=
  fold_left (fun best l =>
               match best with
               | None => Some l
               | Some b =>
                   match sql_real (log_value l), sql_real (log_value b) with
                   | Some x, Some y => if float_gt x y then Some l else Some b
                   | _, _ => Some b
                   end
               end)
            logs None.

Record BooleanStats : Type := mkBooleanStats {
  bs_habit : Habit;
  bs_total_days : Z;
  completed_days : Z;
  missed_days : Z;
  efficiency : float;
  bs_logs : list HabitLog
}.

Record NumericStats : Type := mkNumericStats {
  ns_habit : Habit;
  ns_total_days : Z;
  total_value : PyFloat;
  average : float;
  best_day : option HabitLog;
  ns_completed_days : Z;
  ns_logs : list HabitLog
}.

Inductive HabitStats : Type :=
| StatsBoolean (s : BooleanStats)
| StatsNumeric (s : NumericStats).

(** [sum(1 for log in logs if log['completed'])]. *)
Definition count_completed (logs : list HabitLog) : Z :=
  Z.of_nat (List.length (filter log_completed logs)).

(** [get_habit_stats(habit_id, start_date, end_date)].  The [0] of an empty
    range is the integer; it is given here as the float it equals.  The
    numeric branch raises with the sum of the values. *)
Definition get_habit_stats (st : Store) (habit_id start_date end_date : Z)
    : option HabitStats :=
  match get_habit st habit_id with
  | None => None
  | Some habit =>
      let logs := get_habit_logs_range st habit_id start_date end_date in
      let total_days := end_date - start_date + 1 in
      match habit_type habit with
      | Boolean =>
          let completed := count_completed logs in
          Some (StatsBoolean
                  (mkBooleanStats habit total_days completed (total_days - completed)
                     (if 0 <? total_days
                      then py_round1 (float_of_Z completed / float_of_Z total_days
                                      * float_of_Z 100)%float
                      else float_of_Z 0)
                     logs))
      | Numeric =>
          match sum_values logs with
          | None => None
          | Some total_value =>
              Some (StatsNumeric
                      (mkNumericStats habit total_days total_value
                         (if 0 <? total_days
                          then average_of total_value total_days
                          else float_of_Z 0)
                         (max_by_value logs)
                         (count_completed logs)
                         logs))
          end
      end
  end.

End WithBackend.

End Database.

(** ** The delivery gateway

    The bot handle of the schedulers.  A call may raise; what is sent is kept
    abstract (rendering is not part of the engine): a prompt names the habits
    it covers, a day report carries the digest. *)

Inductive StreakEvent : Type := StreakExtended | StreakBroken.

Record DigestLine : Type := mkDigestLine {
  dl_habit_id : Z;
  dl_value : PyFloat;
  dl_goal : PyFloat;
  dl_completed : bool;
  dl_new_streak : Z;
  dl_event : option StreakEvent
}.

Inductive Content : Type :=
| ReportPrompt (habit_ids : list Z)
| TimeIsUp (habit_id : Z)
| DayReport (lines : list DigestLine).

Inductive GatewayCall : Type :=
| SendMessage (user_id : Z) (c : Content)
| DeleteMessage (chat msg : Z).

(** [send_message] returns the id of the delivered message, or raises
    ([None]).  An exception of [delete_message] is caught where it is called
    and changes nothing, so its outcome is not part of the handle. *)
Record Bot : Type := mkBot {
  send_message : Z -> Content -> option Z
}.

(** What a job runs against: the store and the calls made to the gateway. *)
Record World : Type := mkWorld {
  store : Store;
  outbox : list GatewayCall
}.

Definition call (w : World) (st : Store) (c : GatewayCall) : World :=
  mkWorld st (outbox w ++ [c]).

(** ** handlers.py: the log writes *)

Module Handlers.

Section WithBackend.
Context `{Backend}.

(** The two store calls every log handler makes, in this order; an exception
    of [log_habit] leaves the handler before the second one. *)
Definition log_and_mark (st : Store) (user_id habit_id : Z) (value : PyFloat) (today : Z)
    : option Store :=
  match Database.log_habit st habit_id user_id value today with
  | None => None
  | Some (st1, _) => Some (Database.mark_notification_responded st1 user_id habit_id)
  end.

(** [log_boolean]: callback data [log_bool_<habit>_<0|1>], the value is an
    integer. *)
Definition log_boolean (st : Store) (user_id habit_id value : Z) (today : Z)
    : option Store :=
  log_and_mark st user_id habit_id (Finite (inject_Z value)) today.

(** [log_numeric]: callback data [log_num_<habit>_<value>], the value is
    [float(parts[3])]. *)
Definition log_numeric (st : Store) (user_id habit_id : Z) (value : PyFloat) (today : Z)
    : option Store :=
  log_and_mark st user_id habit_id value today.

(** [log_custom_value]: [text_value] is the result of
    [float(message.text.replace(",", "."))], [None] when it raises
    ValueError, which the handler answers without touching the store.  No
    other check is made on the number: [float] reads "inf" and "nan" too. *)
Definition log_custom_value (st : Store) (user_id habit_id : Z)
    (text_value : option PyFloat) (today : Z) : option Store :=
  match text_value with
  | None => Some st
  | Some value => log_and_mark st user_id habit_id value today
  end.

(** [notification_response]: callback data [notif_resp_<habit>_<value>]. *)
Definition notification_response (st : Store) (user_id habit_id : Z) (value : PyFloat)
    (today : Z) : option Store :=
  log_and_mark st user_id habit_id value today.

End WithBackend.

End Handlers.

(** ** scheduler.py: one notification per habit *)

Module Scheduler.

Section WithOrder.
Context `{Backend}.

(** [send_habit_notification(user_id, habit)].  [expires_at] is 10 minutes
    after [now_kz], the reading of the clock of Asia/Almaty
    ([datetime.now(KZ_TZ)]); [sent_at] is [now], the reading of the local
    clock ([datetime.now()]), which is also the clock the expiry is compared
    with. *)
Definition send_habit_notification (bot_instance : option Bot) (w : World)
    (user_id : Z) (habit : Habit) (now now_kz : Z) : World :=
  match bot_instance with
  | None => w
  | Some bot =>
      let prompt := ReportPrompt [h_id habit] in
      match send_message bot user_id prompt with
      | None => call w (store w) (SendMessage user_id prompt)
      | Some _ =>
          call w
            (Database.create_pending_notification (store w) user_id (h_id habit)
               None None now (now_kz + 10))
            (SendMessage user_id prompt)
      end
  end.

(** [check_notifications_for_time(check_time)]. *)
Definition check_notifications_for_time (bot_instance : option Bot) (w : World)
    (check_time : string) (now now_kz today : Z) : World :=
  fold_left
    (fun w user =>
       if existsb (String.eqb check_time) (notification_times user)
       then
         fold_left
           (fun w habit =>
              match Database.get_daily_log (store w) (h_id habit) today with
              | Some log =>
                  if log_completed log then w
                  else send_habit_notification bot_instance w (u_user_id user) habit
                         now now_kz
              | None =>
                  send_habit_notification bot_instance w (u_user_id user) habit
                    now now_kz
              end)
           (Database.get_user_habits (store w) (u_user_id user)) w
       else w)
    (Database.get_all_users (store w)) w.

(** The body of the loop of [check_expired_notifications]: the zero is logged
    for the habit of the notification, then the user is told; whatever is
    raised is caught and the loop goes on. *)
Definition expire_one (bot_instance : option Bot) (today : Z) (w : World)
    (notif : PendingNotification) : World :=
  match Database.log_habit (store w) (pn_habit_id notif) (pn_user_id notif)
          (Finite 0) today with
  | None => w
  | Some (st1, _) =>
      match bot_instance, Database.get_habit st1 (pn_habit_id notif) with
      | Some _, Some _ =>
          call w st1 (SendMessage (pn_user_id notif) (TimeIsUp (pn_habit_id notif)))
      | _, _ => mkWorld st1 (outbox w)
      end
  end.

(** [check_expired_notifications()]: [now] is the clock when the expired
    entries are selected, [now'] the clock when they are deleted. *)
Definition check_expired_notifications (bot_instance : option Bot) (w : World)
    (now now' today : Z) : World :=
  let expired := Database.get_expired_notifications (store w) now in
  let w1 := fold_left (expire_one bot_instance today) expired w in
  mkWorld (Database.delete_expired_notifications (store w1) now') (outbox w1).

(** The streak message of the day report. *)
Definition streak_event (completed : bool) (new_streak old_streak : Z)
    : option StreakEvent :=
  if completed && (1 <? new_streak) then Some StreakExtended
  else if negb completed && (0 <? old_streak) then Some StreakBroken
  else None.

(** The loop over the habits of one user in [process_end_of_day]; the second
    component is [None] when an exception left the loop: the TypeError of
    [value >= goal] when the value or the goal reads as [None], or the one
    of [update_streak].  The habits after it are not settled. *)
Fixpoint settle_habits (st : Store) (user_id today : Z) (hs : list Habit)
    (lines : list DigestLine) : Store * option (list DigestLine) :=
  match hs with
  | [] => (st, Some lines)
  | habit :: tl =>
      let log := Database.get_daily_log st (h_id habit) today in
      let value := match log with
                   | Some l => Database.sql_real (log_value l)
                   | None => real 0
                   end in
      let goal := Database.sql_real (daily_goal habit) in
      match value, goal with
      | Some value, Some goal =>
          let completed := float_ge value goal in
          match Database.update_streak st (h_id habit) completed with
          | None => (st, None)
          | Some (st1, (new_streak, _)) =>
              let line := mkDigestLine (h_id habit) value goal completed new_streak
                            (streak_event completed new_streak (streak habit)) in
              let st2 :=
                match h_marathon_id habit with
                | Some marathon =>
                    if truthy (h_marathon_id habit) && completed
                    then Database.update_marathon_points st1 user_id marathon 1%Q
                    else st1
                | None => st1
                end in
              settle_habits st2 user_id today tl (lines ++ [line])
          end
      | _, _ => (st, None)
      end
  end.

(** One user of [process_end_of_day]. *)
Definition settle_user (today : Z) (w : World) (user : User) : World :=
  match Database.get_user_habits (store w) (u_user_id user) with
  | [] => w
  | hs =>
      match settle_habits (store w) (u_user_id user) today hs [] with
      | (st1, Some lines) => call w st1 (SendMessage (u_user_id user) (DayReport lines))
      | (st1, None) => mkWorld st1 (outbox w)
      end
  end.

(** [process_end_of_day()]. *)
Definition process_end_of_day (bot_instance : option Bot) (w : World) (today : Z)
    : World :=
  match bot_instance with
  | None => w
  | Some _ => fold_left (settle_user today) (Database.get_all_users (store w)) w
  end.

End WithOrder.

End Scheduler.

(** ** habit_tracker/scheduler.py: one consolidated notification per user *)

Module HabitTracker.

Section WithOrder.
Context `{Backend}.

(** [send_consolidated_notification(user_id, uncompleted_habits)]: the entry
    refers to the first habit of the prompt. *)
Definition send_consolidated_notification (bot_instance : option Bot) (w : World)
    (user_id : Z) (uncompleted_habits : list Habit) (now : Z) : World :=
  match bot_instance, uncompleted_habits with
  | Some bot, first :: _ =>
      let prompt := ReportPrompt (map h_id uncompleted_habits) in
      match send_message bot user_id prompt with
      | None => call w (store w) (SendMessage user_id prompt)
      | Some msg =>
          call w
            (Database.create_pending_notification (store w) user_id (h_id first)
               (Some msg) (Some user_id) now (now + 10))
            (SendMessage user_id prompt)
      end
  | _, _ => w
  end.

(** [not logs.get(h['id'], {}).get('completed')]. *)
Definition not_completed (logs : Database.LogDict) (h : Habit) : bool :=
  match Database.dict_get logs (h_id h) with
  | Some log => negb (log_completed log)
  | None => true
  end.

(** [check_notifications_for_time(check_time)]. *)
Definition check_notifications_for_time (bot_instance : option Bot) (w : World)
    (check_time : string) (now today : Z) : World :=
  fold_left
    (fun w user =>
       if existsb (String.eqb check_time) (notification_times user)
       then
         match Database.get_user_habits (store w) (u_user_id user) with
         | [] => w
         | hs =>
             let logs := Database.get_daily_logs_batch (store w) (map h_id hs) today in
             match filter (not_completed logs) hs with
             | [] => w
             | uncompleted =>
                 send_consolidated_notification bot_instance w (u_user_id user)
                   uncompleted now
             end
         end
       else w)
    (Database.get_all_users (store w)) w.

(** The inner loop of [check_expired_notifications]: a zero for every habit
    whose log, as read before the loop, is missing or not completed.  An
    exception of [log_habit] leaves the loop with the writes made so far. *)
Fixpoint zero_fill (st : Store) (user_id today : Z) (logs : Database.LogDict)
    (hs : list Habit) : Store :=
  match hs with
  | [] => st
  | habit :: tl =>
      if not_completed logs habit
      then
        match Database.log_habit st (h_id habit) user_id (Finite 0) today with
        | None => st
        | Some (st1, _) => zero_fill st1 user_id today logs tl
        end
      else zero_fill st user_id today logs tl
  end.

(** The body of the outer loop. *)
Definition expire_one (bot_instance : option Bot) (today : Z) (w : World)
    (notif : PendingNotification) : World :=
  let w1 :=
    match bot_instance, message_id notif, chat_id notif with
    | Some _, Some msg, Some chat =>
        if truthy (message_id notif) && truthy (chat_id notif)
        then call w (store w) (DeleteMessage chat msg)
        else w
    | _, _, _ => w
    end in
  match Database.get_user_habits (store w1) (pn_user_id notif) with
  | [] => w1
  | hs =>
      let logs := Database.get_daily_logs_batch (store w1) (map h_id hs) today in
      mkWorld (zero_fill (store w1) (pn_user_id notif) today logs hs) (outbox w1)
  end.

(** [check_expired_notifications()], with the two clock readings. *)
Definition check_expired_notifications (bot_instance : option Bot) (w : World)
    (now now' today : Z) : World :=
  let expired := Database.get_expired_notifications (store w) now in
  let w1 := fold_left (expire_one bot_instance today) expired w in
  mkWorld (Database.delete_expired_notifications (store w1) now') (outbox w1).

(** The loop over the habits of one user in [process_end_of_day]; the logs of
    the day are read once, before the loop.  With PostgreSQL a value is
    [None] only where the cell is NULL; a NaN compares as false. *)
Fixpoint settle_habits (st : Store) (user_id : Z) (logs : Database.LogDict)
    (hs : list Habit) (lines : list DigestLine) : Store * option (list DigestLine) :=
  match hs with
  | [] => (st, Some lines)
  | habit :: tl =>
      let log := Database.dict_get logs (h_id habit) in
      let value := match log with
                   | Some l => Database.sql_real (log_value l)
                   | None => real 0
                   end in
      let goal := Database.sql_real (daily_goal habit) in
      match value, goal with
      | Some value, Some goal =>
          let completed := float_ge value goal in
          match Database.update_streak st (h_id habit) completed with
          | None => (st, None)
          | Some (st1, (new_streak, _)) =>
              let line := mkDigestLine (h_id habit) value goal completed new_streak
                            (Scheduler.streak_event completed new_streak (streak habit)) in
              let st2 :=
                match h_marathon_id habit with
                | Some marathon =>
                    if truthy (h_marathon_id habit) && completed
                    then Database.update_marathon_points st1 user_id marathon 1%Q
                    else st1
                | None => st1
                end in
              settle_habits st2 user_id logs tl (lines ++ [line])
          end
      | _, _ => (st, None)
      end
  end.

(** One user of [process_end_of_day]. *)
Definition settle_user (today : Z) (w : World) (user : User) : World :=
  match Database.get_user_habits (store w) (u_user_id user) with
  | [] => w
  | hs =>
      let logs := Database.get_daily_logs_batch (store w) (map h_id hs) today in
      match settle_habits (store w) (u_user_id user) logs hs [] with
      | (st1, Some lines) => call w st1 (SendMessage (u_user_id user) (DayReport lines))
      | (st1, None) => mkWorld st1 (outbox w)
      end
  end.

(** [process_end_of_day()]. *)
Definition process_end_of_day (bot_instance : option Bot) (w : World) (today : Z)
    : World :=
  match bot_instance with
  | None => w
  | Some _ => fold_left (settle_user today) (Database.get_all_users (store w)) w
  end.

End WithOrder.

End HabitTracker.

(** ** habit_tracker/database.py on PostgreSQL: REAL is a 4-byte float

    The columns [daily_goal] and [value] are declared REAL, which PostgreSQL
    stores in 4 bytes where SQLite uses 8.  This is the rounding the
    conventions leave out of the store, given here on the floats of Python
    for the one path where it parts the stored value from the flag. *)

Module Real4.

(** The 4-byte float nearest to an 8-byte one, ties to even, as the 8-byte
    float that reading the column gives back.  The driver refuses a finite
    float that is out of the range of 4 bytes. *)
Definition to_real4 (x : float) : option float :=
  match Prim2SF x with
  | S754_finite s m e =>
      match binary_round 24 128 s m e with
      | S754_finite s' m' e' => Some (SF2Prim (binary_round 53 1024 s' m' e'))
      | S754_infinity _ => None
      | other => Some (SF2Prim other)
      end
  | _ => Some x
  end.

(** The branch of [log_habit] for a day without a row, on the goal as the
    habits table gives it: [new_value = value], [completed = 1 if new_value
    >= daily_goal else 0], then the INSERT.  The result is the value and the
    flag of the new row. *)
Definition log_new_row (daily_goal value : float) : option (float * bool) :=
  let new_value := value in
  let completed := PrimFloat.leb daily_goal new_value in
  match to_real4 new_value with
  | Some stored => Some (stored, completed)
  | None => None
  end.

(** [completed = value >= goal] of [process_end_of_day], on the value and
    the goal as the tables give them. *)
Definition settlement_completed (value goal : float) : bool :=
  PrimFloat.leb goal value.

End Real4.

(** ** database.py: the tables around the engine

    The functions of [database.py] that manage users, categories, habits and
    marathons.  They are the SQLite variant: the schema declares foreign keys,
    but the connections are opened without [PRAGMA foreign_keys], so a DELETE
    removes the rows it names and nothing else. *)

(** The columns of the users table that the engine does not read; the two
    lists of the table are kept on the same user ids. *)
Record UserInfo : Type := mkUserInfo {
  ui_user_id : Z;
  username : option string;
  first_name : option string;
  language : option string
}.

Record Category : Type := mkCategory {
  c_id : Z;
  c_user_id : Z;
  c_name : string;
  c_icon : string
}.

Record Marathon : Type := mkMarathon {
  m_id : Z;
  creator_id : Z;
  m_name : string;
  invite_code : string;
  start_date : Z;
  end_date : Z;
  m_is_active : bool
}.

Record MarathonHabit : Type := mkMarathonHabit {
  mh_id : Z;
  mh_marathon_id : Z;
  mh_name : string;
  mh_habit_type : HabitType;
  mh_daily_goal : Real;
  mh_unit : string;
  points_per_goal : Q
}.

(** The database: the store of the engine with the other tables and the id
    sequences of the tables that are inserted into. *)
Record Db : Type := mkDb {
  base : Store;
  user_info : list UserInfo;
  categories : list Category;
  next_category_id : Z;
  next_habit_id : Z;
  marathons : list Marathon;
  next_marathon_id : Z;
  marathon_habits : list MarathonHabit;
  next_marathon_habit_id : Z
}.

Definition with_base (db : Db) (st : Store) : Db :=
  mkDb st (user_info db) (categories db) (next_category_id db) (next_habit_id db)
       (marathons db) (next_marathon_id db) (marathon_habits db)
       (next_marathon_habit_id db).

Definition set_users (st : Store) (us : list User) : Store :=
  mkStore us (habits st) (habit_logs st) (next_log_id st)
          (pending_notifications st) (next_notification_id st)
          (marathon_participants st).

(** Python truthiness of an optional string: [None] and [""] are false. *)
Definition truthy_string (o : option string) : bool :=
  match o with
  | Some s => negb (String.eqb s "")
  | None => false
  end.

Module Catalog.

(** The DEFAULT of users.notification_times. *)
Definition default_times : list string := ["08:00"; "14:00"; "21:00"]%string.

(** The default categories of a new user. *)
Definition default_categories : list (string * string) :=
  [("🏃 Здоровье", "🏃"); ("🕌 Духовное", "🕌"); ("📚 Образование", "📚")]%string.

Definition find_user (db : Db) (user_id : Z) : option User :=
  find (fun u => u_user_id u =? user_id) (users (base db)).

Definition find_user_info (db : Db) (user_id : Z) : option UserInfo :=
  find (fun i => ui_user_id i =? user_id) (user_info db).

(** INSERT INTO categories (user_id, name, icon). *)
Definition insert_category (db : Db) (user_id : Z) (name icon : string) : Db :=
  mkDb (base db) (user_info db)
       (categories db ++ [mkCategory (next_category_id db) user_id name icon])
       (next_category_id db + 1) (next_habit_id db)
       (marathons db) (next_marathon_id db) (marathon_habits db)
       (next_marathon_habit_id db).

(** [get_or_create_user(user_id, username, first_name)]: the row of the
    user, inserted with the column defaults and the default categories when
    it is not there; the flag tells whether it was inserted. *)
Definition get_or_create_user (db : Db) (user_id : Z) (uname fname : option string)
    : Db * User * bool :=
  match find_user db user_id with
  | Some row => (db, row, false)
  | None =>
      let row := mkUser user_id default_times in
      let db1 :=
        mkDb (set_users (base db) (users (base db) ++ [row]))
             (user_info db ++ [mkUserInfo user_id uname fname (Some "kk"%string)])
             (categories db) (next_category_id db) (next_habit_id db)
             (marathons db) (next_marathon_id db) (marathon_habits db)
             (next_marathon_habit_id db) in
      (fold_left (fun d c => insert_category d user_id (fst c) (snd c))
                 default_categories db1,
       row, true)
  end.

(** [update_notification_times(user_id, times)]. *)
Definition update_notification_times (db : Db) (user_id : Z) (times : list string) : Db :=
  with_base db
    (set_users (base db)
       (map (fun u => if u_user_id u =? user_id then mkUser (u_user_id u) times else u)
            (users (base db)))).

(** [get_user_notification_times(user_id)]. *)
Definition get_user_notification_times (db : Db) (user_id : Z) : list string :=
  match find_user db user_id with
  | Some row => notification_times row
  | None => default_times
  end.

(** [get_user_language(user_id)] of [database.py]: there is no cache. *)
Definition get_user_language (db : Db) (user_id : Z) : string :=
  match find_user_info db user_id with
  | Some row =>
      match language row with
      | Some l => if truthy_string (language row) then l else "kk"%string
      | None => "kk"%string
      end
  | None => "kk"%string
  end.

(** [set_user_language(user_id, language)]. *)
Definition set_user_language (db : Db) (user_id : Z) (lang : string) : Db :=
  mkDb (base db)
       (map (fun i => if ui_user_id i =? user_id
                      then mkUserInfo (ui_user_id i) (username i) (first_name i) (Some lang)
                      else i)
            (user_info db))
       (categories db) (next_category_id db) (next_habit_id db)
       (marathons db) (next_marathon_id db) (marathon_habits db)
       (next_marathon_habit_id db).

(** *** Categories *)

(** [get_user_categories(user_id)]: ORDER BY name. *)
Definition get_user_categories (db : Db) (user_id : Z) : list Category :=
  sort_by (fun a b => String.leb (c_name a) (c_name b))
          (filter (fun c => c_user_id c =? user_id) (categories db)).

(** [create_category(user_id, name, icon)] returns the new id. *)
Definition create_category (db : Db) (user_id : Z) (name icon : string) : Db * Z :=
  (insert_category db user_id name icon, next_category_id db).

(** [delete_category(category_id)]. *)
Definition delete_category (db : Db) (category_id : Z) : Db :=
  mkDb (base db) (user_info db)
       (filter (fun c => negb (c_id c =? category_id)) (categories db))
       (next_category_id db) (next_habit_id db)
       (marathons db) (next_marathon_id db) (marathon_habits db)
       (next_marathon_habit_id db).

(** [get_category(category_id)]. *)
Definition get_category (db : Db) (category_id : Z) : option Category :=
  find (fun c => c_id c =? category_id) (categories db).

(** [get_habits_by_category(user_id, category_id, active_only)]: ORDER BY
    name. *)
Definition get_habits_by_category (db : Db) (user_id : Z) (category : option Z)
    (active_only : bool) : list Habit :=
  sort_by (fun a b => String.leb (h_name a) (h_name b))
          (filter (fun h => (h_user_id h =? user_id)
                            && category_eqb (category_id h) category
                            && (negb active_only || is_active h))
                  (habits (base db))).

(** *** Habits *)

(** INSERT INTO habits with the column defaults: streaks 0, active; [goal]
    is the cell that is written. *)
Definition insert_habit (db : Db) (user_id : Z) (name : string) (type : HabitType)
    (goal : Real) (unit_label : string) (category marathon : option Z) : Db :=
  mkDb (set_habits (base db)
          (habits (base db) ++
           [mkHabit (next_habit_id db) user_id category name type goal unit_label
                    0 0 true marathon]))
       (user_info db) (categories db) (next_category_id db) (next_habit_id db + 1)
       (marathons db) (next_marathon_id db) (marathon_habits db)
       (next_marathon_habit_id db).

(** [create_habit(...)] returns the new id; the goal is a float, stored as
    SQLite stores it. *)
Definition create_habit (db : Db) (user_id : Z) (name : string) (type : HabitType)
    (goal : PyFloat) (unit_label : string) (category marathon : option Z) : Db * Z :=
  (insert_habit db user_id name type (nan_to_null goal) unit_label category marathon,
   next_habit_id db).

(** A keyword argument of [update_habit]: a column of the habits table with
    its new value. *)
Inductive Assignment : Type :=
| set_name (v : string)
| set_habit_type (v : HabitType)
| set_daily_goal (v : PyFloat)
| set_unit (v : string)
| set_category_id (v : option Z)
| set_is_active (v : bool)
| set_marathon_id (v : option Z).

Definition assign (h : Habit) (a : Assignment) : Habit :=
  match a with
  | set_name v =>
      mkHabit (h_id h) (h_user_id h) (category_id h) v (habit_type h) (daily_goal h)
              (h_unit h) (streak h) (max_streak h) (is_active h) (h_marathon_id h)
  | set_habit_type v =>
      mkHabit (h_id h) (h_user_id h) (category_id h) (h_name h) v (daily_goal h)
              (h_unit h) (streak h) (max_streak h) (is_active h) (h_marathon_id h)
  | set_daily_goal v =>
      mkHabit (h_id h) (h_user_id h) (category_id h) (h_name h) (habit_type h)
              (nan_to_null v)
              (h_unit h) (streak h) (max_streak h) (is_active h) (h_marathon_id h)
  | set_unit v =>
      mkHabit (h_id h) (h_user_id h) (category_id h) (h_name h) (habit_type h)
              (daily_goal h) v (streak h) (max_streak h) (is_active h) (h_marathon_id h)
  | set_category_id v =>
      mkHabit (h_id h) (h_user_id h) v (h_name h) (habit_type h) (daily_goal h)
              (h_unit h) (streak h) (max_streak h) (is_active h) (h_marathon_id h)
  | set_is_active v =>
      mkHabit (h_id h) (h_user_id h) (category_id h) (h_name h) (habit_type h)
              (daily_goal h) (h_unit h) (streak h) (max_streak h) v (h_marathon_id h)
  | set_marathon_id v =>
      mkHabit (h_id h) (h_user_id h) (category_id h) (h_name h) (habit_type h)
              (daily_goal h) (h_unit h) (streak h) (max_streak h) (is_active h) v
  end.

(** [update_habit(habit_id, **kwargs)]: without a keyword the statement is
    [UPDATE habits SET  WHERE id = ?], which the database refuses. *)
Definition update_habit (st : Store) (habit_id : Z) (kwargs : list Assignment)
    : option Store :=
  match kwargs with
  | [] => None
  | _ =>
      Some (set_habits st
              (map (fun h => if h_id h =? habit_id then fold_left assign kwargs h else h)
                   (habits st)))
  end.

(** [delete_habit(habit_id)]: the logs of the habit, then the habit. *)
Definition delete_habit (st : Store) (habit_id : Z) : Store :=
  let st1 := set_habit_logs st
               (filter (fun l => negb (hl_habit_id l =? habit_id)) (habit_logs st))
               (next_log_id st) in
  set_habits st1 (filter (fun h => negb (h_id h =? habit_id)) (habits st1)).

End Catalog.

(** ** database.py: marathons *)

Module Marathons.

Definition set_base_participants (db : Db) (ps : list MarathonParticipant) : Db :=
  with_base db (set_marathon_participants (base db) ps).

Definition is_participant (db : Db) (marathon_id user_id : Z) : bool :=
  existsb (fun p => (mp_marathon_id p =? marathon_id) && (mp_user_id p =? user_id))
          (marathon_participants (base db)).

(** INSERT INTO marathon_participants (marathon_id, user_id): no points. *)
Definition insert_participant (db : Db) (marathon_id user_id : Z) : Db :=
  set_base_participants db
    (marathon_participants (base db) ++ [mkParticipant marathon_id user_id 0]).

(** [create_marathon(creator_id, name, start_date, end_date, invite_code)]:
    the marathon is inserted and committed, then its creator is inserted as
    a participant.  The UNIQUE constraints on the invite code and on
    (marathon, user) raise; the second one leaves the marathon behind. *)
Definition create_marathon (db : Db) (creator : Z) (name : string)
    (start_d end_d : Z) (code : string) : Db * option Z :=
  if existsb (fun m => String.eqb (invite_code m) code) (marathons db)
  then (db, None)
  else
    let id := next_marathon_id db in
    let db1 :=
      mkDb (base db) (user_info db) (categories db) (next_category_id db)
           (next_habit_id db)
           (marathons db ++ [mkMarathon id creator name code start_d end_d true])
           (id + 1) (marathon_habits db) (next_marathon_habit_id db) in
    if is_participant db1 id creator then (db1, None)
    else (insert_participant db1 id creator, Some id).

(** [add_marathon_habit(marathon_id, name, habit_type, daily_goal, unit,
    points_per_goal)]. *)
Definition add_marathon_habit (db : Db) (marathon_id : Z) (name : string)
    (type : HabitType) (goal : PyFloat) (unit_label : string) (points : Q) : Db :=
  mkDb (base db) (user_info db) (categories db) (next_category_id db)
       (next_habit_id db) (marathons db) (next_marathon_id db)
       (marathon_habits db ++
        [mkMarathonHabit (next_marathon_habit_id db) marathon_id name type
                         (nan_to_null goal) unit_label points])
       (next_marathon_habit_id db + 1).

(** [get_marathon_by_code(invite_code)]. *)
Definition get_marathon_by_code (db : Db) (code : string) : option Marathon :=
  find (fun m => String.eqb (invite_code m) code) (marathons db).

(** [get_marathon_by_id(marathon_id)]. *)
Definition get_marathon_by_id (db : Db) (marathon_id : Z) : option Marathon :=
  find (fun m => m_id m =? marathon_id) (marathons db).

(** The habit templates of a marathon, in table order. *)
Definition templates (db : Db) (marathon_id : Z) : list MarathonHabit :=
  filter (fun t => mh_marathon_id t =? marathon_id) (marathon_habits db).

(** [join_marathon(user_id, marathon_id)]: [False] when the user is already
    a participant; otherwise the participant is inserted and every template
    of the marathon is copied to a habit of the user, the goal cell as it
    is. *)
Definition join_marathon (db : Db) (user_id marathon_id : Z) : Db * bool :=
  if is_participant db marathon_id user_id then (db, false)
  else
    (fold_left
       (fun d t =>
          Catalog.insert_habit d user_id (mh_name t) (mh_habit_type t) (mh_daily_goal t)
                               (mh_unit t) None (Some marathon_id))
       (templates db marathon_id)
       (insert_participant db marathon_id user_id),
     true).

(** [get_marathon_leaderboard(marathon_id)]: the participants of the
    marathon that have a user row, with that row's other columns, by
    decreasing points. *)
Definition get_marathon_leaderboard (db : Db) (marathon_id : Z)
    : list (MarathonParticipant * UserInfo) :=
  sort_by (fun a b => Qle_bool (total_points (fst b)) (total_points (fst a)))
    (flat_map
       (fun p =>
          map (fun i => (p, i))
              (filter (fun i => ui_user_id i =? mp_user_id p) (user_info db)))
       (filter (fun p => mp_marathon_id p =? marathon_id)
               (marathon_participants (base db)))).

(** [get_user_marathons(user_id)]: the active marathons the user takes part
    in, by start date. *)
Definition get_user_marathons (db : Db) (user_id : Z) : list Marathon :=
  sort_by (fun a b => start_date a <=? start_date b)
    (flat_map
       (fun m =>
          map (fun _ => m)
              (filter (fun p => (mp_marathon_id p =? m_id m) && (mp_user_id p =? user_id))
                      (marathon_participants (base db))))
       (filter m_is_active (marathons db))).

(** [get_active_marathons_today()]. *)
Definition get_active_marathons_today (db : Db) (today : Z) : list Marathon :=
  filter (fun m => m_is_active m && (start_date m <=? today) && (today <=? end_date m))
         (marathons db).

(** The WHERE clause [user_id = ? AND marathon_id = ?] on habits. *)
Definition habit_of (user_id marathon_id : Z) (h : Habit) : bool :=
  (h_user_id h =? user_id)
  && match h_marathon_id h with
     | Some m => m =? marathon_id
     | None => false
     end.

(** [leave_marathon(user_id, marathon_id, keep_habits)]. *)
Definition leave_marathon (db : Db) (user_id marathon_id : Z) (keep_habits : bool)
    : Db :=
  let db1 :=
    set_base_participants db
      (filter (fun p => negb ((mp_user_id p =? user_id) && (mp_marathon_id p =? marathon_id)))
              (marathon_participants (base db))) in
  if keep_habits
  then
    with_base db1
      (set_habits (base db1)
         (map (fun h => if habit_of user_id marathon_id h
                        then Catalog.assign h (Catalog.set_marathon_id None) else h)
              (habits (base db1))))
  else
    let habit_ids := map h_id (filter (habit_of user_id marathon_id) (habits (base db1))) in
    let st2 :=
      fold_left
        (fun st habit_id =>
           set_habit_logs st
             (filter (fun l => negb (hl_habit_id l =? habit_id)) (habit_logs st))
             (next_log_id st))
        habit_ids (base db1) in
    with_base db1
      (set_habits st2
         (filter (fun h => negb (habit_of user_id marathon_id h)) (habits st2))).

End Marathons.

(** ** habit_tracker/database.py: the language cache

    [_language_cache] maps a user id to a language and the time it was
    cached at; times are the seconds of [time.time()]. *)

Module LanguageCache.

Definition Cache : Type := list (Z * (string * Q)).

Definition _LANGUAGE_CACHE_TTL : Q := 300.

Definition cache_get (c : Cache) (user_id : Z) : option (string * Q) :=
  option_map snd (find (fun e => fst e =? user_id) c).

Definition cache_del (c : Cache) (user_id : Z) : Cache :=
  filter (fun e => negb (fst e =? user_id)) c.

Definition cache_set (c : Cache) (user_id : Z) (v : string * Q) : Cache :=
  (user_id, v) :: cache_del c user_id.

(** [x < y] on the seconds. *)
Definition Qlt_bool (x y : Q) : bool := negb (Qle_bool y x).

(** [_get_cached_language(user_id)]: an expired entry is dropped. *)
Definition _get_cached_language (c : Cache) (user_id : Z) (now : Q)
    : option string * Cache :=
  match cache_get c user_id with
  | Some (lang, ts) =>
      if Qlt_bool (now - ts) _LANGUAGE_CACHE_TTL then (Some lang, c)
      else (None, cache_del c user_id)
  | None => (None, c)
  end.

(** [_set_cached_language(user_id, language)]. *)
Definition _set_cached_language (c : Cache) (user_id : Z) (lang : string) (now : Q)
    : Cache :=
  cache_set c user_id (lang, now).

(** [get_user_language(user_id)]: [now] is the clock when the cache is read,
    [now'] the clock when the answer of the database is cached. *)
Definition get_user_language (db : Db) (c : Cache) (user_id : Z) (now now' : Q)
    : string * Cache :=
  let (cached, c1) := _get_cached_language c user_id now in
  if truthy_string cached
  then (match cached with Some l => l | None => ""%string end, c1)
  else
    let lang := Catalog.get_user_language db user_id in
    (lang, _set_cached_language c1 user_id lang now').

(** [set_user_language(user_id, language)]. *)
Definition set_user_language (db : Db) (c : Cache) (user_id : Z) (lang : string)
    (now : Q) : Db * Cache :=
  (Catalog.set_user_language db user_id lang,
   _set_cached_language c user_id lang now).

End LanguageCache.

(** ** database.py: the weekly report *)

Module Reports.

Section WithOrder.
Context `{Backend}.

(** [get_weekly_report(user_id, week_start)]: the statistics of every
    active habit of the user over the seven days from [week_start]. *)
Fixpoint stats_of (st : Store) (hs : list Habit) (start_d end_d : Z)
    : option (list Database.HabitStats) :=
  match hs with
  | [] => Some []
  | habit :: tl =>
      match Database.get_habit_stats st (h_id habit) start_d end_d with
      | None => None
      | Some s =>
          match stats_of st tl start_d end_d with
          | None => None
          | Some rest => Some (s :: rest)
          end
      end
  end.

Definition get_weekly_report (st : Store) (user_id week_start : Z)
    : option (list Database.HabitStats) :=
  let week_end := week_start + 6 in
  stats_of st (Database.get_user_habits st user_id) week_start week_end.

(** The reports [send_weekly_report] writes when the bot is set: for every
    user, the report of the week that ends today, unless it is empty or
    raised. *)
Definition weekly_reports (st : Store) (today : Z)
    : list (Z * list Database.HabitStats) :=
  flat_map
    (fun user =>
       match get_weekly_report st (u_user_id user) (today - 6) with
       | Some (s :: rest) => [(u_user_id user, s :: rest)]
       | _ => []
       end)
    (Database.get_all_users st).

End WithOrder.

End Reports.

(** ** handlers.py, keyboards.py, scheduler.py: times, invitations, menus *)

Module Flows.

(** The times of [notification_times_keyboard]. *)
Definition available_times : list string :=
  ["06:00"; "07:00"; "08:00"; "09:00"; "10:00";
   "12:00"; "13:00"; "14:00"; "15:00";
   "18:00"; "19:00"; "20:00"; "21:00"; "22:00"]%string.

(** The hours of [setup_scheduler]. *)
Definition notification_hours : list Z :=
  [6; 7; 8; 9; 10; 12; 13; 14; 15; 18; 19; 20; 21; 22].

(** [f"{hour:02d}"]. *)
Definition format_02d (n : Z) : string :=
  let s := NilZero.string_of_int (Z.to_int n) in
  if (String.length s <? 2)%nat then ("0" ++ s)%string else s.

(** The argument of the job [notif_<hour>]: [f"{hour:02d}:00"]. *)
Definition job_time (hour : Z) : string := (format_02d hour ++ ":00")%string.

Definition job_times : list string := map job_time notification_hours.

(** [times.remove(time)]: the first occurrence. *)
Fixpoint remove_first (t : string) (times : list string) : list string :=
  match times with
  | [] => []
  | x :: tl => if String.eqb x t then tl else x :: remove_first t tl
  end.

(** [toggle_notification_time]: the selection kept in the conversation
    state, after a button of the keyboard was pressed. *)
Definition toggle_notification_time (times : list string) (time : string)
    : list string :=
  if existsb (String.eqb time) times
  then remove_first time times
  else sort_by String.leb (times ++ [time]).

(** [save_notification_times]: an empty selection is refused. *)
Definition save_notification_times (db : Db) (user_id : Z) (times : list string) : Db :=
  match times with
  | [] => db
  | _ => Catalog.update_notification_times db user_id times
  end.

(** [s.replace(pat, "")]: the occurrences of [pat] are removed from left to
    right; [skip] counts the characters of an occurrence still to drop. *)
Fixpoint remove_all (pat s : string) (skip : nat) : string :=
  match s with
  | EmptyString => EmptyString
  | String c rest =>
      match skip with
      | S k => remove_all pat rest k
      | O =>
          if String.prefix pat s
          then remove_all pat rest (String.length pat - 1)
          else String c (remove_all pat rest O)
      end
  end.

(** The invite code [cmd_start] reads from the argument of [/start]. *)
Definition invite_code_of (arg : string) : option string :=
  if String.prefix "marathon_" arg
  then Some (remove_all "marathon_" arg O)
  else None.

(** The argument of the invite link of [finalize_marathon]. *)
Definition invite_argument (code : string) : string := ("marathon_" ++ code)%string.

Inductive StartReply : Type :=
| Welcome
| JoinedMarathon (m : Marathon)
| AlreadyInMarathon
| MarathonNotFound.

(** [cmd_start]: [arg] is the text after [/start], if any. *)
Definition cmd_start (db : Db) (user_id : Z) (uname fname : option string)
    (arg : option string) : Db * StartReply :=
  let '(db1, _, _) := Catalog.get_or_create_user db user_id uname fname in
  match arg with
  | Some a =>
      match invite_code_of a with
      | Some code =>
          match Marathons.get_marathon_by_code db1 code with
          | Some marathon =>
              let (db2, success) := Marathons.join_marathon db1 user_id (m_id marathon) in
              if success then (db2, JoinedMarathon marathon) else (db2, AlreadyInMarathon)
          | None => (db1, MarathonNotFound)
          end
      | None => (db1, Welcome)
      end
  | None => (db1, Welcome)
  end.

(** A habit of the marathon being created, as the conversation collects it. *)
Record HabitDraft : Type := mkHabitDraft {
  d_name : string;
  d_habit_type : HabitType;
  d_daily_goal : PyFloat;
  d_unit : string
}.

(** [finalize_marathon]: [code] is the token drawn for the invitation.
    Without a habit nothing is created; an exception of [create_marathon]
    leaves the handler. *)
Definition finalize_marathon (db : Db) (creator : Z) (name : string)
    (start_d end_d : Z) (code : string) (drafts : list HabitDraft) : Db * option Z :=
  match drafts with
  | [] => (db, None)
  | _ =>
      match Marathons.create_marathon db creator name start_d end_d code with
      | (db1, None) => (db1, None)
      | (db1, Some marathon_id) =>
          let db2 :=
            fold_left
              (fun d h => Marathons.add_marathon_habit d marathon_id (d_name h)
                            (d_habit_type h) (d_daily_goal h) (d_unit h) 1)
              drafts db1 in
          let db3 :=
            fold_left
              (fun d h => fst (Catalog.create_habit d creator (d_name h) (d_habit_type h)
                                 (d_daily_goal h) (d_unit h) None (Some marathon_id)))
              drafts db2 in
          (db3, Some marathon_id)
      end
  end.

(** [kick_user_from_marathon]. *)
Definition kick_user_from_marathon (db : Db) (marathon_id user_id : Z) : Db :=
  Marathons.leave_marathon db user_id marathon_id false.

(** [leave_marathon_execute]: [action] is the last part of the callback
    data, "delete" or "keep". *)
Definition leave_marathon_execute (db : Db) (user_id marathon_id : Z) (action : string)
    : Db :=
  Marathons.leave_marathon db user_id marathon_id (String.eqb action "keep").

(** How a handler ends. *)
Inductive Outcome : Type := Returned | Raised.

(** [edit_habit_goal_done]: [text_value] as in [log_custom_value]; a text
    that is no number is answered and nothing is written.  For a number the
    UPDATE is committed and the change is announced; then the handler builds
    the keyboard of the habits with [lang], a name that is bound nowhere in
    the function or the module: NameError, which [except ValueError] lets
    through.  The store is returned with the way the handler ends. *)
Definition edit_habit_goal_done (st : Store) (habit_id : Z)
    (text_value : option PyFloat) : Store * Outcome :=
  match text_value with
  | None => (st, Returned)
  | Some new_goal =>
      match Catalog.update_habit st habit_id [Catalog.set_daily_goal new_goal] with
      | Some st' => (st', Raised)
      | None => (st, Raised)
      end
  end.

End Flows.

(** ** handlers.py, keyboards.py: the menus of habits and marathons

    A button is kept as its callback data and the count its label shows;
    labels and icons are not modelled. *)

Module Menus.

Inductive HabitMenuButton : Type :=
| CategoryButton (category : Z) (count : nat)
| NoCategoryButton (count : nat)
| AllHabitsButton (count : nat)
| CreateHabitButton
| BackToMenuButton.

(** [h.get('category_id') == c]. *)
Definition in_category (c : option Z) (h : Habit) : bool :=
  category_eqb (category_id h) c.

(** [habits_categories_keyboard(categories, habits, lang)]. *)
Definition habits_categories_keyboard (cats : list Category) (hs : list Habit)
    : list HabitMenuButton :=
  map (fun cat =>
         CategoryButton (c_id cat)
           (List.length (filter (in_category (Some (c_id cat))) hs)))
      cats
  ++ (let no_cat_count := List.length (filter (in_category None) hs) in
      if (0 <? no_cat_count)%nat then [NoCategoryButton no_cat_count] else [])
  ++ [AllHabitsButton (List.length hs); CreateHabitButton; BackToMenuButton].

(** What [show_habits_in_category] reads from the callback data
    [habits_cat_all], [habits_cat_none] or [habits_cat_<id>]. *)
Inductive Selector : Type :=
| SelectAll
| SelectNone
| SelectCategory (category : Z).

Definition selector_of (b : HabitMenuButton) : option Selector :=
  match b with
  | CategoryButton c _ => Some (SelectCategory c)
  | NoCategoryButton _ => Some SelectNone
  | AllHabitsButton _ => Some SelectAll
  | _ => None
  end.

Definition count_of (b : HabitMenuButton) : option nat :=
  match b with
  | CategoryButton _ n | NoCategoryButton n | AllHabitsButton n => Some n
  | _ => None
  end.

Section WithOrder.
Context `{Backend}.

(** [show_habits]: the menu of the categories, or [None] when the user has
    no habit (the empty list is shown instead). *)
Definition show_habits (db : Db) (user_id : Z) : option (list HabitMenuButton) :=
  match Database.get_user_habits (base db) user_id with
  | [] => None
  | hs => Some (habits_categories_keyboard (Catalog.get_user_categories db user_id) hs)
  end.

(** [show_habits_in_category]: the habits listed after a press. *)
Definition show_habits_in_category (db : Db) (user_id : Z) (s : Selector) : list Habit :=
  match s with
  | SelectAll => Database.get_user_habits (base db) user_id
  | SelectNone => Catalog.get_habits_by_category db user_id None true
  | SelectCategory c => Catalog.get_habits_by_category db user_id (Some c) true
  end.

End WithOrder.

(** [list_marathons]: the ids of the buttons [marathon_view_<id>]. *)
Definition list_marathons (db : Db) (user_id : Z) : list Z :=
  map m_id (Marathons.get_user_marathons db user_id).

(** [view_marathon]: the marathon shown.  The handler first takes the first
    of the marathons of the user, which raises IndexError when there is
    none, and drops what it finds by its code; then it reads the marathon by
    its id, and [dict(None)] raises when no row has it. *)
Definition view_marathon (db : Db) (user_id marathon_id : Z) : option Marathon :=
  match Marathons.get_user_marathons db user_id with
  | [] => None
  | _ => find (fun m => m_id m =? marathon_id) (marathons db)
  end.

End Menus.

(** * Vocabulary of the properties *)

(** SQLite: its order rearranges the rows it is given, and it stores NULL
    for NaN. *)
#[export] Instance sqlite_backend : Backend.
Proof.
  refine {| order_by_category_name := sqlite_order; nan_is_null := true |}.
  intros l. unfold sqlite_order, sort_by.
  induction l as [|a tl IH]; simpl; [apply perm_nil|].
  eapply perm_trans; [|apply perm_skip, IH].
  generalize (fold_right (insert_by habit_leb) [] tl). intros s.
  induction s as [|x s IHs]; simpl; [apply Permutation_refl|].
  destruct (habit_leb a x); [apply Permutation_refl|].
  eapply perm_trans; [apply perm_skip, IHs | apply perm_swap].
Defined.

(** The streak counters of a habit: the streak is not negative and the
    maximum is not below it. *)
Definition streak_invariant (h : Habit) : Prop :=
  0 <= streak h <= max_streak h.

(** The columns of the UNIQUE constraint of the log table. *)
Definition log_key (l : HabitLog) : Z * Z := (hl_habit_id l, log_date l).

(** The WHERE clause [habit_id = ? AND log_date = ?]. *)
Definition key_match (habit_id d : Z) (l : HabitLog) : bool :=
  (hl_habit_id l =? habit_id) && (log_date l =? d).

(** The rows of the log table for a habit and a date. *)
Definition rows_for (st : Store) (habit_id d : Z) : list HabitLog :=
  filter (key_match habit_id d) (habit_logs st).

(** The state of the log table that the schema and the id sequence maintain:
    one row per (habit, date), distinct ids, all below the next id. *)
Definition logs_wf (st : Store) : Prop :=
  NoDup (map log_key (habit_logs st))
  /\ NoDup (map hl_id (habit_logs st))
  /\ Forall (fun l => hl_id l < next_log_id st) (habit_logs st).

(** Equality of floats and of cells: finite numbers are compared as
    rationals. *)
Definition float_eq (a b : PyFloat) : Prop :=
  match a, b with
  | Finite x, Finite y => (x == y)%Q
  | Infinite s, Infinite t => s = t
  | NaN, NaN => True
  | _, _ => False
  end.

Definition real_eq (a b : Real) : Prop :=
  match a, b with
  | Some x, Some y => float_eq x y
  | None, None => True
  | _, _ => False
  end.


(** [log['value'] if log else 0], as Python reads it. *)
Definition value_on_record `{Backend} (log : option HabitLog) : Real :=
  match log with
  | Some l => Database.sql_real (log_value l)
  | None => real 0
  end.

(** The value a write of [delta] leaves on record. *)
Definition accumulated `{Backend} (before : option HabitLog) (delta : PyFloat)
    : option PyFloat :=
  match before with
  | Some l => cell_add (Database.sql_real (log_value l)) delta
  | None => Some delta
  end.

(** The value and the goal of the habit on [today] are there to be compared:
    neither reads as [None]. *)
Definition readable_on `{Backend} (st : Store) (today : Z) (h : Habit) : Prop :=
  value_on_record (Database.get_daily_log st (h_id h) today) <> None
  /\ Database.sql_real (daily_goal h) <> None.

(** Every active habit of the table is readable on [today]: no TypeError
    leaves a settlement loop. *)
Definition all_readable `{Backend} (st : Store) (today : Z) : Prop :=
  forall h, In h (habits st) -> is_active h = true -> readable_on st today h.

(** [value >= goal] for the goal of a habit; false where the comparison
    raises. *)
Definition completion `{Backend} (value : Real) (h : Habit) : bool :=
  match cell_ge value (Database.sql_real (daily_goal h)) with
  | Some completed => completed
  | None => false
  end.

(** The completion settlement computes for a habit from the log table. *)
Definition completed_on `{Backend} (st : Store) (today : Z) (h : Habit) : bool :=
  completion (value_on_record (Database.get_daily_log st (h_id h) today)) h.

(** The habit is linked to marathon [m], by a marathon id that counts as set. *)
Definition linked_to (m : Z) (h : Habit) : bool :=
  match h_marathon_id h with
  | Some m' => negb (m' =? 0) && (m' =? m)
  | None => false
  end.

(** The number of active habits of [user_id] that are linked to marathon [m]
    and completed on [today]. *)
Definition credits `{Backend} (st : Store) (today user_id m : Z) : nat :=
  List.length
    (filter (fun h => (h_user_id h =? user_id) && is_active h
                      && linked_to m h && completed_on st today h)
            (habits st)).

(** One point, [n] times. *)
Definition credit_n (n : nat) (p : MarathonParticipant) : MarathonParticipant :=
  Nat.iter n (fun p => add_points p 1) p.

(** The participants table after every participant whose user is in [us] was
    credited [count] times. *)
Definition credited (us : list User) (count : Z -> Z -> nat)
    (ps : list MarathonParticipant) : list MarathonParticipant :=
  map (fun p => if existsb (fun u => u_user_id u =? mp_user_id p) us
                then credit_n (count (mp_user_id p) (mp_marathon_id p)) p
                else p)
      ps.

(** What settlement leaves alone: users, logs and ledger, and every column
    of the habits but the two streak counters. *)
Definition erase_streak (h : Habit) : Habit := set_streak h 0 0.

Definition same_but_streaks (st st' : Store) : Prop :=
  users st' = users st
  /\ habit_logs st' = habit_logs st
  /\ next_log_id st' = next_log_id st
  /\ pending_notifications st' = pending_notifications st
  /\ map erase_streak (habits st') = map erase_streak (habits st).

(** The loop of [process_end_of_day] over the habits of a user, with the
    value on record given by a function: both schedulers run this loop. *)
Fixpoint settle_loop `{Backend} (value_of : Habit -> Real) (st : Store) (user_id : Z)
    (hs : list Habit) (lines : list DigestLine) : Store * option (list DigestLine) :=
  match hs with
  | [] => (st, Some lines)
  | habit :: tl =>
      match value_of habit, Database.sql_real (daily_goal habit) with
      | Some value, Some goal =>
          let completed := float_ge value goal in
          match Database.update_streak st (h_id habit) completed with
          | None => (st, None)
          | Some (st1, (new_streak, _)) =>
              let line := mkDigestLine (h_id habit) value goal completed new_streak
                            (Scheduler.streak_event completed new_streak (streak habit)) in
              let st2 :=
                match h_marathon_id habit with
                | Some marathon =>
                    if truthy (h_marathon_id habit) && completed
                    then Database.update_marathon_points st1 user_id marathon 1%Q
                    else st1
                | None => st1
                end in
              settle_loop value_of st2 user_id tl (lines ++ [line])
          end
      | _, _ => (st, None)
      end
  end.

(** What a line of the digest says of its habit. *)
Definition line_of `{Backend} (value_of : Habit -> Real) (h : Habit) (line : DigestLine)
    : Prop :=
  dl_habit_id line = h_id h
  /\ value_of h = Some (dl_value line)
  /\ Database.sql_real (daily_goal h) = Some (dl_goal line)
  /\ dl_completed line = float_ge (dl_value line) (dl_goal line).


(** The two invariants of the store. *)
Definition store_invariant (st : Store) : Prop :=
  Forall streak_invariant (habits st) /\ logs_wf st.

(** A write that touches nothing but the notification ledger. *)
Definition only_ledger (st st' : Store) : Prop :=
  users st' = users st
  /\ habits st' = habits st
  /\ habit_logs st' = habit_logs st
  /\ next_log_id st' = next_log_id st
  /\ marathon_participants st' = marathon_participants st.

(** The log handlers and the jobs of either scheduler, as the steps the
    engine takes on the store. *)
Inductive engine_step `{Backend} (bot_instance : option Bot) : World -> World -> Prop :=
| step_log (w : World) (user_id habit_id : Z) (value : PyFloat) (today : Z) (st' : Store) :
    Handlers.log_and_mark (store w) user_id habit_id value today = Some st' ->
    engine_step bot_instance w (mkWorld st' (outbox w))
| step_notify (w : World) (check_time : string) (now now_kz today : Z) :
    engine_step bot_instance w
      (Scheduler.check_notifications_for_time bot_instance w check_time now now_kz today)
| step_notify_consolidated (w : World) (check_time : string) (now today : Z) :
    engine_step bot_instance w
      (HabitTracker.check_notifications_for_time bot_instance w check_time now today)
| step_sweep (w : World) (now now' today : Z) :
    engine_step bot_instance w
      (Scheduler.check_expired_notifications bot_instance w now now' today)
| step_sweep_consolidated (w : World) (now now' today : Z) :
    engine_step bot_instance w
      (HabitTracker.check_expired_notifications bot_instance w now now' today)
| step_settle (w : World) (today : Z) :
    engine_step bot_instance w (Scheduler.process_end_of_day bot_instance w today)
| step_settle_batch (w : World) (today : Z) :
    engine_step bot_instance w (HabitTracker.process_end_of_day bot_instance w today).

(** The worlds the engine reaches from [w0]. *)
Inductive reachable `{Backend} (bot_instance : option Bot) (w0 : World) : World -> Prop :=
| reach_start : reachable bot_instance w0 w0
| reach_step (w w' : World) :
    reachable bot_instance w0 w -> engine_step bot_instance w w' ->
    reachable bot_instance w0 w'.

(** The row of a habit after the settlement of a day: the streak grows by one
    when the day is completed and falls to 0 when it is not. *)
Definition settled_row `{Backend} (st : Store) (today : Z) (h : Habit) : Habit :=
  if completed_on st today h
  then set_streak h (streak h + 1) (Z.max (max_streak h) (streak h + 1))
  else set_streak h 0 (max_streak h).

(** The habits a settlement run goes through: the active habits of the users
    of the users table. *)
Definition settles (us : list User) (h : Habit) : bool :=
  is_active h && existsb (fun u => u_user_id u =? h_user_id h) us.

(** The streak update of the settlement loop, on the row itself. *)
Definition loop_row `{Backend} (value_of : Habit -> Real) (h : Habit) : Habit :=
  if completion (value_of h) h
  then set_streak h (streak h + 1) (Z.max (max_streak h) (streak h + 1))
  else set_streak h 0 (max_streak h).

(** The log table has a row for the habit and the date. *)
Definition has_row (st : Store) (habit_id d : Z) : Prop :=
  Database.get_daily_log st habit_id d <> None.

(** What a sweep keeps of the store it started from. *)
Definition values_kept `{Backend} (st0 st : Store) : Prop :=
  logs_wf st
  /\ habits st = habits st0
  /\ users st = users st0
  /\ marathon_participants st = marathon_participants st0
  /\ forall h d,
       real_eq (value_on_record (Database.get_daily_log st h d))
               (value_on_record (Database.get_daily_log st0 h d)).

(** An entry of the ledger as the issuers write it at [now]: unanswered,
    with a window of 10. *)
Definition fresh_entry (now : Z) (n : PendingNotification) : Prop :=
  responded n = false /\ sent_at n = now /\ expires_at n = now + 10.

(** An entry of a consolidated prompt: it goes to a user with [check_time]
    among the configured times, in the user's own chat, and refers to an
    active habit of the user that the logs of the day do not show as
    completed. *)
Definition consolidated_entry `{Backend} (st : Store) (check_time : string)
    (now today : Z) (n : PendingNotification) : Prop :=
  fresh_entry now n
  /\ chat_id n = Some (pn_user_id n)
  /\ (exists user, In user (users st) /\ u_user_id user = pn_user_id n
                   /\ existsb (String.eqb check_time) (notification_times user) = true)
  /\ (exists h, In h (Database.get_user_habits st (pn_user_id n))
                /\ h_id h = pn_habit_id n
                /\ HabitTracker.not_completed
                     (Database.get_daily_logs_batch st
                        (map h_id (Database.get_user_habits st (pn_user_id n))) today)
                     h = true).

(** An entry of a prompt for one habit: sent at [now] on the local clock,
    it expires 10 minutes after [now_kz], the reading of the clock of
    Asia/Almaty. *)
Definition habit_entry `{Backend} (st : Store) (check_time : string)
    (now now_kz today : Z) (n : PendingNotification) : Prop :=
  (responded n = false /\ sent_at n = now /\ expires_at n = now_kz + 10)
  /\ (exists user, In user (users st) /\ u_user_id user = pn_user_id n
                   /\ existsb (String.eqb check_time) (notification_times user) = true)
  /\ (exists h, In h (Database.get_user_habits st (pn_user_id n))
                /\ h_id h = pn_habit_id n
                /\ option_map log_completed (Database.get_daily_log st (h_id h) today)
                   <> Some true).

(** The fields the two kinds of statistics share. *)
Definition stats_habit (s : Database.HabitStats) : Habit :=
  match s with
  | Database.StatsBoolean b => Database.bs_habit b
  | Database.StatsNumeric n => Database.ns_habit n
  end.

Definition stats_total_days (s : Database.HabitStats) : Z :=
  match s with
  | Database.StatsBoolean b => Database.bs_total_days b
  | Database.StatsNumeric n => Database.ns_total_days n
  end.

Definition stats_completed_days (s : Database.HabitStats) : Z :=
  match s with
  | Database.StatsBoolean b => Database.completed_days b
  | Database.StatsNumeric n => Database.ns_completed_days n
  end.

Definition stats_logs (s : Database.HabitStats) : list HabitLog :=
  match s with
  | Database.StatsBoolean b => Database.bs_logs b
  | Database.StatsNumeric n => Database.ns_logs n
  end.

(** The float a log row is read with (NaN where the cell reads as NULL). *)
Definition read_value `{Backend} (l : HabitLog) : PyFloat :=
  match Database.sql_real (log_value l) with
  | Some x => x
  | None => NaN
  end.

(** The statistics of a listed habit over the week can be computed: the
    habit is found and, when it is numeric, the values of its rows of the
    week all read as floats. *)
Definition readable_week `{Backend} (st : Store) (week_start : Z) (h : Habit) : bool :=
  match Database.get_habit st (h_id h) with
  | None => false
  | Some row =>
      match habit_type row with
      | Boolean => true
      | Numeric =>
          forallb (fun l => match Database.sql_real (log_value l) with
                            | Some _ => true
                            | None => false
                            end)
                  (Database.get_habit_logs_range st (h_id h) week_start (week_start + 6))
      end
  end.

(** Rows in the order of their dates, no date twice. *)
Definition by_date (logs : list HabitLog) : Prop :=
  StronglySorted (fun a b => log_date a < log_date b) logs.

(** The two lists of the users table hold the same user ids, row by row. *)
Definition users_aligned (db : Db) : Prop :=
  map ui_user_id (user_info db) = map u_user_id (users (base db)).

(** Categories of a user with the ids of the sequence from [n] on. *)
Fixpoint numbered (user_id n : Z) (cs : list (string * string)) : list Category :=
  match cs with
  | [] => []
  | c :: tl => mkCategory n user_id (fst c) (snd c) :: numbered user_id (n + 1) tl
  end.

(** Every cached language that is not empty is the one the database gives. *)
Definition cache_coherent (db : Db) (c : LanguageCache.Cache) : Prop :=
  forall user_id lang ts,
    LanguageCache.cache_get c user_id = Some (lang, ts) ->
    lang <> ""%string ->
    Catalog.get_user_language db user_id = lang.

(** Name, type, goal and unit: what a habit takes from a template or from a
    draft. *)
Definition Shape : Type := (string * HabitType * Real * string)%type.

Definition shape_of_template (t : MarathonHabit) : Shape :=
  (mh_name t, mh_habit_type t, mh_daily_goal t, mh_unit t).

Definition shape_of_draft (d : Flows.HabitDraft) : Shape :=
  (Flows.d_name d, Flows.d_habit_type d, nan_to_null (Flows.d_daily_goal d),
   Flows.d_unit d).

Definition shape_of_habit (h : Habit) : Shape :=
  (h_name h, habit_type h, daily_goal h, h_unit h).

(** New habits of [user_id] in marathon [marathon_id]: no category, no
    streak, active, with the ids of the sequence from [n] on. *)
Fixpoint new_habits (user_id marathon_id n : Z) (shapes : list Shape) : list Habit :=
  match shapes with
  | [] => []
  | (name, type, goal, unit_label) :: tl =>
      mkHabit n user_id None name type goal unit_label 0 0 true (Some marathon_id)
      :: new_habits user_id marathon_id (n + 1) tl
  end.

(** Everything of the database but the habits, the participants and the
    sequence of the habit ids. *)
Definition catalog_kept (db db' : Db) : Prop :=
  users (base db') = users (base db)
  /\ habit_logs (base db') = habit_logs (base db)
  /\ next_log_id (base db') = next_log_id (base db)
  /\ pending_notifications (base db') = pending_notifications (base db)
  /\ next_notification_id (base db') = next_notification_id (base db)
  /\ user_info db' = user_info db
  /\ categories db' = categories db
  /\ next_category_id db' = next_category_id db
  /\ marathons db' = marathons db
  /\ next_marathon_id db' = next_marathon_id db
  /\ marathon_habits db' = marathon_habits db
  /\ next_marathon_habit_id db' = next_marathon_habit_id db.

(** The habit row without its link to a marathon. *)
Definition unlinked (h : Habit) : Habit :=
  Catalog.assign h (Catalog.set_marathon_id None).

(** [pat] occurs in [s]. *)
Fixpoint occurs (pat s : string) : bool :=
  String.prefix pat s
  || match s with
     | EmptyString => false
     | String _ rest => occurs pat rest
     end.

(** Templates of marathon [marathon_id] with one point per goal and the ids
    of the sequence from [n] on. *)
Fixpoint new_templates (marathon_id n : Z) (shapes : list Shape) : list MarathonHabit :=
  match shapes with
  | [] => []
  | (name, type, goal, unit_label) :: tl =>
      mkMarathonHabit n marathon_id name type goal unit_label 1
      :: new_templates marathon_id (n + 1) tl
  end.

(** ** The well-formed database

    What the primary keys, the UNIQUE constraints and the id sequences are
    there for, table by table. *)

Definition participant_key (p : MarathonParticipant) : Z * Z :=
  (mp_marathon_id p, mp_user_id p).

(** One row per user id, in both lists of the users table. *)
Definition users_wf (db : Db) : Prop :=
  NoDup (map u_user_id (users (base db))) /\ users_aligned db.

(** Habit ids are distinct and below the sequence; streaks are within their
    bounds; a habit is linked to a marathon id below the sequence; the log
    table has one row per habit and date, under distinct ids, and every
    log belongs to a habit of the table. *)
Definition habits_wf (db : Db) : Prop :=
  NoDup (map h_id (habits (base db)))
  /\ Forall (fun h => h_id h < next_habit_id db) (habits (base db))
  /\ Forall streak_invariant (habits (base db))
  /\ Forall (fun h => forall k, h_marathon_id h = Some k -> k < next_marathon_id db)
            (habits (base db))
  /\ logs_wf (base db)
  /\ Forall (fun l => In (hl_habit_id l) (map h_id (habits (base db))))
            (habit_logs (base db)).

(** Marathon ids are distinct and below the sequence; no invite code is
    used twice. *)
Definition marathons_wf (db : Db) : Prop :=
  NoDup (map m_id (marathons db))
  /\ Forall (fun m => m_id m < next_marathon_id db) (marathons db)
  /\ NoDup (map invite_code (marathons db)).

(** One row per marathon and user; participants and templates refer to
    marathon ids below the sequence. *)
Definition participants_wf (db : Db) : Prop :=
  NoDup (map participant_key (marathon_participants (base db)))
  /\ Forall (fun p => mp_marathon_id p < next_marathon_id db)
            (marathon_participants (base db))
  /\ Forall (fun t => mh_marathon_id t < next_marathon_id db) (marathon_habits db).

Definition db_wf (db : Db) : Prop :=
  users_wf db /\ habits_wf db /\ marathons_wf db /\ participants_wf db.

(** The writes of the handlers and the jobs of the schedulers, as steps on
    the database. *)
Inductive db_step `{Backend} (bot_instance : option Bot) : Db -> Db -> Prop :=
| db_start (db : Db) (user_id : Z) (uname fname arg : option string)
           (db' : Db) (reply : Flows.StartReply) :
    Flows.cmd_start db user_id uname fname arg = (db', reply) ->
    db_step bot_instance db db'
| db_create_habit (db : Db) (user_id : Z) (name : string) (type : HabitType)
                  (goal : PyFloat) (unit_label : string) (category : option Z) :
    db_step bot_instance db
      (fst (Catalog.create_habit db user_id name type goal unit_label category None))
| db_delete_habit (db : Db) (habit_id : Z) :
    db_step bot_instance db (with_base db (Catalog.delete_habit (base db) habit_id))
| db_edit_goal (db : Db) (habit_id : Z) (text_value : option PyFloat) :
    db_step bot_instance db
      (with_base db (fst (Flows.edit_habit_goal_done (base db) habit_id text_value)))
| db_edit_name (db : Db) (habit_id : Z) (name : string) (st' : Store) :
    Catalog.update_habit (base db) habit_id [Catalog.set_name name] = Some st' ->
    db_step bot_instance db (with_base db st')
| db_finalize (db : Db) (creator : Z) (name : string) (start_d end_d : Z) (code : string)
              (drafts : list Flows.HabitDraft) (db' : Db) (created : option Z) :
    Flows.finalize_marathon db creator name start_d end_d code drafts = (db', created) ->
    db_step bot_instance db db'
| db_leave (db : Db) (user_id marathon_id : Z) (action : string) :
    db_step bot_instance db (Flows.leave_marathon_execute db user_id marathon_id action)
| db_kick (db : Db) (marathon_id user_id : Z) :
    db_step bot_instance db (Flows.kick_user_from_marathon db marathon_id user_id)
| db_save_times (db : Db) (user_id : Z) (times : list string) :
    db_step bot_instance db (Flows.save_notification_times db user_id times)
| db_language (db : Db) (user_id : Z) (lang : string) :
    db_step bot_instance db (Catalog.set_user_language db user_id lang)
| db_create_category (db : Db) (user_id : Z) (name icon : string) :
    db_step bot_instance db (fst (Catalog.create_category db user_id name icon))
| db_delete_category (db : Db) (category_id : Z) :
    db_step bot_instance db (Catalog.delete_category db category_id)
| db_engine (db : Db) (outbox : list GatewayCall) (w' : World) :
    engine_step bot_instance (mkWorld (base db) outbox) w' ->
    db_step bot_instance db (with_base db (store w')).

Inductive db_reachable `{Backend} (bot_instance : option Bot) (db0 : Db) : Db -> Prop :=
| db_reach_start : db_reachable bot_instance db0 db0
| db_reach_step (db db' : Db) :
    db_reachable bot_instance db0 db -> db_step bot_instance db db' ->
    db_reachable bot_instance db0 db'.

(** What a step of the engine leaves of the store: the users, every column
    of the habits but the streaks, the rows of the participants but their
    points. *)
Definition engine_frame (st st' : Store) : Prop :=
  users st' = users st
  /\ map erase_streak (habits st') = map erase_streak (habits st)
  /\ map participant_key (marathon_participants st')
     = map participant_key (marathon_participants st).

(** Every log belongs to a habit of [hs]. *)
Definition logs_within (hs : list Habit) (st : Store) : Prop :=
  Forall (fun l => In (hl_habit_id l) (map h_id hs)) (habit_logs st).

(** The habit refers to a category that is not in [cats]. *)
Definition dangling (cats : list Category) (h : Habit) : bool :=
  match category_id h with
  | Some c => negb (existsb (fun cat => c_id cat =? c) cats)
  | None => false
  end.

(** The sum of the counts on the category buttons of a menu. *)
Fixpoint category_total (bs : list Menus.HabitMenuButton) : nat :=
  match bs with
  | [] => O
  | Menus.CategoryButton _ n :: tl => (n + category_total tl)%nat
  | _ :: tl => category_total tl
  end.

(** ** Example data

    One user with a numeric habit linked to marathon 7 and a boolean habit. *)

Module Example.

Definition alice : User := mkUser 100 ["08:00"; "21:00"]%string.

Definition run : Habit :=
  mkHabit 1 100 None "run" Numeric (real 3) "km" 4 4 true (Some 7).

Definition read : Habit :=
  mkHabit 2 100 None "read" Boolean (real 1) "" 4 9 true None.

Definition day : Z := 739000.

Definition store0 : Store :=
  mkStore [alice] [run; read] [] 1 [] 1 [mkParticipant 7 100 0].

(** The store after 3 km were logged for [run] on [day]. *)
Definition store3 : Store :=
  set_habit_logs store0 [mkHabitLog 1 1 100 day (real 3) true] 2.

(** A gateway that delivers everything, as message 5000. *)
Definition bot : Bot := mkBot (fun _ _ => Some 5000).

(** A week of [read]: done on five days out of seven. *)
Definition store_week : Store :=
  set_habit_logs store0
    [mkHabitLog 1 2 100 day (real 1) true;
     mkHabitLog 2 2 100 (day + 1) (real 1) true;
     mkHabitLog 3 2 100 (day + 2) (real 0) false;
     mkHabitLog 4 2 100 (day + 3) (real 1) true;
     mkHabitLog 5 2 100 (day + 4) (real 1) true;
     mkHabitLog 6 2 100 (day + 6) (real 1) true] 7.

(** A user with one new habit: 3 km a day. *)
Definition store_fresh : Store :=
  mkStore [alice] [mkHabit 1 100 None "run" Numeric (real 3) "km" 0 0 true None]
          [] 1 [] 1 [].

(** Two prompts sent at 480 and unanswered: one for [run], one for a habit
    that has been deleted since. *)
Definition world_pending : World :=
  mkWorld
    (set_pending_notifications store0
       [mkPending 1 100 1 (Some 5000) (Some 100) 480 490 false;
        mkPending 2 100 99 (Some 5001) (Some 100) 480 490 false] 3)
    [].

End Example.

(** ** Example data: the other tables *)

Module ExampleDb.

(** The example store with the row of its user, the marathon 7 that [run]
    belongs to and the template of that habit. *)
Definition db0 : Db :=
  mkDb Example.store0
       [mkUserInfo 100 (Some "alice") (Some "Alice") (Some "ru")]%string
       [] 1 3
       [mkMarathon 7 100 "spring" "Zk3vQ9xY2aB" Example.day (Example.day + 30) true]
       8
       [mkMarathonHabit 1 7 "run" Numeric (real 3) "km" 1]
       2.

End ExampleDb.

(** * Properties *)

(** ** REAL values *)

Lemma float_eq_refl (a : PyFloat) : float_eq a a.
Proof. destruct a; simpl; auto. reflexivity. Qed.


Lemma float_eq_trans (a b c : PyFloat) : float_eq a b -> float_eq b c -> float_eq a c.
Proof.
  destruct a, b, c; simpl; try tauto; try congruence.
  intros E1 E2. now rewrite E1.
Qed.

Lemma real_eq_refl (a : Real) : real_eq a a.
Proof. destruct a; simpl; auto. apply float_eq_refl. Qed.

Lemma real_eq_trans (a b c : Real) : real_eq a b -> real_eq b c -> real_eq a c.
Proof.
  destruct a, b, c; simpl; try tauto. apply float_eq_trans.
Qed.

Lemma Qle_bool_eq_r (x y y' : Q) : (y == y')%Q -> Qle_bool x y = Qle_bool x y'.
Proof.
  intros E. destruct (Qle_bool x y) eqn:E1, (Qle_bool x y') eqn:E2; try reflexivity.
  - apply Qle_bool_iff in E1. rewrite E in E1. apply Qle_bool_iff in E1. congruence.
  - apply Qle_bool_iff in E2. rewrite <- E in E2. apply Qle_bool_iff in E2. congruence.
Qed.

Lemma Qle_bool_eq_l (x x' y : Q) : (x == x')%Q -> Qle_bool x y = Qle_bool x' y.
Proof.
  intros E. destruct (Qle_bool x y) eqn:E1, (Qle_bool x' y) eqn:E2; try reflexivity.
  - apply Qle_bool_iff in E1. rewrite E in E1. apply Qle_bool_iff in E1. congruence.
  - apply Qle_bool_iff in E2. rewrite <- E in E2. apply Qle_bool_iff in E2. congruence.
Qed.

(** Comparisons do not tell equal numbers apart. *)
Lemma float_ge_eq (a a' b b' : PyFloat) :
  float_eq a a' -> float_eq b b' -> float_ge a b = float_ge a' b'.
Proof.
  destruct a, a', b, b'; simpl; try tauto; try congruence.
  intros E1 E2. rewrite (Qle_bool_eq_l _ _ _ E2). apply Qle_bool_eq_r, E1.
Qed.

Lemma float_gt_eq (a a' b b' : PyFloat) :
  float_eq a a' -> float_eq b b' -> float_gt a b = float_gt a' b'.
Proof.
  destruct a, a', b, b'; simpl; try tauto; try congruence.
  intros E1 E2. rewrite (Qle_bool_eq_l _ _ _ E1). f_equal. apply Qle_bool_eq_r, E2.
Qed.

(** A number is at least itself; NaN is not. *)
Lemma float_ge_refl (a : PyFloat) : a <> NaN -> float_ge a a = true.
Proof.
  destruct a as [q|s|]; simpl; intros Hn; [|destruct s; reflexivity|contradiction].
  apply Qle_bool_iff, Qle_refl.
Qed.


(** Adding zero changes no float. *)
Lemma float_add_zero (a : PyFloat) : float_eq (float_add a (Finite 0)) a.
Proof. destruct a; simpl; auto. apply Qplus_0_r. Qed.

Section RealCells.
Context `{Backend}.

(** A cell that reads as a float holds that float, and that float is stored
    as it is. *)
Lemma sql_real_some (c : Real) (x : PyFloat) :
  Database.sql_real c = Some x -> c = Some x /\ Database.sql_real (Some x) = Some x.
Proof.
  unfold Database.sql_real. destruct c as [[q|s|]|]; try (intros E; now inversion E).
  destruct nan_is_null eqn:E; [discriminate|]. intros E'. inversion E'; subst.
  split; reflexivity.
Qed.

Lemma sql_real_idem (c : Real) :
  Database.sql_real (Database.sql_real c) = Database.sql_real c.
Proof.
  destruct (Database.sql_real c) as [x|] eqn:E; [|reflexivity].
  now apply sql_real_some in E.
Qed.


(** A cell that was read and gets zero added holds the same number after
    it is written back. *)
Lemma sql_real_add_zero (c : Real) (x : PyFloat) :
  Database.sql_real c = Some x ->
  real_eq (Database.sql_real (Some (float_add x (Finite 0)))) c.
Proof.
  intros E. apply sql_real_some in E. destruct E as [-> E].
  destruct x as [q|s|]; simpl in *.
  - apply Qplus_0_r.
  - reflexivity.
  - rewrite E. simpl. exact I.
Qed.

End RealCells.

(** ** The ORDER BY clauses rearrange rows *)

Lemma insert_by_perm {A : Type} (leb : A -> A -> bool) (a : A) (l : list A) :
  Permutation (insert_by leb a l) (a :: l).
Proof.
  induction l as [|x tl IH]; simpl.
  - apply Permutation_refl.
  - destruct (leb a x).
    + apply Permutation_refl.
    + eapply perm_trans; [apply perm_skip, IH | apply perm_swap].
Qed.

Lemma sort_by_perm {A : Type} (leb : A -> A -> bool) (l : list A) :
  Permutation (sort_by leb l) l.
Proof.
  induction l as [|a tl IH]; simpl.
  - apply perm_nil.
  - eapply perm_trans; [apply insert_by_perm | apply perm_skip, IH].
Qed.

(** ** Streaks *)

Lemma find_map_preserved {A : Type} (p : A -> bool) (f : A -> A) (l : list A) :
  (forall x, p (f x) = p x) ->
  find p (map f l) = option_map f (find p l).
Proof.
  intros Hp. induction l as [|x tl IH]; simpl; [reflexivity|].
  rewrite Hp. destruct (p x); [reflexivity | exact IH].
Qed.

Lemma find_map_untouched {A : Type} (p : A -> bool) (f : A -> A) (l : list A) :
  (forall x, p (f x) = p x) ->
  (forall x, p x = true -> f x = x) ->
  find p (map f l) = find p l.
Proof.
  intros Hp Hf. induction l as [|x tl IH]; simpl; [reflexivity|].
  rewrite Hp. destruct (p x) eqn:E; [now rewrite Hf | exact IH].
Qed.

Lemma get_habit_id (st : Store) (habit_id : Z) (row : Habit) :
  Database.get_habit st habit_id = Some row -> h_id row = habit_id.
Proof.
  unfold Database.get_habit. intros Hf.
  apply find_some in Hf. destruct Hf as [_ Hid]. now apply Z.eqb_eq.
Qed.

(** C3. [update_streak(habit, completed)] returns and stores
    [streak + 1] when completed and [0] otherwise; the maximum it stores is
    the larger of the old maximum and the new streak when completed, and the
    old maximum when not, which is again the larger of the two as the old
    maximum is not negative.  The other habits keep their rows. *)
Theorem update_streak_transition
    (st : Store) (habit_id : Z) (completed : bool) (row : Habit) :
  Database.get_habit st habit_id = Some row ->
  let new_streak := if completed then streak row + 1 else 0 in
  exists st' new_max,
    Database.update_streak st habit_id completed = Some (st', (new_streak, completed))
    /\ Database.get_habit st' habit_id = Some (set_streak row new_streak new_max)
    /\ (completed = true -> new_max = Z.max (max_streak row) (streak row + 1))
    /\ (completed = false -> new_max = max_streak row)
    /\ (0 <= max_streak row -> new_max = Z.max (max_streak row) new_streak)
    /\ (forall other, other <> habit_id ->
          Database.get_habit st' other = Database.get_habit st other).
Proof.
  intros Hrow new_streak.
  unfold Database.update_streak. rewrite Hrow. fold new_streak.
  eexists. eexists. split; [reflexivity|]. split; [|split; [|split; [|split]]].
  - unfold Database.get_habit in *. simpl.
    rewrite find_map_preserved.
    + rewrite Hrow. simpl.
      pose proof (get_habit_id st habit_id row Hrow) as Hid.
      rewrite Hid, Z.eqb_refl. reflexivity.
    + intros x. destruct (h_id x =? habit_id) eqn:E; simpl; rewrite ?E; reflexivity.
  - intros ->. reflexivity.
  - intros ->. reflexivity.
  - intros Hmax. unfold new_streak. destruct completed; [reflexivity | lia].
  - intros other Hne. unfold Database.get_habit. simpl.
    apply find_map_untouched.
    + intros x. destruct (h_id x =? habit_id) eqn:E; simpl; rewrite ?E; reflexivity.
    + intros x Hx. apply Z.eqb_eq in Hx.
      destruct (h_id x =? habit_id) eqn:E; [|reflexivity].
      apply Z.eqb_eq in E. congruence.
Qed.

Lemma update_streak_keeps_invariant
    (st st' : Store) (habit_id : Z) (completed : bool) (r : Z * bool) :
  Forall streak_invariant (habits st) ->
  Database.update_streak st habit_id completed = Some (st', r) ->
  Forall streak_invariant (habits st').
Proof.
  intros Hinv Hupd. unfold Database.update_streak in Hupd.
  destruct (Database.get_habit st habit_id) as [row|] eqn:Hrow; [|discriminate].
  injection Hupd as <- _. simpl.
  assert (Hr : streak_invariant row).
  { unfold Database.get_habit in Hrow. apply find_some in Hrow.
    rewrite Forall_forall in Hinv. apply Hinv, Hrow. }
  apply Forall_map. eapply Forall_impl; [|exact Hinv].
  intros h Hh. destruct (h_id h =? habit_id); [|exact Hh].
  unfold streak_invariant in *. simpl.
  destruct completed; lia.
Qed.

(** C4. If every habit of the store has [0 <= streak <= max_streak], so has
    every habit after [update_streak], whichever habit it is called on and
    whether or not the day was completed; in particular the habit it was
    called on has [max_streak >= streak] and a non-negative streak. *)
Theorem update_streak_preserves_invariant
    (st st' : Store) (habit_id : Z) (completed : bool) (r : Z * bool) :
  Forall streak_invariant (habits st) ->
  Database.update_streak st habit_id completed = Some (st', r) ->
  Forall streak_invariant (habits st')
  /\ (forall row', Database.get_habit st' habit_id = Some row' ->
        max_streak row' >= streak row' /\ streak row' >= 0).
Proof.
  intros Hinv Hupd.
  pose proof (update_streak_keeps_invariant st st' habit_id completed r Hinv Hupd) as Hall.
  split; [exact Hall|].
  intros row' Hrow'. unfold Database.get_habit in Hrow'. apply find_some in Hrow'.
  rewrite Forall_forall in Hall. destruct (Hall row' (proj1 Hrow')) as [H0 H1]. lia.
Qed.

(** From streak 4: a completed day gives 5, a missed one gives 0 and keeps
    the maximum 9. *)
Lemma update_streak_transition_witness :
  (exists st',
      Database.update_streak Example.store0 1 true = Some (st', (5, true))
      /\ Database.get_habit st' 1 = Some (set_streak Example.run 5 5))
  /\ (exists st',
        Database.update_streak Example.store0 2 false = Some (st', (0, false))
        /\ Database.get_habit st' 2 = Some (set_streak Example.read 0 9)).
Proof.
  split.
  - destruct (update_streak_transition Example.store0 1 true Example.run eq_refl)
      as (st' & new_max & Hu & Hg & Hmax & _).
    exists st'. split; [exact Hu|]. rewrite Hg, (Hmax eq_refl). reflexivity.
  - destruct (update_streak_transition Example.store0 2 false Example.read eq_refl)
      as (st' & new_max & Hu & Hg & _ & Hmax & _).
    exists st'. split; [exact Hu|]. rewrite Hg, (Hmax eq_refl). reflexivity.
Defined.

Lemma update_streak_preserves_invariant_witness :
  exists st',
    Database.update_streak Example.store0 1 true = Some (st', (5, true))
    /\ Forall streak_invariant (habits st').
Proof.
  eexists. split; [reflexivity|].
  apply (update_streak_preserves_invariant Example.store0 _ 1 true (5, true)).
  - repeat constructor; simpl; lia.
  - reflexivity.
Defined.

(** ** Daily logs *)

Lemma key_match_iff (habit_id d : Z) (l : HabitLog) :
  key_match habit_id d l = true <-> log_key l = (habit_id, d).
Proof.
  unfold key_match, log_key. rewrite andb_true_iff, !Z.eqb_eq.
  split; [intros [-> ->]; reflexivity | intros E; inversion E; auto].
Qed.

Lemma filter_nil_iff {A : Type} (p : A -> bool) (l : list A) :
  (forall x, In x l -> p x = false) -> filter p l = [].
Proof.
  induction l as [|x tl IH]; simpl; intros Hp; [reflexivity|].
  rewrite (Hp x (or_introl eq_refl)). apply IH. intros y Hy. apply Hp. now right.
Qed.

Lemma filter_map_commute {A : Type} (p : A -> bool) (f : A -> A) (l : list A) :
  (forall x, p (f x) = p x) -> filter p (map f l) = map f (filter p l).
Proof.
  intros Hp. induction l as [|x tl IH]; simpl; [reflexivity|].
  rewrite Hp. destruct (p x); simpl; now rewrite IH.
Qed.

Lemma map_id_on {A : Type} (f : A -> A) (l : list A) :
  (forall x, In x l -> f x = x) -> map f l = l.
Proof.
  induction l as [|x tl IH]; simpl; intros Hf; [reflexivity|].
  rewrite Hf by now left. f_equal. apply IH. intros y Hy. apply Hf. now right.
Qed.

Lemma rows_for_unique (logs : list HabitLog) (e : HabitLog) :
  NoDup (map log_key logs) -> In e logs ->
  filter (key_match (hl_habit_id e) (log_date e)) logs = [e].
Proof.
  induction logs as [|x tl IH]; simpl; intros Hnd Hin; [contradiction|].
  inversion Hnd as [|k ks Hnotin Hnd']; subst.
  destruct Hin as [->|Hin].
  - assert (Hk : key_match (hl_habit_id e) (log_date e) e = true)
      by (apply key_match_iff; reflexivity).
    rewrite Hk. f_equal. apply filter_nil_iff. intros y Hy.
    destruct (key_match (hl_habit_id e) (log_date e) y) eqn:E; [|reflexivity].
    exfalso. apply Hnotin. apply key_match_iff in E.
    change (hl_habit_id e, log_date e) with (log_key e) in E.
    rewrite <- E. now apply in_map.
  - destruct (key_match (hl_habit_id e) (log_date e) x) eqn:E.
    + exfalso. apply Hnotin. apply key_match_iff in E.
      change (hl_habit_id e, log_date e) with (log_key e) in E.
      rewrite E. now apply in_map.
    + now apply IH.
Qed.

Lemma rows_for_at_most_one (logs : list HabitLog) (habit_id d : Z) :
  NoDup (map log_key logs) ->
  (List.length (filter (key_match habit_id d) logs) <= 1)%nat.
Proof.
  intros Hnd.
  destruct (filter (key_match habit_id d) logs) as [|e tl] eqn:E; simpl; [lia|].
  assert (Hin : In e (filter (key_match habit_id d) logs)) by (rewrite E; now left).
  apply filter_In in Hin. destruct Hin as [Hin Hk].
  apply key_match_iff in Hk. inversion Hk; subst.
  rewrite (rows_for_unique logs e Hnd Hin) in E. inversion E; subst. simpl. lia.
Qed.

Lemma get_daily_log_some (st : Store) (habit_id d : Z) (e : HabitLog) :
  Database.get_daily_log st habit_id d = Some e ->
  In e (habit_logs st) /\ hl_habit_id e = habit_id /\ log_date e = d.
Proof.
  unfold Database.get_daily_log. intros Hf. apply find_some in Hf.
  destruct Hf as [Hin Hk]. apply andb_true_iff in Hk.
  rewrite !Z.eqb_eq in Hk. tauto.
Qed.

Lemma get_daily_log_none (st : Store) (habit_id d : Z) :
  Database.get_daily_log st habit_id d = None ->
  forall l, In l (habit_logs st) -> key_match habit_id d l = false.
Proof.
  unfold Database.get_daily_log. intros Hf l Hin.
  exact (find_none _ _ Hf l Hin).
Qed.

Lemma find_of_filter_singleton {A : Type} (p : A -> bool) (l : list A) (e : A) :
  filter p l = [e] -> find p l = Some e.
Proof.
  induction l as [|x tl IH]; simpl; [discriminate|].
  destruct (p x); [intros E; now inversion E | exact IH].
Qed.

Lemma nodup_map_inj {A B : Type} (f : A -> B) (l : list A) (a b : A) :
  NoDup (map f l) -> In a l -> In b l -> f a = f b -> a = b.
Proof.
  induction l as [|x tl IH]; simpl; intros Hnd Ha Hb Hf; [contradiction|].
  inversion Hnd as [|k ks Hnotin Hnd']; subst.
  destruct Ha as [->|Ha], Hb as [->|Hb]; auto.
  - exfalso. apply Hnotin. rewrite Hf. now apply in_map.
  - exfalso. apply Hnotin. rewrite <- Hf. now apply in_map.
Qed.

(** What one call of [log_habit] does to the log table. *)
Lemma log_habit_spec `{Backend} (st st' : Store) (habit_id user_id : Z) (value : PyFloat)
    (d : Z) (r : Database.LogResult) :
  logs_wf st ->
  Database.log_habit st habit_id user_id value d = Some (st', r) ->
  let goal := Database.sql_real (daily_goal (Database.lr_habit r)) in
  logs_wf st'
  /\ Database.get_habit st habit_id = Some (Database.lr_habit r)
  /\ accumulated (Database.get_daily_log st habit_id d) value
     = Some (Database.new_value r)
  /\ (Database.lr_daily_goal r = goal
      /\ cell_ge (Some (Database.new_value r)) goal = Some (Database.lr_completed r))
  /\ (exists row, rows_for st' habit_id d = [row]
                  /\ log_value row = Database.sql_real (Some (Database.new_value r))
                  /\ log_completed row = Database.lr_completed r)
  /\ (forall h' d', (h', d') <> (habit_id, d) -> rows_for st' h' d' = rows_for st h' d')
  /\ habits st' = habits st
  /\ users st' = users st
  /\ pending_notifications st' = pending_notifications st
  /\ next_notification_id st' = next_notification_id st
  /\ marathon_participants st' = marathon_participants st.
Proof.
  intros (Hkeys & Hids & Hlt) Hlog goal. unfold Database.log_habit in Hlog.
  destruct (Database.get_habit st habit_id) as [habit|] eqn:Hh; [|discriminate].
  destruct (Database.get_daily_log st habit_id d) as [e|] eqn:He.
  - destruct (cell_add (Database.sql_real (log_value e)) value) as [nv|] eqn:Hadd;
      [|discriminate].
    destruct (cell_ge (Some nv) (Database.sql_real (daily_goal habit))) as [c|] eqn:Hge;
      [|discriminate].
    injection Hlog as <- <-. subst goal. cbn [Database.lr_habit Database.new_value
      Database.lr_daily_goal Database.lr_completed accumulated].
    destruct (get_daily_log_some _ _ _ _ He) as (Hin & Hhid & Hdate).
    set (f := fun l : HabitLog =>
                if hl_id l =? hl_id e
                then set_log_value l (Database.sql_real (Some nv)) c
                else l).
    assert (Hfkey : forall l, log_key (f l) = log_key l).
    { intros l. unfold f. destruct (hl_id l =? hl_id e); reflexivity. }
    assert (Hfid : forall l, hl_id (f l) = hl_id l).
    { intros l. unfold f. destruct (hl_id l =? hl_id e); reflexivity. }
    assert (Hfmatch : forall h' d' l, key_match h' d' (f l) = key_match h' d' l).
    { intros h' d' l. unfold f. destruct (hl_id l =? hl_id e); reflexivity. }
    assert (Hfother : forall l, In l (habit_logs st) -> l <> e -> f l = l).
    { intros l Hl Hne. unfold f. destruct (hl_id l =? hl_id e) eqn:E; [|reflexivity].
      apply Z.eqb_eq in E. exfalso. apply Hne.
      now apply (nodup_map_inj hl_id (habit_logs st)). }
    assert (W : logs_wf (set_habit_logs st (map f (habit_logs st)) (next_log_id st))).
    { unfold logs_wf. simpl. split; [|split].
      - rewrite map_map. erewrite map_ext; [exact Hkeys | exact Hfkey].
      - rewrite map_map. erewrite map_ext; [exact Hids | exact Hfid].
      - apply Forall_map. eapply Forall_impl; [|exact Hlt].
        intros l Hl. simpl. now rewrite Hfid. }
    assert (R : exists row,
               rows_for (set_habit_logs st (map f (habit_logs st)) (next_log_id st))
                        habit_id d = [row]
               /\ log_value row = Database.sql_real (Some nv)
               /\ log_completed row = c).
    { exists (f e). unfold rows_for. simpl.
      rewrite filter_map_commute by apply Hfmatch.
      rewrite <- Hhid, <- Hdate, (rows_for_unique _ e Hkeys Hin). simpl.
      unfold f. rewrite Z.eqb_refl. simpl. auto. }
    assert (O : forall h' d', (h', d') <> (habit_id, d) ->
               rows_for (set_habit_logs st (map f (habit_logs st)) (next_log_id st)) h' d'
               = rows_for st h' d').
    { intros h' d' Hne. unfold rows_for. simpl.
      rewrite filter_map_commute by apply Hfmatch.
      apply map_id_on. intros l Hl. apply filter_In in Hl. destruct Hl as [Hl Hk].
      apply Hfother; [exact Hl|]. intros ->. apply Hne.
      apply key_match_iff in Hk. unfold log_key in Hk. congruence. }
    fold f.
    repeat (split; [first [exact W | exact R | exact O | exact Hadd | reflexivity
                          | (split; [reflexivity | exact Hge])]|]).
    reflexivity.
  - destruct (cell_ge (Some value) (Database.sql_real (daily_goal habit))) as [c|] eqn:Hge;
      [|discriminate].
    injection Hlog as <- <-. subst goal. cbn [Database.lr_habit Database.new_value
      Database.lr_daily_goal Database.lr_completed accumulated].
    pose proof (get_daily_log_none _ _ _ He) as Hnone.
    set (new := mkHabitLog (next_log_id st) habit_id user_id d
                           (Database.sql_real (Some value)) c).
    assert (W : logs_wf (set_habit_logs st (habit_logs st ++ [new]) (next_log_id st + 1))).
    { unfold logs_wf. simpl. split; [|split].
      - rewrite map_app. simpl.
        rewrite <- (rev_involutive (map log_key (habit_logs st) ++ [log_key new])).
        apply NoDup_rev. rewrite rev_app_distr. simpl. constructor.
        + rewrite <- in_rev. intros Hin. apply in_map_iff in Hin.
          destruct Hin as (l & Hk & Hl).
          assert (Hm : key_match habit_id d l = true) by (apply key_match_iff; exact Hk).
          rewrite (Hnone l Hl) in Hm. discriminate.
        + now apply NoDup_rev.
      - rewrite map_app. simpl.
        rewrite <- (rev_involutive (map hl_id (habit_logs st) ++ [next_log_id st])).
        apply NoDup_rev. rewrite rev_app_distr. simpl. constructor.
        + rewrite <- in_rev. intros Hin. apply in_map_iff in Hin.
          destruct Hin as (l & Hk & Hl). rewrite Forall_forall in Hlt.
          specialize (Hlt l Hl). simpl in Hlt.
          rewrite Hk in Hlt. exact (Z.lt_irrefl _ Hlt).
        + now apply NoDup_rev.
      - apply Forall_app. split.
        + eapply Forall_impl; [|exact Hlt]. intros l Hl. simpl in *. lia.
        + constructor; [simpl; lia | constructor]. }
    assert (R : exists row,
               rows_for (set_habit_logs st (habit_logs st ++ [new]) (next_log_id st + 1))
                        habit_id d = [row]
               /\ log_value row = Database.sql_real (Some value)
               /\ log_completed row = c).
    { exists new. unfold rows_for. simpl. rewrite filter_app. simpl.
      rewrite (filter_nil_iff _ _ Hnone). unfold key_match at 1. simpl.
      rewrite !Z.eqb_refl. simpl. auto. }
    assert (O : forall h' d', (h', d') <> (habit_id, d) ->
               rows_for (set_habit_logs st (habit_logs st ++ [new]) (next_log_id st + 1)) h' d'
               = rows_for st h' d').
    { intros h' d' Hne. unfold rows_for. simpl. rewrite filter_app. simpl.
      unfold key_match at 2. simpl.
      destruct ((habit_id =? h') && (d =? d')) eqn:E.
      - apply andb_true_iff in E. rewrite !Z.eqb_eq in E. destruct E; subst.
        now contradiction Hne.
      - apply app_nil_r. }
    fold new.
    repeat (split; [first [exact W | exact R | exact O | reflexivity
                          | (split; [reflexivity | exact Hge])]|]).
    reflexivity.
Qed.

(** [log_habit] returns exactly when the habit exists and neither the value
    on record nor the goal reads as [None]. *)
Lemma log_habit_succeeds `{Backend} (st : Store) (habit_id user_id : Z) (value : PyFloat)
    (d : Z) (habit : Habit) :
  Database.get_habit st habit_id = Some habit ->
  readable_on st d habit ->
  exists st' r, Database.log_habit st habit_id user_id value d = Some (st', r).
Proof.
  intros Hh [Hv Hg]. unfold Database.log_habit. rewrite Hh.
  unfold value_on_record in Hv. rewrite (get_habit_id _ _ _ Hh) in Hv.
  destruct (Database.sql_real (daily_goal habit)) as [g|] eqn:Eg; [|contradiction].
  destruct (Database.get_daily_log st habit_id d) as [e|]; [|simpl; eauto].
  destruct (Database.sql_real (log_value e)) as [v|]; [|contradiction].
  simpl. eauto.
Qed.

(** A call that raises writes nothing: the TypeError comes before the
    statement. *)
Lemma log_habit_raises `{Backend} (st : Store) (habit_id user_id : Z) (value : PyFloat)
    (d : Z) (habit : Habit) :
  Database.get_habit st habit_id = Some habit ->
  ~ readable_on st d habit ->
  Database.log_habit st habit_id user_id value d = None.
Proof.
  intros Hh Hn. unfold Database.log_habit. rewrite Hh.
  unfold readable_on, value_on_record in Hn. rewrite (get_habit_id _ _ _ Hh) in Hn.
  destruct (Database.get_daily_log st habit_id d) as [e|].
  - destruct (Database.sql_real (log_value e)) as [v|]; [|reflexivity]. simpl.
    destruct (Database.sql_real (daily_goal habit)) as [g|]; [|reflexivity].
    exfalso. apply Hn. split; discriminate.
  - destruct (Database.sql_real (daily_goal habit)) as [g|]; [|reflexivity].
    exfalso. apply Hn. split; discriminate.
Qed.

Lemma rows_for_get_daily_log (st : Store) (habit_id d : Z) (row : HabitLog) :
  rows_for st habit_id d = [row] -> Database.get_daily_log st habit_id d = Some row.
Proof. apply find_of_filter_singleton. Qed.




(** C9, as stated, fails: the text "-2" is a number for [log_custom_value],
    and logging it after 3 leaves 1 on record. *)
Lemma log_custom_value_lowers_value :
  exists st' before after,
    Handlers.log_custom_value Example.store3 100 1 (Some (Finite (-2 # 1))) Example.day
    = Some st'
    /\ Database.get_daily_log Example.store3 1 Example.day = Some before
    /\ Database.get_daily_log st' 1 Example.day = Some after
    /\ log_value before = real 3
    /\ log_value after = real 1
    /\ cell_ge (log_value after) (log_value before) = Some false.
Proof. do 3 eexists. repeat split; reflexivity. Qed.

(** Adding a number that is not negative lowers no float. *)
Lemma float_add_nonnegative (v : PyFloat) (delta : Q) :
  (0 <= delta)%Q ->
  float_gt v (float_add v (Finite delta)) = false
  /\ (v <> NaN -> float_ge (float_add v (Finite delta)) v = true).
Proof.
  intros Hpos. destruct v as [q|s|]; simpl.
  - assert (Hle : Qle_bool q (q + delta) = true) by (apply Qle_bool_iff; lra).
    unfold float_gt, float_ge. rewrite Hle. auto.
  - destruct s; auto.
  - split; [reflexivity | intros Hn; now contradiction Hn].
Qed.

(** The two ways a [log_habit] call returns: the row was there, or not. *)
Ltac log_habit_cases Hlog :=
  unfold Database.log_habit in Hlog;
  destruct (Database.get_habit _ _); [|discriminate];
  destruct (Database.get_daily_log _ _ _);
  [destruct (cell_add _ _); [|discriminate]|];
  (destruct (cell_ge _ _); [|discriminate]).

(** C9, amended. A [log_habit] call with a non-negative delta never lowers
    the value on record for the day, and leaves the other days and habits as
    they were: the value read after the call is not below the one read
    before it, and is at least that one unless it is NaN (which only
    PostgreSQL keeps). *)
Theorem log_habit_nonnegative_monotone `{Backend}
    (st st' : Store) (habit_id user_id : Z) (delta : Q) (d : Z)
    (r : Database.LogResult) (before : HabitLog) :
  logs_wf st ->
  (0 <= delta)%Q ->
  Database.get_daily_log st habit_id d = Some before ->
  Database.log_habit st habit_id user_id (Finite delta) d = Some (st', r) ->
  (exists after vb va,
      Database.get_daily_log st' habit_id d = Some after
      /\ Database.sql_real (log_value before) = Some vb
      /\ Database.sql_real (log_value after) = Some va
      /\ float_gt vb va = false
      /\ (vb <> NaN -> float_ge va vb = true))
  /\ (forall h' d', (h', d') <> (habit_id, d) -> rows_for st' h' d' = rows_for st h' d').
Proof.
  intros Hwf Hpos Hb Hlog.
  destruct (log_habit_spec _ _ _ _ _ _ _ Hwf Hlog)
    as (_ & _ & Hacc & _ & (row & Hrows & Hval & _) & Hother & _).
  split; [|exact Hother].
  rewrite Hb in Hacc. simpl in Hacc.
  destruct (Database.sql_real (log_value before)) as [vb|] eqn:Evb; [|discriminate].
  simpl in Hacc. injection Hacc as Hnv.
  destruct (float_add_nonnegative vb delta Hpos) as [Hgt Hge].
  rewrite Hnv in Hgt, Hge.
  assert (Hread : Database.sql_real (log_value row) = Some (Database.new_value r)).
  { rewrite Hval, sql_real_idem. apply sql_real_some in Evb. destruct Evb as [_ Evb].
    rewrite <- Hnv. destruct vb as [q|s|]; try reflexivity. exact Evb. }
  exists row, vb, (Database.new_value r).
  split; [now apply rows_for_get_daily_log|]. auto.
Qed.

Lemma log_habit_nonnegative_monotone_witness :
  let before := mkHabitLog 1 1 100 Example.day (real 3) true in
  let st' := set_habit_logs Example.store0
               [mkHabitLog 1 1 100 Example.day (real (3 + 2)) true] 2 in
  (exists after vb va,
      Database.get_daily_log st' 1 Example.day = Some after
      /\ Database.sql_real (log_value before) = Some vb
      /\ Database.sql_real (log_value after) = Some va
      /\ float_gt vb va = false
      /\ (vb <> NaN -> float_ge va vb = true))
  /\ (forall h' d', (h', d') <> (1, Example.day) ->
        rows_for st' h' d' = rows_for Example.store3 h' d').
Proof.
  assert (Hwf : logs_wf Example.store3).
  { unfold logs_wf. simpl. repeat constructor; simpl; auto; lia. }
  assert (Hpos : (0 <= 2)%Q) by (apply Qle_bool_iff; reflexivity).
  exact (log_habit_nonnegative_monotone Example.store3 _ 1 100 2 Example.day _ _
           Hwf Hpos eq_refl eq_refl).
Defined.

(** ** The notification ledger *)

(** C2, as stated, fails: the consolidated prompt for [read] and [run] is
    recorded under its first habit, [read]; when the user then logs [run],
    the entry is still unresolved, and a later sweep finds it expired. *)
Lemma log_of_other_habit_leaves_notification_pending :
  exists st' n,
    Handlers.log_numeric
      (store (HabitTracker.send_consolidated_notification (Some Example.bot)
                (mkWorld Example.store0 []) 100 [Example.read; Example.run] 480))
      100 1 (Finite 2) Example.day = Some st'
    /\ pending_notifications st' = [n]
    /\ pn_user_id n = 100
    /\ responded n = false
    /\ Database.get_expired_notifications st' 491 = [n].
Proof. do 2 eexists. repeat split; reflexivity. Qed.

(** C2, amended. A log write through a handler marks as responded the
    pending notifications of that user that refer to the logged habit, and
    leaves every other entry of the ledger as it was. *)
Theorem log_marks_notification_of_logged_habit `{Backend}
    (st st' : Store) (user_id habit_id : Z) (value : PyFloat) (today : Z) :
  Handlers.log_and_mark st user_id habit_id value today = Some st' ->
  pending_notifications st'
  = map (fun n => if (pn_user_id n =? user_id) && (pn_habit_id n =? habit_id)
                  then set_responded n else n)
        (pending_notifications st)
  /\ (forall n, In n (pending_notifications st') ->
        pn_user_id n = user_id -> pn_habit_id n = habit_id -> responded n = true).
Proof.
  unfold Handlers.log_and_mark. intros Hlm.
  destruct (Database.log_habit st habit_id user_id value today) as [[st1 r]|] eqn:Hlog;
    [|discriminate].
  injection Hlm as <-.
  assert (Hp : pending_notifications st1 = pending_notifications st).
  { log_habit_cases Hlog; injection Hlog as <- _; reflexivity. }
  assert (Hmap : pending_notifications
                   (Database.mark_notification_responded st1 user_id habit_id)
                 = map (fun n => if (pn_user_id n =? user_id) && (pn_habit_id n =? habit_id)
                                 then set_responded n else n)
                       (pending_notifications st)).
  { simpl. rewrite Hp. apply map_ext. intros n.
    destruct ((pn_user_id n =? user_id) && (pn_habit_id n =? habit_id)); simpl;
      [|reflexivity].
    destruct n as [i u h m c s e [|]]; reflexivity. }
  split; [exact Hmap|].
  intros n Hin Hu Hh. rewrite Hmap in Hin. apply in_map_iff in Hin.
  destruct Hin as (n0 & Hn & _).
  destruct ((pn_user_id n0 =? user_id) && (pn_habit_id n0 =? habit_id)) eqn:E.
  - now subst n.
  - subst n0. rewrite Hu, Hh, !Z.eqb_refl in E. discriminate.
Qed.

Lemma log_marks_notification_of_logged_habit_witness :
  let st := store (HabitTracker.send_consolidated_notification (Some Example.bot)
                     (mkWorld Example.store0 []) 100 [Example.read; Example.run] 480) in
  exists st',
    Handlers.log_and_mark st 100 2 (Finite 1) Example.day = Some st'
    /\ pending_notifications st'
       = map (fun n => if (pn_user_id n =? 100) && (pn_habit_id n =? 2)
                       then set_responded n else n)
             (pending_notifications st)
    /\ (forall n, In n (pending_notifications st') ->
          pn_user_id n = 100 -> pn_habit_id n = 2 -> responded n = true).
Proof.
  intros st. eexists. split; [reflexivity|].
  apply (log_marks_notification_of_logged_habit st _ 100 2 (Finite 1) Example.day).
  reflexivity.
Defined.

(** ** The expiry sweep *)

Lemma fold_left_preserves {A B : Type} (P : A -> Prop) (f : A -> B -> A) (l : list B) :
  (forall a b, P a -> P (f a b)) -> forall a, P a -> P (fold_left f l a).
Proof.
  intros Hf. induction l as [|b tl IH]; simpl; intros a Ha; [exact Ha|].
  apply IH, Hf, Ha.
Qed.

Lemma log_habit_pending `{Backend} (st st' : Store) (habit_id user_id : Z) (value : PyFloat) (d : Z)
    (r : Database.LogResult) :
  Database.log_habit st habit_id user_id value d = Some (st', r) ->
  pending_notifications st' = pending_notifications st.
Proof.
  intros Hlog. log_habit_cases Hlog; injection Hlog as <- _; reflexivity.
Qed.

Section Sweep.
Context `{Backend}.

Lemma expire_one_pending (bot_instance : option Bot) (today : Z) (w : World)
    (notif : PendingNotification) :
  pending_notifications (store (Scheduler.expire_one bot_instance today w notif))
  = pending_notifications (store w).
Proof.
  unfold Scheduler.expire_one.
  destruct (Database.log_habit (store w) (pn_habit_id notif) (pn_user_id notif) (Finite 0) today)
    as [[st1 r]|] eqn:Hlog; [|reflexivity].
  apply log_habit_pending in Hlog.
  destruct bot_instance; [destruct (Database.get_habit st1 (pn_habit_id notif))|];
    simpl; exact Hlog.
Qed.

Lemma zero_fill_pending (user_id today : Z) (logs : Database.LogDict) (hs : list Habit) :
  forall st,
    pending_notifications (HabitTracker.zero_fill st user_id today logs hs)
    = pending_notifications st.
Proof.
  induction hs as [|habit tl IH]; simpl; intros st; [reflexivity|].
  destruct (HabitTracker.not_completed logs habit); [|apply IH].
  destruct (Database.log_habit st (h_id habit) user_id (Finite 0) today) as [[st1 r]|] eqn:Hlog;
    [|reflexivity].
  rewrite IH. now apply log_habit_pending in Hlog.
Qed.

Lemma tracker_expire_one_pending (bot_instance : option Bot) (today : Z) (w : World)
    (notif : PendingNotification) :
  pending_notifications (store (HabitTracker.expire_one bot_instance today w notif))
  = pending_notifications (store w).
Proof.
  unfold HabitTracker.expire_one.
  set (w1 := match bot_instance, message_id notif, chat_id notif with
             | Some _, Some msg, Some chat =>
                 if truthy (message_id notif) && truthy (chat_id notif)
                 then call w (store w) (DeleteMessage chat msg) else w
             | _, _, _ => w
             end).
  assert (H1 : store w1 = store w).
  { unfold w1. destruct bot_instance, (message_id notif), (chat_id notif); try reflexivity.
    destruct (truthy (Some z) && truthy (Some z0)); reflexivity. }
  destruct (Database.get_user_habits (store w1) (pn_user_id notif)) as [|h0 tl].
  - now rewrite H1.
  - cbv beta iota zeta. cbn [store]. rewrite zero_fill_pending. now rewrite H1.
Qed.

(** The ledger after a sweep: the ledger before it without the entries the
    final deletion selects. *)
Lemma sweep_ledger (bot_instance : option Bot) (w : World) (now now' today : Z) :
  pending_notifications
    (store (Scheduler.check_expired_notifications bot_instance w now now' today))
  = filter (fun n => negb (responded n || (expires_at n <? now')))
           (pending_notifications (store w)).
Proof.
  unfold Scheduler.check_expired_notifications. simpl. f_equal.
  apply (fold_left_preserves
           (fun w' => pending_notifications (store w') = pending_notifications (store w))).
  - intros a b Ha. now rewrite expire_one_pending.
  - reflexivity.
Qed.

Lemma tracker_sweep_ledger (bot_instance : option Bot) (w : World) (now now' today : Z) :
  pending_notifications
    (store (HabitTracker.check_expired_notifications bot_instance w now now' today))
  = filter (fun n => negb (responded n || (expires_at n <? now')))
           (pending_notifications (store w)).
Proof.
  unfold HabitTracker.check_expired_notifications. simpl. f_equal.
  apply (fold_left_preserves
           (fun w' => pending_notifications (store w') = pending_notifications (store w))).
  - intros a b Ha. now rewrite tracker_expire_one_pending.
  - reflexivity.
Qed.

(** What the final deletion leaves: entries still waiting for an answer,
    none of them among those the sweep had selected. *)
Lemma swept_ledger_clean (ledger : list PendingNotification) (now now' : Z) :
  let left := filter (fun n => negb (responded n || (expires_at n <? now'))) ledger in
  Forall (fun n => responded n = false /\ now' <= expires_at n) left
  /\ (now <= now' ->
      forall n, responded n = false -> expires_at n < now -> ~ In n left).
Proof.
  intros left. split.
  - apply Forall_forall. intros n Hn. apply filter_In in Hn. destruct Hn as [_ Hn].
    apply negb_true_iff, orb_false_iff in Hn. destruct Hn as [Hr He].
    apply Z.ltb_ge in He. auto.
  - intros Hle n _ Hexp Hin. apply filter_In in Hin. destruct Hin as [_ Hn].
    apply negb_true_iff, orb_false_iff in Hn. destruct Hn as [_ He].
    apply Z.ltb_ge in He. lia.
Qed.

Lemma nothing_expired_after_sweep (ledger : list PendingNotification) (now now' : Z) :
  now <= now' ->
  filter (fun n => negb (responded n) && (expires_at n <? now))
         (filter (fun n => negb (responded n || (expires_at n <? now'))) ledger)
  = [].
Proof.
  intros Hle. apply filter_nil_iff. intros n Hn.
  apply filter_In in Hn. destruct Hn as [_ Hn].
  apply negb_true_iff, orb_false_iff in Hn. destruct Hn as [Hr He].
  apply Z.ltb_ge in He. rewrite Hr. simpl. apply Z.ltb_ge. lia.
Qed.

(** C10. After a run of the expiry sweep, in either scheduler, every entry
    left in the ledger is unanswered and expires no earlier than the clock
    of the final deletion; no entry the run had selected as expired is left,
    whether or not its zero could be logged, so no later sweep selects it. *)
Theorem sweep_clears_ledger
    (bot_instance : option Bot) (w : World) (now now' today : Z) :
  let swept := Scheduler.check_expired_notifications bot_instance w now now' today in
  let swept' := HabitTracker.check_expired_notifications bot_instance w now now' today in
  Forall (fun n => responded n = false /\ now' <= expires_at n)
         (pending_notifications (store swept))
  /\ Forall (fun n => responded n = false /\ now' <= expires_at n)
            (pending_notifications (store swept'))
  /\ (now <= now' ->
      forall n, In n (Database.get_expired_notifications (store w) now) ->
        ~ In n (pending_notifications (store swept))
        /\ ~ In n (pending_notifications (store swept'))
        /\ forall later, ~ In n (Database.get_expired_notifications (store swept) later)
                         /\ ~ In n (Database.get_expired_notifications (store swept') later)).
Proof.
  intros swept swept'. unfold swept, swept'.
  rewrite sweep_ledger, tracker_sweep_ledger.
  destruct (swept_ledger_clean (pending_notifications (store w)) now now') as [Hall Hgone].
  split; [exact Hall|]. split; [exact Hall|].
  intros Hle n Hn. unfold Database.get_expired_notifications in Hn.
  apply filter_In in Hn. destruct Hn as [_ Hn]. apply andb_true_iff in Hn.
  destruct Hn as [Hr He]. apply negb_true_iff in Hr. apply Z.ltb_lt in He.
  pose proof (Hgone Hle n Hr He) as Hnot.
  split; [exact Hnot|]. split; [exact Hnot|].
  intros later. unfold Database.get_expired_notifications.
  rewrite sweep_ledger, tracker_sweep_ledger.
  split; intros Hin; apply filter_In in Hin; destruct Hin as [Hin _]; exact (Hnot Hin).
Qed.

(** C7. A second run of the sweep at the same clock reading finds no expired
    entry and writes no log: the log table and its id sequence are those the
    first run left.  This holds in either scheduler, the deletion of the
    first run being no earlier than its selection. *)
Theorem sweep_idempotent
    (bot_instance : option Bot) (w : World) (now now1 now2 today : Z) :
  now <= now1 ->
  let first := Scheduler.check_expired_notifications bot_instance w now now1 today in
  let second := Scheduler.check_expired_notifications bot_instance first now now2 today in
  let first' := HabitTracker.check_expired_notifications bot_instance w now now1 today in
  let second' := HabitTracker.check_expired_notifications bot_instance first' now now2 today in
  (Database.get_expired_notifications (store first) now = []
   /\ habit_logs (store second) = habit_logs (store first)
   /\ next_log_id (store second) = next_log_id (store first)
   /\ outbox second = outbox first)
  /\ (Database.get_expired_notifications (store first') now = []
      /\ habit_logs (store second') = habit_logs (store first')
      /\ next_log_id (store second') = next_log_id (store first')
      /\ outbox second' = outbox first').
Proof.
  intros Hle first second first' second'.
  assert (E : Database.get_expired_notifications (store first) now = []).
  { unfold Database.get_expired_notifications, first. rewrite sweep_ledger.
    now apply nothing_expired_after_sweep. }
  assert (E' : Database.get_expired_notifications (store first') now = []).
  { unfold Database.get_expired_notifications, first'. rewrite tracker_sweep_ledger.
    now apply nothing_expired_after_sweep. }
  split.
  - split; [exact E|]. unfold second, Scheduler.check_expired_notifications at 1 2 3.
    rewrite E. simpl. auto.
  - split; [exact E'|]. unfold second', HabitTracker.check_expired_notifications at 1 2 3.
    rewrite E'. simpl. auto.
Qed.

End Sweep.

Lemma sweep_clears_ledger_witness :
  let w := Example.world_pending in
  let swept := Scheduler.check_expired_notifications (Some Example.bot) w 491 492 Example.day in
  Database.log_habit (store w) 99 100 (Finite 0) Example.day = None
  /\ pending_notifications (store swept) = []
  /\ forall n, In n (Database.get_expired_notifications (store w) 491) ->
       ~ In n (pending_notifications (store swept)).
Proof.
  intros w swept. split; [reflexivity|]. split; [reflexivity|].
  intros n Hn.
  destruct (sweep_clears_ledger (Some Example.bot) w 491 492 Example.day)
    as (_ & _ & Hgone).
  apply (Hgone ltac:(lia) n Hn).
Defined.

Lemma sweep_idempotent_witness :
  let w := Example.world_pending in
  let first := Scheduler.check_expired_notifications (Some Example.bot) w 491 492 Example.day in
  let second := Scheduler.check_expired_notifications (Some Example.bot) first 491 493 Example.day in
  List.length (habit_logs (store w)) = 0%nat
  /\ List.length (habit_logs (store first)) = 1%nat
  /\ habit_logs (store second) = habit_logs (store first).
Proof.
  intros w first second. split; [reflexivity|]. split; [reflexivity|].
  destruct (sweep_idempotent (Some Example.bot) w 491 492 493 Example.day ltac:(lia))
    as ((_ & Hlogs & _) & _).
  exact Hlogs.
Defined.

(** ** Statistics *)



(** The rounding is the one of binary floats: 23 days out of 80 give 28.7
    (the quotient times 100 is just below 28.75), and an empty range gives 0. *)
Lemma efficiency_examples :
  Database.py_round1 (Database.float_of_Z 23 / Database.float_of_Z 80 * 100)%float
  = 28.7%float
  /\ Database.py_round1 (Database.float_of_Z 1 / Database.float_of_Z 16 * 100)%float
     = 6.2%float
  /\ (exists s, Database.get_habit_stats Example.store_week 2 Example.day (Example.day - 1)
                = Some (Database.StatsBoolean s)
                /\ Database.bs_total_days s = 0
                /\ Database.efficiency s = 0%float).
Proof.
  split; [reflexivity|]. split; [reflexivity|].
  eexists. repeat split.
Qed.

(** ** Settlement *)

Lemma same_but_streaks_refl (st : Store) : same_but_streaks st st.
Proof. repeat split. Qed.

Lemma same_but_streaks_trans (a b c : Store) :
  same_but_streaks a b -> same_but_streaks b c -> same_but_streaks a c.
Proof.
  unfold same_but_streaks. intros (A1 & A2 & A3 & A4 & A5) (B1 & B2 & B3 & B4 & B5).
  repeat split; congruence.
Qed.

Lemma update_streak_same (st st' : Store) (habit_id : Z) (c : bool) (r : Z * bool) :
  Database.update_streak st habit_id c = Some (st', r) ->
  same_but_streaks st st' /\ marathon_participants st' = marathon_participants st.
Proof.
  unfold Database.update_streak. intros Hu.
  destruct (Database.get_habit st habit_id) as [row|]; [|discriminate].
  injection Hu as <- _. unfold same_but_streaks. simpl.
  repeat split. rewrite map_map. apply map_ext. intros h.
  destruct (h_id h =? habit_id); reflexivity.
Qed.

Lemma update_marathon_points_same (st : Store) (user_id m : Z) (points : Q) :
  same_but_streaks st (Database.update_marathon_points st user_id m points).
Proof. repeat split. Qed.

Lemma get_daily_log_same (st st' : Store) (habit_id d : Z) :
  same_but_streaks st st' ->
  Database.get_daily_log st' habit_id d = Database.get_daily_log st habit_id d.
Proof.
  intros (_ & Hl & _). unfold Database.get_daily_log. now rewrite Hl.
Qed.

Section SettleLoop.
Context `{Backend}.

Lemma settle_loop_ext (v1 v2 : Habit -> Real) (user_id : Z) (hs : list Habit) :
  (forall h, In h hs -> v1 h = v2 h) ->
  forall st lines,
    settle_loop v1 st user_id hs lines = settle_loop v2 st user_id hs lines.
Proof.
  induction hs as [|habit tl IH]; simpl; intros Hv st lines; [reflexivity|].
  rewrite (Hv habit) by now left.
  destruct (v2 habit) as [v|]; [|reflexivity].
  destruct (Database.sql_real (daily_goal habit)) as [g|]; [|reflexivity].
  destruct (Database.update_streak st (h_id habit) (float_ge v g))
    as [[st1 [new_streak c]]|]; [|reflexivity].
  apply IH. intros h Hh. apply Hv. now right.
Qed.

(** The loop of [scheduler.py] reads the log table at each turn; the table
    is the one the loop started from. *)
Lemma scheduler_settle_loop (st0 : Store) (user_id today : Z) (hs : list Habit) :
  forall st lines,
    same_but_streaks st0 st ->
    Scheduler.settle_habits st user_id today hs lines
    = settle_loop (fun h => value_on_record (Database.get_daily_log st0 (h_id h) today))
                  st user_id hs lines.
Proof.
  induction hs as [|habit tl IH]; simpl; intros st lines Hsame; [reflexivity|].
  rewrite (get_daily_log_same st0 st _ _ Hsame).
  fold (value_on_record (Database.get_daily_log st0 (h_id habit) today)).
  destruct (value_on_record (Database.get_daily_log st0 (h_id habit) today)) as [v|];
    [|reflexivity].
  destruct (Database.sql_real (daily_goal habit)) as [g|]; [|reflexivity].
  destruct (Database.update_streak st (h_id habit) (float_ge v g))
    as [[st1 [new_streak c]]|] eqn:Hu; [|reflexivity].
  apply IH. apply update_streak_same in Hu. destruct Hu as [Hu _].
  eapply same_but_streaks_trans; [exact Hsame|].
  eapply same_but_streaks_trans; [exact Hu|].
  destruct (h_marathon_id habit) as [m|]; [|apply same_but_streaks_refl].
  destruct (truthy (Some m) && float_ge v g);
    [apply update_marathon_points_same | apply same_but_streaks_refl].
Qed.

Lemma tracker_settle_loop (user_id : Z) (logs : Database.LogDict) (hs : list Habit) :
  forall st lines,
    HabitTracker.settle_habits st user_id logs hs lines
    = settle_loop (fun h => value_on_record (Database.dict_get logs (h_id h)))
                  st user_id hs lines.
Proof.
  induction hs as [|habit tl IH]; simpl; intros st lines; [reflexivity|].
  fold (value_on_record (Database.dict_get logs (h_id habit))).
  destruct (value_on_record (Database.dict_get logs (h_id habit))) as [v|];
    [|reflexivity].
  destruct (Database.sql_real (daily_goal habit)) as [g|]; [|reflexivity].
  destruct (Database.update_streak st (h_id habit) (float_ge v g))
    as [[st1 [new_streak c]]|]; [|reflexivity].
  apply IH.
Qed.

End SettleLoop.

Lemma credit_step (user_id : Z) (habit : Habit) (c : bool) (st1 : Store) :
  let st2 := match h_marathon_id habit with
             | Some marathon =>
                 if truthy (h_marathon_id habit) && c
                 then Database.update_marathon_points st1 user_id marathon 1%Q
                 else st1
             | None => st1
             end in
  same_but_streaks st1 st2
  /\ marathon_participants st2
     = map (fun p => if (mp_user_id p =? user_id) && linked_to (mp_marathon_id p) habit && c
                     then add_points p 1 else p)
           (marathon_participants st1).
Proof.
  unfold linked_to. destruct (h_marathon_id habit) as [m|]; simpl.
  - destruct (negb (m =? 0)) eqn:Em; simpl.
    + destruct c; simpl.
      * split; [apply update_marathon_points_same|].
        apply map_ext. intros p. rewrite andb_true_r, (Z.eqb_sym m). reflexivity.
      * split; [apply same_but_streaks_refl|].
        symmetry. apply map_id_on. intros p _. now rewrite !andb_false_r.
    + split; [apply same_but_streaks_refl|].
      symmetry. apply map_id_on. intros p _. now rewrite !andb_false_r.
  - split; [apply same_but_streaks_refl|].
    symmetry. apply map_id_on. intros p _. now rewrite !andb_false_r.
Qed.

Lemma credit_n_add_points (n : nat) (p : MarathonParticipant) :
  credit_n n (add_points p 1) = add_points (credit_n n p) 1.
Proof.
  unfold credit_n. induction n as [|n IH]; simpl; [reflexivity|]. now rewrite IH.
Qed.

Lemma credit_n_user (n : nat) (p : MarathonParticipant) :
  mp_user_id (credit_n n p) = mp_user_id p
  /\ mp_marathon_id (credit_n n p) = mp_marathon_id p.
Proof.
  unfold credit_n. induction n as [|n IH]; simpl; [split; reflexivity | exact IH].
Qed.

Lemma credit_n_plus (n k : nat) (p : MarathonParticipant) :
  credit_n n (credit_n k p) = credit_n (n + k) p.
Proof.
  unfold credit_n. induction n as [|n IH]; simpl; [reflexivity|]. now rewrite IH.
Qed.

Lemma habit_ids_same (st st' : Store) :
  same_but_streaks st st' -> map h_id (habits st') = map h_id (habits st).
Proof.
  intros (_ & _ & _ & _ & He).
  assert (Hid : forall l, map h_id l = map h_id (map erase_streak l)).
  { intros l. rewrite map_map. reflexivity. }
  rewrite (Hid (habits st')), (Hid (habits st)). now rewrite He.
Qed.

Lemma update_streak_succeeds (st : Store) (habit_id : Z) (c : bool) :
  In habit_id (map h_id (habits st)) ->
  exists st' new_streak, Database.update_streak st habit_id c = Some (st', (new_streak, c)).
Proof.
  intros Hin. unfold Database.update_streak, Database.get_habit.
  destruct (find (fun h => h_id h =? habit_id) (habits st)) as [row|] eqn:Hf; [eauto|].
  exfalso. apply in_map_iff in Hin. destruct Hin as (h & Hid & Hh).
  pose proof (find_none _ _ Hf h Hh) as Hn. simpl in Hn.
  rewrite Hid, Z.eqb_refl in Hn. discriminate.
Qed.

(** The loop, run on habits of the table whose values and goals are there
    to be compared: it ends without an exception, writes nothing but streaks
    and points, credits one point per habit that is linked and completed,
    and reports each habit with its completion. *)
Lemma settle_loop_effect `{Backend} (value_of : Habit -> Real) (user_id : Z)
    (hs : list Habit) :
  forall st lines,
    (forall h, In h hs -> In (h_id h) (map h_id (habits st))) ->
    (forall h, In h hs ->
               value_of h <> None /\ Database.sql_real (daily_goal h) <> None) ->
    exists st' new,
      settle_loop value_of st user_id hs lines = (st', Some (lines ++ new))
      /\ same_but_streaks st st'
      /\ marathon_participants st'
         = map (fun p =>
                  if mp_user_id p =? user_id
                  then credit_n
                         (List.length
                            (filter (fun h => linked_to (mp_marathon_id p) h
                                              && completion (value_of h) h)
                                    hs))
                         p
                  else p)
               (marathon_participants st)
      /\ Forall2 (line_of value_of) hs new.
Proof.
  induction hs as [|habit tl IH]; intros st lines Hids Hread.
  - exists st, []. simpl. rewrite app_nil_r.
    repeat split; auto using same_but_streaks_refl.
    symmetry. apply map_id_on. intros p _. destruct (mp_user_id p =? user_id); reflexivity.
  - simpl settle_loop.
    destruct (Hread habit (or_introl eq_refl)) as [Hv Hg].
    destruct (value_of habit) as [v|] eqn:Ev; [|contradiction].
    destruct (Database.sql_real (daily_goal habit)) as [g|] eqn:Eg; [|contradiction].
    set (c := float_ge v g).
    assert (Ec : completion (value_of habit) habit = c).
    { unfold completion. rewrite Ev, Eg. reflexivity. }
    destruct (update_streak_succeeds st (h_id habit) c (Hids habit (or_introl eq_refl)))
      as (st1 & new_streak & Hu).
    rewrite Hu.
    destruct (update_streak_same _ _ _ _ _ Hu) as [Hs1 Hp1].
    destruct (credit_step user_id habit c st1) as [Hs2 Hp2].
    set (st2 := match h_marathon_id habit with
                | Some marathon =>
                    if truthy (h_marathon_id habit) && c
                    then Database.update_marathon_points st1 user_id marathon 1%Q
                    else st1
                | None => st1
                end) in *.
    assert (Hs02 : same_but_streaks st st2)
      by (eapply same_but_streaks_trans; eassumption).
    set (line := mkDigestLine (h_id habit) v g c new_streak
                   (Scheduler.streak_event c new_streak (streak habit))).
    destruct (IH st2 (lines ++ [line])) as (st' & new & Hloop & Hs' & Hp' & Hlines).
    { intros h Hh. rewrite (habit_ids_same _ _ Hs02). apply Hids. now right. }
    { intros h Hh. apply Hread. now right. }
    exists st', (line :: new). rewrite Hloop, <- app_assoc. simpl.
    split; [reflexivity|]. split; [eapply same_but_streaks_trans; eassumption|].
    split.
    + rewrite Hp', Hp2, Hp1, map_map. apply map_ext. intros p. rewrite Ec.
      destruct (mp_user_id p =? user_id) eqn:Eu; simpl.
      * destruct (linked_to (mp_marathon_id p) habit && c) eqn:El.
        -- simpl. rewrite Eu. apply credit_n_add_points.
        -- now rewrite Eu.
      * now rewrite Eu.
    + constructor; [|exact Hlines]. repeat split; auto.
Qed.

(** Whether or not an exception leaves it, the loop writes nothing but
    streaks and points, and points only by crediting. *)
Lemma settle_loop_writes `{Backend} (value_of : Habit -> Real) (user_id : Z)
    (hs : list Habit) :
  forall st lines,
    same_but_streaks st (fst (settle_loop value_of st user_id hs lines)).
Proof.
  induction hs as [|habit tl IH]; intros st lines; simpl;
    [apply same_but_streaks_refl|].
  destruct (value_of habit) as [v|]; [|apply same_but_streaks_refl].
  destruct (Database.sql_real (daily_goal habit)) as [g|]; [|apply same_but_streaks_refl].
  destruct (Database.update_streak st (h_id habit) (float_ge v g))
    as [[st1 [new_streak c]]|] eqn:Hu; [|apply same_but_streaks_refl].
  destruct (update_streak_same _ _ _ _ _ Hu) as [Hs1 _].
  destruct (credit_step user_id habit (float_ge v g) st1) as [Hs2 _].
  eapply same_but_streaks_trans; [exact Hs1|].
  eapply same_but_streaks_trans; [exact Hs2|]. apply IH.
Qed.

Lemma filter_length_perm {A : Type} (p : A -> bool) (l l' : list A) :
  Permutation l l' -> List.length (filter p l) = List.length (filter p l').
Proof.
  induction 1 as [|x l l' _ IH|x y l|l l' l'' _ IH1 _ IH2]; simpl.
  - reflexivity.
  - destruct (p x); simpl; now rewrite IH.
  - destruct (p x), (p y); reflexivity.
  - now rewrite IH1.
Qed.

Lemma filter_filter_andb {A : Type} (p q : A -> bool) (l : list A) :
  filter p (filter q l) = filter (fun x => q x && p x) l.
Proof.
  induction l as [|x tl IH]; simpl; [reflexivity|].
  destruct (q x); simpl; [destruct (p x); now rewrite IH | exact IH].
Qed.

Lemma filter_length_map {A : Type} (p : A -> bool) (f : A -> A) (l : list A) :
  (forall x, p (f x) = p x) ->
  List.length (filter p (map f l)) = List.length (filter p l).
Proof.
  intros Hp. rewrite filter_map_commute by exact Hp. apply length_map.
Qed.

(** The count of credits reads the log table and every column of the habits
    but the streak counters. *)
Lemma credits_same `{Backend} (st st' : Store) (today user_id m : Z) :
  same_but_streaks st st' ->
  credits st' today user_id m = credits st today user_id m.
Proof.
  intros Hsame. unfold credits.
  assert (Hpred : forall h,
             (h_user_id h =? user_id) && is_active h && linked_to m h
             && completed_on st' today h
             = (h_user_id h =? user_id) && is_active h && linked_to m h
               && completed_on st today h).
  { intros h. unfold completed_on. now rewrite (get_daily_log_same st st' _ _ Hsame). }
  rewrite (filter_ext _ _ Hpred).
  set (pred := fun h => (h_user_id h =? user_id) && is_active h && linked_to m h
                        && completed_on st today h).
  rewrite <- (filter_length_map pred erase_streak (habits st')) by reflexivity.
  rewrite <- (filter_length_map pred erase_streak (habits st)) by reflexivity.
  destruct Hsame as (_ & _ & _ & _ & He). now rewrite He.
Qed.

Section Settlement.
Context `{Backend}.

Lemma get_user_habits_in (st : Store) (user_id : Z) (h : Habit) :
  In h (Database.get_user_habits st user_id) ->
  In h (habits st) /\ h_user_id h = user_id /\ is_active h = true.
Proof.
  unfold Database.get_user_habits. intros Hin.
  apply (Permutation_in _ (order_by_category_name_perm _)) in Hin.
  apply filter_In in Hin. destruct Hin as [Hin Hp].
  apply andb_true_iff in Hp. destruct Hp as [Hu Ha]. apply Z.eqb_eq in Hu. auto.
Qed.

Lemma get_user_habits_count (st : Store) (user_id : Z) (p : Habit -> bool) :
  List.length (filter p (Database.get_user_habits st user_id))
  = List.length (filter (fun h => (h_user_id h =? user_id) && is_active h && p h)
                        (habits st)).
Proof.
  unfold Database.get_user_habits.
  rewrite (filter_length_perm p _ _ (order_by_category_name_perm _)).
  now rewrite filter_filter_andb.
Qed.

Lemma settle_user_store (today : Z) (w : World) (user : User) :
  store (Scheduler.settle_user today w user)
  = fst (Scheduler.settle_habits (store w) (u_user_id user) today
           (Database.get_user_habits (store w) (u_user_id user)) []).
Proof.
  unfold Scheduler.settle_user.
  destruct (Database.get_user_habits (store w) (u_user_id user)) as [|h0 tl];
    [reflexivity|].
  destruct (Scheduler.settle_habits (store w) (u_user_id user) today (h0 :: tl) [])
    as [st1 [lines|]]; reflexivity.
Qed.

(** Readability is a matter of the log table and of the goals, which
    settlement leaves alone. *)
Lemma all_readable_same (st st' : Store) (today : Z) :
  same_but_streaks st st' -> all_readable st today -> all_readable st' today.
Proof.
  intros Hsame Hr h Hin Hact.
  destruct Hsame as (_ & Hlogs & _ & _ & He).
  assert (Hin' : In (erase_streak h) (map erase_streak (habits st))).
  { rewrite <- He. now apply in_map. }
  apply in_map_iff in Hin'. destruct Hin' as (h0 & E0 & Hin0).
  assert (Hid : h_id h0 = h_id h) by (apply (f_equal h_id) in E0; exact E0).
  assert (Hgoal : daily_goal h0 = daily_goal h)
    by (apply (f_equal daily_goal) in E0; exact E0).
  assert (Hact0 : is_active h0 = true)
    by (apply (f_equal is_active) in E0; simpl in E0; congruence).
  destruct (Hr h0 Hin0 Hact0) as [Hv Hg].
  unfold readable_on, Database.get_daily_log in *.
  rewrite Hlogs, <- Hid, <- Hgoal. now split.
Qed.

(** One user of the settlement run. *)
Lemma settle_user_effect (today : Z) (w : World) (user : User) :
  all_readable (store w) today ->
  let w' := Scheduler.settle_user today w user in
  same_but_streaks (store w) (store w')
  /\ marathon_participants (store w')
     = map (fun p => if mp_user_id p =? u_user_id user
                     then credit_n (credits (store w) today (u_user_id user)
                                            (mp_marathon_id p)) p
                     else p)
           (marathon_participants (store w)).
Proof.
  intros Hread w'. unfold w'. rewrite settle_user_store.
  rewrite (scheduler_settle_loop (store w)) by apply same_but_streaks_refl.
  set (value_of := fun h => value_on_record
                              (Database.get_daily_log (store w) (h_id h) today)).
  destruct (settle_loop_effect value_of (u_user_id user)
              (Database.get_user_habits (store w) (u_user_id user)) (store w) [])
    as (st' & new & Hloop & Hsame & Hp & _).
  { intros h Hh. apply in_map. now apply get_user_habits_in in Hh. }
  { intros h Hh. apply get_user_habits_in in Hh. destruct Hh as (Hin & _ & Hact).
    exact (Hread h Hin Hact). }
  rewrite Hloop. simpl. split; [exact Hsame|].
  rewrite Hp. apply map_ext. intros p.
  destruct (mp_user_id p =? u_user_id user); [|reflexivity].
  f_equal. rewrite get_user_habits_count. unfold credits.
  f_equal. apply filter_ext. intros h. unfold completed_on, value_of.
  now rewrite andb_assoc.
Qed.

(** One user of the settlement run, whatever is readable. *)
Lemma settle_user_writes (today : Z) (w : World) (user : User) :
  same_but_streaks (store w) (store (Scheduler.settle_user today w user)).
Proof.
  rewrite settle_user_store.
  rewrite (scheduler_settle_loop (store w)) by apply same_but_streaks_refl.
  apply settle_loop_writes.
Qed.

Lemma existsb_user_false (us : list User) (user_id : Z) :
  ~ In user_id (map u_user_id us) ->
  existsb (fun u => u_user_id u =? user_id) us = false.
Proof.
  intros Hn. destruct (existsb (fun u => u_user_id u =? user_id) us) eqn:E; [|reflexivity].
  exfalso. apply Hn. apply existsb_exists in E. destruct E as (u & Hu & Hid).
  apply Z.eqb_eq in Hid. rewrite <- Hid. now apply in_map.
Qed.

(** The loop over the users. *)
Lemma settle_users_effect (today : Z) (us : list User) :
  NoDup (map u_user_id us) ->
  forall w,
    all_readable (store w) today ->
    let w' := fold_left (Scheduler.settle_user today) us w in
    same_but_streaks (store w) (store w')
    /\ marathon_participants (store w')
       = credited us (credits (store w) today) (marathon_participants (store w)).
Proof.
  induction us as [|a tl IH]; intros Hnd w Hread; simpl.
  - split; [apply same_but_streaks_refl|].
    unfold credited. simpl. symmetry. now apply map_id_on.
  - inversion Hnd as [|x xs Hnotin Hnd']; subst.
    destruct (settle_user_effect today w a Hread) as [Hs1 Hp1].
    destruct (IH Hnd' (Scheduler.settle_user today w a)
                (all_readable_same _ _ _ Hs1 Hread)) as [Hs2 Hp2].
    split; [eapply same_but_streaks_trans; eassumption|].
    rewrite Hp2, Hp1. unfold credited. rewrite map_map. apply map_ext. intros p.
    simpl. destruct (mp_user_id p =? u_user_id a) eqn:Ea.
    + apply Z.eqb_eq in Ea.
      destruct (credit_n_user (credits (store w) today (u_user_id a) (mp_marathon_id p)) p)
        as [Hu _].
      rewrite Hu, Ea, Z.eqb_refl, (existsb_user_false tl _ Hnotin). reflexivity.
    + rewrite Z.eqb_sym, Ea. simpl.
      destruct (existsb (fun u => u_user_id u =? mp_user_id p) tl); [|reflexivity].
      now rewrite (credits_same _ _ _ _ _ Hs1).
Qed.

End Settlement.

(** *** The batch read of habit_tracker *)

Lemma find_map_pair (k : Z) (rows : list HabitLog) :
  option_map snd (find (fun p : Z * HabitLog => fst p =? k)
                       (map (fun l => (hl_habit_id l, l)) rows))
  = find (fun l => hl_habit_id l =? k) rows.
Proof.
  induction rows as [|x tl IH]; simpl; [reflexivity|].
  destruct (hl_habit_id x =? k); [reflexivity | exact IH].
Qed.

(** With one row per (habit, date), the dict of the batch read gives for a
    habit of the batch the row [get_daily_log] gives. *)
Lemma dict_get_batch (st : Store) (habit_ids : list Z) (d k : Z) :
  NoDup (map log_key (habit_logs st)) ->
  In k habit_ids ->
  Database.dict_get (Database.get_daily_logs_batch st habit_ids d) k
  = Database.get_daily_log st k d.
Proof.
  intros Hnd Hk. unfold Database.dict_get, Database.get_daily_logs_batch.
  destruct habit_ids as [|i0 ids0] eqn:Eids; [contradiction|]. rewrite <- Eids in *.
  set (F := filter (fun l => existsb (Z.eqb (hl_habit_id l)) habit_ids && (log_date l =? d))
                   (habit_logs st)).
  rewrite <- map_rev, find_map_pair.
  assert (HF : forall l, In l (rev F) <->
                         In l (habit_logs st) /\ In (hl_habit_id l) habit_ids
                         /\ log_date l = d).
  { intros l. rewrite <- in_rev. unfold F. rewrite filter_In, andb_true_iff, Z.eqb_eq.
    rewrite existsb_exists. split.
    - intros (Hin & (x & Hx & Hxe) & Hd). apply Z.eqb_eq in Hxe. subst x. auto.
    - intros (Hin & Hid & Hd). repeat split; auto.
      exists (hl_habit_id l). split; [exact Hid | apply Z.eqb_refl]. }
  destruct (Database.get_daily_log st k d) as [e|] eqn:He.
  - destruct (get_daily_log_some _ _ _ _ He) as (Hin & Hhid & Hdate).
    destruct (find (fun l => hl_habit_id l =? k) (rev F)) as [e'|] eqn:Hf.
    + apply find_some in Hf. destruct Hf as [Hin' Hq]. apply Z.eqb_eq in Hq.
      apply HF in Hin'. destruct Hin' as (Hin' & _ & Hd').
      f_equal. apply (nodup_map_inj log_key (habit_logs st)); auto.
      unfold log_key. congruence.
    + exfalso. pose proof (find_none _ _ Hf e) as Hn. simpl in Hn.
      rewrite Hhid, Z.eqb_refl in Hn.
      assert (In e (rev F)) by (apply HF; rewrite Hhid; auto).
      specialize (Hn H). discriminate.
  - destruct (find (fun l => hl_habit_id l =? k) (rev F)) as [e'|] eqn:Hf; [|reflexivity].
    exfalso. apply find_some in Hf. destruct Hf as [Hin' Hq]. apply Z.eqb_eq in Hq.
    apply HF in Hin'. destruct Hin' as (Hin' & _ & Hd').
    pose proof (get_daily_log_none _ _ _ He e' Hin') as Hn.
    unfold key_match in Hn. rewrite Hq, Hd', !Z.eqb_refl in Hn. discriminate.
Qed.

Lemma fold_left_agree {A B : Type} (P : A -> Prop) (f g : A -> B -> A) (l : list B) :
  (forall a b, P a -> f a b = g a b) ->
  (forall a b, P a -> P (g a b)) ->
  forall a, P a -> fold_left f l a = fold_left g l a.
Proof.
  intros Hfg Hg. induction l as [|b tl IH]; simpl; intros a Ha; [reflexivity|].
  rewrite (Hfg a b Ha). apply IH, Hg, Ha.
Qed.

Section TrackerSettlement.
Context `{Backend}.

Lemma tracker_settle_user_eq (today : Z) (w : World) (user : User) :
  NoDup (map log_key (habit_logs (store w))) ->
  HabitTracker.settle_user today w user = Scheduler.settle_user today w user.
Proof.
  intros Hnd. unfold HabitTracker.settle_user, Scheduler.settle_user.
  destruct (Database.get_user_habits (store w) (u_user_id user)) as [|h0 tl] eqn:Ehs;
    [reflexivity|].
  rewrite <- Ehs. cbv zeta.
  rewrite tracker_settle_loop.
  rewrite (scheduler_settle_loop (store w)) by apply same_but_streaks_refl.
  rewrite (settle_loop_ext _
             (fun h => value_on_record (Database.get_daily_log (store w) (h_id h) today))).
  - rewrite Ehs. reflexivity.
  - intros h Hh. f_equal. apply dict_get_batch; [exact Hnd | now apply in_map].
Qed.

(** With one row per (habit, date), the two schedulers settle alike. *)
Lemma tracker_process_end_of_day_eq (bot_instance : option Bot) (w : World) (today : Z) :
  NoDup (map log_key (habit_logs (store w))) ->
  HabitTracker.process_end_of_day bot_instance w today
  = Scheduler.process_end_of_day bot_instance w today.
Proof.
  intros Hnd. unfold HabitTracker.process_end_of_day, Scheduler.process_end_of_day.
  destruct bot_instance; [|reflexivity].
  apply (fold_left_agree (fun w' => NoDup (map log_key (habit_logs (store w'))))).
  - intros w0 u Hw. now apply tracker_settle_user_eq.
  - intros w0 u Hw. destruct (settle_user_writes today w0 u) as (_ & Hl & _).
    now rewrite Hl.
  - exact Hnd.
Qed.

End TrackerSettlement.

Lemma credited_twice (us : list User) (count : Z -> Z -> nat)
    (ps : list MarathonParticipant) :
  credited us count (credited us count ps)
  = credited us (fun u m => (count u m + count u m)%nat) ps.
Proof.
  unfold credited. rewrite map_map. apply map_ext. intros p.
  destruct (existsb (fun u => u_user_id u =? mp_user_id p) us) eqn:E; [|now rewrite E].
  destruct (credit_n_user (count (mp_user_id p) (mp_marathon_id p)) p) as [Hu Hm].
  rewrite Hu, Hm, E. apply credit_n_plus.
Qed.

Lemma credited_ext_count (us : list User) (c1 c2 : Z -> Z -> nat)
    (ps : list MarathonParticipant) :
  (forall u m, c1 u m = c2 u m) -> credited us c1 ps = credited us c2 ps.
Proof.
  intros Hc. unfold credited. apply map_ext. intros p. now rewrite Hc.
Qed.

(** The balance after [n] credits. *)
Lemma credit_n_points (n : nat) (p : MarathonParticipant) :
  (total_points (credit_n n p) == total_points p + inject_Z (Z.of_nat n))%Q.
Proof.
  unfold credit_n. induction n as [|n IH].
  - simpl. unfold inject_Z. lra.
  - rewrite Nat2Z.inj_succ. unfold Z.succ. rewrite inject_Z_plus.
    simpl Nat.iter. simpl total_points. rewrite IH. unfold inject_Z at 3. lra.
Qed.

(** C1, as stated, fails: [run] is linked to marathon 7 and completed on
    [day]; a second settlement run for that day, with the log table as the
    first run found it, credits its participant a second point. *)
Lemma second_settlement_credits_again :
  let w := mkWorld Example.store3 [] in
  let once := Scheduler.process_end_of_day (H := sqlite_backend)
                (Some Example.bot) w Example.day in
  let again := Scheduler.process_end_of_day (H := sqlite_backend)
                 (Some Example.bot) once Example.day in
  let once' := HabitTracker.process_end_of_day (H := sqlite_backend)
                 (Some Example.bot) w Example.day in
  let again' := HabitTracker.process_end_of_day (H := sqlite_backend)
                  (Some Example.bot) once' Example.day in
  habit_logs (store once) = habit_logs (store w)
  /\ marathon_participants (store w) = [mkParticipant 7 100 0]
  /\ marathon_participants (store once) = [mkParticipant 7 100 1]
  /\ marathon_participants (store again) = [mkParticipant 7 100 2]
  /\ marathon_participants (store once') = [mkParticipant 7 100 1]
  /\ marathon_participants (store again') = [mkParticipant 7 100 2].
Proof. repeat split. Qed.

Section SettlementRuns.
Context `{Backend}.

(** C1, amended. A settlement run changes no log.  Where the value and
    the goal of every active habit are there to be compared, so that no
    TypeError leaves the loop of a user, the run credits every participant
    whose user is in the users table one point for each active habit of that
    user that is linked to the marathon and completed on the day, and
    changes no other balance.  Nothing records that a day was settled: a
    second run for the same day credits the same points again.  Both
    schedulers do so (the batch read of habit_tracker relies on the one row
    per habit and date of the log table). *)
Theorem settlement_credits_each_run
    (bot : Bot) (w : World) (today : Z) :
  NoDup (map u_user_id (users (store w))) ->
  let count := credits (store w) today in
  let ps := marathon_participants (store w) in
  let once := Scheduler.process_end_of_day (Some bot) w today in
  let again := Scheduler.process_end_of_day (Some bot) once today in
  let once' := HabitTracker.process_end_of_day (Some bot) w today in
  let again' := HabitTracker.process_end_of_day (Some bot) once' today in
  (habit_logs (store once) = habit_logs (store w)
   /\ habit_logs (store again) = habit_logs (store w))
  /\ (all_readable (store w) today ->
      marathon_participants (store once) = credited (users (store w)) count ps
      /\ marathon_participants (store again)
         = credited (users (store w)) (fun u m => (count u m + count u m)%nat) ps)
  /\ (NoDup (map log_key (habit_logs (store w))) -> once' = once /\ again' = again).
Proof.
  intros Hus count ps once again once' again'.
  assert (Hs1 : same_but_streaks (store w) (store once)).
  { unfold once, Scheduler.process_end_of_day.
    apply (fold_left_preserves (fun w' => same_but_streaks (store w) (store w'))).
    - intros a u Ha. eapply same_but_streaks_trans; [exact Ha|].
      apply settle_user_writes.
    - apply same_but_streaks_refl. }
  assert (Hs2 : same_but_streaks (store once) (store again)).
  { unfold again, Scheduler.process_end_of_day.
    apply (fold_left_preserves (fun w' => same_but_streaks (store once) (store w'))).
    - intros a u Ha. eapply same_but_streaks_trans; [exact Ha|].
      apply settle_user_writes.
    - apply same_but_streaks_refl. }
  assert (Hus1 : users (store once) = users (store w)) by apply Hs1.
  assert (Hl1 : habit_logs (store once) = habit_logs (store w)) by apply Hs1.
  assert (Hl2 : habit_logs (store again) = habit_logs (store once)) by apply Hs2.
  assert (Hus' : NoDup (map u_user_id (users (store once)))) by now rewrite Hus1.
  split; [split; congruence|]. split.
  - intros Hread.
    destruct (settle_users_effect today (users (store w)) Hus w Hread) as [_ Hp1].
    destruct (settle_users_effect today (users (store once)) Hus' once
                (all_readable_same _ _ _ Hs1 Hread)) as [_ Hp2].
    split; [exact Hp1|].
    change (marathon_participants
              (store (fold_left (Scheduler.settle_user today) (users (store once)) once))
            = credited (users (store w)) (fun u m => (count u m + count u m)%nat) ps).
    rewrite Hp2.
    change (marathon_participants (store once))
      with (marathon_participants
              (store (fold_left (Scheduler.settle_user today) (users (store w)) w))).
    rewrite Hp1, Hus1.
    rewrite (credited_ext_count _ _ count).
    + apply credited_twice.
    + intros u m. now apply credits_same.
  - intros Hlogs.
    assert (E1 : once' = once) by (apply tracker_process_end_of_day_eq; exact Hlogs).
    split; [exact E1|]. unfold again'. rewrite E1.
    apply tracker_process_end_of_day_eq. now rewrite Hl1.
Qed.

End SettlementRuns.

Lemma settlement_credits_each_run_witness :
  let w := mkWorld Example.store3 [] in
  let once := Scheduler.process_end_of_day (H := sqlite_backend)
                (Some Example.bot) w Example.day in
  credits (store w) Example.day 100 7 = 1%nat
  /\ marathon_participants (store once)
     = credited (users (store w)) (credits (store w) Example.day)
                (marathon_participants (store w)).
Proof.
  intros w once. split; [reflexivity|].
  assert (Hus : NoDup (map u_user_id (users (store w)))).
  { simpl. constructor; [intros [] | constructor]. }
  assert (Hread : all_readable (store w) Example.day).
  { intros h [<-|[<-|[]]] _; split; discriminate. }
  destruct (settlement_credits_each_run (H := sqlite_backend)
              Example.bot w Example.day Hus) as (_ & Hp & _).
  exact (proj1 (Hp Hread)).
Defined.

(** ** The completed flag *)

(** C6, at the failing input.  In habit_tracker the REAL column holds the
    goal 0.3 as the 4-byte float nearest to it, which is above the 0.3 of
    Python.  Logging 0.3 on a day without a row compares the 0.3 of Python
    with that goal and stores completed = 0, then stores the value in 4
    bytes: the row holds value = daily_goal with completed = 0, and the
    settlement read of that row computes completed. *)
Lemma real4_goal_logged_not_completed :
  exists goal value,
    Real4.to_real4 0.3 = Some goal
    /\ Real4.log_new_row goal 0.3 = Some (value, false)
    /\ PrimFloat.eqb value goal = true
    /\ Real4.settlement_completed value goal = true.
Proof.
  exists 0.30000001192092896%float, 0.30000001192092896%float.
  repeat split; vm_compute; reflexivity.
Qed.

(** ** The scenario of two days

    Day 1: 1 km then 2 km are logged, the day is completed and settlement
    sets the streak to 1.  Day 2: the 08:00 prompt is not answered, the sweep
    logs the zero and clears the ledger, and settlement resets the streak and
    keeps the maximum. *)
Lemma two_days_scenario :
  let H := sqlite_backend in
  let bot := Some Example.bot in
  let day1 := Example.day in
  let day2 := Example.day + 1 in
  exists s1 s2,
    Handlers.log_numeric Example.store_fresh 100 1 (Finite 1) day1 = Some s1
    /\ Handlers.log_numeric s1 100 1 (Finite 2) day1 = Some s2
    /\ option_map log_value (Database.get_daily_log s2 1 day1) = Some (real 3)
    /\ option_map log_completed (Database.get_daily_log s2 1 day1) = Some true
    /\ let w3 := HabitTracker.process_end_of_day bot (mkWorld s2 []) day1 in
       option_map streak (Database.get_habit (store w3) 1) = Some 1
       /\ option_map max_streak (Database.get_habit (store w3) 1) = Some 1
       /\ let w4 := HabitTracker.check_notifications_for_time bot w3 "08:00" 480 day2 in
          List.length (pending_notifications (store w4)) = 1%nat
          /\ let w5 := HabitTracker.check_expired_notifications bot w4 491 491 day2 in
             pending_notifications (store w5) = []
             /\ option_map log_value (Database.get_daily_log (store w5) 1 day2)
                = Some (real 0)
             /\ option_map log_completed (Database.get_daily_log (store w5) 1 day2)
                = Some false
             /\ let w6 := HabitTracker.process_end_of_day bot w5 day2 in
                option_map streak (Database.get_habit (store w6) 1) = Some 0
                /\ option_map max_streak (Database.get_habit (store w6) 1) = Some 1.
Proof. do 2 eexists. repeat split. Qed.

(** ** The invariants along the engine *)

Lemma log_habit_habits `{Backend} (st st' : Store) (habit_id user_id : Z) (value : PyFloat) (d : Z)
    (r : Database.LogResult) :
  Database.log_habit st habit_id user_id value d = Some (st', r) ->
  habits st' = habits st.
Proof.
  intros Hlog. log_habit_cases Hlog; injection Hlog as <- _; reflexivity.
Qed.

Lemma log_habit_logs_wf `{Backend} (st st' : Store) (habit_id user_id : Z) (value : PyFloat) (d : Z)
    (r : Database.LogResult) :
  logs_wf st ->
  Database.log_habit st habit_id user_id value d = Some (st', r) ->
  logs_wf st'.
Proof. intros Hwf Hlog. apply (log_habit_spec _ _ _ _ _ _ _ Hwf Hlog). Qed.

Lemma only_ledger_refl (st : Store) : only_ledger st st.
Proof. repeat split. Qed.

Lemma only_ledger_trans (a b c : Store) :
  only_ledger a b -> only_ledger b c -> only_ledger a c.
Proof.
  unfold only_ledger. intros (A1 & A2 & A3 & A4 & A5) (B1 & B2 & B3 & B4 & B5).
  repeat split; congruence.
Qed.

Lemma only_ledger_logs_wf (st st' : Store) :
  only_ledger st st' -> logs_wf st -> logs_wf st'.
Proof.
  intros (_ & _ & Hl & Hn & _). unfold logs_wf. now rewrite Hl, Hn.
Qed.

Lemma same_but_streaks_logs_wf (st st' : Store) :
  same_but_streaks st st' -> logs_wf st -> logs_wf st'.
Proof.
  intros (_ & Hl & Hn & _). unfold logs_wf. now rewrite Hl, Hn.
Qed.

Lemma settle_loop_invariant `{Backend} (value_of : Habit -> Real) (user_id : Z)
    (hs : list Habit) :
  forall st lines,
    Forall streak_invariant (habits st) ->
    Forall streak_invariant (habits (fst (settle_loop value_of st user_id hs lines))).
Proof.
  induction hs as [|habit tl IH]; simpl; intros st lines Hinv; [exact Hinv|].
  destruct (value_of habit) as [v|]; [|exact Hinv].
  destruct (Database.sql_real (daily_goal habit)) as [g|]; [|exact Hinv].
  destruct (Database.update_streak st (h_id habit) (float_ge v g))
    as [[st1 [new_streak c]]|] eqn:Hu; [|exact Hinv].
  apply IH. apply update_streak_keeps_invariant in Hu; [|exact Hinv].
  destruct (h_marathon_id habit) as [m|]; [|exact Hu].
  destruct (truthy (Some m) && float_ge v g); exact Hu.
Qed.

Section Engine.
Context `{Backend}.

Lemma notify_only_ledger (bot_instance : option Bot) (w : World) (user_id : Z)
    (habit : Habit) (now now_kz : Z) :
  only_ledger (store w)
    (store (Scheduler.send_habit_notification bot_instance w user_id habit now now_kz)).
Proof.
  unfold Scheduler.send_habit_notification.
  destruct bot_instance as [bot|]; [|apply only_ledger_refl].
  destruct (send_message bot user_id (ReportPrompt [h_id habit])); repeat split.
Qed.

Lemma notify_consolidated_only_ledger (bot_instance : option Bot) (w : World)
    (user_id : Z) (hs : list Habit) (now : Z) :
  only_ledger (store w)
    (store (HabitTracker.send_consolidated_notification bot_instance w user_id hs now)).
Proof.
  unfold HabitTracker.send_consolidated_notification.
  destruct bot_instance as [bot|], hs as [|h0 tl]; try apply only_ledger_refl.
  destruct (send_message bot user_id (ReportPrompt (map h_id (h0 :: tl)))); repeat split.
Qed.

(** Issuing prompts writes the ledger only. *)
Lemma check_notifications_only_ledger (bot_instance : option Bot) (w : World)
    (check_time : string) (now now_kz today : Z) :
  only_ledger (store w)
    (store (Scheduler.check_notifications_for_time bot_instance w check_time
              now now_kz today))
  /\ only_ledger (store w)
       (store (HabitTracker.check_notifications_for_time bot_instance w check_time
                 now today)).
Proof.
  split.
  - unfold Scheduler.check_notifications_for_time.
    apply (fold_left_preserves (fun w' => only_ledger (store w) (store w')));
      [|apply only_ledger_refl].
    intros w1 user Hw1.
    destruct (existsb (String.eqb check_time) (notification_times user)); [|exact Hw1].
    apply (fold_left_preserves (fun w' => only_ledger (store w) (store w')));
      [|exact Hw1].
    intros w2 habit Hw2.
    destruct (Database.get_daily_log (store w2) (h_id habit) today) as [log|];
      [destruct (log_completed log); [exact Hw2|]|];
      (eapply only_ledger_trans; [exact Hw2 | apply notify_only_ledger]).
  - unfold HabitTracker.check_notifications_for_time.
    apply (fold_left_preserves (fun w' => only_ledger (store w) (store w')));
      [|apply only_ledger_refl].
    intros w1 user Hw1.
    destruct (existsb (String.eqb check_time) (notification_times user)); [|exact Hw1].
    destruct (Database.get_user_habits (store w1) (u_user_id user)) as [|h0 tl];
      [exact Hw1|].
    cbv zeta.
    destruct (filter _ (h0 :: tl)) as [|u0 us]; [exact Hw1|].
    eapply only_ledger_trans; [exact Hw1 | apply notify_consolidated_only_ledger].
Qed.

Lemma expire_one_keeps (bot_instance : option Bot) (today : Z) (w : World)
    (notif : PendingNotification) :
  store_invariant (store w) ->
  store_invariant (store (Scheduler.expire_one bot_instance today w notif)).
Proof.
  intros [Hinv Hwf]. unfold Scheduler.expire_one.
  destruct (Database.log_habit (store w) (pn_habit_id notif) (pn_user_id notif) (Finite 0) today)
    as [[st1 r]|] eqn:Hlog; [|split; assumption].
  assert (K : store_invariant st1).
  { split; [rewrite (log_habit_habits _ _ _ _ _ _ _ Hlog); exact Hinv|].
    exact (log_habit_logs_wf _ _ _ _ _ _ _ Hwf Hlog). }
  destruct bot_instance; [destruct (Database.get_habit st1 (pn_habit_id notif))|];
    exact K.
Qed.

Lemma zero_fill_keeps (user_id today : Z) (logs : Database.LogDict) (hs : list Habit) :
  forall st, store_invariant st ->
             store_invariant (HabitTracker.zero_fill st user_id today logs hs).
Proof.
  induction hs as [|habit tl IH]; simpl; intros st K; [exact K|].
  destruct (HabitTracker.not_completed logs habit); [|now apply IH].
  destruct (Database.log_habit st (h_id habit) user_id (Finite 0) today) as [[st1 r]|] eqn:Hlog;
    [|exact K].
  apply IH. destruct K as [Hinv Hwf].
  split; [rewrite (log_habit_habits _ _ _ _ _ _ _ Hlog); exact Hinv|].
  exact (log_habit_logs_wf _ _ _ _ _ _ _ Hwf Hlog).
Qed.

Lemma tracker_expire_one_keeps (bot_instance : option Bot) (today : Z) (w : World)
    (notif : PendingNotification) :
  store_invariant (store w) ->
  store_invariant (store (HabitTracker.expire_one bot_instance today w notif)).
Proof.
  intros K. unfold HabitTracker.expire_one.
  set (w1 := match bot_instance, message_id notif, chat_id notif with
             | Some _, Some msg, Some chat =>
                 if truthy (message_id notif) && truthy (chat_id notif)
                 then call w (store w) (DeleteMessage chat msg) else w
             | _, _, _ => w
             end).
  assert (H1 : store w1 = store w).
  { unfold w1. destruct bot_instance, (message_id notif), (chat_id notif); try reflexivity.
    destruct (truthy (Some z) && truthy (Some z0)); reflexivity. }
  destruct (Database.get_user_habits (store w1) (pn_user_id notif)) as [|h0 tl].
  - now rewrite H1.
  - cbv beta iota zeta. cbn [store]. apply zero_fill_keeps. now rewrite H1.
Qed.

Lemma tracker_settle_user_same (today : Z) (w : World) (user : User) :
  same_but_streaks (store w) (store (HabitTracker.settle_user today w user)).
Proof.
  unfold HabitTracker.settle_user.
  destruct (Database.get_user_habits (store w) (u_user_id user)) as [|h0 tl] eqn:Ehs;
    [apply same_but_streaks_refl|].
  cbv zeta. rewrite tracker_settle_loop.
  match goal with
  | |- context [settle_loop ?v ?st ?u ?hs ?ls] =>
      pose proof (settle_loop_writes v u hs st ls) as Hsame;
      destruct (settle_loop v st u hs ls) as [st1 [lines|]]
  end; exact Hsame.
Qed.

Lemma settle_keeps (bot_instance : option Bot) (w : World) (today : Z) :
  store_invariant (store w) ->
  store_invariant (store (Scheduler.process_end_of_day bot_instance w today))
  /\ store_invariant (store (HabitTracker.process_end_of_day bot_instance w today)).
Proof.
  intros K. unfold Scheduler.process_end_of_day, HabitTracker.process_end_of_day.
  destruct bot_instance; [|split; exact K].
  split.
  - apply (fold_left_preserves (fun w' => store_invariant (store w'))); [|exact K].
    intros w1 user [Hinv Hwf]. split.
    + rewrite settle_user_store.
      rewrite (scheduler_settle_loop (store w1)) by apply same_but_streaks_refl.
      now apply settle_loop_invariant.
    + exact (same_but_streaks_logs_wf _ _ (settle_user_writes today w1 user) Hwf).
  - apply (fold_left_preserves (fun w' => store_invariant (store w'))); [|exact K].
    intros w1 user [Hinv Hwf]. split.
    + unfold HabitTracker.settle_user.
      destruct (Database.get_user_habits (store w1) (u_user_id user)) as [|h0 tl];
        [exact Hinv|].
      cbv zeta. rewrite tracker_settle_loop.
      match goal with
      | |- context [settle_loop ?v ?st ?u ?hs ?ls] =>
          pose proof (settle_loop_invariant v u hs st ls Hinv) as Hl;
          destruct (settle_loop v st u hs ls) as [st1 [lines|]]
      end; exact Hl.
    + exact (same_but_streaks_logs_wf _ _ (tracker_settle_user_same today w1 user) Hwf).
Qed.

(** Every step of the engine keeps [0 <= streak <= max_streak] on every
    habit and one row per (habit, date) in the log table, so both hold in
    every world the engine reaches. *)
Lemma invariants_always (bot_instance : option Bot) (w0 w : World) :
  Forall streak_invariant (habits (store w0)) ->
  logs_wf (store w0) ->
  reachable bot_instance w0 w ->
  Forall streak_invariant (habits (store w))
  /\ logs_wf (store w)
  /\ forall habit_id d, (List.length (rows_for (store w) habit_id d) <= 1)%nat.
Proof.
  intros Hinv Hwf Hreach.
  assert (K : store_invariant (store w)).
  { induction Hreach as [|w w' _ IH Hstep]; [split; assumption|].
    destruct Hstep as [w user_id habit_id value today st' Hlog
                      | w check_time now now_kz today | w check_time now today
                      | w now now' today | w now now' today
                      | w today | w today].
    - unfold Handlers.log_and_mark in Hlog.
      destruct (Database.log_habit (store w) habit_id user_id value today)
        as [[st1 r]|] eqn:E; [|discriminate].
      injection Hlog as <-. destruct IH as [Hi Hw]. split.
      + simpl. now rewrite (log_habit_habits _ _ _ _ _ _ _ E).
      + exact (log_habit_logs_wf _ _ _ _ _ _ _ Hw E).
    - destruct (check_notifications_only_ledger bot_instance w check_time now now_kz
                  today) as [Ho _]. destruct IH as [Hi Hw]. split.
      + destruct Ho as (_ & Hh & _). now rewrite Hh.
      + exact (only_ledger_logs_wf _ _ Ho Hw).
    - destruct (check_notifications_only_ledger bot_instance w check_time now now today)
        as [_ Ho]. destruct IH as [Hi Hw]. split.
      + destruct Ho as (_ & Hh & _). now rewrite Hh.
      + exact (only_ledger_logs_wf _ _ Ho Hw).
    - unfold Scheduler.check_expired_notifications.
      assert (K1 : store_invariant
                     (store (fold_left (Scheduler.expire_one bot_instance today)
                               (Database.get_expired_notifications (store w) now) w))).
      { apply (fold_left_preserves (fun w' => store_invariant (store w'))); [|exact IH].
        intros w1 n. apply expire_one_keeps. }
      exact K1.
    - unfold HabitTracker.check_expired_notifications.
      assert (K1 : store_invariant
                     (store (fold_left (HabitTracker.expire_one bot_instance today)
                               (Database.get_expired_notifications (store w) now) w))).
      { apply (fold_left_preserves (fun w' => store_invariant (store w'))); [|exact IH].
        intros w1 n. apply tracker_expire_one_keeps. }
      exact K1.
    - now apply settle_keeps.
    - now apply settle_keeps. }
  destruct K as [Hi Hw]. split; [exact Hi|]. split; [exact Hw|].
  intros habit_id d. apply rows_for_at_most_one. apply Hw.
Qed.

End Engine.

(** * Further properties *)

(** ** Settlement: the streaks of a run *)

Lemma get_habit_unique (st : Store) (a : Habit) :
  NoDup (map h_id (habits st)) -> In a (habits st) ->
  Database.get_habit st (h_id a) = Some a.
Proof.
  intros Hnd Hin. unfold Database.get_habit.
  destruct (find (fun h => h_id h =? h_id a) (habits st)) as [b|] eqn:Hf.
  - apply find_some in Hf. destruct Hf as [Hb Hid]. apply Z.eqb_eq in Hid.
    f_equal. now apply (nodup_map_inj h_id (habits st)).
  - pose proof (find_none _ _ Hf a Hin) as Hn. simpl in Hn.
    rewrite Z.eqb_refl in Hn. discriminate.
Qed.

Lemma existsb_id_false (hs : list Habit) (id : Z) :
  ~ In id (map h_id hs) -> existsb (fun a => h_id a =? id) hs = false.
Proof.
  intros Hn. destruct (existsb (fun a => h_id a =? id) hs) eqn:E; [|reflexivity].
  exfalso. apply Hn. apply existsb_exists in E. destruct E as (a & Ha & Hid).
  apply Z.eqb_eq in Hid. rewrite <- Hid. now apply in_map.
Qed.

Lemma settle_loop_habits `{Backend} (value_of : Habit -> Real) (user_id : Z)
    (hs : list Habit) :
  forall st lines,
    NoDup (map h_id (habits st)) ->
    NoDup (map h_id hs) ->
    (forall h, In h hs -> In h (habits st)) ->
    (forall h, In h hs ->
               value_of h <> None /\ Database.sql_real (daily_goal h) <> None) ->
    habits (fst (settle_loop value_of st user_id hs lines))
    = map (fun h => if existsb (fun a => h_id a =? h_id h) hs
                    then loop_row value_of h else h)
          (habits st).
Proof.
  induction hs as [|a tl IH]; intros st lines Hnd Hhs Hin Hread.
  - simpl. symmetry. now apply map_id_on.
  - simpl settle_loop.
    assert (Ha : In a (habits st)) by (apply Hin; now left).
    destruct (Hread a (or_introl eq_refl)) as [Hv Hgl].
    destruct (value_of a) as [v|] eqn:Ev; [|contradiction].
    destruct (Database.sql_real (daily_goal a)) as [gl|] eqn:Eg; [|contradiction].
    clear Hv Hgl.
    unfold Database.update_streak. rewrite (get_habit_unique st a Hnd Ha).
    set (c := float_ge v gl).
    assert (Ec : completion (value_of a) a = c).
    { unfold completion. rewrite Ev, Eg. reflexivity. }
    set (ns := if c then streak a + 1 else 0).
    set (nm := if c then Z.max (max_streak a) ns else max_streak a).
    set (g := fun h => if h_id h =? h_id a then set_streak h ns nm else h).
    set (st1 := set_habits st (map g (habits st))).
    set (st2 := match h_marathon_id a with
                | Some marathon =>
                    if truthy (h_marathon_id a) && c
                    then Database.update_marathon_points st1 user_id marathon 1%Q
                    else st1
                | None => st1
                end).
    assert (H2 : habits st2 = map g (habits st)).
    { unfold st2. destruct (h_marathon_id a) as [m|]; [|reflexivity].
      destruct (truthy (Some m) && c); reflexivity. }
    assert (Hgid : forall h, h_id (g h) = h_id h).
    { intros h. unfold g. destruct (h_id h =? h_id a); reflexivity. }
    inversion Hhs as [|x xs Hnotin Htl]; subst.
    rewrite IH.
    + rewrite H2, map_map. apply map_ext_in. intros h Hh. rewrite Hgid. simpl.
      destruct (h_id a =? h_id h) eqn:E.
      * apply Z.eqb_eq in E.
        assert (h = a) by (apply (nodup_map_inj h_id (habits st)); auto). subst h.
        rewrite (existsb_id_false tl _ Hnotin). simpl.
        unfold g. rewrite Z.eqb_refl. unfold loop_row. rewrite Ec.
        unfold nm, ns. destruct c; reflexivity.
      * simpl. unfold g. rewrite Z.eqb_sym, E. reflexivity.
    + rewrite H2, map_map. erewrite map_ext; [exact Hnd | exact Hgid].
    + exact Htl.
    + intros h Hh. rewrite H2.
      assert (Hne : h_id h <> h_id a).
      { intros E. apply Hnotin. rewrite <- E. now apply in_map. }
      assert (Hg : g h = h).
      { unfold g. destruct (h_id h =? h_id a) eqn:E; [|reflexivity].
        apply Z.eqb_eq in E. contradiction. }
      rewrite <- Hg. apply in_map. apply Hin. now right.
    + intros h Hh. apply Hread. now right.
Qed.

Section SettlementStreaks.
Context `{Backend}.

Lemma get_user_habits_nodup (st : Store) (user_id : Z) :
  NoDup (map h_id (habits st)) ->
  NoDup (map h_id (Database.get_user_habits st user_id)).
Proof.
  intros Hnd. unfold Database.get_user_habits.
  eapply Permutation_NoDup.
  - apply Permutation_map, Permutation_sym, order_by_category_name_perm.
  - induction (habits st) as [|x tl IH]; simpl; [constructor|].
    inversion Hnd as [|k ks Hnotin Hnd']; subst.
    destruct ((h_user_id x =? user_id) && is_active x); simpl; [|now apply IH].
    constructor; [|now apply IH].
    intros Hin. apply Hnotin. apply in_map_iff in Hin. destruct Hin as (y & Hy & Hin).
    apply filter_In in Hin. rewrite <- Hy. apply in_map. apply Hin.
Qed.

Lemma get_user_habits_member (st : Store) (user_id : Z) (h : Habit) :
  NoDup (map h_id (habits st)) -> In h (habits st) ->
  existsb (fun a => h_id a =? h_id h) (Database.get_user_habits st user_id)
  = (h_user_id h =? user_id) && is_active h.
Proof.
  intros Hnd Hin.
  destruct ((h_user_id h =? user_id) && is_active h) eqn:E.
  - apply existsb_exists. exists h. split; [|apply Z.eqb_refl].
    unfold Database.get_user_habits.
    apply (Permutation_in _ (Permutation_sym (order_by_category_name_perm _))).
    apply filter_In. auto.
  - destruct (existsb (fun a => h_id a =? h_id h) (Database.get_user_habits st user_id))
      eqn:Ex; [|reflexivity].
    apply existsb_exists in Ex. destruct Ex as (a & Ha & Hid). apply Z.eqb_eq in Hid.
    destruct (get_user_habits_in st user_id a Ha) as (Hat & Hu & Hact).
    assert (a = h) by (apply (nodup_map_inj h_id (habits st)); auto). subst a.
    rewrite Hu, Z.eqb_refl, Hact in E. discriminate.
Qed.

Lemma settle_user_habits (today : Z) (w : World) (user : User) :
  NoDup (map h_id (habits (store w))) ->
  all_readable (store w) today ->
  habits (store (Scheduler.settle_user today w user))
  = map (fun h => if (h_user_id h =? u_user_id user) && is_active h
                  then settled_row (store w) today h else h)
        (habits (store w)).
Proof.
  intros Hnd Hread. rewrite settle_user_store.
  rewrite (scheduler_settle_loop (store w)) by apply same_but_streaks_refl.
  rewrite settle_loop_habits.
  - apply map_ext_in. intros h Hh.
    rewrite (get_user_habits_member _ _ _ Hnd Hh). reflexivity.
  - exact Hnd.
  - now apply get_user_habits_nodup.
  - intros h Hh. now apply get_user_habits_in in Hh.
  - intros h Hh. apply get_user_habits_in in Hh. destruct Hh as (Hin & _ & Hact).
    exact (Hread h Hin Hact).
Qed.

Lemma settled_row_same (st st' : Store) (today : Z) (h : Habit) :
  same_but_streaks st st' -> settled_row st' today h = settled_row st today h.
Proof.
  intros Hs. unfold settled_row, completed_on.
  now rewrite (get_daily_log_same st st' _ _ Hs).
Qed.

Lemma settle_users_habits (today : Z) (us : list User) :
  NoDup (map u_user_id us) ->
  forall w,
    NoDup (map h_id (habits (store w))) ->
    all_readable (store w) today ->
    habits (store (fold_left (Scheduler.settle_user today) us w))
    = map (fun h => if settles us h then settled_row (store w) today h else h)
          (habits (store w)).
Proof.
  induction us as [|a tl IH]; intros Hus w Hnd Hread; simpl.
  - symmetry. apply map_id_on. intros h _. unfold settles. simpl.
    now rewrite andb_false_r.
  - inversion Hus as [|x xs Hnotin Hus']; subst.
    pose proof (settle_user_writes today w a) as Hsame.
    rewrite IH; [|exact Hus'|rewrite (habit_ids_same _ _ Hsame); exact Hnd
                 |exact (all_readable_same _ _ _ Hsame Hread)].
    rewrite (settle_user_habits today w a Hnd Hread), map_map.
    apply map_ext. intros h. unfold settles. simpl.
    destruct ((h_user_id h =? u_user_id a) && is_active h) eqn:E.
    + apply andb_true_iff in E. destruct E as [Eu Ea]. apply Z.eqb_eq in Eu.
      assert (Hu : h_user_id (settled_row (store w) today h) = h_user_id h).
      { unfold settled_row. destruct (completed_on (store w) today h); reflexivity. }
      rewrite Hu, Eu, (existsb_user_false tl _ Hnotin), andb_false_r.
      rewrite Ea, Z.eqb_refl. reflexivity.
    + destruct (is_active h) eqn:Ea; simpl; [|reflexivity].
      rewrite andb_true_r in E. rewrite Z.eqb_sym, E. simpl.
      destruct (existsb (fun u => u_user_id u =? h_user_id h) tl); [|reflexivity].
      apply settled_row_same. exact Hsame.
Qed.

(** X1. With distinct user ids and distinct habit ids, and the value and
    the goal of every active habit there to be compared (no TypeError
    leaves the loop of a user), a settlement run leaves every active habit
    of a user of the users table with its streak raised by one (and the
    maximum raised to it) when its value on record reaches the goal, and
    with streak 0 and the same maximum when it does not; every other habit
    keeps its row.  The scheduler with the batch read does the same on a
    log table with one row per habit and date. *)
Theorem settlement_streaks (bot : Bot) (w : World) (today : Z) :
  NoDup (map u_user_id (users (store w))) ->
  NoDup (map h_id (habits (store w))) ->
  all_readable (store w) today ->
  let after := map (fun h => if settles (users (store w)) h
                             then settled_row (store w) today h else h)
                   (habits (store w)) in
  habits (store (Scheduler.process_end_of_day (Some bot) w today)) = after
  /\ (NoDup (map log_key (habit_logs (store w))) ->
      habits (store (HabitTracker.process_end_of_day (Some bot) w today)) = after).
Proof.
  intros Hus Hnd Hread after.
  assert (E : habits (store (Scheduler.process_end_of_day (Some bot) w today)) = after)
    by exact (settle_users_habits today (users (store w)) Hus w Hnd Hread).
  split; [exact E|].
  intros Hlogs. now rewrite tracker_process_end_of_day_eq.
Qed.

End SettlementStreaks.

(** [run], at streak 4 with 3 km logged for a goal of 3, goes to 5; [read],
    not logged, falls to 0 and keeps its maximum 9. *)
Lemma settlement_streaks_witness :
  habits (store (Scheduler.process_end_of_day (H := sqlite_backend)
                   (Some Example.bot) (mkWorld Example.store3 []) Example.day))
  = [set_streak Example.run 5 5; set_streak Example.read 0 9].
Proof.
  destruct (settlement_streaks (H := sqlite_backend) Example.bot
              (mkWorld Example.store3 []) Example.day) as [E _].
  - simpl. constructor; [intros [] | constructor].
  - simpl. repeat constructor; simpl; intuition discriminate.
  - intros h [<-|[<-|[]]] _; split; discriminate.
  - rewrite E. reflexivity.
Defined.

(** ** The expiry sweep: what the zero fill writes *)

Lemma find_hd_filter {A : Type} (p : A -> bool) (l : list A) :
  find p l = hd_error (filter p l).
Proof.
  induction l as [|x tl IH]; simpl; [reflexivity|].
  destruct (p x); [reflexivity | exact IH].
Qed.

Lemma get_daily_log_rows (st : Store) (habit_id d : Z) :
  Database.get_daily_log st habit_id d = hd_error (rows_for st habit_id d).
Proof. apply find_hd_filter. Qed.

(** On the value on record, counting no row as 0, a [log_habit] of zero
    changes nothing. *)
Lemma log_zero_keeps_values `{Backend} (st st' : Store) (habit_id user_id d : Z)
    (r : Database.LogResult) :
  logs_wf st ->
  Database.log_habit st habit_id user_id (Finite 0) d = Some (st', r) ->
  forall h' d',
    real_eq (value_on_record (Database.get_daily_log st' h' d'))
            (value_on_record (Database.get_daily_log st h' d')).
Proof.
  intros Hwf Hlog h' d'.
  destruct (log_habit_spec _ _ _ _ _ _ _ Hwf Hlog)
    as (_ & _ & Hacc & _ & (row & Hrows & Hval & _) & Hother & _).
  assert (Hsame : (h', d') <> (habit_id, d) ->
                  Database.get_daily_log st' h' d' = Database.get_daily_log st h' d').
  { intros Hne. rewrite !get_daily_log_rows. now rewrite Hother. }
  destruct (Z.eq_dec h' habit_id) as [->|Hh];
    [destruct (Z.eq_dec d' d) as [->|Hd]|];
    try (rewrite Hsame by congruence; apply real_eq_refl).
  rewrite (rows_for_get_daily_log _ _ _ _ Hrows). unfold value_on_record at 1.
  rewrite Hval, sql_real_idem.
  destruct (Database.get_daily_log st habit_id d) as [e|]; simpl in Hacc |- *.
  - destruct (Database.sql_real (log_value e)) as [x|] eqn:Ex; [|discriminate].
    simpl in Hacc. injection Hacc as <-.
    pose proof (sql_real_add_zero _ _ Ex) as Hz.
    apply sql_real_some in Ex. destruct Ex as [Ec _]. now rewrite Ec in Hz.
  - injection Hacc as <-. apply real_eq_refl.
Qed.

(** The completion of a habit does not tell equal values apart. *)
Lemma completion_eq `{Backend} (a b : Real) (h : Habit) :
  real_eq a b -> completion a h = completion b h.
Proof.
  unfold completion, cell_ge. intros E.
  destruct a as [x|], b as [y|]; simpl in E; try contradiction; [|reflexivity].
  destruct (Database.sql_real (daily_goal h)) as [g|]; [|reflexivity].
  apply float_ge_eq; [exact E | apply float_eq_refl].
Qed.

Lemma values_kept_refl `{Backend} (st : Store) : logs_wf st -> values_kept st st.
Proof.
  intros Hwf. split; [exact Hwf|]. repeat split. intros h d. apply real_eq_refl.
Qed.

Lemma log_zero_values_kept `{Backend} (st0 st st' : Store) (habit_id user_id d : Z)
    (r : Database.LogResult) :
  values_kept st0 st ->
  Database.log_habit st habit_id user_id (Finite 0) d = Some (st', r) ->
  values_kept st0 st'.
Proof.
  intros (Hwf & Hh & Hu & Hp & Hv) Hlog.
  destruct (log_habit_spec _ _ _ _ _ _ _ Hwf Hlog)
    as (Hwf' & _ & _ & _ & _ & _ & Hh' & Hu' & _ & _ & Hp').
  split; [exact Hwf'|]. split; [congruence|]. split; [congruence|].
  split; [congruence|].
  intros h d0. eapply real_eq_trans; [|apply Hv].
  exact (log_zero_keeps_values _ _ _ _ _ _ Hwf Hlog h d0).
Qed.

(** What is readable stays readable while the values are kept. *)
Lemma readable_kept `{Backend} (st0 st : Store) (d : Z) (h : Habit) :
  values_kept st0 st -> readable_on st0 d h -> readable_on st d h.
Proof.
  intros (_ & _ & _ & _ & Hv) [Hval Hgoal]. split; [|exact Hgoal].
  specialize (Hv (h_id h) d). intros E. rewrite E in Hv.
  destruct (value_on_record (Database.get_daily_log st0 (h_id h) d)); simpl in Hv;
    [contradiction | now apply Hval].
Qed.

Lemma find_app_first {A : Type} (p : A -> bool) (l l' : list A) :
  find p (l ++ l') = match find p l with Some x => Some x | None => find p l' end.
Proof.
  induction l as [|x tl IH]; simpl; [reflexivity|].
  destruct (p x); [reflexivity | exact IH].
Qed.

Lemma log_habit_keeps_rows `{Backend} (st st' : Store) (habit_id user_id : Z)
    (delta : PyFloat) (d : Z) (r : Database.LogResult) :
  logs_wf st ->
  Database.log_habit st habit_id user_id delta d = Some (st', r) ->
  has_row st' habit_id d
  /\ forall h' d', has_row st h' d' -> has_row st' h' d'.
Proof.
  unfold has_row. intros Hwf Hlog.
  destruct (log_habit_spec _ _ _ _ _ _ _ Hwf Hlog)
    as (_ & _ & _ & _ & (row & Hrows & _) & Hother & _).
  assert (Hnew : Database.get_daily_log st' habit_id d <> None).
  { rewrite (rows_for_get_daily_log _ _ _ _ Hrows). discriminate. }
  split; [exact Hnew|]. intros h' d' Hrow.
  destruct (Z.eq_dec h' habit_id) as [->|Hh];
    [destruct (Z.eq_dec d' d) as [->|Hd]; [exact Hnew|]|];
    (rewrite get_daily_log_rows, Hother, <- get_daily_log_rows by congruence;
     exact Hrow).
Qed.

Lemma dict_get_has_row (st : Store) (habit_ids : list Z) (d k : Z) (log : HabitLog) :
  Database.dict_get (Database.get_daily_logs_batch st habit_ids d) k = Some log ->
  has_row st k d.
Proof.
  unfold Database.dict_get, Database.get_daily_logs_batch, has_row.
  destruct habit_ids as [|i0 ids0]; [discriminate|].
  rewrite <- map_rev, find_map_pair. intros Hf.
  apply find_some in Hf. destruct Hf as [Hin Hk]. apply Z.eqb_eq in Hk.
  rewrite <- in_rev in Hin. apply filter_In in Hin. destruct Hin as [Hin Hp].
  apply andb_true_iff in Hp. destruct Hp as [_ Hd].
  unfold Database.get_daily_log. intros Hnone.
  pose proof (find_none _ _ Hnone log Hin) as Hn. simpl in Hn.
  rewrite Hk, Hd, Z.eqb_refl in Hn. discriminate.
Qed.

(** The zero fill keeps the values and loses no row; where every call of
    [log_habit] finds a goal and a value to read, it leaves a row for every
    habit of the list. *)
Lemma zero_fill_effect `{Backend} (st0 : Store) (user_id today : Z)
    (logs : Database.LogDict) (hs : list Habit) :
  forall st,
    values_kept st0 st ->
    let st' := HabitTracker.zero_fill st user_id today logs hs in
    values_kept st0 st'
    /\ (forall h' d', has_row st h' d' -> has_row st' h' d')
    /\ ((forall h, In h hs -> In (h_id h) (map h_id (habits st0))) ->
        (forall h, In h (habits st0) -> readable_on st0 today h) ->
        (forall h, In h hs -> HabitTracker.not_completed logs h = false ->
                   has_row st (h_id h) today) ->
        forall h, In h hs -> has_row st' (h_id h) today).
Proof.
  induction hs as [|habit tl IH]; intros st Hk; simpl.
  - split; [exact Hk|]. split; [auto|]. intros _ _ _ h [].
  - destruct (HabitTracker.not_completed logs habit) eqn:Enc.
    + destruct (Database.log_habit st (h_id habit) user_id (Finite 0) today)
        as [[st1 r]|] eqn:Hlog.
      * destruct (log_habit_keeps_rows _ _ _ _ _ _ _ (proj1 Hk) Hlog) as [Hnew Hmono].
        destruct (IH st1 (log_zero_values_kept _ _ _ _ _ _ _ Hk Hlog))
          as (Hk' & Hm' & Hrows).
        split; [exact Hk'|]. split; [intros h' d' Hr; apply Hm', Hmono, Hr|].
        intros Hids Hread Hdone h [<-|Hh]; [apply Hm', Hnew|].
        apply Hrows; [intros h0 Hh0; apply Hids; now right | exact Hread | | exact Hh].
        intros h0 Hh0 Hc. apply Hmono. apply Hdone; [now right | exact Hc].
      * split; [exact Hk|]. split; [auto|].
        intros Hids Hread Hdone. exfalso.
        assert (Hex : exists habit', Database.get_habit st (h_id habit) = Some habit'
                                     /\ In habit' (habits st0)).
        { unfold Database.get_habit. destruct Hk as (_ & Hh & _). rewrite Hh.
          destruct (find (fun h => h_id h =? h_id habit) (habits st0)) as [b|] eqn:Hf.
          - exists b. split; [reflexivity|]. now apply find_some in Hf.
          - exfalso. specialize (Hids habit (or_introl eq_refl)).
            apply in_map_iff in Hids. destruct Hids as (x & Hx & Hin).
            pose proof (find_none _ _ Hf x Hin) as Hn. simpl in Hn.
            rewrite Hx, Z.eqb_refl in Hn. discriminate. }
        destruct Hex as (habit' & Hh' & Hin').
        destruct (log_habit_succeeds st (h_id habit) user_id (Finite 0) today habit' Hh'
                    (readable_kept _ _ _ _ Hk (Hread habit' Hin')))
          as (st1 & r & Hlog').
        congruence.
    + destruct (IH st Hk) as (Hk' & Hm' & Hrows).
      split; [exact Hk'|]. split; [exact Hm'|].
      intros Hids Hread Hdone h [<-|Hh].
      * apply Hm'. apply Hdone; [now left | exact Enc].
      * apply Hrows; [intros h0 Hh0; apply Hids; now right | exact Hread | | exact Hh].
        intros h0 Hh0 Hc. apply Hdone; [now right | exact Hc].
Qed.

Section SweepValues.
Context `{Backend}.

Lemma get_user_habits_eq (st st' : Store) (user_id : Z) :
  habits st' = habits st ->
  Database.get_user_habits st' user_id = Database.get_user_habits st user_id.
Proof. intros E. unfold Database.get_user_habits. now rewrite E. Qed.

Lemma tracker_expire_one_effect (bot_instance : option Bot) (today : Z) (st0 : Store)
    (w : World) (notif : PendingNotification) :
  values_kept st0 (store w) ->
  let w' := HabitTracker.expire_one bot_instance today w notif in
  values_kept st0 (store w')
  /\ ((forall h, In h (habits st0) -> readable_on st0 today h) ->
      forall h, In h (Database.get_user_habits st0 (pn_user_id notif)) ->
                has_row (store w') (h_id h) today)
  /\ (forall h' d', has_row (store w) h' d' -> has_row (store w') h' d').
Proof.
  intros Hk. cbv zeta. unfold HabitTracker.expire_one.
  set (w1 := match bot_instance, message_id notif, chat_id notif with
             | Some _, Some msg, Some chat =>
                 if truthy (message_id notif) && truthy (chat_id notif)
                 then call w (store w) (DeleteMessage chat msg) else w
             | _, _, _ => w
             end).
  assert (H1 : store w1 = store w).
  { unfold w1. destruct bot_instance, (message_id notif), (chat_id notif); try reflexivity.
    destruct (truthy (Some z) && truthy (Some z0)); reflexivity. }
  assert (Hhs : Database.get_user_habits (store w1) (pn_user_id notif)
                = Database.get_user_habits st0 (pn_user_id notif)).
  { rewrite H1. apply get_user_habits_eq. apply Hk. }
  rewrite Hhs.
  destruct (Database.get_user_habits st0 (pn_user_id notif)) as [|h0 tl] eqn:Ehs.
  - rewrite H1. split; [exact Hk|]. split; [intros _ h []|auto].
  - cbv beta iota zeta. cbn [store]. rewrite H1.
    match goal with
    | |- context [HabitTracker.zero_fill ?st ?u ?t ?logs ?hs] =>
        destruct (zero_fill_effect st0 u t logs hs st Hk) as (Hk' & Hm & Hrows)
    end.
    split; [exact Hk'|]. split; [|exact Hm].
    intros Hread. apply Hrows; [|exact Hread|].
    + intros h Hh. rewrite <- Ehs in Hh. apply in_map.
      now apply get_user_habits_in in Hh.
    + intros h Hh Hc. unfold HabitTracker.not_completed in Hc.
      destruct (Database.dict_get _ (h_id h)) as [log|] eqn:Ed; [|discriminate].
      eapply dict_get_has_row. exact Ed.
Qed.

Lemma expire_one_effect (bot_instance : option Bot) (today : Z) (st0 : Store)
    (w : World) (notif : PendingNotification) :
  values_kept st0 (store w) ->
  let w' := Scheduler.expire_one bot_instance today w notif in
  values_kept st0 (store w')
  /\ (forall habit,
        Database.get_habit st0 (pn_habit_id notif) = Some habit ->
        Database.sql_real (daily_goal habit) <> None ->
        has_row (store w') (pn_habit_id notif) today)
  /\ (forall h' d', has_row (store w) h' d' -> has_row (store w') h' d').
Proof.
  intros Hk. cbv zeta. unfold Scheduler.expire_one.
  destruct (Database.log_habit (store w) (pn_habit_id notif) (pn_user_id notif)
              (Finite 0) today) as [[st1 r]|] eqn:Hlog.
  - destruct (log_habit_keeps_rows _ _ _ _ _ _ _ (proj1 Hk) Hlog) as [Hnew Hmono].
    pose proof (log_zero_values_kept _ _ _ _ _ _ _ Hk Hlog) as Hk1.
    assert (E : forall w', store w' = st1 ->
                  values_kept st0 (store w')
                  /\ (forall habit,
                        Database.get_habit st0 (pn_habit_id notif) = Some habit ->
                        Database.sql_real (daily_goal habit) <> None ->
                        has_row (store w') (pn_habit_id notif) today)
                  /\ (forall h' d', has_row (store w) h' d' -> has_row (store w') h' d')).
    { intros w' ->. auto. }
    destruct bot_instance; [destruct (Database.get_habit st1 (pn_habit_id notif))|];
      apply E; reflexivity.
  - split; [exact Hk|]. split; [|auto].
    intros habit Hex Hgoal.
    assert (Hg : Database.get_habit (store w) (pn_habit_id notif) = Some habit).
    { unfold Database.get_habit in *. destruct Hk as (_ & Hh & _). now rewrite Hh. }
    unfold has_row.
    destruct (Database.get_daily_log (store w) (pn_habit_id notif) today) as [e|] eqn:He;
      [discriminate|].
    exfalso.
    destruct (log_habit_succeeds (store w) (pn_habit_id notif) (pn_user_id notif)
                (Finite 0) today habit Hg) as (st1 & r & Hlog').
    + split; [|exact Hgoal]. rewrite (get_habit_id _ _ _ Hg), He. discriminate.
    + congruence.
Qed.

(** A loop of zero fills: the values are kept, and every entry gets what its
    turn establishes, since later turns only add rows. *)
Lemma sweep_fold (f : World -> PendingNotification -> World) (st0 : Store)
    (covered : PendingNotification -> Store -> Prop) (today : Z) :
  (forall w n, values_kept st0 (store w) ->
               values_kept st0 (store (f w n))
               /\ covered n (store (f w n))
               /\ (forall h' d', has_row (store w) h' d' -> has_row (store (f w n)) h' d')) ->
  (forall n st st', covered n st ->
                    (forall h' d', has_row st h' d' -> has_row st' h' d') ->
                    covered n st') ->
  forall l w,
    values_kept st0 (store w) ->
    values_kept st0 (store (fold_left f l w))
    /\ (forall n, In n l -> covered n (store (fold_left f l w)))
    /\ (forall h' d', has_row (store w) h' d' -> has_row (store (fold_left f l w)) h' d').
Proof.
  intros Hf Hmono. induction l as [|a tl IH]; intros w Hk; simpl.
  - split; [exact Hk|]. split; [intros n []|auto].
  - destruct (Hf w a Hk) as (Hk1 & Hc1 & Hm1).
    destruct (IH (f w a) Hk1) as (Hk2 & Hc2 & Hm2).
    split; [exact Hk2|]. split.
    + intros n [<-|Hn]; [|now apply Hc2].
      eapply Hmono; [exact Hc1 | exact Hm2].
    + intros h' d' Hr. apply Hm2, Hm1, Hr.
Qed.

(** X2. A sweep of either scheduler changes no value on record: counting a
    missing row as 0, every habit has on every date the value it had before
    the sweep.  So the completion that settlement computes, and the points
    it will credit, are the same whether or not a sweep ran. *)
Theorem sweep_keeps_values
    (bot_instance : option Bot) (w : World) (now now' today : Z) :
  logs_wf (store w) ->
  let swept := Scheduler.check_expired_notifications bot_instance w now now' today in
  let swept' := HabitTracker.check_expired_notifications bot_instance w now now' today in
  forall st, st = store swept \/ st = store swept' ->
    (forall h d,
        real_eq (value_on_record (Database.get_daily_log st h d))
                (value_on_record (Database.get_daily_log (store w) h d)))
    /\ (forall day h, completed_on st day h = completed_on (store w) day h)
    /\ (forall day user_id m, credits st day user_id m = credits (store w) day user_id m).
Proof.
  intros Hwf swept swept' st Hst.
  assert (Hk : values_kept (store w) st).
  { destruct Hst as [-> | ->].
    - unfold swept, Scheduler.check_expired_notifications.
      destruct (sweep_fold (Scheduler.expire_one bot_instance today) (store w)
                  (fun _ _ => True) today) with
        (l := Database.get_expired_notifications (store w) now) (w := w)
        as (Hk & _).
      + intros w0 n Hk0. destruct (expire_one_effect bot_instance today (store w) w0 n Hk0)
          as (Ha & _ & Hc). auto.
      + auto.
      + now apply values_kept_refl.
      + destruct Hk as (Hw & Hh & Hu & Hp & Hv). repeat split; auto; apply Hw.
    - unfold swept', HabitTracker.check_expired_notifications.
      destruct (sweep_fold (HabitTracker.expire_one bot_instance today) (store w)
                  (fun _ _ => True) today) with
        (l := Database.get_expired_notifications (store w) now) (w := w)
        as (Hk & _).
      + intros w0 n Hk0.
        destruct (tracker_expire_one_effect bot_instance today (store w) w0 n Hk0)
          as (Ha & _ & Hc). auto.
      + auto.
      + now apply values_kept_refl.
      + destruct Hk as (Hw & Hh & Hu & Hp & Hv). repeat split; auto; apply Hw. }
  destruct Hk as (_ & Hh & _ & _ & Hv).
  assert (Hc : forall day h, completed_on st day h = completed_on (store w) day h).
  { intros day h. unfold completed_on. apply completion_eq, Hv. }
  split; [exact Hv|]. split; [exact Hc|].
  intros day user_id m. unfold credits. rewrite Hh.
  f_equal. apply filter_ext. intros h. now rewrite Hc.
Qed.

(** X3. A sweep loses no row of the log table.  After a sweep of
    [scheduler.py] the habit of every entry it selected has a row for the
    day, if the habit exists and its goal does not read as [None] (the zero
    is compared with the goal before it is inserted).  After a sweep with
    the consolidated prompts every active habit of the user of every
    selected entry has a row for the day, where the goal and the value of
    every habit of the table are there to be read: a TypeError leaves the
    loop over the habits of the user. *)
Theorem sweep_records_the_day
    (bot_instance : option Bot) (w : World) (now now' today : Z) :
  logs_wf (store w) ->
  let swept := Scheduler.check_expired_notifications bot_instance w now now' today in
  let swept' := HabitTracker.check_expired_notifications bot_instance w now now' today in
  (forall n, In n (Database.get_expired_notifications (store w) now) ->
     (forall habit,
        Database.get_habit (store w) (pn_habit_id n) = Some habit ->
        Database.sql_real (daily_goal habit) <> None ->
        has_row (store swept) (pn_habit_id n) today)
     /\ ((forall h, In h (habits (store w)) -> readable_on (store w) today h) ->
         forall h, In h (Database.get_user_habits (store w) (pn_user_id n)) ->
                   has_row (store swept') (h_id h) today))
  /\ (forall h d, has_row (store w) h d ->
                  has_row (store swept) h d /\ has_row (store swept') h d).
Proof.
  intros Hwf swept swept'.
  pose proof (values_kept_refl (store w) Hwf) as Hk0.
  destruct (sweep_fold (Scheduler.expire_one bot_instance today) (store w)
              (fun n st => forall habit,
                             Database.get_habit (store w) (pn_habit_id n) = Some habit ->
                             Database.sql_real (daily_goal habit) <> None ->
                             has_row st (pn_habit_id n) today) today)
    with (l := Database.get_expired_notifications (store w) now) (w := w)
    as (_ & Hc & Hm).
  { intros w0 n Hk. apply expire_one_effect, Hk. }
  { intros n st st' Hcov Hmono habit Hex Hg. apply Hmono, (Hcov habit Hex Hg). }
  { exact Hk0. }
  destruct (sweep_fold (HabitTracker.expire_one bot_instance today) (store w)
              (fun n st =>
                 (forall h, In h (habits (store w)) -> readable_on (store w) today h) ->
                 forall h, In h (Database.get_user_habits (store w) (pn_user_id n)) ->
                           has_row st (h_id h) today) today)
    with (l := Database.get_expired_notifications (store w) now) (w := w)
    as (_ & Hc' & Hm').
  { intros w0 n Hk. apply tracker_expire_one_effect, Hk. }
  { intros n st st' Hcov Hmono Hread h Hh. apply Hmono, Hcov; auto. }
  { exact Hk0. }
  split.
  - intros n Hn. split; [exact (Hc n Hn) | exact (Hc' n Hn)].
  - intros h d Hr. split; [exact (Hm h d Hr) | exact (Hm' h d Hr)].
Qed.

End SweepValues.

(** The sweep of the two unanswered prompts of the example: the zero of
    [run] is a new row and no value changes. *)
Lemma sweep_keeps_values_witness :
  let w := Example.world_pending in
  let swept := Scheduler.check_expired_notifications
                 (Some Example.bot) w 491 492 Example.day in
  List.length (habit_logs (store swept)) = 1%nat
  /\ (forall h d,
         real_eq (value_on_record (Database.get_daily_log (store swept) h d))
                 (value_on_record (Database.get_daily_log (store w) h d)))
  /\ (forall day h, completed_on (store swept) day h = completed_on (store w) day h).
Proof.
  intros w swept. split; [reflexivity|].
  assert (Hwf : logs_wf (store w)).
  { unfold logs_wf. simpl. repeat constructor. }
  destruct (sweep_keeps_values (H := sqlite_backend) (Some Example.bot) w 491 492
              Example.day Hwf (store swept) (or_introl eq_refl)) as (Hv & Hc & _).
  split; [exact Hv | exact Hc].
Defined.

Lemma sweep_records_the_day_witness :
  let w := Example.world_pending in
  let swept := Scheduler.check_expired_notifications
                 (Some Example.bot) w 491 492 Example.day in
  let swept' := HabitTracker.check_expired_notifications (H := sqlite_backend)
                  (Some Example.bot) w 491 492 Example.day in
  ~ has_row (store w) 1 Example.day
  /\ has_row (store swept) 1 Example.day
  /\ has_row (store swept') 1 Example.day
  /\ has_row (store swept') 2 Example.day.
Proof.
  intros w swept swept'.
  assert (Hwf : logs_wf (store w)).
  { unfold logs_wf. simpl. repeat constructor. }
  assert (Hread : forall h, In h (habits (store w)) -> readable_on (store w) Example.day h).
  { intros h [<-|[<-|[]]]; split; discriminate. }
  destruct (sweep_records_the_day (H := sqlite_backend) (Some Example.bot) w 491 492
              Example.day Hwf) as [Hsel _].
  destruct (Hsel (mkPending 1 100 1 (Some 5000) (Some 100) 480 490 false)) as [H1 H2].
  { simpl. now left. }
  split; [intros Hr; apply Hr; reflexivity|].
  split; [apply (H1 Example.run); [reflexivity | discriminate]|].
  split.
  - apply (H2 Hread Example.run). simpl. now right; left.
  - apply (H2 Hread Example.read). simpl. now left.
Defined.

(** ** The issuers *)

Lemma only_ledger_sym_habits (st st' : Store) :
  only_ledger st st' -> habits st' = habits st /\ habit_logs st' = habit_logs st
                        /\ users st' = users st.
Proof. intros (Hu & Hh & Hl & _). auto. Qed.

Section Issuers.
Context `{Backend}.

(** One user of the consolidated issuer. *)
Lemma consolidated_step (bot_instance : option Bot) (st0 : Store) (w : World)
    (check_time : string) (now today : Z) (user : User) :
  only_ledger st0 (store w) ->
  In user (users st0) ->
  forall w',
  w' =
    (if existsb (String.eqb check_time) (notification_times user)
     then
       match Database.get_user_habits (store w) (u_user_id user) with
       | [] => w
       | hs =>
           let logs := Database.get_daily_logs_batch (store w) (map h_id hs) today in
           match filter (HabitTracker.not_completed logs) hs with
           | [] => w
           | uncompleted =>
               HabitTracker.send_consolidated_notification bot_instance w
                 (u_user_id user) uncompleted now
           end
       end
     else w) ->
  let hs := Database.get_user_habits st0 (u_user_id user) in
  let logs := Database.get_daily_logs_batch st0 (map h_id hs) today in
  only_ledger st0 (store w')
  /\ exists new,
       pending_notifications (store w') = pending_notifications (store w) ++ new
       /\ (List.length new <= 1)%nat
       /\ Forall (fun n => consolidated_entry st0 check_time now today n
                           /\ pn_user_id n = u_user_id user) new
       /\ (forall bot,
             bot_instance = Some bot ->
             (forall c, send_message bot (u_user_id user) c <> None) ->
             existsb (String.eqb check_time) (notification_times user) = true ->
             (exists h, In h hs /\ HabitTracker.not_completed logs h = true) ->
             new <> []).
Proof.
  intros Hol Huser w' -> hs logs.
  destruct (only_ledger_sym_habits _ _ Hol) as (Hh & Hl & _).
  assert (Ehs : Database.get_user_habits (store w) (u_user_id user) = hs)
    by (apply get_user_habits_eq; exact Hh).
  assert (Elogs : forall ids, Database.get_daily_logs_batch (store w) ids today
                              = Database.get_daily_logs_batch st0 ids today).
  { intros ids. unfold Database.get_daily_logs_batch. now rewrite Hl. }
  assert (Hnone : forall w0, w0 = w ->
            only_ledger st0 (store w0)
            /\ exists new,
                 pending_notifications (store w0) = pending_notifications (store w) ++ new
                 /\ (List.length new <= 1)%nat
                 /\ Forall (fun n => consolidated_entry st0 check_time now today n
                                     /\ pn_user_id n = u_user_id user) new).
  { intros w0 ->. split; [exact Hol|]. exists []. rewrite app_nil_r.
    repeat split; auto. }
  destruct (existsb (String.eqb check_time) (notification_times user)) eqn:Etime.
  2:{ destruct (Hnone w eq_refl) as (A & new & B & C & D).
      split; [exact A|]. exists new. repeat split; auto. intros; discriminate. }
  cbv zeta. rewrite Ehs.
  destruct hs as [|h0 tl] eqn:Ehs0.
  { destruct (Hnone w eq_refl) as (A & new & B & C & D).
    split; [exact A|]. exists new. repeat split; auto.
    intros bot _ _ _ (h & [] & _). }
  rewrite Elogs. fold logs.
  destruct (filter (HabitTracker.not_completed logs) (h0 :: tl)) as [|first rest] eqn:Ef.
  { destruct (Hnone w eq_refl) as (A & new & B & C & D).
    split; [exact A|]. exists new. repeat split; auto.
    intros bot _ _ _ (h & Hin & Hnc). exfalso.
    assert (Hf : In h (filter (HabitTracker.not_completed logs) (h0 :: tl)))
      by (apply filter_In; auto).
    rewrite Ef in Hf. exact Hf. }
  assert (Hfirst : In first (h0 :: tl) /\ HabitTracker.not_completed logs first = true).
  { apply filter_In. rewrite Ef. now left. }
  unfold HabitTracker.send_consolidated_notification.
  destruct bot_instance as [bot|].
  2:{ destruct (Hnone w eq_refl) as (A & new & B & C & D).
      split; [exact A|]. exists new. repeat split; auto. intros; discriminate. }
  destruct (send_message bot (u_user_id user) (ReportPrompt (map h_id (first :: rest))))
    as [msg|] eqn:Esend.
  - split.
    + eapply only_ledger_trans; [exact Hol|]. repeat split.
    + eexists. split; [reflexivity|]. split; [simpl; lia|]. split.
      * constructor; [|constructor]. split; [|reflexivity].
        unfold consolidated_entry, fresh_entry. simpl.
        split; [auto|]. split; [reflexivity|]. split.
        -- exists user. auto.
        -- exists first. fold hs. rewrite Ehs0. fold logs. tauto.
      * intros; discriminate.
  - split.
    + eapply only_ledger_trans; [exact Hol|]. repeat split.
    + exists []. simpl. rewrite app_nil_r. repeat split; auto.
      intros bot0 Hb Hsend _ _. injection Hb as <-.
      exfalso. exact (Hsend _ Esend).
Qed.

Lemma consolidated_fold (bot_instance : option Bot) (st0 : Store)
    (check_time : string) (now today : Z) (us : list User) :
  NoDup (map u_user_id us) ->
  incl us (users st0) ->
  forall w,
    only_ledger st0 (store w) ->
    forall w',
    w' =
      fold_left
        (fun w user =>
           if existsb (String.eqb check_time) (notification_times user)
           then
             match Database.get_user_habits (store w) (u_user_id user) with
             | [] => w
             | hs =>
                 let logs := Database.get_daily_logs_batch (store w) (map h_id hs) today in
                 match filter (HabitTracker.not_completed logs) hs with
                 | [] => w
                 | uncompleted =>
                     HabitTracker.send_consolidated_notification bot_instance w
                       (u_user_id user) uncompleted now
                 end
             end
           else w)
        us w ->
    exists new,
      pending_notifications (store w') = pending_notifications (store w) ++ new
      /\ Forall (consolidated_entry st0 check_time now today) new
      /\ Forall (fun n => In (pn_user_id n) (map u_user_id us)) new
      /\ NoDup (map pn_user_id new)
      /\ (forall bot user,
            bot_instance = Some bot ->
            In user us ->
            (forall c, send_message bot (u_user_id user) c <> None) ->
            existsb (String.eqb check_time) (notification_times user) = true ->
            (exists h, In h (Database.get_user_habits st0 (u_user_id user))
                       /\ HabitTracker.not_completed
                            (Database.get_daily_logs_batch st0
                               (map h_id (Database.get_user_habits st0 (u_user_id user)))
                               today) h = true) ->
            exists n, In n new /\ pn_user_id n = u_user_id user).
Proof.
  induction us as [|a tl IH]; intros Hnd Hincl w Hol w' ->.
  - exists []. simpl. rewrite app_nil_r. repeat split; auto; try constructor.
    intros bot user _ [].
  - inversion Hnd as [|x xs Hnotin Hnd']; subst.
    match goal with
    | |- context [fold_left ?f (a :: tl) w] =>
        change (fold_left f (a :: tl) w) with (fold_left f tl (f w a));
        destruct (consolidated_step bot_instance st0 w check_time now today a Hol
                    (Hincl a (or_introl eq_refl)) (f w a) eq_refl)
          as (Hol1 & new1 & Hp1 & Hlen1 & Hall1 & Hlive1);
        destruct (IH Hnd' (fun u Hu => Hincl u (or_intror Hu)) (f w a) Hol1
                    (fold_left f tl (f w a)) eq_refl)
          as (new2 & Hp2 & Hall2 & Hin2 & Hnd2 & Hlive2)
    end.
    exists (new1 ++ new2).
    split; [rewrite Hp2, Hp1, app_assoc; reflexivity|].
    split.
    { apply Forall_app. split; [|exact Hall2].
      eapply Forall_impl; [|exact Hall1]. intros n Hn. apply Hn. }
    split.
    { apply Forall_app. split.
      - eapply Forall_impl; [|exact Hall1]. intros n [_ Hn]. left. now rewrite Hn.
      - eapply Forall_impl; [|exact Hin2]. intros n Hn. now right. }
    split.
    { rewrite map_app.
      destruct new1 as [|n1 [|n1' rest1]]; [exact Hnd2| |simpl in Hlen1; lia].
      simpl. constructor; [|exact Hnd2].
      inversion Hall1 as [|? ? [_ Hu] _]; subst. rewrite Hu.
      intros Hin. apply Hnotin. apply in_map_iff in Hin. destruct Hin as (n & Hn & Hin).
      rewrite Forall_forall in Hin2. rewrite <- Hn. now apply Hin2. }
    intros bot user Hb [<-|Hu] Hsend Htime Hex.
    + destruct new1 as [|n1 rest1].
      * exfalso. exact (Hlive1 bot Hb Hsend Htime Hex eq_refl).
      * exists n1. split; [now left|]. inversion Hall1 as [|? ? [_ Hu] _]; subst. exact Hu.
    + destruct (Hlive2 bot user Hb Hu Hsend Htime Hex) as (n & Hn & Hnu).
      exists n. split; [apply in_or_app; now right | exact Hnu].
Qed.

(** X4. A run of the consolidated issuer appends to the ledger at most one
    entry per user (the user ids being distinct) and writes nothing else.
    Each new entry is unanswered, opens a window of 10 from [now], goes to a
    user who has [check_time] among the configured times and refers to an
    active habit of that user that is not completed for the day.  When the
    gateway delivers, every such user with a habit not completed gets an
    entry.  A sweep selects a new entry only once the clock has passed
    [now + 10]. *)
Theorem consolidated_issuer
    (bot_instance : option Bot) (w : World) (check_time : string) (now today : Z) :
  NoDup (map u_user_id (users (store w))) ->
  let w' := HabitTracker.check_notifications_for_time bot_instance w check_time now today in
  only_ledger (store w) (store w')
  /\ exists new,
       pending_notifications (store w') = pending_notifications (store w) ++ new
       /\ Forall (consolidated_entry (store w) check_time now today) new
       /\ NoDup (map pn_user_id new)
       /\ (forall bot user,
             bot_instance = Some bot ->
             In user (users (store w)) ->
             (forall c, send_message bot (u_user_id user) c <> None) ->
             existsb (String.eqb check_time) (notification_times user) = true ->
             (exists h, In h (Database.get_user_habits (store w) (u_user_id user))
                        /\ HabitTracker.not_completed
                             (Database.get_daily_logs_batch (store w)
                                (map h_id (Database.get_user_habits (store w)
                                             (u_user_id user)))
                                today) h = true) ->
             exists n, In n new /\ pn_user_id n = u_user_id user)
       /\ (forall n t, In n new ->
             (In n (Database.get_expired_notifications (store w') t) <-> now + 10 < t)).
Proof.
  intros Hnd w'.
  split; [apply (check_notifications_only_ledger bot_instance w check_time now today)|].
  destruct (consolidated_fold bot_instance (store w) check_time now today
              (users (store w)) Hnd (incl_refl _) w (only_ledger_refl _) w' eq_refl)
    as (new & Hp & Hall & _ & Hndn & Hlive).
  exists new. split; [exact Hp|]. split; [exact Hall|]. split; [exact Hndn|].
  split; [exact Hlive|].
  intros n t Hn. unfold Database.get_expired_notifications. rewrite filter_In.
  rewrite Forall_forall in Hall.
  destruct (Hall n Hn) as ((Hr & _ & He) & _).
  rewrite Hp, Hr, He. simpl. rewrite Z.ltb_lt. split; [tauto|].
  intros Hlt. split; [apply in_or_app; now right | exact Hlt].
Qed.

(** One habit of the issuer of the root scheduler. *)
Lemma habit_step (bot_instance : option Bot) (st0 : Store) (w : World)
    (check_time : string) (now now_kz today : Z) (user : User) (habit : Habit) :
  only_ledger st0 (store w) ->
  In user (users st0) ->
  existsb (String.eqb check_time) (notification_times user) = true ->
  In habit (Database.get_user_habits st0 (u_user_id user)) ->
  forall w',
  w' =
    match Database.get_daily_log (store w) (h_id habit) today with
    | Some log =>
        if log_completed log then w
        else Scheduler.send_habit_notification bot_instance w (u_user_id user) habit now now_kz
    | None => Scheduler.send_habit_notification bot_instance w (u_user_id user) habit now now_kz
    end ->
  only_ledger st0 (store w')
  /\ exists new,
       pending_notifications (store w') = pending_notifications (store w) ++ new
       /\ (List.length new <= 1)%nat
       /\ Forall (fun n => habit_entry st0 check_time now now_kz today n
                           /\ pn_user_id n = u_user_id user
                           /\ pn_habit_id n = h_id habit) new
       /\ (forall bot,
             bot_instance = Some bot ->
             (forall c, send_message bot (u_user_id user) c <> None) ->
             option_map log_completed (Database.get_daily_log st0 (h_id habit) today)
             <> Some true ->
             new <> []).
Proof.
  intros Hol Huser Htime Hhabit w' ->.
  destruct (only_ledger_sym_habits _ _ Hol) as (Hh & Hl & _).
  assert (Elog : Database.get_daily_log (store w) (h_id habit) today
                 = Database.get_daily_log st0 (h_id habit) today).
  { unfold Database.get_daily_log. now rewrite Hl. }
  rewrite Elog.
  assert (Hnone :
            only_ledger st0 (store w)
            /\ exists new,
                 pending_notifications (store w) = pending_notifications (store w) ++ new
                 /\ (List.length new <= 1)%nat
                 /\ Forall (fun n => habit_entry st0 check_time now now_kz today n
                                     /\ pn_user_id n = u_user_id user
                                     /\ pn_habit_id n = h_id habit) new).
  { split; [exact Hol|]. exists []. rewrite app_nil_r. repeat split; auto. }
  assert (Hsend :
            option_map log_completed (Database.get_daily_log st0 (h_id habit) today)
            <> Some true ->
            let w' := Scheduler.send_habit_notification bot_instance w (u_user_id user)
                        habit now now_kz in
            only_ledger st0 (store w')
            /\ exists new,
                 pending_notifications (store w') = pending_notifications (store w) ++ new
                 /\ (List.length new <= 1)%nat
                 /\ Forall (fun n => habit_entry st0 check_time now now_kz today n
                                     /\ pn_user_id n = u_user_id user
                                     /\ pn_habit_id n = h_id habit) new
                 /\ (forall bot,
                       bot_instance = Some bot ->
                       (forall c, send_message bot (u_user_id user) c <> None) ->
                       new <> [])).
  { intros Hnc. unfold Scheduler.send_habit_notification.
    destruct bot_instance as [bot|].
    2:{ destruct Hnone as (A & new & B & C & D).
        split; [exact A|]. exists new. repeat split; auto. intros; discriminate. }
    destruct (send_message bot (u_user_id user) (ReportPrompt [h_id habit]))
      as [msg|] eqn:Esend.
    - split.
      + eapply only_ledger_trans; [exact Hol|]. repeat split.
      + eexists. split; [reflexivity|]. split; [simpl; lia|]. split.
        * constructor; [|constructor]. split; [|split; reflexivity].
          unfold habit_entry, fresh_entry. simpl.
          split; [auto|]. split.
          -- exists user. auto.
          -- exists habit. auto.
        * intros; discriminate.
    - split.
      + eapply only_ledger_trans; [exact Hol|]. repeat split.
      + exists []. simpl. rewrite app_nil_r. repeat split; auto.
        intros bot0 Hb Hs. injection Hb as <-. exfalso. exact (Hs _ Esend). }
  destruct (Database.get_daily_log st0 (h_id habit) today) as [log|] eqn:Eg.
  - destruct (log_completed log) eqn:Ec.
    + destruct Hnone as (A & new & B & C & D).
      split; [exact A|]. exists new. repeat split; auto.
      intros bot _ _ Hnc. exfalso. apply Hnc. simpl. now rewrite Ec.
    + destruct Hsend as (A & new & B & C & D & E).
      { simpl. rewrite Ec. discriminate. }
      split; [exact A|]. exists new. repeat split; auto.
      intros bot Hb Hs _. exact (E bot Hb Hs).
  - destruct Hsend as (A & new & B & C & D & E).
    { simpl. discriminate. }
    split; [exact A|]. exists new. repeat split; auto.
    intros bot Hb Hs _. exact (E bot Hb Hs).
Qed.

Lemma habit_fold (bot_instance : option Bot) (st0 : Store)
    (check_time : string) (now now_kz today : Z) (user : User) (hs : list Habit) :
  In user (users st0) ->
  existsb (String.eqb check_time) (notification_times user) = true ->
  NoDup (map h_id hs) ->
  incl hs (Database.get_user_habits st0 (u_user_id user)) ->
  forall w,
    only_ledger st0 (store w) ->
    forall w',
    w' =
      fold_left
        (fun w habit =>
           match Database.get_daily_log (store w) (h_id habit) today with
           | Some log =>
               if log_completed log then w
               else Scheduler.send_habit_notification bot_instance w (u_user_id user)
                      habit now now_kz
           | None =>
               Scheduler.send_habit_notification bot_instance w (u_user_id user) habit now now_kz
           end)
        hs w ->
    only_ledger st0 (store w')
    /\ exists new,
         pending_notifications (store w') = pending_notifications (store w) ++ new
         /\ Forall (fun n => habit_entry st0 check_time now now_kz today n
                             /\ pn_user_id n = u_user_id user
                             /\ In (pn_habit_id n) (map h_id hs)) new
         /\ NoDup (map pn_habit_id new)
         /\ (forall bot h,
               bot_instance = Some bot ->
               In h hs ->
               (forall c, send_message bot (u_user_id user) c <> None) ->
               option_map log_completed (Database.get_daily_log st0 (h_id h) today)
               <> Some true ->
               exists n, In n new /\ pn_user_id n = u_user_id user
                         /\ pn_habit_id n = h_id h).
Proof.
  intros Huser Htime.
  induction hs as [|a tl IH]; intros Hnd Hincl w Hol w' ->.
  - split; [exact Hol|]. exists []. simpl. rewrite app_nil_r.
    repeat split; auto; try constructor. intros bot h _ [].
  - inversion Hnd as [|x xs Hnotin Hnd']; subst.
    match goal with
    | |- context [fold_left ?f (a :: tl) w] =>
        change (fold_left f (a :: tl) w) with (fold_left f tl (f w a));
        destruct (habit_step bot_instance st0 w check_time now now_kz today user a Hol
                    Huser Htime (Hincl a (or_introl eq_refl)) (f w a) eq_refl)
          as (Hol1 & new1 & Hp1 & Hlen1 & Hall1 & Hlive1);
        destruct (IH Hnd' (fun u Hu => Hincl u (or_intror Hu)) (f w a) Hol1
                    (fold_left f tl (f w a)) eq_refl)
          as (Hol2 & new2 & Hp2 & Hall2 & Hnd2 & Hlive2)
    end.
    split; [exact Hol2|].
    exists (new1 ++ new2).
    split; [rewrite Hp2, Hp1, app_assoc; reflexivity|].
    split.
    { apply Forall_app. split.
      - eapply Forall_impl; [|exact Hall1]. intros n (A & B & C).
        split; [exact A|]. split; [exact B|]. left. now rewrite C.
      - eapply Forall_impl; [|exact Hall2]. intros n (A & B & C).
        split; [exact A|]. split; [exact B|]. now right. }
    split.
    { rewrite map_app.
      destruct new1 as [|n1 [|n1' rest1]]; [exact Hnd2| |simpl in Hlen1; lia].
      simpl. constructor; [|exact Hnd2].
      inversion Hall1 as [|? ? (_ & _ & Hh) _]; subst. rewrite Hh.
      intros Hin. apply Hnotin. apply in_map_iff in Hin. destruct Hin as (n & Hn & Hin).
      rewrite Forall_forall in Hall2. rewrite <- Hn. now apply Hall2. }
    intros bot h Hb [<-|Hh] Hsend Hnc.
    + destruct new1 as [|n1 rest1].
      * exfalso. exact (Hlive1 bot Hb Hsend Hnc eq_refl).
      * exists n1. split; [now left|].
        inversion Hall1 as [|? ? (_ & Hu & Hi) _]; subst. auto.
    + destruct (Hlive2 bot h Hb Hh Hsend Hnc) as (n & Hn & Hnu).
      exists n. split; [apply in_or_app; now right | exact Hnu].
Qed.

Lemma habit_users_fold (bot_instance : option Bot) (st0 : Store)
    (check_time : string) (now now_kz today : Z) (us : list User) :
  NoDup (map h_id (habits st0)) ->
  NoDup (map u_user_id us) ->
  incl us (users st0) ->
  forall w,
    only_ledger st0 (store w) ->
    forall w',
    w' =
      fold_left
        (fun w user =>
           if existsb (String.eqb check_time) (notification_times user)
           then
             fold_left
               (fun w habit =>
                  match Database.get_daily_log (store w) (h_id habit) today with
                  | Some log =>
                      if log_completed log then w
                      else Scheduler.send_habit_notification bot_instance w
                             (u_user_id user) habit now now_kz
                  | None =>
                      Scheduler.send_habit_notification bot_instance w
                        (u_user_id user) habit now now_kz
                  end)
               (Database.get_user_habits (store w) (u_user_id user)) w
           else w)
        us w ->
    only_ledger st0 (store w')
    /\ exists new,
         pending_notifications (store w') = pending_notifications (store w) ++ new
         /\ Forall (habit_entry st0 check_time now now_kz today) new
         /\ Forall (fun n => In (pn_user_id n) (map u_user_id us)) new
         /\ NoDup (map (fun n => (pn_user_id n, pn_habit_id n)) new)
         /\ (forall bot user h,
               bot_instance = Some bot ->
               In user us ->
               (forall c, send_message bot (u_user_id user) c <> None) ->
               existsb (String.eqb check_time) (notification_times user) = true ->
               In h (Database.get_user_habits st0 (u_user_id user)) ->
               option_map log_completed (Database.get_daily_log st0 (h_id h) today)
               <> Some true ->
               exists n, In n new /\ pn_user_id n = u_user_id user
                         /\ pn_habit_id n = h_id h).
Proof.
  intros Hndh.
  induction us as [|a tl IH]; intros Hnd Hincl w Hol w' ->.
  - split; [exact Hol|]. exists []. simpl. rewrite app_nil_r.
    repeat split; auto; try constructor. intros bot user h _ [].
  - inversion Hnd as [|x xs Hnotin Hnd']; subst.
    match goal with
    | |- context [fold_left ?f (a :: tl) w] =>
        change (fold_left f (a :: tl) w) with (fold_left f tl (f w a));
        assert (S1 :
          only_ledger st0 (store (f w a))
          /\ exists new,
               pending_notifications (store (f w a)) = pending_notifications (store w) ++ new
               /\ Forall (fun n => habit_entry st0 check_time now now_kz today n
                                   /\ pn_user_id n = u_user_id a) new
               /\ NoDup (map pn_habit_id new)
               /\ (forall bot h,
                     bot_instance = Some bot ->
                     (forall c, send_message bot (u_user_id a) c <> None) ->
                     existsb (String.eqb check_time) (notification_times a) = true ->
                     In h (Database.get_user_habits st0 (u_user_id a)) ->
                     option_map log_completed (Database.get_daily_log st0 (h_id h) today)
                     <> Some true ->
                     exists n, In n new /\ pn_user_id n = u_user_id a
                               /\ pn_habit_id n = h_id h));
        [| destruct S1 as (Hol1 & new1 & Hp1 & Hall1 & Hnd1 & Hlive1);
           destruct (IH Hnd' (fun u Hu => Hincl u (or_intror Hu)) (f w a) Hol1
                       (fold_left f tl (f w a)) eq_refl)
             as (Hol2 & new2 & Hp2 & Hall2 & Hin2 & Hnd2 & Hlive2) ]
    end.
    { cbv beta.
      destruct (existsb (String.eqb check_time) (notification_times a)) eqn:Etime.
      - destruct (only_ledger_sym_habits _ _ Hol) as (Hh & _).
        rewrite (get_user_habits_eq _ _ _ Hh).
        match goal with
        | |- context [fold_left ?g ?hs w] =>
            destruct (habit_fold bot_instance st0 check_time now now_kz today a hs
                        (Hincl a (or_introl eq_refl)) Etime
                        (get_user_habits_nodup st0 (u_user_id a) Hndh)
                        (incl_refl _) w Hol (fold_left g hs w) eq_refl)
              as (A & new & B & C & D & E)
        end.
        split; [exact A|]. exists new. split; [exact B|]. split.
        { eapply Forall_impl; [|exact C]. intros n (P & Q & _). auto. }
        split; [exact D|].
        intros bot h Hb Hs _ Hh' Hnc. exact (E bot h Hb Hh' Hs Hnc).
      - split; [exact Hol|]. exists []. rewrite app_nil_r.
        repeat split; auto; try constructor. intros; discriminate. }
    split; [exact Hol2|].
    exists (new1 ++ new2).
    split; [rewrite Hp2, Hp1, app_assoc; reflexivity|].
    split.
    { apply Forall_app. split; [|exact Hall2].
      eapply Forall_impl; [|exact Hall1]. intros n Hn. apply Hn. }
    split.
    { apply Forall_app. split.
      - eapply Forall_impl; [|exact Hall1]. intros n [_ Hn]. left. now rewrite Hn.
      - eapply Forall_impl; [|exact Hin2]. intros n Hn. now right. }
    split.
    { rewrite map_app. apply NoDup_app.
      - clear - Hall1 Hnd1. induction new1 as [|n tl1 IH1]; simpl; [constructor|].
        inversion Hnd1 as [|? ? Hni Hnd1']; subst.
        inversion Hall1 as [|? ? _ Hall1']; subst.
        constructor; [|now apply IH1].
        intros Hin. apply Hni. apply in_map_iff in Hin. destruct Hin as (m & Hm & Hin).
        apply in_map_iff. exists m. split; [congruence | exact Hin].
      - exact Hnd2.
      - intros p Hp1' Hp2'. apply Hnotin.
        apply in_map_iff in Hp1'. destruct Hp1' as (n1 & <- & Hn1).
        apply in_map_iff in Hp2'. destruct Hp2' as (n2 & E2 & Hn2).
        rewrite Forall_forall in Hall1, Hin2.
        destruct (Hall1 n1 Hn1) as [_ <-].
        replace (pn_user_id n1) with (pn_user_id n2) by congruence.
        now apply Hin2. }
    intros bot user h Hb [<-|Hu] Hsend Htime Hh Hnc.
    + destruct (Hlive1 bot h Hb Hsend Htime Hh Hnc) as (n & Hn & Hnu).
      exists n. split; [apply in_or_app; now left | exact Hnu].
    + destruct (Hlive2 bot user h Hb Hu Hsend Htime Hh Hnc) as (n & Hn & Hnu).
      exists n. split; [apply in_or_app; now right | exact Hnu].
Qed.

(** X5. A run of the issuer of the root scheduler appends to the ledger at
    most one entry per user and habit (user ids and habit ids being
    distinct) and writes nothing else.  The run reads two clocks: [now], the
    naive local clock of [create_pending_notification], and [now_kz], the
    clock of the Kazakhstan zone read in [send_habit_notification].  Each
    new entry is unanswered, carries [now] as its time of sending and
    [now_kz + 10] as its expiry, goes to a user who has [check_time] among
    the configured times and refers to an active habit of that user with no
    completed log for the day.  When the gateway delivers, every such habit
    gets its entry.  A sweep selects a new entry exactly once its clock has
    passed [now_kz + 10]: the window is 10 minutes long after the sending
    only on a host whose local clock is that of the zone. *)
Theorem habit_issuer
    (bot_instance : option Bot) (w : World) (check_time : string) (now now_kz today : Z) :
  NoDup (map u_user_id (users (store w))) ->
  NoDup (map h_id (habits (store w))) ->
  let w' := Scheduler.check_notifications_for_time bot_instance w check_time now now_kz today in
  only_ledger (store w) (store w')
  /\ exists new,
       pending_notifications (store w') = pending_notifications (store w) ++ new
       /\ Forall (habit_entry (store w) check_time now now_kz today) new
       /\ NoDup (map (fun n => (pn_user_id n, pn_habit_id n)) new)
       /\ (forall bot user h,
             bot_instance = Some bot ->
             In user (users (store w)) ->
             (forall c, send_message bot (u_user_id user) c <> None) ->
             existsb (String.eqb check_time) (notification_times user) = true ->
             In h (Database.get_user_habits (store w) (u_user_id user)) ->
             option_map log_completed (Database.get_daily_log (store w) (h_id h) today)
             <> Some true ->
             exists n, In n new /\ pn_user_id n = u_user_id user
                       /\ pn_habit_id n = h_id h)
       /\ (forall n t, In n new ->
             (In n (Database.get_expired_notifications (store w') t) <-> now_kz + 10 < t)).
Proof.
  intros Hnd Hndh w'.
  destruct (habit_users_fold bot_instance (store w) check_time now now_kz today
              (users (store w)) Hndh Hnd (incl_refl _) w (only_ledger_refl _) w' eq_refl)
    as (Hol & new & Hp & Hall & _ & Hndn & Hlive).
  split; [exact Hol|].
  exists new. split; [exact Hp|]. split; [exact Hall|]. split; [exact Hndn|].
  split; [exact Hlive|].
  intros n t Hn. unfold Database.get_expired_notifications. rewrite filter_In.
  rewrite Forall_forall in Hall.
  destruct (Hall n Hn) as ((Hr & _ & He) & _).
  rewrite Hp, Hr, He. simpl. rewrite Z.ltb_lt. split; [tauto|].
  intros Hlt. split; [apply in_or_app; now right | exact Hlt].
Qed.

End Issuers.

(** The 08:00 run over the example store in which [run] has its 3 km: one
    consolidated prompt, for [read]. *)
Lemma consolidated_issuer_witness :
  let w := mkWorld Example.store3 [] in
  let w' := HabitTracker.check_notifications_for_time (H := sqlite_backend)
              (Some Example.bot) w "08:00" 480 Example.day in
  NoDup (map u_user_id (users (store w)))
  /\ pending_notifications (store w')
     = [mkPending 1 100 2 (Some 5000) (Some 100) 480 490 false]
  /\ only_ledger (store w) (store w').
Proof.
  intros w w'.
  assert (Hnd : NoDup (map u_user_id (users (store w)))).
  { simpl. repeat constructor. intros []. }
  split; [exact Hnd|]. split; [reflexivity|].
  apply (consolidated_issuer (H := sqlite_backend) (Some Example.bot) w "08:00" 480
           Example.day Hnd).
Defined.

(** The same run of the root scheduler, on a host whose local clock is
    five hours behind the clock of the zone: the entry is sent at 180 and
    expires at 490. *)
Lemma habit_issuer_witness :
  let w := mkWorld Example.store3 [] in
  let w' := Scheduler.check_notifications_for_time (H := sqlite_backend)
              (Some Example.bot) w "08:00" 180 480 Example.day in
  NoDup (map u_user_id (users (store w)))
  /\ NoDup (map h_id (habits (store w)))
  /\ pending_notifications (store w')
     = [mkPending 1 100 2 None None 180 490 false]
  /\ only_ledger (store w) (store w').
Proof.
  intros w w'.
  assert (Hnd : NoDup (map u_user_id (users (store w)))).
  { simpl. repeat constructor. intros []. }
  assert (Hndh : NoDup (map h_id (habits (store w)))).
  { simpl. repeat constructor; simpl; intuition discriminate. }
  split; [exact Hnd|]. split; [exact Hndh|]. split; [reflexivity|].
  apply (habit_issuer (H := sqlite_backend) (Some Example.bot) w "08:00" 180 480
           Example.day Hnd Hndh).
Defined.

(** ** Statistics over a range *)

Lemma insert_by_sorted {A : Type} (leb : A -> A -> bool) (a : A) (l : list A) :
  (forall x y, leb x y = false -> leb y x = true) ->
  Sorted (fun x y => leb x y = true) l ->
  Sorted (fun x y => leb x y = true) (insert_by leb a l).
Proof.
  intros Htot. induction l as [|x tl IH]; intros Hs; simpl.
  - constructor; constructor.
  - destruct (leb a x) eqn:E.
    + constructor; [exact Hs | constructor; exact E].
    + inversion Hs as [|? ? Hs' Hhd]; subst.
      constructor; [now apply IH|].
      destruct tl as [|y tl']; simpl.
      * constructor. now apply Htot.
      * destruct (leb a y); constructor; [now apply Htot|].
        inversion Hhd; subst. assumption.
Qed.

Lemma sort_by_sorted {A : Type} (leb : A -> A -> bool) (l : list A) :
  (forall x y, leb x y = false -> leb y x = true) ->
  Sorted (fun x y => leb x y = true) (sort_by leb l).
Proof.
  intros Htot. induction l as [|a tl IH]; simpl; [constructor|].
  now apply insert_by_sorted.
Qed.

Lemma sorted_nodup_strict (logs : list HabitLog) :
  StronglySorted (fun a b => log_date a <= log_date b) logs ->
  NoDup (map log_date logs) ->
  by_date logs.
Proof.
  unfold by_date. induction logs as [|x tl IH]; intros Hs Hnd; [constructor|].
  inversion Hs as [|? ? Hs' Hall]; subst.
  inversion Hnd as [|? ? Hnotin Hnd']; subst.
  constructor; [now apply IH|].
  rewrite Forall_forall in Hall |- *. intros y Hy.
  specialize (Hall y Hy).
  assert (log_date x <> log_date y).
  { intros E. apply Hnotin. rewrite E. now apply in_map. }
  lia.
Qed.

Lemma by_date_length (logs : list HabitLog) :
  by_date logs ->
  forall a b,
    Forall (fun l => a <= log_date l <= b) logs ->
    Z.of_nat (List.length logs) <= Z.max 0 (b - a + 1).
Proof.
  unfold by_date. induction 1 as [|x tl Hs IH Hall]; intros a b Hin; simpl List.length.
  - simpl. lia.
  - inversion Hin as [|? ? Hx Htl]; subst.
    assert (Htl' : Forall (fun l => log_date x + 1 <= log_date l <= b) tl).
    { rewrite Forall_forall in Hall, Htl |- *. intros y Hy.
      specialize (Hall y Hy). specialize (Htl y Hy). lia. }
    specialize (IH _ _ Htl'). lia.
Qed.

Lemma range_mem (st : Store) (habit_id start_date end_date : Z) (l : HabitLog) :
  In l (Database.get_habit_logs_range st habit_id start_date end_date)
  <-> In l (habit_logs st) /\ hl_habit_id l = habit_id
      /\ start_date <= log_date l <= end_date.
Proof.
  assert (Hperm : Permutation
            (Database.get_habit_logs_range st habit_id start_date end_date)
            (filter (fun l => (hl_habit_id l =? habit_id)
                              && (start_date <=? log_date l) && (log_date l <=? end_date))
                    (habit_logs st))) by apply sort_by_perm.
  split.
  - intros Hin. apply (Permutation_in _ Hperm) in Hin. apply filter_In in Hin.
    destruct Hin as [Hin Hp]. apply andb_true_iff in Hp. destruct Hp as [Hp H3].
    apply andb_true_iff in Hp. destruct Hp as [H1 H2].
    apply Z.eqb_eq in H1. apply Z.leb_le in H2, H3. auto.
  - intros (Hin & H1 & H2 & H3). apply (Permutation_in _ (Permutation_sym Hperm)).
    apply filter_In. split; [exact Hin|].
    apply andb_true_iff. split; [apply andb_true_iff; split|].
    + now apply Z.eqb_eq.
    + now apply Z.leb_le.
    + now apply Z.leb_le.
Qed.

Lemma range_rows (st : Store) (habit_id start_date end_date : Z) :
  NoDup (map log_key (habit_logs st)) ->
  let logs := Database.get_habit_logs_range st habit_id start_date end_date in
  by_date logs
  /\ (forall l, In l logs <->
                In l (habit_logs st) /\ hl_habit_id l = habit_id
                /\ start_date <= log_date l <= end_date).
Proof.
  intros Hnd logs.
  assert (Hperm : Permutation logs
            (filter (fun l => (hl_habit_id l =? habit_id)
                              && (start_date <=? log_date l) && (log_date l <=? end_date))
                    (habit_logs st))) by apply sort_by_perm.
  split; [|intros l; apply range_mem].
  apply sorted_nodup_strict.
  - apply Sorted_StronglySorted.
    + intros x y z Hxy Hyz. lia.
    + assert (Hs := sort_by_sorted (fun a b : HabitLog => log_date a <=? log_date b)
                      (filter (fun l => (hl_habit_id l =? habit_id)
                                        && (start_date <=? log_date l)
                                        && (log_date l <=? end_date))
                              (habit_logs st))
                      ltac:(intros x y Hxy; apply Z.leb_gt in Hxy; apply Z.leb_le; lia)).
      fold (Database.get_habit_logs_range st habit_id start_date end_date) in Hs.
      fold logs in Hs.
      clear - Hs. induction Hs as [|x tl Hs IH Hhd]; constructor; [exact IH|].
      destruct Hhd as [|y tl' Hxy]; constructor. now apply Z.leb_le.
  - eapply Permutation_NoDup; [apply Permutation_map, Permutation_sym, Hperm|].
    clear - Hnd. induction (habit_logs st) as [|x tl IH]; simpl; [constructor|].
    inversion Hnd as [|? ? Hnotin Hnd']; subst.
    destruct ((hl_habit_id x =? habit_id) && (start_date <=? log_date x)
              && (log_date x <=? end_date)) eqn:E; [|now apply IH].
    simpl. constructor; [|now apply IH].
    intros Hin. apply Hnotin. apply in_map_iff in Hin. destruct Hin as (y & Hy & Hin).
    apply filter_In in Hin. destruct Hin as [Hin Hp].
    apply in_map_iff. exists y. split; [|exact Hin].
    unfold log_key. f_equal; [|exact Hy].
    apply andb_true_iff in Hp. destruct Hp as [Hp _].
    apply andb_true_iff in Hp. destruct Hp as [Hp _].
    apply andb_true_iff in E. destruct E as [E _].
    apply andb_true_iff in E. destruct E as [E _].
    apply Z.eqb_eq in Hp, E. congruence.
Qed.

Lemma count_completed_bounds (logs : list HabitLog) :
  0 <= Database.count_completed logs <= Z.of_nat (List.length logs).
Proof.
  unfold Database.count_completed. split; [lia|].
  apply inj_le. induction logs as [|x tl IH]; simpl; [lia|].
  destruct (log_completed x); simpl; lia.
Qed.

Lemma sum_values_none `{Backend} (logs : list HabitLog) :
  fold_left (fun total l =>
               match total, Database.sql_real (log_value l) with
               | Some t, Some v => Some (float_add t v)
               | _, _ => None
               end)
            logs None = None.
Proof. induction logs as [|x tl IH]; simpl; [reflexivity | exact IH]. Qed.

(** The sum is computed exactly when every value reads as a float. *)
Lemma sum_values_readable `{Backend} (logs : list HabitLog) :
  Database.sum_values logs <> None
  <-> Forall (fun l => Database.sql_real (log_value l) <> None) logs.
Proof.
  unfold Database.sum_values. generalize (Finite 0).
  induction logs as [|x tl IH]; intros t; simpl.
  - split; [constructor | discriminate].
  - destruct (Database.sql_real (log_value x)) as [v|] eqn:E.
    + rewrite IH. split.
      * intros Hall. constructor; [rewrite E; discriminate | exact Hall].
      * intros Hall. now inversion Hall.
    + rewrite sum_values_none. split; [congruence|].
      intros Hall. inversion Hall as [|? ? Hx _]; subst. now rewrite E in Hx.
Qed.

Lemma stats_fields `{Backend} (st : Store) (habit_id start_date end_date : Z)
    (s : Database.HabitStats) :
  Database.get_habit_stats st habit_id start_date end_date = Some s ->
  Database.get_habit st habit_id = Some (stats_habit s)
  /\ stats_total_days s = end_date - start_date + 1
  /\ stats_logs s = Database.get_habit_logs_range st habit_id start_date end_date
  /\ stats_completed_days s = Database.count_completed (stats_logs s).
Proof.
  unfold Database.get_habit_stats.
  destruct (Database.get_habit st habit_id) as [habit|]; [|discriminate].
  destruct (habit_type habit).
  - intros E; injection E as <-; simpl; auto.
  - destruct (Database.sum_values _); [|discriminate].
    intros E; injection E as <-; simpl; auto.
Qed.

Lemma stats_rows `{Backend}
    (st : Store) (habit_id start_date end_date : Z) (s : Database.HabitStats) :
  NoDup (map log_key (habit_logs st)) ->
  Database.get_habit_stats st habit_id start_date end_date = Some s ->
  by_date (stats_logs s)
  /\ (forall l, In l (stats_logs s) <->
                In l (habit_logs st) /\ hl_habit_id l = habit_id
                /\ start_date <= log_date l <= end_date)
  /\ 0 <= stats_completed_days s <= Z.of_nat (List.length (stats_logs s))
  /\ Z.of_nat (List.length (stats_logs s)) <= Z.max 0 (stats_total_days s).
Proof.
  intros Hnd Hs.
  destruct (stats_fields _ _ _ _ _ Hs) as (Hh & Ht & Hl & Hc).
  destruct (range_rows st habit_id start_date end_date Hnd) as [Hsorted Hmem].
  rewrite <- Hl in Hsorted, Hmem.
  split; [exact Hsorted|]. split; [exact Hmem|].
  split; [rewrite Hc; apply count_completed_bounds|].
  rewrite Ht. apply by_date_length; [exact Hsorted|].
  rewrite Forall_forall. intros l Hin. apply Hmem in Hin. tauto.
Qed.

(** X6. With one log row per habit and date, the statistics of a habit over
    a range list the rows of the habit with a date in the range, each once
    and in the order of the dates; the completed days are counted among
    them, so they are at least 0 and at most the days of the range (0 for a
    range that ends before it starts); for a boolean habit over a range
    with a day, the missed days lie between 0 and the days of the range. *)
Theorem stats_within_range `{Backend}
    (st : Store) (habit_id start_date end_date : Z) (s : Database.HabitStats) :
  NoDup (map log_key (habit_logs st)) ->
  Database.get_habit_stats st habit_id start_date end_date = Some s ->
  by_date (stats_logs s)
  /\ (forall l, In l (stats_logs s) <->
                In l (habit_logs st) /\ hl_habit_id l = habit_id
                /\ start_date <= log_date l <= end_date)
  /\ 0 <= stats_completed_days s <= Z.of_nat (List.length (stats_logs s))
  /\ Z.of_nat (List.length (stats_logs s)) <= Z.max 0 (stats_total_days s)
  /\ (forall b, s = Database.StatsBoolean b -> start_date <= end_date ->
        0 <= Database.missed_days b <= Database.bs_total_days b).
Proof.
  intros Hnd Hs.
  destruct (stats_rows _ _ _ _ _ Hnd Hs) as (Hsorted & Hmem & Hcb & Hlen).
  split; [exact Hsorted|]. split; [exact Hmem|].
  split; [exact Hcb|]. split; [exact Hlen|].
  intros b -> Hle.
  unfold Database.get_habit_stats in Hs.
  destruct (Database.get_habit st habit_id) as [habit|]; [|discriminate].
  destruct (habit_type habit); [|destruct (Database.sum_values _); discriminate].
  injection Hs as <-. simpl in *. lia.
Qed.

Lemma stats_within_range_witness :
  exists b,
    Database.get_habit_stats (H := sqlite_backend)
      Example.store_week 2 Example.day (Example.day + 6)
    = Some (Database.StatsBoolean b)
    /\ Database.completed_days b = 5
    /\ 0 <= Database.missed_days b <= Database.bs_total_days b.
Proof.
  eexists. split; [reflexivity|]. split; [reflexivity|].
  assert (Hnd : NoDup (map log_key (habit_logs Example.store_week))).
  { unfold Example.store_week, log_key. simpl.
    repeat (constructor; [simpl; unfold Example.day; intuition congruence|]).
    constructor. }
  destruct (stats_within_range (H := sqlite_backend)
              Example.store_week 2 Example.day (Example.day + 6) _
              Hnd eq_refl) as (_ & _ & _ & _ & Hm).
  apply (Hm _ eq_refl). lia.
Defined.

(** The order of floats that [max] follows. *)
Lemma float_gt_not_nan (a b : PyFloat) :
  float_gt a b = true -> a <> NaN /\ b <> NaN.
Proof. destruct a, b; simpl; intros E; split; congruence. Qed.

Lemma float_gt_trans (a b c : PyFloat) :
  float_gt a b = true -> float_gt b c = true -> float_gt a c = true.
Proof.
  destruct a as [a|[]|], b as [b|[]|], c as [c|[]|]; simpl;
    try discriminate; try reflexivity.
  intros E1 E2. apply negb_true_iff in E1, E2. apply negb_true_iff.
  destruct (Qle_bool a c) eqn:E; [|reflexivity]. exfalso.
  apply Qle_bool_iff in E.
  assert (H1 : ~ (a <= b)%Q) by (intros Hle; apply Qle_bool_iff in Hle; congruence).
  assert (H2 : ~ (b <= c)%Q) by (intros Hle; apply Qle_bool_iff in Hle; congruence).
  lra.
Qed.

Lemma float_gt_le_trans (a b x : PyFloat) :
  float_gt a b = true -> float_gt x b = false -> x <> NaN -> float_gt a x = true.
Proof.
  destruct a as [a|[]|], b as [b|[]|], x as [x|[]|]; simpl;
    try discriminate; try reflexivity; try congruence.
  intros E1 E2 _. apply negb_true_iff in E1. apply negb_false_iff in E2.
  apply negb_true_iff.
  destruct (Qle_bool a x) eqn:E; [|reflexivity]. exfalso.
  apply Qle_bool_iff in E, E2.
  assert (H1 : ~ (a <= b)%Q) by (intros Hle; apply Qle_bool_iff in Hle; congruence).
  lra.
Qed.

Lemma float_gt_false_ge (l b : PyFloat) :
  float_gt l b = false -> l <> NaN -> b <> NaN -> float_ge b l = true.
Proof.
  destruct l as [l|[]|], b as [b|[]|]; simpl;
    try discriminate; try reflexivity; try congruence.
  intros E _ _. now apply negb_false_iff in E.
Qed.

Lemma float_gt_strict (a b : PyFloat) :
  float_gt a b = true -> float_gt b a = false /\ ~ float_eq b a.
Proof.
  destruct a as [a|[]|], b as [b|[]|]; simpl;
    try discriminate; try (split; [reflexivity | tauto || discriminate]).
  intros E. apply negb_true_iff in E.
  assert (H1 : ~ (a <= b)%Q) by (intros Hle; apply Qle_bool_iff in Hle; congruence).
  split.
  - apply negb_false_iff. apply Qle_bool_iff. lra.
  - intros Heq. lra.
Qed.

(** [max] with a key keeps the first row of maximal value; a NaN is kept only
    when it comes first, and then to the end. *)
Lemma max_by_value_split `{Backend} (logs : list HabitLog) :
  forall b0 b,
    Forall (fun l => Database.sql_real (log_value l) <> None) (b0 :: logs) ->
    fold_left (fun best l =>
                 match best with
                 | None => Some l
                 | Some b =>
                     match Database.sql_real (log_value l),
                           Database.sql_real (log_value b) with
                     | Some x, Some y => if float_gt x y then Some l else Some b
                     | _, _ => Some b
                     end
                 end)
              logs (Some b0) = Some b ->
    exists pre post,
      b0 :: logs = pre ++ b :: post
      /\ Forall (fun l => read_value l = NaN
                          \/ float_gt (read_value b) (read_value l) = true) pre
      /\ Forall (fun l => float_gt (read_value l) (read_value b) = false) post
      /\ (read_value b0 = NaN -> pre = [])
      /\ (pre <> [] -> read_value b <> NaN).
Proof.
  induction logs as [|x tl IH]; intros b0 b Hread Hf; simpl in Hf.
  - injection Hf as <-. exists [], []. repeat split; auto; try constructor.
  - inversion Hread as [|? ? Hb0 Hrest]; subst.
    inversion Hrest as [|? ? Hx Htl]; subst.
    assert (Ex : Database.sql_real (log_value x) = Some (read_value x)).
    { unfold read_value. destruct (Database.sql_real (log_value x)); congruence. }
    assert (Eb : Database.sql_real (log_value b0) = Some (read_value b0)).
    { unfold read_value. destruct (Database.sql_real (log_value b0)); congruence. }
    rewrite Ex, Eb in Hf.
    destruct (float_gt (read_value x) (read_value b0)) eqn:E.
    + destruct (IH x b Hrest Hf)
        as (pre & post & Hsplit & Hpre & Hpost & Hnan & Hne).
      destruct (float_gt_not_nan _ _ E) as [Hxn Hbn].
      exists (b0 :: pre), post. split; [simpl; now rewrite Hsplit|].
      assert (Hb : float_gt (read_value b) (read_value b0) = true).
      { destruct pre as [|p pre'].
        - simpl in Hsplit. injection Hsplit as <- _. exact E.
        - simpl in Hsplit. injection Hsplit as <- _.
          inversion Hpre as [|? ? Hp _]; subst.
          destruct Hp as [Hp|Hp]; [contradiction|].
          eapply float_gt_trans; eassumption. }
      split; [constructor; [now right | exact Hpre]|].
      split; [exact Hpost|].
      split; [intros Hn; contradiction|].
      intros _. now apply float_gt_not_nan in Hb.
    + destruct (IH b0 b (Forall_cons b0 Hb0 Htl) Hf)
        as (pre & post & Hsplit & Hpre & Hpost & Hnan & Hne).
      destruct pre as [|p pre'].
      * simpl in Hsplit. injection Hsplit as <- <-.
        exists [], (x :: tl). split; [reflexivity|]. split; [constructor|].
        split; [constructor; [exact E | exact Hpost]|].
        split; [reflexivity|]. intros Hc. now contradiction Hc.
      * simpl in Hsplit. injection Hsplit as <- Htl'.
        assert (Hb0n : read_value b0 <> NaN).
        { intros Hn. specialize (Hnan Hn). discriminate. }
        inversion Hpre as [|? ? Hp Hpre']; subst.
        destruct Hp as [Hp|Hp]; [contradiction|].
        exists (b0 :: x :: pre'), post. split; [reflexivity|].
        split.
        { constructor; [now right|]. constructor; [|exact Hpre'].
          destruct (read_value x) eqn:Evx; [right|right|now left];
            rewrite <- Evx in *;
            (eapply float_gt_le_trans; [exact Hp | exact E | rewrite Evx; discriminate]). }
        split; [exact Hpost|].
        split; [intros Hn; contradiction|].
        intros _. now apply float_gt_not_nan in Hp.
Qed.

(** X7. The best day of the statistics of a numeric habit: there is none
    exactly when the range has no row of the habit; otherwise it is a row of
    the range that no row exceeds in value, of the largest value when no
    NaN is compared, and, with one row per habit and date, the earliest of
    the rows of that value. *)
Theorem best_day_is_first_maximum `{Backend}
    (st : Store) (habit_id start_date end_date : Z) (n : Database.NumericStats) :
  NoDup (map log_key (habit_logs st)) ->
  Database.get_habit_stats st habit_id start_date end_date
  = Some (Database.StatsNumeric n) ->
  (Database.best_day n = None <-> Database.ns_logs n = [])
  /\ forall b,
       Database.best_day n = Some b ->
       In b (Database.ns_logs n)
       /\ (forall l, In l (Database.ns_logs n) ->
             exists vl vb,
               Database.sql_real (log_value l) = Some vl
               /\ Database.sql_real (log_value b) = Some vb
               /\ float_gt vl vb = false
               /\ (vl <> NaN -> vb <> NaN -> float_ge vb vl = true)
               /\ (float_eq vl vb -> log_date b <= log_date l)).
Proof.
  intros Hnd Hs.
  destruct (stats_rows _ _ _ _ _ Hnd Hs) as (Hsorted & _).
  assert (Hb : Database.best_day n = Database.max_by_value (Database.ns_logs n)
               /\ Forall (fun l => Database.sql_real (log_value l) <> None)
                         (Database.ns_logs n)).
  { unfold Database.get_habit_stats in Hs.
    destruct (Database.get_habit st habit_id) as [habit|]; [|discriminate].
    destruct (habit_type habit); [discriminate|].
    destruct (Database.sum_values _) as [total|] eqn:Esum; [|discriminate].
    injection Hs as <-. split; [reflexivity|]. simpl.
    apply sum_values_readable. rewrite Esum. discriminate. }
  destruct Hb as [Hb Hread].
  simpl in Hsorted. rewrite Hb. unfold Database.max_by_value.
  destruct (Database.ns_logs n) as [|x tl].
  - simpl. split; [tauto|]. intros b Hf. discriminate.
  - simpl fold_left. split.
    + split; [|discriminate]. intros Hf. exfalso.
      clear - Hf. revert x Hf. induction tl as [|y tl IH]; intros x Hf; simpl in Hf.
      * discriminate.
      * destruct (Database.sql_real (log_value y)),
                 (Database.sql_real (log_value x));
          try (eapply IH; exact Hf).
        destruct (float_gt p p0); eapply IH; exact Hf.
    + intros b Hf.
      destruct (max_by_value_split tl x b Hread Hf)
        as (pre & post & Hsplit & Hpre & Hpost & Hnan & Hne).
      rewrite Hsplit in *.
      split; [apply in_or_app; right; now left|].
      assert (Hval : forall l, In l (pre ++ b :: post) ->
                Database.sql_real (log_value l) = Some (read_value l)).
      { intros l Hin. rewrite Forall_forall in Hread. specialize (Hread l Hin).
        unfold read_value. destruct (Database.sql_real (log_value l)); congruence. }
      intros l Hin. exists (read_value l), (read_value b).
      split; [now apply Hval|].
      split; [apply Hval; apply in_or_app; right; now left|].
      apply in_app_or in Hin.
      unfold by_date in Hsorted.
      destruct Hin as [Hin|[<-|Hin]].
      * assert (Hbn : read_value b <> NaN).
        { apply Hne. intros ->. contradiction. }
        rewrite Forall_forall in Hpre. specialize (Hpre l Hin).
        destruct Hpre as [Hl|Hl].
        -- rewrite Hl. split; [reflexivity|]. split; [intros Hc; now contradiction Hc|].
           intros E. exfalso. destruct (read_value b); simpl in E; tauto.
        -- destruct (float_gt_strict _ _ Hl) as [Hng Hneq].
           split; [exact Hng|].
           split; [intros Hl' _; now apply float_gt_false_ge|].
           intros E. contradiction.
      * split; [destruct (read_value b) as [q|[]|]; simpl; auto;
                apply negb_false_iff, Qle_bool_iff, Qle_refl|].
        split; [intros Hl _; now apply float_ge_refl | lia].
      * rewrite Forall_forall in Hpost. specialize (Hpost l Hin).
        split; [exact Hpost|].
        split; [intros Hl Hbn; now apply float_gt_false_ge|].
        intros _.
        clear - Hsorted Hin. induction pre as [|p pre IH]; simpl in Hsorted.
        -- inversion Hsorted as [|? ? _ Hall]; subst.
           rewrite Forall_forall in Hall. specialize (Hall l Hin). lia.
        -- inversion Hsorted; subst. now apply IH.
Qed.

Lemma best_day_is_first_maximum_witness :
  let st := set_habit_logs Example.store0
              [mkHabitLog 1 1 100 Example.day (real 2) false;
               mkHabitLog 2 1 100 (Example.day + 1) (real 5) true;
               mkHabitLog 3 1 100 (Example.day + 2) (real 5) true] 4 in
  exists n,
    Database.get_habit_stats (H := sqlite_backend) st 1 Example.day (Example.day + 6)
    = Some (Database.StatsNumeric n)
    /\ Database.best_day n = Some (mkHabitLog 2 1 100 (Example.day + 1) (real 5) true)
    /\ (Database.best_day n = None <-> Database.ns_logs n = []).
Proof.
  intros st. eexists. split; [reflexivity|]. split; [reflexivity|].
  assert (Hnd : NoDup (map log_key (habit_logs st))).
  { unfold log_key. simpl.
    repeat (constructor; [simpl; unfold Example.day; intuition congruence|]).
    constructor. }
  apply (best_day_is_first_maximum (H := sqlite_backend)
           st 1 Example.day (Example.day + 6) _ Hnd eq_refl).
Defined.

(** The average is rounded as Python rounds a binary64 quotient: 5.35 over
    two days is 2.67, the quotient lying just below 2.675. *)
Lemma average_examples :
  Database.average_of (Finite (535 # 100)) 2 = 2.67%float
  /\ Database.average_of (Finite 21) 7 = 3%float
  /\ Database.average_of (Infinite false) 7 = PrimFloat.infinity.
Proof. repeat split; vm_compute; reflexivity. Qed.

Lemma get_habit_of_row (st : Store) (h : Habit) :
  In h (habits st) ->
  exists row, Database.get_habit st (h_id h) = Some row
              /\ (NoDup (map h_id (habits st)) -> row = h).
Proof.
  intros Hin. unfold Database.get_habit.
  destruct (find (fun x => h_id x =? h_id h) (habits st)) as [row|] eqn:E.
  - exists row. split; [reflexivity|]. intros Hnd.
    apply find_some in E. destruct E as [Hrow Hid]. apply Z.eqb_eq in Hid.
    eapply nodup_map_inj; eauto.
  - exfalso. apply (find_none _ _ E) in Hin. rewrite Z.eqb_refl in Hin. discriminate.
Qed.

Lemma sum_values_forallb `{Backend} (logs : list HabitLog) :
  forallb (fun l => match Database.sql_real (log_value l) with
                    | Some _ => true
                    | None => false
                    end) logs
  = match Database.sum_values logs with Some _ => true | None => false end.
Proof.
  unfold Database.sum_values. generalize (Finite 0).
  induction logs as [|x tl IH]; intros t; simpl; [reflexivity|].
  destruct (Database.sql_real (log_value x)) as [v|]; simpl.
  - apply IH.
  - now rewrite sum_values_none.
Qed.

(** The statistics of a habit over a week are computed exactly when the
    week is readable. *)
Lemma stats_readable `{Backend} (st : Store) (week_start : Z) (h : Habit) :
  readable_week st week_start h
  = match Database.get_habit_stats st (h_id h) week_start (week_start + 6) with
    | Some _ => true
    | None => false
    end.
Proof.
  unfold readable_week, Database.get_habit_stats.
  destruct (Database.get_habit st (h_id h)) as [row|]; [|reflexivity].
  destruct (habit_type row); [reflexivity|].
  rewrite sum_values_forallb.
  now destruct (Database.sum_values _).
Qed.

Lemma stats_of_spec `{Backend} (st : Store) (week_start : Z) (hs : list Habit) :
  match Reports.stats_of st hs week_start (week_start + 6) with
  | Some report =>
      forallb (readable_week st week_start) hs = true
      /\ Forall2 (fun h s =>
                    Database.get_habit_stats st (h_id h) week_start (week_start + 6)
                    = Some s)
                 hs report
  | None => forallb (readable_week st week_start) hs = false
  end.
Proof.
  induction hs as [|h tl IH]; simpl; [split; [reflexivity | constructor]|].
  rewrite stats_readable.
  destruct (Database.get_habit_stats st (h_id h) week_start (week_start + 6))
    as [s|] eqn:Es; [|reflexivity].
  destruct (Reports.stats_of st tl week_start (week_start + 6)) as [rest|].
  - destruct IH as [Hb Hall]. split; [exact Hb|]. now constructor.
  - exact IH.
Qed.

(** X8. The weekly report of a user is computed exactly when the week from
    [week_start] is readable for every active habit of the user, and
    raises otherwise; with distinct habit ids the week is readable for a
    boolean habit, and for a numeric one exactly when no row of the habit
    in the week has a value that reads as NULL.  A report that is computed
    holds one entry for every active habit of the user, in the order of the
    habit list, each over the seven days from [week_start] and with the
    completed days between 0 and 7 when the log table has one row per habit
    and date; with distinct habit ids an entry carries the very row of its
    habit. *)
Theorem weekly_report_entries `{Backend} (st : Store) (user_id week_start : Z) :
  let hs := Database.get_user_habits st user_id in
  (Reports.get_weekly_report st user_id week_start <> None
   <-> Forall (fun h => readable_week st week_start h = true) hs)
  /\ (NoDup (map h_id (habits st)) ->
      forall h, In h hs ->
        (readable_week st week_start h = true
         <-> (habit_type h = Numeric ->
              forall l, In l (habit_logs st) -> hl_habit_id l = h_id h ->
                week_start <= log_date l <= week_start + 6 ->
                Database.sql_real (log_value l) <> None)))
  /\ forall report,
       Reports.get_weekly_report st user_id week_start = Some report ->
       Forall2 (fun h s =>
                  h_id (stats_habit s) = h_id h
                  /\ (NoDup (map h_id (habits st)) -> stats_habit s = h)
                  /\ stats_total_days s = 7
                  /\ (NoDup (map log_key (habit_logs st)) ->
                      0 <= stats_completed_days s <= 7))
               hs report.
Proof.
  intros hs. unfold Reports.get_weekly_report. fold hs.
  assert (Hspec := stats_of_spec st week_start hs).
  split; [|split].
  - destruct (Reports.stats_of st hs week_start (week_start + 6)) as [report|].
    + split; [|discriminate]. intros _. destruct Hspec as [Hb _].
      apply Forall_forall. intros h Hh.
      rewrite forallb_forall in Hb. now apply Hb.
    + split; [congruence|]. intros Hall. exfalso.
      assert (Hb : forallb (readable_week st week_start) hs = true).
      { apply forallb_forall. now apply Forall_forall. }
      congruence.
  - intros Hnd h Hh.
    assert (Hin : In h (habits st)) by (now apply get_user_habits_in in Hh).
    destruct (get_habit_of_row st h Hin) as (row & Hrow & Huniq).
    specialize (Huniq Hnd). subst row.
    unfold readable_week. rewrite Hrow.
    destruct (habit_type h).
    + split; [discriminate | reflexivity].
    + rewrite forallb_forall. split.
      * intros Hall _ l Hl Hid Hd.
        specialize (Hall l (proj2 (range_mem st (h_id h) week_start (week_start + 6) l)
                                  (conj Hl (conj Hid Hd)))).
        destruct (Database.sql_real (log_value l)); [discriminate | discriminate Hall].
      * intros Hall l Hl. apply range_mem in Hl. destruct Hl as (Hl & Hid & Hd).
        specialize (Hall eq_refl l Hl Hid Hd).
        destruct (Database.sql_real (log_value l)); [reflexivity | congruence].
  - intros report Hr. rewrite Hr in Hspec. destruct Hspec as [_ Hall].
    assert (Hincl : incl hs (habits st)).
    { intros h Hh. now apply get_user_habits_in in Hh. }
    clear Hr. induction Hall as [|h s tl rest Hs _ IH]; constructor.
    + destruct (get_habit_of_row st h (Hincl h (or_introl eq_refl)))
        as (row & Hrow & Huniq).
      destruct (stats_fields _ _ _ _ _ Hs) as (Hh & Ht & _).
      rewrite Hrow in Hh. injection Hh as Hh.
      split; [rewrite <- Hh; eapply get_habit_id; exact Hrow|].
      split; [intros Hnd; rewrite <- Hh; now apply Huniq|].
      split; [rewrite Ht; lia|].
      intros Hnd.
      destruct (stats_rows _ _ _ _ _ Hnd Hs) as (_ & _ & Hc & Hlen).
      rewrite Ht in Hlen. lia.
    + apply IH. intros x Hx. apply Hincl. now right.
Qed.

(** A NaN logged on SQLite is read back as NULL: the report of the week
    raises. *)
Lemma weekly_report_raises_example :
  let st := set_habit_logs Example.store0
              [mkHabitLog 1 1 100 Example.day
                 (Database.sql_real (H := sqlite_backend) (Some NaN)) false] 2 in
  Reports.get_weekly_report (H := sqlite_backend) st 100 Example.day = None.
Proof. reflexivity. Qed.

(** X9. The weekly job reports to the users who have an active habit and a
    readable week, once and in the order of the users table, over the week
    that ends today, with one entry for each active habit of the user; a
    user without an active habit gets no report, and a user whose report
    raised (the week is not readable for one of the habits) is left out,
    the job going on with the next user. *)
Theorem weekly_reports_cover `{Backend} (st : Store) (today : Z) :
  map fst (Reports.weekly_reports st today)
  = map u_user_id
        (filter (fun u => match Database.get_user_habits st (u_user_id u) with
                          | [] => false
                          | hs => forallb (readable_week st (today - 6)) hs
                          end)
                (users st))
  /\ Forall (fun r =>
               Reports.get_weekly_report st (fst r) (today - 6) = Some (snd r)
               /\ List.length (snd r)
                  = List.length (Database.get_user_habits st (fst r))
               /\ Forall (fun s => stats_total_days s = 7) (snd r))
            (Reports.weekly_reports st today).
Proof.
  unfold Reports.weekly_reports, Database.get_all_users.
  assert (Hone : forall user,
            match Reports.get_weekly_report st (u_user_id user) (today - 6) with
            | Some report =>
                forallb (readable_week st (today - 6))
                        (Database.get_user_habits st (u_user_id user)) = true
                /\ List.length report
                   = List.length (Database.get_user_habits st (u_user_id user))
                /\ Forall (fun s => stats_total_days s = 7) report
            | None =>
                forallb (readable_week st (today - 6))
                        (Database.get_user_habits st (u_user_id user)) = false
            end).
  { intros user. unfold Reports.get_weekly_report.
    assert (Hspec := stats_of_spec st (today - 6)
                       (Database.get_user_habits st (u_user_id user))).
    destruct (Reports.stats_of st (Database.get_user_habits st (u_user_id user))
                (today - 6) (today - 6 + 6)) as [report|]; [|exact Hspec].
    destruct Hspec as [Hb Hall]. split; [exact Hb|]. split.
    - symmetry. eapply Forall2_length. exact Hall.
    - clear Hb. induction Hall as [|h s hs ss Hs _ IH]; constructor; [|exact IH].
      destruct (stats_fields _ _ _ _ _ Hs) as (_ & Ht & _). rewrite Ht. lia. }
  induction (users st) as [|user tl [IH1 IH2]]; simpl; [split; [reflexivity | constructor]|].
  specialize (Hone user).
  destruct (Reports.get_weekly_report st (u_user_id user) (today - 6))
    as [report|] eqn:Hr.
  - destruct Hone as (Hb & Hlen & Hall).
    destruct (Database.get_user_habits st (u_user_id user)) as [|h0 hs] eqn:Ehs.
    + destruct report as [|s rest]; [|discriminate]. simpl. split; assumption.
    + destruct report as [|s rest]; [discriminate|]. simpl in Hb. rewrite Hb. simpl.
      split; [now rewrite IH1|].
      constructor; [|exact IH2]. simpl. rewrite Ehs. auto.
  - destruct (Database.get_user_habits st (u_user_id user)) as [|h0 hs] eqn:Ehs.
    + simpl. split; assumption.
    + simpl in Hone. rewrite Hone. simpl. split; assumption.
Qed.

(** The job over a store where the run of the day reads as NULL: the one
    user is left out. *)
Lemma weekly_reports_skip_example :
  let st := set_habit_logs Example.store0
              [mkHabitLog 1 1 100 Example.day None false] 2 in
  Reports.weekly_reports (H := sqlite_backend) st (Example.day + 6) = [].
Proof. reflexivity. Qed.

(** ** Notification times *)

Lemma remove_first_in (t u : string) (times : list string) :
  In u (Flows.remove_first t times) -> In u times.
Proof.
  induction times as [|x tl IH]; simpl; [tauto|].
  destruct (String.eqb x t); simpl; tauto.
Qed.

Lemma remove_first_other (t u : string) (times : list string) :
  u <> t -> In u times -> In u (Flows.remove_first t times).
Proof.
  intros Hne. induction times as [|x tl IH]; simpl; [tauto|].
  destruct (String.eqb x t) eqn:E.
  - apply String.eqb_eq in E. intros [->|Hin]; [congruence | exact Hin].
  - simpl. tauto.
Qed.

Lemma remove_first_nodup (t : string) (times : list string) :
  NoDup times -> NoDup (Flows.remove_first t times) /\ ~ In t (Flows.remove_first t times).
Proof.
  induction times as [|x tl IH]; intros Hnd; simpl.
  - split; [constructor | tauto].
  - inversion Hnd as [|? ? Hnotin Hnd']; subst.
    destruct (String.eqb x t) eqn:E.
    + apply String.eqb_eq in E. subst. auto.
    + apply String.eqb_neq in E. destruct (IH Hnd') as [A B]. split.
      * constructor; [|exact A]. intros Hin. apply Hnotin. eapply remove_first_in; eauto.
      * simpl. intros [->|Hin]; [congruence | auto].
Qed.

Lemma existsb_eqb_in (t : string) (times : list string) :
  existsb (String.eqb t) times = true <-> In t times.
Proof.
  rewrite existsb_exists. split.
  - intros (x & Hx & E). apply String.eqb_eq in E. now subst.
  - intros Hin. exists t. split; [exact Hin | apply String.eqb_refl].
Qed.

Lemma toggle_members (times : list string) (time : string) :
  NoDup times ->
  NoDup (Flows.toggle_notification_time times time)
  /\ forall u, In u (Flows.toggle_notification_time times time) ->
               u = time \/ In u times.
Proof.
  intros Hnd. unfold Flows.toggle_notification_time.
  destruct (existsb (String.eqb time) times) eqn:E.
  - destruct (remove_first_nodup time times Hnd) as [A B].
    split; [exact A|]. intros u Hu. right. eapply remove_first_in; eauto.
  - assert (Hnot : ~ In time times).
    { intros Hin. apply existsb_eqb_in in Hin. congruence. }
    assert (Hperm : Permutation (sort_by String.leb (times ++ [time])) (time :: times)).
    { eapply perm_trans; [apply sort_by_perm|].
      apply Permutation_sym, Permutation_cons_append. }
    split.
    + eapply Permutation_NoDup; [apply Permutation_sym, Hperm|].
      constructor; assumption.
    + intros u Hin. apply (Permutation_in _ Hperm) in Hin.
      destruct Hin as [->|Hin]; auto.
Qed.

(** X10. A press on a time of the keyboard toggles it in a selection that
    holds no time twice: the time leaves the selection when it was in it and
    enters it otherwise, every other time stays as it was, and no time is
    held twice afterwards. *)
Theorem toggle_notification_time_spec (times : list string) (time : string) :
  NoDup times ->
  let times' := Flows.toggle_notification_time times time in
  NoDup times'
  /\ (In time times' <-> ~ In time times)
  /\ (forall u, u <> time -> (In u times' <-> In u times)).
Proof.
  intros Hnd times'. unfold times', Flows.toggle_notification_time.
  destruct (existsb (String.eqb time) times) eqn:E.
  - apply existsb_eqb_in in E.
    destruct (remove_first_nodup time times Hnd) as [A B].
    split; [exact A|]. split; [tauto|].
    intros u Hne. split; [apply remove_first_in | now apply remove_first_other].
  - assert (Hnot : ~ In time times).
    { intros Hin. apply existsb_eqb_in in Hin. congruence. }
    assert (Hperm : Permutation (sort_by String.leb (times ++ [time])) (time :: times)).
    { eapply perm_trans; [apply sort_by_perm|].
      apply Permutation_sym, Permutation_cons_append. }
    split.
    { eapply Permutation_NoDup; [apply Permutation_sym, Hperm|].
      constructor; assumption. }
    split.
    { split; [intros _; exact Hnot|]. intros _.
      apply (Permutation_in _ (Permutation_sym Hperm)). now left. }
    intros u Hne. split.
    + intros Hin. apply (Permutation_in _ Hperm) in Hin.
      destruct Hin as [->|Hin]; [congruence | exact Hin].
    + intros Hin. apply (Permutation_in _ (Permutation_sym Hperm)). now right.
Qed.

Lemma toggle_notification_time_spec_witness :
  Flows.toggle_notification_time Catalog.default_times "14:00"
  = ["08:00"; "21:00"]%string
  /\ NoDup (Flows.toggle_notification_time Catalog.default_times "14:00").
Proof.
  split; [reflexivity|].
  apply (toggle_notification_time_spec Catalog.default_times "14:00").
  unfold Catalog.default_times.
  repeat (constructor; [simpl; intuition discriminate|]). constructor.
Defined.

Lemma find_user_updated (db : Db) (user_id u : Z) (times : list string) :
  Catalog.find_user (Catalog.update_notification_times db user_id times) u
  = option_map (fun row => if u_user_id row =? user_id
                           then mkUser (u_user_id row) times else row)
               (Catalog.find_user db u).
Proof.
  unfold Catalog.find_user, Catalog.update_notification_times. simpl.
  apply find_map_preserved. intros x.
  destruct (u_user_id x =? user_id); reflexivity.
Qed.

Lemma toggles_keep (presses : list string) :
  incl presses Flows.available_times ->
  forall times0,
    NoDup times0 ->
    incl times0 Flows.job_times ->
    NoDup (fold_left Flows.toggle_notification_time presses times0)
    /\ incl (fold_left Flows.toggle_notification_time presses times0) Flows.job_times.
Proof.
  induction presses as [|p tl IH]; intros Hpress times0 Hnd Hincl; simpl; [auto|].
  destruct (toggle_members times0 p Hnd) as (A & C).
  apply IH.
  - intros x Hx. now apply Hpress; right.
  - exact A.
  - intros u Hu. destruct (C u Hu) as [->|Hin].
    + assert (Hp : In p Flows.available_times) by (apply Hpress; now left).
      exact Hp.
    + now apply Hincl.
Qed.

(** X11. A session of the time settings that starts from a selection with
    no time twice whose times all have a job of the scheduler, and in which
    buttons of the keyboard are pressed in any order, ends in a selection
    with no time twice whose times all have a job.  Saving a selection that
    is not empty makes it the configured times of the user (who has a row)
    and changes the times of no other user; saving the empty selection
    writes nothing. *)
Theorem notification_times_session
    (db : Db) (user_id : Z) (times0 presses : list string) :
  NoDup times0 ->
  incl times0 Flows.job_times ->
  incl presses Flows.available_times ->
  let final := fold_left Flows.toggle_notification_time presses times0 in
  let db' := Flows.save_notification_times db user_id final in
  NoDup final
  /\ incl final Flows.job_times
  /\ (final = [] -> db' = db)
  /\ (final <> [] -> Catalog.find_user db user_id <> None ->
      Catalog.get_user_notification_times db' user_id = final)
  /\ (forall u, u <> user_id ->
      Catalog.get_user_notification_times db' u
      = Catalog.get_user_notification_times db u).
Proof.
  intros Hnd Hincl Hpress final db'.
  destruct (toggles_keep presses Hpress times0 Hnd Hincl) as [A B].
  fold final in A, B.
  split; [exact A|]. split; [exact B|].
  unfold db', Flows.save_notification_times.
  split; [intros ->; reflexivity|].
  split.
  - intros Hne Hrow. destruct final as [|t tl]; [congruence|].
    unfold Catalog.get_user_notification_times. rewrite find_user_updated.
    destruct (Catalog.find_user db user_id) as [row|] eqn:E; [|congruence].
    simpl. unfold Catalog.find_user in E. apply find_some in E.
    destruct E as [_ E]. now rewrite E.
  - intros u Hne. destruct final as [|t tl]; [reflexivity|].
    unfold Catalog.get_user_notification_times. rewrite find_user_updated.
    destruct (Catalog.find_user db u) as [row|] eqn:E; [|reflexivity].
    simpl. unfold Catalog.find_user in E. apply find_some in E.
    destruct E as [_ E]. apply Z.eqb_eq in E.
    destruct (u_user_id row =? user_id) eqn:E'; [|reflexivity].
    apply Z.eqb_eq in E'. congruence.
Qed.

(** From the default times, 14:00 is switched off and 06:00 on, and the
    selection is saved. *)
Lemma notification_times_session_witness :
  let final := fold_left Flows.toggle_notification_time ["14:00"; "06:00"]%string
                 Catalog.default_times in
  final = ["06:00"; "08:00"; "21:00"]%string
  /\ Catalog.get_user_notification_times
       (Flows.save_notification_times ExampleDb.db0 100 final) 100 = final.
Proof.
  intros final. split; [reflexivity|].
  assert (Hnd : NoDup Catalog.default_times).
  { unfold Catalog.default_times.
    repeat (constructor; [simpl; intuition discriminate|]). constructor. }
  assert (Hjobs : incl Catalog.default_times Flows.job_times).
  { intros t Ht. vm_compute in Ht |- *. tauto. }
  assert (Hpress : incl ["14:00"; "06:00"]%string Flows.available_times).
  { intros t Ht. vm_compute in Ht |- *. tauto. }
  destruct (notification_times_session ExampleDb.db0 100 Catalog.default_times
              ["14:00"; "06:00"]%string Hnd Hjobs Hpress) as (_ & _ & _ & Hsave & _).
  apply Hsave; discriminate.
Defined.

(** ** Users *)

Lemma insert_categories (user_id : Z) (cs : list (string * string)) :
  forall db,
    let db' := fold_left (fun d c => Catalog.insert_category d user_id (fst c) (snd c))
                         cs db in
    base db' = base db
    /\ user_info db' = user_info db
    /\ categories db' = categories db ++ numbered user_id (next_category_id db) cs
    /\ next_category_id db' = next_category_id db + Z.of_nat (List.length cs)
    /\ next_habit_id db' = next_habit_id db
    /\ marathons db' = marathons db
    /\ next_marathon_id db' = next_marathon_id db
    /\ marathon_habits db' = marathon_habits db
    /\ next_marathon_habit_id db' = next_marathon_habit_id db.
Proof.
  induction cs as [|c tl IH]; intros db; simpl.
  - rewrite app_nil_r, Z.add_0_r. repeat split.
  - destruct (IH (Catalog.insert_category db user_id (fst c) (snd c)))
      as (A & B & C & D & E & F & G & I & J).
    simpl in *. rewrite A, B, C, D, E, F, G, I, J, <- app_assoc. simpl.
    repeat split. lia.
Qed.

Lemma find_user_appended (db : Db) (us : list User) (user_id : Z) (st : Store) :
  users st = users (base db) ++ us ->
  forall db', base db' = st ->
  Catalog.find_user db' user_id
  = match Catalog.find_user db user_id with
    | Some row => Some row
    | None => find (fun u => u_user_id u =? user_id) us
    end.
Proof.
  intros Hu db' Hb. unfold Catalog.find_user. rewrite Hb, Hu. apply find_app_first.
Qed.

(** X12. [get_or_create_user] returns the row of the user, which is in the
    table afterwards.  The row of a known user is returned with nothing
    written.  An unknown user gets a row with the default notification
    times and, on aligned user lists, the language kk, and the three default
    categories under the next ids of the sequence; no row of another user,
    no habit, log, notification or marathon is touched.  A second call
    returns the same row and writes nothing. *)
Theorem get_or_create_user_spec
    (db : Db) (user_id : Z) (uname fname uname' fname' : option string) :
  users_aligned db ->
  let '(db1, row, created) := Catalog.get_or_create_user db user_id uname fname in
  Catalog.find_user db1 user_id = Some row
  /\ u_user_id row = user_id
  /\ users_aligned db1
  /\ (created = false -> db1 = db)
  /\ (created = true ->
      Catalog.find_user db user_id = None
      /\ notification_times row = Catalog.default_times
      /\ Catalog.get_user_language db1 user_id = "kk"%string
      /\ categories db1
         = categories db ++ numbered user_id (next_category_id db)
                                     Catalog.default_categories
      /\ users (base db1) = users (base db) ++ [row]
      /\ set_users (base db1) (users (base db)) = base db
      /\ marathons db1 = marathons db
      /\ marathon_habits db1 = marathon_habits db)
  /\ (forall v, v <> user_id -> Catalog.find_user db1 v = Catalog.find_user db v)
  /\ Catalog.get_or_create_user db1 user_id uname' fname' = (db1, row, false).
Proof.
  intros Hal. unfold Catalog.get_or_create_user.
  destruct (Catalog.find_user db user_id) as [row|] eqn:E.
  - assert (Hid : u_user_id row = user_id).
    { unfold Catalog.find_user in E. apply find_some in E. now apply Z.eqb_eq. }
    split; [exact E|]. split; [exact Hid|]. split; [exact Hal|].
    split; [reflexivity|]. split; [discriminate|]. split; [reflexivity|].
    now rewrite E.
  - match goal with
    | |- context [fold_left ?f Catalog.default_categories ?d] =>
        pose proof (insert_categories user_id Catalog.default_categories d) as S;
        cbv zeta in S;
        remember (fold_left f Catalog.default_categories d) as db1 eqn:Hdb1;
        destruct S as (A & B & C & D & F & G & I & J & K)
    end.
    simpl in A, B, C, D, F, G, I, J, K.
    assert (Hfind : Catalog.find_user db1 user_id = Some (mkUser user_id Catalog.default_times)).
    { rewrite (find_user_appended db [mkUser user_id Catalog.default_times] user_id
                 (base db1)); [|rewrite A; reflexivity | reflexivity].
      rewrite E. simpl. now rewrite Z.eqb_refl. }
    rewrite Hfind.
    split; [reflexivity|]. split; [reflexivity|].
    split.
    { unfold users_aligned. rewrite A, B. simpl. rewrite !map_app. simpl.
      now rewrite Hal. }
    split; [discriminate|].
    split.
    { intros _. split; [reflexivity|]. split; [reflexivity|].
      split.
      { unfold Catalog.get_user_language, Catalog.find_user_info. rewrite B.
        rewrite find_app_first.
        assert (Hnone : find (fun i => ui_user_id i =? user_id) (user_info db) = None).
        { unfold Catalog.find_user in E.
          destruct (find (fun i => ui_user_id i =? user_id) (user_info db)) as [i|] eqn:Ei;
            [|reflexivity].
          exfalso. apply find_some in Ei. destruct Ei as [Hin Hid].
          apply Z.eqb_eq in Hid.
          assert (Hin' : In user_id (map u_user_id (users (base db)))).
          { rewrite <- Hal, <- Hid. now apply in_map. }
          apply in_map_iff in Hin'. destruct Hin' as (u & Hu & Hin').
          apply (find_none _ _ E) in Hin'. simpl in Hin'. rewrite Hu, Z.eqb_refl in Hin'.
          discriminate. }
        rewrite Hnone. simpl. now rewrite Z.eqb_refl. }
      split; [exact C|].
      split; [rewrite A; reflexivity|].
      split; [rewrite A; destruct (base db); reflexivity|].
      split; [exact G | exact J]. }
    split.
    { intros v Hv.
      rewrite (find_user_appended db [mkUser user_id Catalog.default_times] v
                 (base db1)); [|rewrite A; reflexivity | reflexivity].
      destruct (Catalog.find_user db v); [reflexivity|].
      simpl. destruct (user_id =? v) eqn:Ev; [|reflexivity].
      apply Z.eqb_eq in Ev. congruence. }
    reflexivity.
Qed.

Lemma get_or_create_user_spec_witness :
  let '(db1, row, created) :=
    Catalog.get_or_create_user ExampleDb.db0 200 None (Some "Bob"%string) in
  created = true
  /\ Catalog.find_user db1 200 = Some row
  /\ List.length (Catalog.get_user_categories db1 200) = 3%nat.
Proof.
  assert (Hal : users_aligned ExampleDb.db0) by reflexivity.
  assert (S := get_or_create_user_spec ExampleDb.db0 200 None (Some "Bob"%string)
                 None None Hal).
  destruct (Catalog.get_or_create_user ExampleDb.db0 200 None (Some "Bob"%string))
    as [[db1 row] created] eqn:E.
  destruct S as (Hfind & _).
  split; [|split; [exact Hfind|]].
  - vm_compute in E. now injection E as _ _ <-.
  - vm_compute in E. injection E as <- _ _. reflexivity.
Defined.

(** ** Languages *)

Lemma find_user_info_set (db : Db) (user_id v : Z) (lang : string) :
  Catalog.find_user_info (Catalog.set_user_language db user_id lang) v
  = option_map (fun i => if ui_user_id i =? user_id
                         then mkUserInfo (ui_user_id i) (username i) (first_name i)
                                         (Some lang)
                         else i)
               (Catalog.find_user_info db v).
Proof.
  unfold Catalog.find_user_info, Catalog.set_user_language. simpl.
  apply find_map_preserved. intros x.
  destruct (ui_user_id x =? user_id); reflexivity.
Qed.

Lemma get_user_language_set (db : Db) (user_id v : Z) (lang : string) :
  Catalog.get_user_language (Catalog.set_user_language db user_id lang) v
  = if (v =? user_id) && negb (String.eqb lang "")
       && match Catalog.find_user_info db v with Some _ => true | None => false end
    then lang
    else if v =? user_id
         then "kk"%string
         else Catalog.get_user_language db v.
Proof.
  unfold Catalog.get_user_language. rewrite find_user_info_set.
  destruct (Catalog.find_user_info db v) as [i|] eqn:E; simpl.
  - unfold Catalog.find_user_info in E. apply find_some in E. destruct E as [_ E].
    apply Z.eqb_eq in E. rewrite E.
    destruct (v =? user_id) eqn:Ev; simpl; [|reflexivity].
    destruct (String.eqb lang "") eqn:El; reflexivity.
  - rewrite andb_false_r. destruct (v =? user_id); reflexivity.
Qed.

Lemma cache_get_set (c : LanguageCache.Cache) (user_id v : Z) (e : string * Q) :
  LanguageCache.cache_get (LanguageCache.cache_set c user_id e) v
  = if v =? user_id then Some e else LanguageCache.cache_get c v.
Proof.
  unfold LanguageCache.cache_get, LanguageCache.cache_set, LanguageCache.cache_del. simpl.
  rewrite (Z.eqb_sym user_id v).
  destruct (v =? user_id) eqn:E; [reflexivity|].
  f_equal. induction c as [|x tl IH]; simpl; [reflexivity|].
  destruct (fst x =? user_id) eqn:Ex; simpl.
  - apply Z.eqb_eq in Ex. rewrite Ex, (Z.eqb_sym user_id v), E. exact IH.
  - destruct (fst x =? v); [reflexivity | exact IH].
Qed.

Lemma cache_get_del (c : LanguageCache.Cache) (user_id v : Z) :
  LanguageCache.cache_get (LanguageCache.cache_del c user_id) v
  = if v =? user_id then None else LanguageCache.cache_get c v.
Proof.
  unfold LanguageCache.cache_get, LanguageCache.cache_del.
  destruct (v =? user_id) eqn:E.
  - apply Z.eqb_eq in E. subst.
    induction c as [|x tl IH]; simpl; [reflexivity|].
    destruct (fst x =? user_id) eqn:Ex; simpl; [exact IH|]. now rewrite Ex.
  - f_equal. induction c as [|x tl IH]; simpl; [reflexivity|].
    destruct (fst x =? user_id) eqn:Ex; simpl.
    + apply Z.eqb_eq in Ex. rewrite Ex, (Z.eqb_sym user_id v), E. exact IH.
    + destruct (fst x =? v); [reflexivity | exact IH].
Qed.

(** X13. The language cache is transparent: when every cached language
    that is not empty is the one the database gives, the cached
    [get_user_language] answers what the uncached one answers, whatever the
    clock, and leaves such a cache; [set_user_language] for a user with a
    row leaves such a cache too, and the language just set, if not empty, is
    the next answer for the user. *)
Theorem language_cache_transparent
    (db : Db) (c : LanguageCache.Cache) (user_id : Z) (now now' : Q) :
  cache_coherent db c ->
  fst (LanguageCache.get_user_language db c user_id now now')
  = Catalog.get_user_language db user_id
  /\ cache_coherent db (snd (LanguageCache.get_user_language db c user_id now now'))
  /\ forall lang t,
       Catalog.find_user_info db user_id <> None ->
       let '(db', c') := LanguageCache.set_user_language db c user_id lang t in
       cache_coherent db' c'
       /\ (lang <> ""%string ->
           forall t1 t2, fst (LanguageCache.get_user_language db' c' user_id t1 t2) = lang).
Proof.
  intros Hc.
  assert (Hget : forall db0 c0 u t1 t2,
            cache_coherent db0 c0 ->
            fst (LanguageCache.get_user_language db0 c0 u t1 t2)
            = Catalog.get_user_language db0 u
            /\ cache_coherent db0 (snd (LanguageCache.get_user_language db0 c0 u t1 t2))).
  { clear. intros db c u t1 t2 Hc.
    unfold LanguageCache.get_user_language, LanguageCache._get_cached_language.
    assert (Hmiss : forall c1,
              (forall v lang ts, LanguageCache.cache_get c1 v = Some (lang, ts) ->
                                 lang <> ""%string ->
                                 Catalog.get_user_language db v = lang) ->
              cache_coherent db
                (LanguageCache._set_cached_language c1 u
                   (Catalog.get_user_language db u) t2)).
    { intros c1 Hc1 v lang ts Hv Hne.
      unfold LanguageCache._set_cached_language in Hv. rewrite cache_get_set in Hv.
      destruct (v =? u) eqn:Ev.
      - apply Z.eqb_eq in Ev. injection Hv as <- _. now subst.
      - eapply Hc1; eauto. }
    destruct (LanguageCache.cache_get c u) as [[lang ts]|] eqn:E.
    - destruct (LanguageCache.Qlt_bool (t1 - ts) LanguageCache._LANGUAGE_CACHE_TTL).
      + simpl. destruct (String.eqb lang "") eqn:El; simpl.
        * split; [reflexivity|]. now apply Hmiss.
        * apply String.eqb_neq in El. split; [|exact Hc].
          symmetry. eapply Hc; eauto.
      + simpl. split; [reflexivity|]. apply Hmiss.
        intros v l s Hv Hne. rewrite cache_get_del in Hv.
        destruct (v =? u); [discriminate|]. eapply Hc; eauto.
    - simpl. split; [reflexivity|]. now apply Hmiss. }
  destruct (Hget db c user_id now now' Hc) as [A B].
  split; [exact A|]. split; [exact B|].
  intros lang t Hrow. unfold LanguageCache.set_user_language.
  assert (Hc' : cache_coherent (Catalog.set_user_language db user_id lang)
                  (LanguageCache._set_cached_language c user_id lang t)).
  { intros v l s Hv Hne.
    unfold LanguageCache._set_cached_language in Hv. rewrite cache_get_set in Hv.
    rewrite get_user_language_set.
    destruct (v =? user_id) eqn:Ev.
    - apply Z.eqb_eq in Ev. injection Hv as <- _. subst v.
      apply String.eqb_neq in Hne. rewrite Hne. simpl.
      destruct (Catalog.find_user_info db user_id); [reflexivity | congruence].
    - simpl. eapply Hc; eauto. }
  split; [exact Hc'|].
  intros Hne t1 t2.
  destruct (Hget _ _ user_id t1 t2 Hc') as [A' _]. rewrite A'.
  rewrite get_user_language_set, Z.eqb_refl.
  apply String.eqb_neq in Hne. rewrite Hne. simpl.
  destruct (Catalog.find_user_info db user_id); [reflexivity | congruence].
Qed.

(** A cache that is hit: the language of user 100 was cached as ru at 900,
    and the read at 1000 answers from the cache, which stays as it is. *)
Lemma language_cache_transparent_witness :
  let c := [(100, ("ru"%string, 900%Q))] in
  cache_coherent ExampleDb.db0 c
  /\ LanguageCache._get_cached_language c 100 1000 = (Some "ru"%string, c)
  /\ LanguageCache.get_user_language ExampleDb.db0 c 100 1000 1001 = ("ru"%string, c)
  /\ fst (LanguageCache.get_user_language ExampleDb.db0 c 100 1000 1001)
     = Catalog.get_user_language ExampleDb.db0 100
  /\ cache_coherent ExampleDb.db0
       (snd (LanguageCache.get_user_language ExampleDb.db0 c 100 1000 1001)).
Proof.
  intros c.
  assert (Hc : cache_coherent ExampleDb.db0 c).
  { intros u lang ts Hg _. unfold LanguageCache.cache_get, c in Hg.
    cbn [find fst] in Hg.
    destruct (100 =? u) eqn:E; [|discriminate].
    apply Z.eqb_eq in E. subst u. simpl in Hg. injection Hg as <- _. reflexivity. }
  split; [exact Hc|]. split; [reflexivity|]. split; [reflexivity|].
  destruct (language_cache_transparent ExampleDb.db0 c 100 1000 1001 Hc) as (A & B & _).
  split; [exact A | exact B].
Defined.

(** X14. The cache is written even when the UPDATE of [set_user_language]
    matches no row: for a user without a row and a language that is not
    empty, the database still answers kk, while the cached
    [get_user_language] answers the language that was set for as long as
    less than 300 seconds have passed since, and kk from then on. *)
Theorem language_of_unknown_user
    (db : Db) (c : LanguageCache.Cache) (user_id : Z) (lang : string) (t t1 t2 : Q) :
  Catalog.find_user_info db user_id = None ->
  lang <> ""%string ->
  let '(db', c') := LanguageCache.set_user_language db c user_id lang t in
  db' = db
  /\ Catalog.get_user_language db' user_id = "kk"%string
  /\ ((t1 - t < 300)%Q ->
      fst (LanguageCache.get_user_language db' c' user_id t1 t2) = lang)
  /\ (~ (t1 - t < 300)%Q ->
      fst (LanguageCache.get_user_language db' c' user_id t1 t2) = "kk"%string).
Proof.
  intros Hrow Hne. unfold LanguageCache.set_user_language.
  assert (Hdb : Catalog.set_user_language db user_id lang = db).
  { unfold Catalog.set_user_language. destruct db as [b ui cs nc nh ms nm mh nmh]. simpl.
    f_equal. unfold Catalog.find_user_info in Hrow. simpl in Hrow.
    induction ui as [|i tl IH]; simpl; [reflexivity|].
    simpl in Hrow. destruct (ui_user_id i =? user_id); [discriminate|].
    f_equal. now apply IH. }
  rewrite Hdb.
  assert (Hkk : Catalog.get_user_language db user_id = "kk"%string).
  { unfold Catalog.get_user_language. now rewrite Hrow. }
  split; [reflexivity|]. split; [exact Hkk|].
  unfold LanguageCache.get_user_language, LanguageCache._get_cached_language,
    LanguageCache._set_cached_language.
  rewrite cache_get_set, Z.eqb_refl.
  unfold LanguageCache.Qlt_bool, LanguageCache._LANGUAGE_CACHE_TTL.
  apply String.eqb_neq in Hne.
  split.
  - intros Hlt. destruct (Qle_bool 300 (t1 - t)) eqn:E.
    + apply Qle_bool_iff in E. exfalso. exact (Qlt_not_le _ _ Hlt E).
    + simpl. now rewrite Hne.
  - intros Hge. destruct (Qle_bool 300 (t1 - t)) eqn:E.
    + simpl. exact Hkk.
    + exfalso. apply Hge. apply Qnot_le_lt. intros Hle.
      apply Qle_bool_iff in Hle. congruence.
Qed.

Lemma language_of_unknown_user_witness :
  let '(db', c') := LanguageCache.set_user_language ExampleDb.db0 [] 300 "ru" 1000 in
  fst (LanguageCache.get_user_language db' c' 300 1299 1299) = "ru"%string
  /\ fst (LanguageCache.get_user_language db' c' 300 1300 1300) = "kk"%string.
Proof.
  assert (S1 := language_of_unknown_user ExampleDb.db0 [] 300 "ru" 1000 1299 1299
                  eq_refl ltac:(discriminate)).
  assert (S2 := language_of_unknown_user ExampleDb.db0 [] 300 "ru" 1000 1300 1300
                  eq_refl ltac:(discriminate)).
  destruct (LanguageCache.set_user_language ExampleDb.db0 [] 300 "ru" 1000) as [db' c'].
  destruct S1 as (_ & _ & A & _). destruct S2 as (_ & _ & _ & B).
  split; [apply A; reflexivity | apply B; discriminate].
Defined.

(** ** Marathons *)

Lemma insert_habits (user_id marathon_id : Z) (ts : list MarathonHabit) :
  forall db,
    let db' :=
      fold_left
        (fun d t =>
           Catalog.insert_habit d user_id (mh_name t) (mh_habit_type t) (mh_daily_goal t)
                                (mh_unit t) None (Some marathon_id))
        ts db in
    habits (base db')
    = habits (base db) ++ new_habits user_id marathon_id (next_habit_id db)
                                     (map shape_of_template ts)
    /\ next_habit_id db' = next_habit_id db + Z.of_nat (List.length ts)
    /\ marathon_participants (base db') = marathon_participants (base db)
    /\ catalog_kept db db'.
Proof.
  induction ts as [|t tl IH]; intros db; simpl.
  - rewrite app_nil_r, Z.add_0_r. unfold catalog_kept. repeat split.
  - destruct (IH (Catalog.insert_habit db user_id (mh_name t) (mh_habit_type t)
                    (mh_daily_goal t) (mh_unit t) None (Some marathon_id)))
      as (A & B & C & D).
    unfold catalog_kept in *. simpl in *.
    rewrite A, B, C, <- app_assoc. simpl.
    split; [reflexivity|]. split; [lia|]. split; [reflexivity|]. exact D.
Qed.

Lemma existsb_app_last {A : Type} (p : A -> bool) (l : list A) (a : A) :
  existsb p (l ++ [a]) = existsb p l || p a.
Proof. rewrite existsb_app. simpl. now rewrite orb_false_r. Qed.

Lemma join_marathon_effect (db : Db) (user_id marathon_id : Z) :
  Marathons.is_participant db marathon_id user_id = false ->
  let db' := fst (Marathons.join_marathon db user_id marathon_id) in
  snd (Marathons.join_marathon db user_id marathon_id) = true
  /\ marathon_participants (base db')
     = marathon_participants (base db) ++ [mkParticipant marathon_id user_id 0]
  /\ habits (base db')
     = habits (base db)
       ++ new_habits user_id marathon_id (next_habit_id db)
                     (map shape_of_template (Marathons.templates db marathon_id))
  /\ next_habit_id db'
     = next_habit_id db + Z.of_nat (List.length (Marathons.templates db marathon_id))
  /\ catalog_kept db db'.
Proof.
  intros Hp. unfold Marathons.join_marathon. rewrite Hp. cbv zeta. simpl fst. simpl snd.
  split; [reflexivity|].
  destruct (insert_habits user_id marathon_id (Marathons.templates db marathon_id)
              (Marathons.insert_participant db marathon_id user_id)) as (A & B & C & D).
  cbv zeta in A, B, C, D.
  split; [rewrite C; reflexivity|].
  split; [rewrite A; reflexivity|].
  split; [rewrite B; reflexivity|].
  unfold catalog_kept in *. simpl in D. exact D.
Qed.

(** X15. [join_marathon] answers whether the user was not yet a participant.
    A participant is refused and nothing is written.  Otherwise the user is
    entered with no points and gets one new habit for every template of the
    marathon, in the order of the templates: linked to the marathon, active,
    without streak, under the next ids of the sequence; nothing else is
    written.  Either way the user is a participant afterwards, and joining
    again is refused and writes nothing. *)
Theorem join_marathon_spec (db : Db) (user_id marathon_id : Z) :
  let '(db', joined) := Marathons.join_marathon db user_id marathon_id in
  joined = negb (Marathons.is_participant db marathon_id user_id)
  /\ (joined = false -> db' = db)
  /\ (joined = true ->
      marathon_participants (base db')
      = marathon_participants (base db) ++ [mkParticipant marathon_id user_id 0]
      /\ habits (base db')
         = habits (base db)
           ++ new_habits user_id marathon_id (next_habit_id db)
                         (map shape_of_template (Marathons.templates db marathon_id))
      /\ next_habit_id db'
         = next_habit_id db
           + Z.of_nat (List.length (Marathons.templates db marathon_id))
      /\ catalog_kept db db')
  /\ Marathons.is_participant db' marathon_id user_id = true
  /\ Marathons.join_marathon db' user_id marathon_id = (db', false).
Proof.
  destruct (Marathons.is_participant db marathon_id user_id) eqn:Hp.
  - unfold Marathons.join_marathon. rewrite Hp.
    split; [reflexivity|]. split; [reflexivity|]. split; [discriminate|].
    split; [exact Hp|]. now rewrite Hp.
  - destruct (join_marathon_effect db user_id marathon_id Hp) as (A & B & C & D & E).
    destruct (Marathons.join_marathon db user_id marathon_id) as [db' joined].
    simpl in A, B, C, D, E. subst joined.
    split; [reflexivity|]. split; [discriminate|].
    split; [auto|].
    assert (Hp' : Marathons.is_participant db' marathon_id user_id = true).
    { unfold Marathons.is_participant. rewrite B, existsb_app_last. simpl.
      rewrite !Z.eqb_refl. apply orb_true_r. }
    split; [exact Hp'|].
    unfold Marathons.join_marathon. now rewrite Hp'.
Qed.

Lemma delete_logs_fold (ids : list Z) :
  forall st,
    let st' :=
      fold_left
        (fun st habit_id =>
           set_habit_logs st
             (filter (fun l => negb (hl_habit_id l =? habit_id)) (habit_logs st))
             (next_log_id st))
        ids st in
    habit_logs st' = filter (fun l => negb (existsb (Z.eqb (hl_habit_id l)) ids))
                            (habit_logs st)
    /\ habits st' = habits st
    /\ users st' = users st
    /\ next_log_id st' = next_log_id st
    /\ pending_notifications st' = pending_notifications st
    /\ next_notification_id st' = next_notification_id st
    /\ marathon_participants st' = marathon_participants st.
Proof.
  induction ids as [|i tl IH]; intros st; simpl.
  - split; [|repeat split].
    induction (habit_logs st) as [|x l IHl]; simpl; [reflexivity|]. now rewrite <- IHl.
  - destruct (IH (set_habit_logs st
                    (filter (fun l => negb (hl_habit_id l =? i)) (habit_logs st))
                    (next_log_id st))) as (A & B & C & D & E & F & G).
    simpl in *. rewrite A, B, C, D, E, F, G.
    split; [|repeat split].
    rewrite filter_filter_andb. apply filter_ext. intros l.
    destruct (hl_habit_id l =? i); reflexivity.
Qed.

Lemma habit_of_unlinked (user_id marathon_id : Z) (h : Habit) :
  Marathons.habit_of user_id marathon_id (unlinked h) = false.
Proof. unfold Marathons.habit_of, unlinked. simpl. apply andb_false_r. Qed.

Lemma leave_marathon_effect (db : Db) (user_id marathon_id : Z) (keep_habits : bool) :
  let db' := Marathons.leave_marathon db user_id marathon_id keep_habits in
  marathon_participants (base db')
  = filter (fun p => negb ((mp_user_id p =? user_id) && (mp_marathon_id p =? marathon_id)))
           (marathon_participants (base db))
  /\ habits (base db')
     = (if keep_habits
        then map (fun h => if Marathons.habit_of user_id marathon_id h
                           then unlinked h else h)
                 (habits (base db))
        else filter (fun h => negb (Marathons.habit_of user_id marathon_id h))
                    (habits (base db)))
  /\ habit_logs (base db')
     = (if keep_habits
        then habit_logs (base db)
        else filter
               (fun l => negb (existsb (Z.eqb (hl_habit_id l))
                                 (map h_id (filter (Marathons.habit_of user_id marathon_id)
                                                   (habits (base db))))))
               (habit_logs (base db)))
  /\ next_habit_id db' = next_habit_id db
  /\ catalog_kept
       (with_base db (set_habit_logs (base db) (habit_logs (base db'))
                        (next_log_id (base db))))
       db'.
Proof.
  unfold Marathons.leave_marathon. destruct keep_habits; cbv zeta.
  - simpl. unfold catalog_kept. simpl. repeat split.
  - match goal with
    | |- context [fold_left ?f ?ids ?st] =>
        pose proof (delete_logs_fold ids st) as S; cbv zeta in S;
        remember (fold_left f ids st) as st2 eqn:Hst2;
        destruct S as (A & B & C & D & E & F & G)
    end.
    simpl in A, B, C, D, E, F, G |- *.
    unfold catalog_kept. simpl. rewrite A, B, C, D, E, F, G.
    repeat split.
Qed.

(** X16. After [leave_marathon] the user is no participant of the marathon
    any more, the rows of all other participants are as they were, no habit
    of the user is linked to the marathon, and so a settlement credits the
    user nothing for it.  With [keep_habits] the linked habits of the user
    stay, unlinked, with their streaks and all logs; without it they are
    deleted with exactly the logs that refer to them. *)
Theorem leave_marathon_spec
    (db : Db) (user_id marathon_id : Z) (keep_habits : bool) (today : Z) :
  let db' := Marathons.leave_marathon db user_id marathon_id keep_habits in
  Marathons.is_participant db' marathon_id user_id = false
  /\ (forall p, In p (marathon_participants (base db')) <->
                In p (marathon_participants (base db))
                /\ ~ (mp_user_id p = user_id /\ mp_marathon_id p = marathon_id))
  /\ (forall h, In h (habits (base db')) ->
                Marathons.habit_of user_id marathon_id h = false)
  /\ credits (base db') today user_id marathon_id = 0%nat
  /\ (keep_habits = true ->
      habits (base db')
      = map (fun h => if Marathons.habit_of user_id marathon_id h then unlinked h else h)
            (habits (base db))
      /\ habit_logs (base db') = habit_logs (base db))
  /\ (keep_habits = false ->
      habits (base db')
      = filter (fun h => negb (Marathons.habit_of user_id marathon_id h))
               (habits (base db))
      /\ forall l, In l (habit_logs (base db')) <->
                   In l (habit_logs (base db))
                   /\ ~ exists h, In h (habits (base db))
                                  /\ Marathons.habit_of user_id marathon_id h = true
                                  /\ h_id h = hl_habit_id l).
Proof.
  intros db'.
  destruct (leave_marathon_effect db user_id marathon_id keep_habits)
    as (Hp & Hh & Hl & _).
  fold db' in Hp, Hh, Hl.
  assert (Hmem : forall p, In p (marathon_participants (base db')) <->
                In p (marathon_participants (base db))
                /\ ~ (mp_user_id p = user_id /\ mp_marathon_id p = marathon_id)).
  { intros p. rewrite Hp, filter_In. split; intros [Hin Hn]; split; auto.
    - intros [E1 E2]. rewrite E1, E2, !Z.eqb_refl in Hn. discriminate.
    - destruct ((mp_user_id p =? user_id) && (mp_marathon_id p =? marathon_id)) eqn:E;
        [|reflexivity].
      exfalso. apply Hn. apply andb_true_iff in E. destruct E as [E1 E2].
      split; now apply Z.eqb_eq. }
  assert (Hnone : forall h, In h (habits (base db')) ->
                Marathons.habit_of user_id marathon_id h = false).
  { intros h. rewrite Hh. destruct keep_habits.
    - intros Hin. apply in_map_iff in Hin. destruct Hin as (x & <- & _).
      destruct (Marathons.habit_of user_id marathon_id x) eqn:E;
        [apply habit_of_unlinked | exact E].
    - intros Hin. apply filter_In in Hin. destruct Hin as [_ Hn].
      now apply negb_true_iff in Hn. }
  split.
  { unfold Marathons.is_participant.
    destruct (existsb _ (marathon_participants (base db'))) eqn:E; [|reflexivity].
    exfalso. apply existsb_exists in E. destruct E as (p & Hin & E).
    apply Hmem in Hin. destruct Hin as [_ Hn]. apply Hn.
    apply andb_true_iff in E. destruct E as [E1 E2]. split; now apply Z.eqb_eq. }
  split; [exact Hmem|]. split; [exact Hnone|].
  split.
  { unfold credits.
    match goal with
    | |- List.length (filter ?p ?l) = 0%nat =>
        destruct (filter p l) as [|h tl] eqn:E; [reflexivity|];
        assert (Hin : In h (filter p l)) by (rewrite E; now left)
    end.
    exfalso. apply filter_In in Hin. destruct Hin as [Hin Hq].
    specialize (Hnone h Hin).
    apply andb_true_iff in Hq. destruct Hq as [Hq _].
    apply andb_true_iff in Hq. destruct Hq as [Hq Hlink].
    apply andb_true_iff in Hq. destruct Hq as [Hu _].
    unfold Marathons.habit_of in Hnone. rewrite Hu in Hnone. simpl in Hnone.
    unfold linked_to in Hlink. destruct (h_marathon_id h) as [m|]; [|discriminate].
    apply andb_true_iff in Hlink. destruct Hlink as [_ Hm]. congruence. }
  split.
  { intros ->. split; [exact Hh | exact Hl]. }
  intros ->. split; [exact Hh|].
  intros l. rewrite Hl, filter_In. split; intros [Hin Hn]; split; auto.
  - intros (h & Hhin & Hof & Hid). apply negb_true_iff in Hn.
    assert (Hex : existsb (Z.eqb (hl_habit_id l))
                    (map h_id (filter (Marathons.habit_of user_id marathon_id)
                                      (habits (base db)))) = true).
    { apply existsb_exists. exists (h_id h). split; [|rewrite Hid; apply Z.eqb_refl].
      apply in_map. apply filter_In. auto. }
    congruence.
  - apply negb_true_iff.
    destruct (existsb _ _) eqn:E; [|reflexivity].
    exfalso. apply Hn. apply existsb_exists in E. destruct E as (i & Hi & E).
    apply in_map_iff in Hi. destruct Hi as (h & <- & Hhin).
    apply filter_In in Hhin. destruct Hhin as [Hhin Hof].
    apply Z.eqb_eq in E. exists h. auto.
Qed.

Lemma filter_all_true {A : Type} (p : A -> bool) (l : list A) :
  Forall (fun x => p x = true) l -> filter p l = l.
Proof.
  induction 1 as [|x tl Hx _ IH]; simpl; [reflexivity|]. now rewrite Hx, IH.
Qed.

Lemma filter_all_false {A : Type} (p : A -> bool) (l : list A) :
  Forall (fun x => p x = false) l -> filter p l = [].
Proof.
  induction 1 as [|x tl Hx _ IH]; simpl; [reflexivity|]. now rewrite Hx, IH.
Qed.

Lemma new_habits_facts (user_id marathon_id : Z) (shapes : list Shape) :
  forall n,
    Forall (fun h => Marathons.habit_of user_id marathon_id h = true
                     /\ n <= h_id h < n + Z.of_nat (List.length shapes))
           (new_habits user_id marathon_id n shapes)
    /\ map shape_of_habit (new_habits user_id marathon_id n shapes) = shapes
    /\ map h_id (new_habits user_id marathon_id n shapes)
       = map (fun k => n + Z.of_nat k) (seq 0 (List.length shapes)).
Proof.
  induction shapes as [|[[[name type] goal] u] tl IH]; intros n; simpl.
  - repeat split. constructor.
  - destruct (IH (n + 1)) as (A & B & C). split; [|split].
    + constructor.
      * split; [|simpl; lia]. unfold Marathons.habit_of. simpl.
        now rewrite !Z.eqb_refl.
      * eapply Forall_impl; [|exact A]. intros h [H1 H2]. split; [exact H1 | lia].
    + unfold shape_of_habit at 1. simpl. now rewrite B.
    + rewrite Z.add_0_r. f_equal. rewrite C, <- seq_shift, map_map.
      apply map_ext. intros k. lia.
Qed.

(** X17. Joining a marathon and being removed from it again restores the
    tables: for a user who was no participant and had no habit linked to the
    marathon, on a database whose logs refer to habit ids below the next id
    of the sequence, the habits, the logs and the participants after
    [join_marathon] and [kick_user_from_marathon] are those before; only the
    sequence of the habit ids has advanced by the number of templates, so no
    id is given twice. *)
Theorem join_then_kick
    (db : Db) (user_id marathon_id : Z) :
  Marathons.is_participant db marathon_id user_id = false ->
  Forall (fun h => Marathons.habit_of user_id marathon_id h = false) (habits (base db)) ->
  Forall (fun l => hl_habit_id l < next_habit_id db) (habit_logs (base db)) ->
  let joined := fst (Marathons.join_marathon db user_id marathon_id) in
  let db' := Flows.kick_user_from_marathon joined marathon_id user_id in
  habits (base db') = habits (base db)
  /\ habit_logs (base db') = habit_logs (base db)
  /\ marathon_participants (base db') = marathon_participants (base db)
  /\ next_habit_id db'
     = next_habit_id db + Z.of_nat (List.length (Marathons.templates db marathon_id)).
Proof.
  intros Hp Hnone Hlogs joined db'.
  destruct (join_marathon_effect db user_id marathon_id Hp) as (_ & Jp & Jh & Jn & Jk).
  fold joined in Jp, Jh, Jn, Jk.
  destruct (leave_marathon_effect joined user_id marathon_id false)
    as (Lp & Lh & Ll & Ln & _).
  unfold Flows.kick_user_from_marathon in db'. fold db' in Lp, Lh, Ll, Ln.
  destruct (new_habits_facts user_id marathon_id
              (map shape_of_template (Marathons.templates db marathon_id))
              (next_habit_id db)) as (Nf & _ & _).
  destruct Jk as (_ & Jl & _).
  split; [|split; [|split]].
  - rewrite Lh, Jh, filter_app.
    rewrite (filter_all_true _ (habits (base db))).
    + rewrite filter_all_false; [apply app_nil_r|].
      eapply Forall_impl; [|exact Nf]. intros h [E _]. now rewrite E.
    + eapply Forall_impl; [|exact Hnone]. intros h E. now rewrite E.
  - rewrite Ll, Jl. apply filter_all_true.
    eapply Forall_impl; [|exact Hlogs]. intros l Hl. simpl in Hl.
    apply negb_true_iff. destruct (existsb _ _) eqn:E; [|reflexivity].
    exfalso. apply existsb_exists in E. destruct E as (i & Hi & E).
    apply Z.eqb_eq in E. subst i.
    apply in_map_iff in Hi. destruct Hi as (h & Hid & Hin).
    apply filter_In in Hin. destruct Hin as [Hin Hof].
    rewrite Jh in Hin. apply in_app_or in Hin. destruct Hin as [Hin|Hin].
    + rewrite Forall_forall in Hnone. specialize (Hnone h Hin). congruence.
    + rewrite Forall_forall in Nf. destruct (Nf h Hin) as [_ Hrange]. lia.
  - rewrite Lp, Jp, filter_app. simpl. rewrite !Z.eqb_refl. simpl.
    rewrite app_nil_r. apply filter_all_true.
    unfold Marathons.is_participant in Hp.
    rewrite Forall_forall. intros p Hin.
    apply negb_true_iff.
    destruct ((mp_user_id p =? user_id) && (mp_marathon_id p =? marathon_id)) eqn:E;
      [|reflexivity].
    exfalso.
    assert (Hex : existsb (fun p => (mp_marathon_id p =? marathon_id)
                                    && (mp_user_id p =? user_id))
                          (marathon_participants (base db)) = true).
    { apply existsb_exists. exists p. split; [exact Hin|]. now rewrite andb_comm. }
    congruence.
  - rewrite Ln, Jn. reflexivity.
Qed.

(** A second user joins the example marathon, gets its habit and is removed
    again. *)
Lemma join_then_kick_witness :
  let joined := fst (Marathons.join_marathon ExampleDb.db0 200 7) in
  map h_id (habits (base joined)) = [1; 2; 3]
  /\ habits (base (Flows.kick_user_from_marathon joined 7 200))
     = habits (base ExampleDb.db0)
  /\ next_habit_id (Flows.kick_user_from_marathon joined 7 200) = 4.
Proof.
  intros joined. split; [reflexivity|].
  assert (Hp : Marathons.is_participant ExampleDb.db0 7 200 = false) by reflexivity.
  assert (Hnone : Forall (fun h => Marathons.habit_of 200 7 h = false)
                         (habits (base ExampleDb.db0))).
  { repeat constructor. }
  assert (Hlogs : Forall (fun l => hl_habit_id l < next_habit_id ExampleDb.db0)
                         (habit_logs (base ExampleDb.db0))).
  { constructor. }
  destruct (join_then_kick ExampleDb.db0 200 7 Hp Hnone Hlogs) as (A & _ & _ & B).
  split; [exact A | exact B].
Defined.

(** ** Invitations *)

Lemma remove_all_length (pat s : string) :
  forall skip, (String.length (Flows.remove_all pat s skip) <= String.length s)%nat.
Proof.
  induction s as [|c rest IH]; intros skip; cbn [Flows.remove_all String.length]; [lia|].
  destruct skip as [|k].
  - destruct (String.prefix pat (String c rest)).
    + specialize (IH (String.length pat - 1)%nat). lia.
    + cbn [String.length]. specialize (IH O). lia.
  - specialize (IH k). lia.
Qed.

Lemma remove_all_none (pat s : string) :
  occurs pat s = false -> Flows.remove_all pat s O = s.
Proof.
  induction s as [|c rest IH]; intros Ho; [reflexivity|].
  cbn [occurs] in Ho. apply orb_false_iff in Ho. destruct Ho as [Hp Hr].
  cbn [Flows.remove_all]. rewrite Hp. f_equal. now apply IH.
Qed.

Lemma remove_all_some (pat s : string) :
  String.prefix pat EmptyString = false ->
  occurs pat s = true ->
  (String.length (Flows.remove_all pat s O) < String.length s)%nat.
Proof.
  intros Hne. induction s as [|c rest IH]; intros Ho.
  - cbn [occurs] in Ho. rewrite Hne in Ho. discriminate.
  - cbn [occurs] in Ho. cbn [Flows.remove_all].
    destruct (String.prefix pat (String c rest)) eqn:Hp.
    + pose proof (remove_all_length pat rest (String.length pat - 1)).
      cbn [String.length]. lia.
    + cbn [orb] in Ho. specialize (IH Ho). cbn [String.length]. lia.
Qed.

Lemma invite_code_of_argument (code : string) :
  Flows.invite_code_of (Flows.invite_argument code)
  = Some (Flows.remove_all "marathon_" code O).
Proof. destruct code; reflexivity. Qed.

(** X18. The invite link round trip: the code [cmd_start] reads back from
    the argument that [finalize_marathon] puts in the link is the code of
    the marathon exactly when the text marathon_ does not occur in that
    code; a code in which it occurs is read back shorter. *)
Theorem invite_link_round_trip (code : string) :
  (Flows.invite_code_of (Flows.invite_argument code) = Some code
   <-> occurs "marathon_" code = false)
  /\ (occurs "marathon_" code = true ->
      exists read,
        Flows.invite_code_of (Flows.invite_argument code) = Some read
        /\ (String.length read < String.length code)%nat).
Proof.
  rewrite invite_code_of_argument.
  assert (Hlt : occurs "marathon_" code = true ->
                (String.length (Flows.remove_all "marathon_" code O)
                 < String.length code)%nat).
  { apply remove_all_some. reflexivity. }
  split.
  - split.
    + intros E. injection E as E.
      destruct (occurs "marathon_" code) eqn:Ho; [|reflexivity].
      specialize (Hlt eq_refl). rewrite E in Hlt. lia.
    + intros Ho. f_equal. now apply remove_all_none.
  - intros Ho. eexists. split; [reflexivity|]. now apply Hlt.
Qed.

Lemma add_templates (marathon_id : Z) (drafts : list Flows.HabitDraft) :
  forall db,
    let db' :=
      fold_left
        (fun d h => Marathons.add_marathon_habit d marathon_id (Flows.d_name h)
                      (Flows.d_habit_type h) (Flows.d_daily_goal h) (Flows.d_unit h) 1)
        drafts db in
    marathon_habits db'
    = marathon_habits db
      ++ new_templates marathon_id (next_marathon_habit_id db) (map shape_of_draft drafts)
    /\ base db' = base db
    /\ marathons db' = marathons db
    /\ next_habit_id db' = next_habit_id db
    /\ next_marathon_id db' = next_marathon_id db.
Proof.
  induction drafts as [|d tl IH]; intros db; simpl.
  - rewrite app_nil_r. repeat split.
  - destruct (IH (Marathons.add_marathon_habit db marathon_id (Flows.d_name d)
                    (Flows.d_habit_type d) (Flows.d_daily_goal d) (Flows.d_unit d) 1))
      as (A & B & C & D & E).
    simpl in *. rewrite A, B, C, D, E, <- app_assoc. repeat split.
Qed.

Lemma add_habits (user_id marathon_id : Z) (drafts : list Flows.HabitDraft) :
  forall db,
    let db' :=
      fold_left
        (fun d h => fst (Catalog.create_habit d user_id (Flows.d_name h)
                           (Flows.d_habit_type h) (Flows.d_daily_goal h) (Flows.d_unit h)
                           None (Some marathon_id)))
        drafts db in
    habits (base db')
    = habits (base db)
      ++ new_habits user_id marathon_id (next_habit_id db) (map shape_of_draft drafts)
    /\ marathon_participants (base db') = marathon_participants (base db)
    /\ marathon_habits db' = marathon_habits db
    /\ marathons db' = marathons db
    /\ next_marathon_id db' = next_marathon_id db.
Proof.
  induction drafts as [|d tl IH]; intros db; simpl.
  - rewrite app_nil_r. repeat split.
  - destruct (IH (Catalog.insert_habit db user_id (Flows.d_name d)
                    (Flows.d_habit_type d) (nan_to_null (Flows.d_daily_goal d))
                    (Flows.d_unit d) None (Some marathon_id)))
      as (A & B & C & D & E).
    simpl in *. rewrite A, B, C, D, E, <- app_assoc. repeat split.
Qed.

Lemma new_templates_facts (marathon_id : Z) (shapes : list Shape) :
  forall n,
    Forall (fun t => mh_marathon_id t = marathon_id) (new_templates marathon_id n shapes)
    /\ map shape_of_template (new_templates marathon_id n shapes) = shapes.
Proof.
  induction shapes as [|[[[name type] goal] u] tl IH]; intros n; simpl.
  - split; [constructor | reflexivity].
  - destruct (IH (n + 1)) as (A & B). split.
    + constructor; [reflexivity | exact A].
    + unfold shape_of_template at 1. simpl. now rewrite B.
Qed.

Lemma get_or_create_user_keeps (db : Db) (user_id : Z) (uname fname : option string) :
  let db' := fst (fst (Catalog.get_or_create_user db user_id uname fname)) in
  habits (base db') = habits (base db)
  /\ marathon_participants (base db') = marathon_participants (base db)
  /\ habit_logs (base db') = habit_logs (base db)
  /\ marathons db' = marathons db
  /\ marathon_habits db' = marathon_habits db
  /\ next_habit_id db' = next_habit_id db
  /\ next_marathon_id db' = next_marathon_id db.
Proof.
  unfold Catalog.get_or_create_user.
  destruct (Catalog.find_user db user_id); [repeat split|].
  cbv zeta.
  match goal with
  | |- context [fold_left ?f Catalog.default_categories ?d] =>
      pose proof (insert_categories user_id Catalog.default_categories d) as S;
      cbv zeta in S;
      remember (fold_left f Catalog.default_categories d) as db1 eqn:Hdb1;
      destruct S as (A & B & C & D & F & G & I & J & K)
  end.
  cbn [fst]. simpl in A, F, G, I, J. rewrite A, F, G, I, J. repeat split.
Qed.

Lemma filter_habit_of_new (user_id marathon_id n : Z) (shapes : list Shape) (u : Z) :
  filter (Marathons.habit_of u marathon_id) (new_habits user_id marathon_id n shapes)
  = if u =? user_id then new_habits user_id marathon_id n shapes else [].
Proof.
  revert n. induction shapes as [|[[[name type] goal] un] tl IH]; intros n; simpl.
  - destruct (u =? user_id); reflexivity.
  - unfold Marathons.habit_of at 1. simpl. rewrite Z.eqb_refl, andb_true_r.
    rewrite (Z.eqb_sym user_id u), IH. destruct (u =? user_id); reflexivity.
Qed.

Lemma habit_of_older (db : Db) (user_id marathon_id : Z) :
  Forall (fun h => forall k, h_marathon_id h = Some k -> k < marathon_id)
         (habits (base db)) ->
  filter (Marathons.habit_of user_id marathon_id) (habits (base db)) = [].
Proof.
  intros Hold. apply filter_all_false.
  eapply Forall_impl; [|exact Hold]. intros h Hh. simpl in Hh.
  unfold Marathons.habit_of. destruct (h_marathon_id h) as [k|]; [|apply andb_false_r].
  specialize (Hh k eq_refl).
  replace (k =? marathon_id) with false by (symmetry; apply Z.eqb_neq; lia).
  apply andb_false_r.
Qed.

Lemma is_participant_older (ps : list MarathonParticipant) (marathon_id user_id : Z) :
  Forall (fun p => mp_marathon_id p < marathon_id) ps ->
  existsb (fun p => (mp_marathon_id p =? marathon_id) && (mp_user_id p =? user_id)) ps
  = false.
Proof.
  induction 1 as [|p tl Hp _ IH]; simpl; [reflexivity|].
  replace (mp_marathon_id p =? marathon_id) with false
    by (symmetry; apply Z.eqb_neq; lia).
  exact IH.
Qed.

Lemma finalize_marathon_effect
    (db : Db) (creator : Z) (name : string) (start_d end_d : Z) (code : string)
    (drafts : list Flows.HabitDraft) :
  drafts <> [] ->
  Marathons.get_marathon_by_code db code = None ->
  Forall (fun p => mp_marathon_id p < next_marathon_id db)
         (marathon_participants (base db)) ->
  let id := next_marathon_id db in
  exists db1,
    Flows.finalize_marathon db creator name start_d end_d code drafts = (db1, Some id)
    /\ marathons db1
       = marathons db ++ [mkMarathon id creator name code start_d end_d true]
    /\ marathon_participants (base db1)
       = marathon_participants (base db) ++ [mkParticipant id creator 0]
    /\ marathon_habits db1
       = marathon_habits db
         ++ new_templates id (next_marathon_habit_id db) (map shape_of_draft drafts)
    /\ habits (base db1)
       = habits (base db)
         ++ new_habits creator id (next_habit_id db) (map shape_of_draft drafts)
    /\ next_marathon_id db1 = id + 1.
Proof.
  intros Hne Hcode Hold id. subst id.
  unfold Flows.finalize_marathon.
  destruct drafts as [|d0 dl] eqn:Ed; [congruence|]. rewrite <- Ed. clear Hne.
  unfold Marathons.create_marathon.
  assert (Hfresh : existsb (fun m => String.eqb (invite_code m) code) (marathons db) = false).
  { unfold Marathons.get_marathon_by_code in Hcode.
    destruct (existsb _ (marathons db)) eqn:E; [|reflexivity].
    apply existsb_exists in E. destruct E as (m & Hin & E).
    apply (find_none _ _ Hcode) in Hin. congruence. }
  rewrite Hfresh. cbv zeta.
  match goal with
  | |- context [Marathons.is_participant ?d ?i ?c] =>
      assert (Hnew : Marathons.is_participant d i c = false)
        by (apply is_participant_older; exact Hold);
      rewrite Hnew
  end.
  match goal with
  | |- context [fold_left ?f drafts (fold_left ?g drafts ?d1)] =>
      pose proof (add_templates (next_marathon_id db) drafts d1) as S1; cbv zeta in S1;
      remember (fold_left g drafts d1) as db2 eqn:Hdb2 in *;
      pose proof (add_habits creator (next_marathon_id db) drafts db2) as S2;
      cbv zeta in S2;
      remember (fold_left f drafts db2) as db3 eqn:Hdb3 in *
  end.
  destruct S1 as (A1 & B1 & C1 & D1 & E1).
  destruct S2 as (A2 & B2 & C2 & D2 & E2).
  exists db3. simpl in A1, B1, C1, D1, E1.
  split; [reflexivity|].
  split; [rewrite D2, C1; reflexivity|].
  split; [rewrite B2, B1; reflexivity|].
  split; [rewrite C2, A1; reflexivity|].
  split; [rewrite A2, B1, D1; reflexivity|].
  rewrite E2, E1. reflexivity.
Qed.

Lemma cmd_start_with_code
    (db : Db) (user_id : Z) (uname fname : option string) (code : string) (m : Marathon) :
  occurs "marathon_" code = false ->
  Marathons.get_marathon_by_code db code = Some m ->
  let dbu := fst (fst (Catalog.get_or_create_user db user_id uname fname)) in
  Flows.cmd_start db user_id uname fname (Some (Flows.invite_argument code))
  = (fst (Marathons.join_marathon dbu user_id (m_id m)),
     if snd (Marathons.join_marathon dbu user_id (m_id m))
     then Flows.JoinedMarathon m else Flows.AlreadyInMarathon).
Proof.
  intros Hocc Hcode dbu. unfold Flows.cmd_start.
  pose proof (get_or_create_user_keeps db user_id uname fname) as K. cbv zeta in K.
  fold dbu in K. destruct K as (_ & _ & _ & Km & _).
  destruct (Catalog.get_or_create_user db user_id uname fname) as [[d row] created].
  simpl in dbu. subst dbu.
  rewrite invite_code_of_argument, (remove_all_none _ _ Hocc).
  unfold Marathons.get_marathon_by_code in Hcode |- *. rewrite Km, Hcode.
  destruct (Marathons.join_marathon d user_id (m_id m)) as [d2 ok]. simpl.
  destruct ok; reflexivity.
Qed.

(** X19. An invitation works end to end.  On a database whose participants
    and templates refer to marathons below the next id of the sequence and
    whose habits are linked to such marathons only, [finalize_marathon] with
    at least one habit and a code that no marathon has creates the marathon
    under that id, enters its creator and gives the creator the habits of
    the drafts.  If the text marathon_ does not occur in the code, another
    user who then opens the invite link is answered with that marathon, is
    entered with no points and gets the habits of the drafts, in their
    order; opening the link once more answers that the user is in the
    marathon already. *)
Theorem marathon_invitation
    (db : Db) (creator joiner : Z) (name : string) (start_d end_d : Z) (code : string)
    (drafts : list Flows.HabitDraft) (uname fname : option string) :
  drafts <> [] ->
  Marathons.get_marathon_by_code db code = None ->
  Forall (fun p => mp_marathon_id p < next_marathon_id db)
         (marathon_participants (base db)) ->
  Forall (fun t => mh_marathon_id t < next_marathon_id db) (marathon_habits db) ->
  Forall (fun h => forall k, h_marathon_id h = Some k -> k < next_marathon_id db)
         (habits (base db)) ->
  occurs "marathon_" code = false ->
  joiner <> creator ->
  let id := next_marathon_id db in
  let marathon := mkMarathon id creator name code start_d end_d true in
  exists db1 db2,
    Flows.finalize_marathon db creator name start_d end_d code drafts = (db1, Some id)
    /\ Marathons.is_participant db1 id creator = true
    /\ map shape_of_habit (filter (Marathons.habit_of creator id) (habits (base db1)))
       = map shape_of_draft drafts
    /\ Flows.cmd_start db1 joiner uname fname (Some (Flows.invite_argument code))
       = (db2, Flows.JoinedMarathon marathon)
    /\ In (mkParticipant id joiner 0) (marathon_participants (base db2))
    /\ map shape_of_habit (filter (Marathons.habit_of joiner id) (habits (base db2)))
       = map shape_of_draft drafts
    /\ snd (Flows.cmd_start db2 joiner uname fname (Some (Flows.invite_argument code)))
       = Flows.AlreadyInMarathon.
Proof.
  intros Hne Hcode Hps Hts Hhs Hocc Hjc id marathon.
  destruct (finalize_marathon_effect db creator name start_d end_d code drafts
              Hne Hcode Hps) as (db1 & Hfin & Fm & Fp & Ft & Fh & Fn).
  fold id in Hfin, Fm, Fp, Ft, Fh, Fn. fold marathon in Fm.
  assert (Hfind : forall d, marathons d = marathons db1 ->
                            Marathons.get_marathon_by_code d code = Some marathon).
  { intros d Hd. unfold Marathons.get_marathon_by_code in Hcode |- *.
    rewrite Hd, Fm, find_app_first, Hcode. simpl. now rewrite String.eqb_refl. }
  pose proof (get_or_create_user_keeps db1 joiner uname fname) as K. cbv zeta in K.
  set (dbu := fst (fst (Catalog.get_or_create_user db1 joiner uname fname))) in *.
  destruct K as (Kh & Kp & _ & Km & Kt & Kn & _).
  assert (Hnot : Marathons.is_participant dbu id joiner = false).
  { unfold Marathons.is_participant. rewrite Kp, Fp, existsb_app_last.
    rewrite (is_participant_older _ _ _ Hps). simpl.
    replace (creator =? joiner) with false by (symmetry; apply Z.eqb_neq; congruence).
    apply andb_false_r. }
  destruct (join_marathon_effect dbu joiner id Hnot) as (Jok & Jp & Jh & _ & Jk).
  set (db2 := fst (Marathons.join_marathon dbu joiner id)) in *.
  assert (Hstart : Flows.cmd_start db1 joiner uname fname
                     (Some (Flows.invite_argument code))
                   = (db2, Flows.JoinedMarathon marathon)).
  { rewrite (cmd_start_with_code db1 joiner uname fname code marathon Hocc
               (Hfind db1 eq_refl)).
    fold dbu. simpl m_id. fold db2. now rewrite Jok. }
  assert (Htemplates : map shape_of_template (Marathons.templates dbu id)
                       = map shape_of_draft drafts).
  { unfold Marathons.templates. rewrite Kt, Ft, filter_app.
    rewrite (filter_all_false _ (marathon_habits db)).
    - simpl.
      destruct (new_templates_facts id (map shape_of_draft drafts)
                  (next_marathon_habit_id db)) as [A B].
      rewrite filter_all_true; [exact B|].
      eapply Forall_impl; [|exact A]. intros t Ht. simpl in Ht. rewrite Ht.
      apply Z.eqb_refl.
    - eapply Forall_impl; [|exact Hts]. intros t Ht. simpl in Ht.
      apply Z.eqb_neq. unfold id. lia. }
  exists db1, db2.
  split; [exact Hfin|].
  split.
  { unfold Marathons.is_participant. rewrite Fp, existsb_app_last. simpl.
    rewrite !Z.eqb_refl. apply orb_true_r. }
  split.
  { rewrite Fh, filter_app, (habit_of_older db creator id Hhs), filter_habit_of_new,
      Z.eqb_refl. simpl.
    apply (new_habits_facts creator id (map shape_of_draft drafts) (next_habit_id db)). }
  split; [exact Hstart|].
  split; [rewrite Jp; apply in_or_app; right; now left|].
  split.
  { rewrite Jh, Kh, Fh, !filter_app, (habit_of_older db joiner id Hhs),
      !filter_habit_of_new, Z.eqb_refl.
    replace (joiner =? creator) with false by (symmetry; apply Z.eqb_neq; congruence).
    simpl. rewrite Htemplates.
    apply (new_habits_facts joiner id (map shape_of_draft drafts) (next_habit_id dbu)). }
  pose proof (get_or_create_user_keeps db2 joiner uname fname) as K2. cbv zeta in K2.
  destruct K2 as (_ & Kp2 & _ & Km2 & _).
  destruct Jk as (_ & _ & _ & _ & _ & _ & _ & _ & Jm & _).
  rewrite (cmd_start_with_code db2 joiner uname fname code marathon Hocc).
  2:{ apply Hfind. now rewrite Jm, Km. }
  cbn [snd m_id marathon].
  assert (Hin : Marathons.is_participant
                  (fst (fst (Catalog.get_or_create_user db2 joiner uname fname)))
                  id joiner = true).
  { unfold Marathons.is_participant. rewrite Kp2, Jp, existsb_app_last. simpl.
    rewrite !Z.eqb_refl. apply orb_true_r. }
  unfold Marathons.join_marathon. fold id. rewrite Hin. reflexivity.
Qed.

Lemma marathon_invitation_witness :
  let drafts := [Flows.mkHabitDraft "swim" Numeric (Finite 2) "km";
                 Flows.mkHabitDraft "sleep early" Boolean (Finite 1) ""]%string in
  exists db1 db2,
    Flows.finalize_marathon ExampleDb.db0 100 "summer" 739100 739130 "q8Xw_-3mZp0" drafts
    = (db1, Some 8)
    /\ Flows.cmd_start db1 200 None (Some "Bob"%string)
         (Some "marathon_q8Xw_-3mZp0"%string)
       = (db2, Flows.JoinedMarathon
                 (mkMarathon 8 100 "summer" "q8Xw_-3mZp0" 739100 739130 true))
    /\ In (mkParticipant 8 200 0) (marathon_participants (base db2)).
Proof.
  intros drafts.
  destruct (marathon_invitation ExampleDb.db0 100 200 "summer" 739100 739130
              "q8Xw_-3mZp0" drafts None (Some "Bob"%string))
    as (db1 & db2 & A & _ & _ & B & C & _).
  - discriminate.
  - reflexivity.
  - repeat constructor.
  - repeat constructor.
  - repeat constructor; simpl; intros k E; try discriminate.
    injection E as <-. reflexivity.
  - reflexivity.
  - discriminate.
  - exists db1, db2. split; [exact A|]. split; [exact B | exact C].
Defined.

(** ** The leaderboard *)

Lemma filter_key_at_most_one {A : Type} (key : A -> Z) (k : Z) (l : list A) :
  NoDup (map key l) ->
  (List.length (filter (fun x => (key x =? k)%Z) l) <= 1)%nat.
Proof.
  induction l as [|x tl IH]; intros Hnd; simpl; [lia|].
  inversion Hnd as [|? ? Hnotin Hnd']; subst.
  destruct (key x =? k) eqn:E; [|now apply IH].
  apply Z.eqb_eq in E. simpl.
  assert (Hnil : filter (fun y => key y =? k) tl = []).
  { apply filter_all_false. rewrite Forall_forall. intros y Hy.
    apply Z.eqb_neq. intros Ey. apply Hnotin. rewrite E, <- Ey. now apply in_map. }
  rewrite Hnil. simpl. lia.
Qed.

Lemma joined_rows (ui : list UserInfo) (ps : list MarathonParticipant) :
  NoDup (map ui_user_id ui) ->
  map fst (flat_map (fun p => map (fun i => (p, i))
                                  (filter (fun i => ui_user_id i =? mp_user_id p) ui))
                    ps)
  = filter (fun p => existsb (fun i => ui_user_id i =? mp_user_id p) ui) ps.
Proof.
  intros Hnd. induction ps as [|p tl IH]; simpl; [reflexivity|].
  rewrite map_app, IH, map_map. simpl.
  pose proof (filter_key_at_most_one ui_user_id (mp_user_id p) ui Hnd) as Hlen.
  destruct (filter (fun i => ui_user_id i =? mp_user_id p) ui) as [|i [|j rest]] eqn:E.
  - assert (Hex : existsb (fun i => ui_user_id i =? mp_user_id p) ui = false).
    { destruct (existsb _ ui) eqn:Ex; [|reflexivity].
      apply existsb_exists in Ex. destruct Ex as (i & Hin & Hi).
      assert (Hf : In i (filter (fun i => ui_user_id i =? mp_user_id p) ui))
        by (apply filter_In; auto).
      rewrite E in Hf. destruct Hf. }
    rewrite Hex. reflexivity.
  - assert (Hex : existsb (fun i => ui_user_id i =? mp_user_id p) ui = true).
    { apply existsb_exists. exists i.
      assert (Hf : In i (filter (fun i => ui_user_id i =? mp_user_id p) ui))
        by (rewrite E; now left).
      apply filter_In in Hf. exact Hf. }
    rewrite Hex. reflexivity.
  - simpl in Hlen. lia.
Qed.

(** X20. The leaderboard of a marathon lists by decreasing points the
    participants of that marathon that have a user row, each with the row of
    its user; with distinct user ids every such participant is listed
    exactly once. *)
Theorem leaderboard_sorted (db : Db) (marathon_id : Z) :
  let board := Marathons.get_marathon_leaderboard db marathon_id in
  StronglySorted (fun a b => (total_points (fst b) <= total_points (fst a))%Q) board
  /\ Forall (fun e => In (fst e) (marathon_participants (base db))
                      /\ mp_marathon_id (fst e) = marathon_id
                      /\ In (snd e) (user_info db)
                      /\ ui_user_id (snd e) = mp_user_id (fst e))
            board
  /\ (NoDup (map ui_user_id (user_info db)) ->
      Permutation (map fst board)
        (filter (fun p => (mp_marathon_id p =? marathon_id)
                          && existsb (fun i => ui_user_id i =? mp_user_id p)
                                     (user_info db))
                (marathon_participants (base db)))).
Proof.
  intros board. unfold Marathons.get_marathon_leaderboard in board.
  match goal with
  | board := sort_by ?leb ?rows |- _ =>
      assert (Hperm : Permutation board rows) by apply sort_by_perm;
      assert (Hsorted : Sorted (fun x y => leb x y = true) board)
        by (apply sort_by_sorted; intros x y Hxy; apply Qle_bool_iff;
            apply Qlt_le_weak, Qnot_le_lt; intros Hle; apply Qle_bool_iff in Hle;
            simpl in Hxy; congruence)
  end.
  split.
  { apply Sorted_StronglySorted.
    - intros x y z Hxy Hyz. eapply Qle_trans; eassumption.
    - clear - Hsorted. induction Hsorted as [|x tl Hs IH Hhd]; constructor; [exact IH|].
      destruct Hhd as [|y tl' Hxy]; constructor. now apply Qle_bool_iff. }
  split.
  { rewrite Forall_forall. intros e He.
    apply (Permutation_in _ Hperm) in He. apply in_flat_map in He.
    destruct He as (p & Hp & He). apply filter_In in Hp. destruct Hp as [Hp Hm].
    apply in_map_iff in He. destruct He as (i & <- & Hi).
    apply filter_In in Hi. destruct Hi as [Hi Hu]. simpl.
    apply Z.eqb_eq in Hm, Hu. auto. }
  intros Hnd.
  eapply perm_trans; [apply Permutation_map, Hperm|].
  rewrite (joined_rows _ _ Hnd), filter_filter_andb. apply Permutation_refl.
Qed.

(** ** Deleting a habit, changing a goal *)

Lemma find_filter_other {A : Type} (p q : A -> bool) (l : list A) :
  (forall x, p x = true -> q x = true) ->
  find p (filter q l) = find p l.
Proof.
  intros Hpq. induction l as [|x tl IH]; simpl; [reflexivity|].
  destruct (q x) eqn:Eq; simpl.
  - destruct (p x); [reflexivity | exact IH].
  - destruct (p x) eqn:Ep; [|exact IH]. apply Hpq in Ep. congruence.
Qed.

Lemma find_filter_none {A : Type} (p q : A -> bool) (l : list A) :
  (forall x, p x = true -> q x = false) ->
  find p (filter q l) = None.
Proof.
  intros Hpq. induction l as [|x tl IH]; simpl; [reflexivity|].
  destruct (q x) eqn:Eq; simpl; [|exact IH].
  destruct (p x) eqn:Ep; [|exact IH]. apply Hpq in Ep. congruence.
Qed.

(** X21. [delete_habit] removes the habit and its logs and nothing else:
    afterwards the habit and its logs are not found, every other habit and
    every log of another habit is found as before, and the notification
    ledger is as it was.  What still refers to the habit then fails without
    a write: [log_habit] and [update_streak] raise, and so does every log
    handler; the sweep of a prompt left for the habit logs nothing.  One row
    per habit and date stays so. *)
Theorem delete_habit_spec (st : Store) (habit_id : Z) :
  let st' := Catalog.delete_habit st habit_id in
  Database.get_habit st' habit_id = None
  /\ (forall k, k <> habit_id -> Database.get_habit st' k = Database.get_habit st k)
  /\ (forall d, Database.get_daily_log st' habit_id d = None)
  /\ (forall k d, k <> habit_id ->
        Database.get_daily_log st' k d = Database.get_daily_log st k d)
  /\ pending_notifications st' = pending_notifications st
  /\ (forall user_id value d,
        Database.log_habit st' habit_id user_id value d = None
        /\ Handlers.log_and_mark st' user_id habit_id value d = None)
  /\ (forall completed, Database.update_streak st' habit_id completed = None)
  /\ (forall bot_instance today outbox notif,
        pn_habit_id notif = habit_id ->
        Scheduler.expire_one bot_instance today (mkWorld st' outbox) notif
        = mkWorld st' outbox)
  /\ (logs_wf st -> logs_wf st').
Proof.
  intros st'.
  assert (Hgone : Database.get_habit st' habit_id = None).
  { unfold Database.get_habit, st', Catalog.delete_habit. simpl.
    apply find_filter_none. intros x Hx. now rewrite Hx. }
  assert (Hlog : forall user_id value d,
            Database.log_habit st' habit_id user_id value d = None).
  { intros. unfold Database.log_habit. now rewrite Hgone. }
  split; [exact Hgone|].
  split.
  { intros k Hk. unfold Database.get_habit, st', Catalog.delete_habit. simpl.
    apply find_filter_other. intros x Hx. apply Z.eqb_eq in Hx.
    apply negb_true_iff, Z.eqb_neq. congruence. }
  split.
  { intros d. unfold Database.get_daily_log, st', Catalog.delete_habit. simpl.
    apply find_filter_none. intros x Hx. apply andb_true_iff in Hx.
    destruct Hx as [Hx _]. now rewrite Hx. }
  split.
  { intros k d Hk. unfold Database.get_daily_log, st', Catalog.delete_habit. simpl.
    apply find_filter_other. intros x Hx. apply andb_true_iff in Hx.
    destruct Hx as [Hx _]. apply Z.eqb_eq in Hx.
    apply negb_true_iff, Z.eqb_neq. congruence. }
  split; [reflexivity|].
  split.
  { intros. split; [apply Hlog|]. unfold Handlers.log_and_mark. now rewrite Hlog. }
  split.
  { intros. unfold Database.update_streak. now rewrite Hgone. }
  split.
  { intros bot_instance today outbox notif Hn. unfold Scheduler.expire_one. simpl.
    now rewrite Hn, Hlog. }
  intros (Hk & Hi & Hb). unfold logs_wf, st', Catalog.delete_habit. simpl.
  split; [|split].
  - clear - Hk. induction (habit_logs st) as [|x tl IH]; simpl; [constructor|].
    inversion Hk as [|? ? Hnotin Hk']; subst.
    destruct (negb (hl_habit_id x =? habit_id)); simpl; [|now apply IH].
    constructor; [|now apply IH].
    intros Hin. apply Hnotin. apply in_map_iff in Hin. destruct Hin as (y & Hy & Hin).
    apply filter_In in Hin. rewrite <- Hy. apply in_map. apply Hin.
  - clear - Hi. induction (habit_logs st) as [|x tl IH]; simpl; [constructor|].
    inversion Hi as [|? ? Hnotin Hi']; subst.
    destruct (negb (hl_habit_id x =? habit_id)); simpl; [|now apply IH].
    constructor; [|now apply IH].
    intros Hin. apply Hnotin. apply in_map_iff in Hin. destruct Hin as (y & Hy & Hin).
    apply filter_In in Hin. rewrite <- Hy. apply in_map. apply Hin.
  - rewrite Forall_forall in Hb |- *. intros l Hl. apply filter_In in Hl.
    apply Hb. apply Hl.
Qed.

Lemma sql_real_nan_to_null `{Backend} (x : PyFloat) :
  Database.sql_real (nan_to_null x) = nan_to_null x.
Proof. destruct x; reflexivity. Qed.

(** X22. The handler that changes the goal of a habit: a text that is no
    number writes nothing and the handler returns; a text that [float]
    reads, NaN and the infinities among them, has the goal column of that
    habit rewritten and committed, and then the handler raises (the
    keyboard of the reply is built with an unbound name), the store keeping
    the new goal.  Nothing else is written: every other habit, the
    streaks, the logs, the ledger and the balances are as before.  The row
    of a day already logged keeps the completed flag that was computed with
    the old goal, while the completion that settlement computes compares the
    value on record with the new goal.  A NaN is stored as NULL, and every
    later log of the habit raises. *)
Theorem goal_edit_spec `{Backend} (st : Store) (habit_id : Z) (new_goal : PyFloat) :
  Flows.edit_habit_goal_done st habit_id None = (st, Flows.Returned)
  /\ exists st',
       Flows.edit_habit_goal_done st habit_id (Some new_goal) = (st', Flows.Raised)
       /\ users st' = users st
       /\ habit_logs st' = habit_logs st
       /\ pending_notifications st' = pending_notifications st
       /\ marathon_participants st' = marathon_participants st
       /\ (forall k,
             Database.get_habit st' k
             = option_map (fun h => if h_id h =? habit_id
                                    then Catalog.assign h (Catalog.set_daily_goal new_goal)
                                    else h)
                          (Database.get_habit st k))
       /\ map (fun h => (h_id h, streak h, max_streak h)) (habits st')
          = map (fun h => (h_id h, streak h, max_streak h)) (habits st)
       /\ (forall k d, Database.get_daily_log st' k d = Database.get_daily_log st k d)
       /\ (forall h today,
             Database.get_habit st' habit_id = Some h ->
             daily_goal h = nan_to_null new_goal
             /\ completed_on st' today h
                = match value_on_record (Database.get_daily_log st habit_id today),
                        nan_to_null new_goal with
                  | Some value, Some goal => float_ge value goal
                  | _, _ => false
                  end
             /\ (new_goal = NaN ->
                 forall user_id value,
                   Database.log_habit st' habit_id user_id value today = None)).
Proof.
  split; [reflexivity|].
  eexists. split; [reflexivity|].
  assert (Hget : forall k,
            Database.get_habit
              (set_habits st
                 (map (fun h => if h_id h =? habit_id
                                then fold_left Catalog.assign
                                       [Catalog.set_daily_goal new_goal] h
                                else h)
                      (habits st))) k
            = option_map (fun h => if h_id h =? habit_id
                                   then Catalog.assign h (Catalog.set_daily_goal new_goal)
                                   else h)
                         (Database.get_habit st k)).
  { intros k. unfold Database.get_habit. simpl.
    apply find_map_preserved. intros x. destruct (h_id x =? habit_id); reflexivity. }
  do 4 (split; [reflexivity|]).
  split; [exact Hget|].
  split.
  { simpl. rewrite map_map. apply map_ext. intros h.
    destruct (h_id h =? habit_id); reflexivity. }
  split; [reflexivity|].
  intros h today Hh. pose proof Hh as Hh'. rewrite Hget in Hh.
  destruct (Database.get_habit st habit_id) as [row|] eqn:E; [|discriminate].
  pose proof (get_habit_id _ _ _ E) as Hid.
  simpl in Hh. rewrite Hid, Z.eqb_refl in Hh. injection Hh as <-.
  split; [reflexivity|].
  split.
  - unfold completed_on, completion. simpl daily_goal. simpl h_id.
    rewrite sql_real_nan_to_null.
    change (Database.get_daily_log
              (set_habits st
                 (map (fun h => if h_id h =? habit_id
                                then fold_left Catalog.assign
                                       [Catalog.set_daily_goal new_goal] h
                                else h)
                      (habits st))) habit_id today)
      with (Database.get_daily_log st habit_id today).
    destruct (value_on_record (Database.get_daily_log st habit_id today)) as [v|];
      destruct (nan_to_null new_goal); reflexivity.
  - intros -> user_id value.
    eapply log_habit_raises; [exact Hh'|].
    intros [_ Hg]. apply Hg. reflexivity.
Qed.

(** The goal of [run] set to the text nan: the handler raises with the NULL
    goal committed, and the next log of the habit raises. *)
Lemma goal_edit_nan_example :
  exists st',
    Flows.edit_habit_goal_done Example.store0 1 (Some NaN) = (st', Flows.Raised)
    /\ option_map daily_goal (Database.get_habit st' 1) = Some None
    /\ Database.log_habit (H := sqlite_backend) st' 1 100 (Finite 3) Example.day = None.
Proof. eexists. repeat split. Qed.

(** ** The well-formed database along the steps *)

Lemma kept_rows_distinct {Row Key : Type} (key : Row -> Key) (keep : Row -> bool)
    (rows : list Row) (Hnd : NoDup (map key rows)) :
  NoDup (map key (filter keep rows)).
Proof.
  induction rows as [|x tl IH]; simpl; [constructor|].
  inversion Hnd as [|? ? Hnotin Hnd']; subst.
  destruct (keep x); simpl; [|now apply IH].
  constructor; [|now apply IH].
  intros Hin. apply Hnotin. apply in_map_iff in Hin. destruct Hin as (y & Hy & Hin).
  apply filter_In in Hin. rewrite <- Hy. apply in_map. apply Hin.
Qed.

Lemma forall_filter {A : Type} (P : A -> Prop) (p : A -> bool) (l : list A) :
  Forall P l -> Forall P (filter p l).
Proof.
  rewrite !Forall_forall. intros H x Hx. apply filter_In in Hx. apply H, Hx.
Qed.

Lemma nodup_app_fresh {A : Type} (l l' : list A) :
  NoDup l -> NoDup l' -> (forall x, In x l -> In x l' -> False) -> NoDup (l ++ l').
Proof.
  intros Hl Hl' Hd. induction l as [|x tl IH]; simpl; [exact Hl'|].
  inversion Hl as [|? ? Hnotin Hnd]; subst.
  constructor.
  - intros Hin. apply in_app_or in Hin. destruct Hin as [Hin|Hin]; [auto|].
    apply (Hd x); [now left | exact Hin].
  - apply IH; [exact Hnd|]. intros y Hy. apply Hd. now right.
Qed.

(** *** Unchanged tables *)

Lemma users_wf_same (db db' : Db) :
  users (base db') = users (base db) -> user_info db' = user_info db ->
  users_wf db -> users_wf db'.
Proof.
  unfold users_wf, users_aligned. intros -> ->. tauto.
Qed.

Lemma marathons_wf_same (db db' : Db) :
  marathons db' = marathons db -> next_marathon_id db' = next_marathon_id db ->
  marathons_wf db -> marathons_wf db'.
Proof. unfold marathons_wf. intros -> ->. tauto. Qed.

Lemma participants_wf_same (db db' : Db) :
  map participant_key (marathon_participants (base db'))
  = map participant_key (marathon_participants (base db)) ->
  marathon_habits db' = marathon_habits db ->
  next_marathon_id db' = next_marathon_id db ->
  participants_wf db -> participants_wf db'.
Proof.
  unfold participants_wf. intros Hk -> ->. intros (A & B & C).
  split; [now rewrite Hk|]. split; [|exact C].
  assert (Hm : map mp_marathon_id (marathon_participants (base db'))
               = map mp_marathon_id (marathon_participants (base db))).
  { replace mp_marathon_id with (fun p => fst (participant_key p)) by reflexivity.
    rewrite <- !(map_map participant_key fst). now rewrite Hk. }
  apply Forall_map with (f := mp_marathon_id) (P := fun k => k < next_marathon_id db).
  rewrite Hm. now apply Forall_map.
Qed.

Lemma logs_wf_same (st st' : Store) :
  habit_logs st' = habit_logs st -> next_log_id st' = next_log_id st ->
  logs_wf st -> logs_wf st'.
Proof. unfold logs_wf. intros -> ->. tauto. Qed.

Lemma habits_wf_same (db db' : Db) :
  habits (base db') = habits (base db) ->
  habit_logs (base db') = habit_logs (base db) ->
  next_log_id (base db') = next_log_id (base db) ->
  next_habit_id db' = next_habit_id db ->
  next_marathon_id db' = next_marathon_id db ->
  habits_wf db -> habits_wf db'.
Proof.
  unfold habits_wf. intros Hh Hl Hn -> ->. intros (A & B & C & D & E & F).
  rewrite Hh, Hl.
  split; [exact A|]. split; [exact B|]. split; [exact C|]. split; [exact D|].
  split; [|exact F]. apply (logs_wf_same (base db)); assumption.
Qed.

(** *** Rows rewritten in place *)

Lemma habits_wf_rewritten (db db' : Db) (f : Habit -> Habit) :
  (forall h, h_id (f h) = h_id h) ->
  (forall h, streak (f h) = streak h /\ max_streak (f h) = max_streak h) ->
  (forall h, h_marathon_id (f h) = h_marathon_id h \/ h_marathon_id (f h) = None) ->
  habits (base db') = map f (habits (base db)) ->
  habit_logs (base db') = habit_logs (base db) ->
  next_log_id (base db') = next_log_id (base db) ->
  next_habit_id db' = next_habit_id db ->
  next_marathon_id db' = next_marathon_id db ->
  habits_wf db -> habits_wf db'.
Proof.
  unfold habits_wf. intros Hid Hs Hm Hh Hl Hn -> ->. intros (A & B & C & D & E & F).
  assert (Hids : map h_id (habits (base db')) = map h_id (habits (base db))).
  { rewrite Hh, map_map. apply map_ext. exact Hid. }
  rewrite Hids, Hl.
  split; [exact A|].
  split.
  { rewrite Hh. apply Forall_map. eapply Forall_impl; [|exact B].
    intros h Hlt. simpl. now rewrite Hid. }
  split.
  { rewrite Hh. apply Forall_map. eapply Forall_impl; [|exact C].
    intros h Hinv. unfold streak_invariant in *. destruct (Hs h) as [-> ->]. exact Hinv. }
  split.
  { rewrite Hh. apply Forall_map. eapply Forall_impl; [|exact D].
    intros h Hlt k Hk. simpl in Hk. destruct (Hm h) as [E'|E']; rewrite E' in Hk;
      [now apply Hlt | discriminate]. }
  split; [|exact F].
  apply (logs_wf_same (base db)); assumption.
Qed.

(** *** Rows removed *)

Lemma habits_wf_removed (db db' : Db) (gone : Habit -> bool) (kept : HabitLog -> bool) :
  (forall l h, kept l = true -> In h (habits (base db)) -> gone h = true ->
               h_id h <> hl_habit_id l) ->
  habits (base db') = filter (fun h => negb (gone h)) (habits (base db)) ->
  habit_logs (base db') = filter kept (habit_logs (base db)) ->
  next_log_id (base db') = next_log_id (base db) ->
  next_habit_id db' = next_habit_id db ->
  next_marathon_id db' = next_marathon_id db ->
  habits_wf db -> habits_wf db'.
Proof.
  unfold habits_wf. intros Hkept Hh Hl Hn -> ->. intros (A & B & C & D & E & F).
  rewrite Hh.
  split; [now apply kept_rows_distinct|].
  split; [now apply forall_filter|].
  split; [now apply forall_filter|].
  split; [now apply forall_filter|].
  split.
  { destruct E as (E1 & E2 & E3). unfold logs_wf. rewrite Hl, Hn.
    split; [now apply kept_rows_distinct|].
    split; [now apply kept_rows_distinct | now apply forall_filter]. }
  rewrite Hl. rewrite Forall_forall in F |- *. intros l Hin.
  apply filter_In in Hin. destruct Hin as [Hin Hkeep].
  specialize (F l Hin). apply in_map_iff in F. destruct F as (h & Hid & Hhin).
  apply in_map_iff. exists h. split; [exact Hid|].
  apply filter_In. split; [exact Hhin|].
  destruct (gone h) eqn:Eg; [|reflexivity].
  exfalso. exact (Hkept l h Hkeep Hhin Eg Hid).
Qed.

(** *** Rows appended *)

Lemma new_habits_wf (user_id marathon_id : Z) (shapes : list Shape) :
  forall n,
    NoDup (map h_id (new_habits user_id marathon_id n shapes))
    /\ Forall (fun h => n <= h_id h < n + Z.of_nat (List.length shapes)
                        /\ streak_invariant h
                        /\ h_marathon_id h = Some marathon_id)
              (new_habits user_id marathon_id n shapes).
Proof.
  induction shapes as [|[[[name type] goal] u] tl IH]; intros n; simpl.
  - split; constructor.
  - destruct (IH (n + 1)) as [A B]. split.
    + constructor; [|exact A]. intros Hin. apply in_map_iff in Hin.
      destruct Hin as (h & Hid & Hin). rewrite Forall_forall in B.
      destruct (B h Hin) as [Hr _]. lia.
    + constructor.
      * simpl. split; [lia|]. split; [unfold streak_invariant; simpl; lia | reflexivity].
      * eapply Forall_impl; [|exact B]. intros h (Hr & Hs & Hm).
        split; [lia|]. auto.
Qed.

Lemma habits_wf_appended (db db' : Db) (new : list Habit) (k : Z) :
  0 <= k ->
  NoDup (map h_id new) ->
  Forall (fun h => next_habit_id db <= h_id h < next_habit_id db + k
                   /\ streak_invariant h
                   /\ forall m, h_marathon_id h = Some m -> m < next_marathon_id db')
         new ->
  habits (base db') = habits (base db) ++ new ->
  habit_logs (base db') = habit_logs (base db) ->
  next_log_id (base db') = next_log_id (base db) ->
  next_habit_id db' = next_habit_id db + k ->
  next_marathon_id db <= next_marathon_id db' ->
  habits_wf db -> habits_wf db'.
Proof.
  unfold habits_wf. intros Hk0 Hnd Hnew Hh Hl Hn Hk Hm (A & B & C & D & E & F).
  rewrite Hh, Hl, Hk. rewrite Forall_forall in Hnew.
  split.
  { rewrite map_app. apply nodup_app_fresh; [exact A | exact Hnd|].
    intros i Hi Hi'. apply in_map_iff in Hi, Hi'.
    destruct Hi as (h & <- & Hin). destruct Hi' as (h' & Hid & Hin').
    rewrite Forall_forall in B. specialize (B h Hin).
    destruct (Hnew h' Hin') as [Hr _]. lia. }
  split.
  { apply Forall_app. split.
    - eapply Forall_impl; [|exact B]. intros h Hlt. simpl in *. lia.
    - rewrite Forall_forall. intros h Hin. destruct (Hnew h Hin) as [Hr _]. lia. }
  split.
  { apply Forall_app. split; [exact C|].
    rewrite Forall_forall. intros h Hin. apply (Hnew h Hin). }
  split.
  { apply Forall_app. split.
    - eapply Forall_impl; [|exact D]. intros h Hlt m Hm'. specialize (Hlt m Hm'). lia.
    - rewrite Forall_forall. intros h Hin. apply (Hnew h Hin). }
  split; [apply (logs_wf_same (base db)); assumption|].
  eapply Forall_impl; [|exact F]. intros l Hin. simpl in *.
  rewrite map_app. apply in_or_app. now left.
Qed.

(** *** The steps *)

Lemma with_base_wf (db : Db) (st : Store) :
  users st = users (base db) ->
  map participant_key (marathon_participants st)
  = map participant_key (marathon_participants (base db)) ->
  habits_wf (with_base db st) ->
  db_wf db -> db_wf (with_base db st).
Proof.
  intros Hu Hp Hh (U & _ & M & P).
  split; [|split; [exact Hh|split]].
  - apply (users_wf_same db); [exact Hu | reflexivity | exact U].
  - apply (marathons_wf_same db); [reflexivity | reflexivity | exact M].
  - apply (participants_wf_same db); [exact Hp | reflexivity | reflexivity | exact P].
Qed.

Lemma get_or_create_user_wf (db : Db) (user_id : Z) (uname fname : option string) :
  db_wf db -> db_wf (fst (fst (Catalog.get_or_create_user db user_id uname fname))).
Proof.
  intros (U & Hh & M & P). unfold Catalog.get_or_create_user.
  destruct (Catalog.find_user db user_id) as [row|] eqn:E;
    [split; [exact U | split; [exact Hh | split; [exact M | exact P]]]|].
  cbv zeta.
  match goal with
  | |- context [fold_left ?f Catalog.default_categories ?d] =>
      pose proof (insert_categories user_id Catalog.default_categories d) as S;
      cbv zeta in S;
      remember (fold_left f Catalog.default_categories d) as db1 eqn:Hdb1;
      destruct S as (A & B & C & D & F & G & I & J & K)
  end.
  cbn [fst]. simpl in A, B, F, G, I, J.
  split; [|split; [|split]].
  - destruct U as [Und Ual]. unfold users_wf, users_aligned in *.
    rewrite A, B. simpl. rewrite !map_app. simpl. split; [|now rewrite Ual].
    apply nodup_app_fresh; [exact Und | repeat constructor; intros [] |].
    intros x Hx [<-|[]]. apply in_map_iff in Hx. destruct Hx as (u & Hu & Hin).
    unfold Catalog.find_user in E. apply (find_none _ _ E) in Hin. simpl in Hin.
    rewrite Hu, Z.eqb_refl in Hin. discriminate.
  - apply (habits_wf_same db); try (rewrite A; reflexivity); assumption.
  - apply (marathons_wf_same db); assumption.
  - apply (participants_wf_same db); try assumption. rewrite A. reflexivity.
Qed.

Lemma join_marathon_wf (db : Db) (user_id marathon_id : Z) :
  marathon_id < next_marathon_id db ->
  db_wf db -> db_wf (fst (Marathons.join_marathon db user_id marathon_id)).
Proof.
  intros Hm Hwf.
  destruct (Marathons.is_participant db marathon_id user_id) eqn:Hp.
  { unfold Marathons.join_marathon. now rewrite Hp. }
  destruct (join_marathon_effect db user_id marathon_id Hp) as (_ & Jp & Jh & Jn & Jk).
  set (db' := fst (Marathons.join_marathon db user_id marathon_id)) in *.
  destruct Jk as (K1 & K2 & K3 & K4 & K5 & K6 & K7 & K8 & K9 & K10 & K11 & K12).
  destruct Hwf as (U & Hh & M & P).
  split; [|split; [|split]].
  - apply (users_wf_same db); assumption.
  - destruct (new_habits_wf user_id marathon_id
                (map shape_of_template (Marathons.templates db marathon_id))
                (next_habit_id db)) as [A B].
    rewrite length_map in B.
    apply (habits_wf_appended db db'
             (new_habits user_id marathon_id (next_habit_id db)
                (map shape_of_template (Marathons.templates db marathon_id)))
             (Z.of_nat (List.length (Marathons.templates db marathon_id))));
      try assumption; try lia.
    eapply Forall_impl; [|exact B]. intros h (Hr & Hs & Hl).
    split; [exact Hr|]. split; [exact Hs|]. intros m Hm'. rewrite K10. congruence.
  - apply (marathons_wf_same db); assumption.
  - destruct P as (P1 & P2 & P3). unfold participants_wf. rewrite Jp, K10, K11.
    split; [|split; [|exact P3]].
    + rewrite map_app. apply nodup_app_fresh; [exact P1 | repeat constructor; intros [] |].
      intros x Hx [<-|[]]. apply in_map_iff in Hx. destruct Hx as (p & Hk & Hin).
      unfold Marathons.is_participant in Hp.
      assert (Hex : existsb (fun p => (mp_marathon_id p =? marathon_id)
                                      && (mp_user_id p =? user_id))
                            (marathon_participants (base db)) = true).
      { apply existsb_exists. exists p. split; [exact Hin|].
        unfold participant_key in Hk. simpl in Hk. injection Hk as -> ->.
        now rewrite !Z.eqb_refl. }
      congruence.
    + apply Forall_app. split; [exact P2|]. repeat constructor. exact Hm.
Qed.

Lemma cmd_start_wf (db : Db) (user_id : Z) (uname fname arg : option string) :
  db_wf db -> db_wf (fst (Flows.cmd_start db user_id uname fname arg)).
Proof.
  intros Hwf. unfold Flows.cmd_start.
  pose proof (get_or_create_user_wf db user_id uname fname Hwf) as Hu.
  pose proof (get_or_create_user_keeps db user_id uname fname) as K. cbv zeta in K.
  destruct (Catalog.get_or_create_user db user_id uname fname) as [[d row] created].
  simpl in Hu, K.
  destruct arg as [a|]; [|exact Hu].
  destruct (Flows.invite_code_of a) as [code|]; [|exact Hu].
  destruct (Marathons.get_marathon_by_code d code) as [m|] eqn:Em; [|exact Hu].
  assert (Hm : m_id m < next_marathon_id d).
  { unfold Marathons.get_marathon_by_code in Em. apply find_some in Em.
    destruct Em as [Hin _]. destruct Hu as (_ & _ & (_ & Hseq & _) & _).
    rewrite Forall_forall in Hseq. now apply Hseq. }
  pose proof (join_marathon_wf d user_id (m_id m) Hm Hu) as Hj.
  destruct (Marathons.join_marathon d user_id (m_id m)) as [d2 ok].
  destruct ok; exact Hj.
Qed.

Lemma add_templates_frame (marathon_id : Z) (drafts : list Flows.HabitDraft) :
  forall db,
    let db' :=
      fold_left
        (fun d h => Marathons.add_marathon_habit d marathon_id (Flows.d_name h)
                      (Flows.d_habit_type h) (Flows.d_daily_goal h) (Flows.d_unit h) 1)
        drafts db in
    base db' = base db /\ user_info db' = user_info db
    /\ next_habit_id db' = next_habit_id db.
Proof.
  induction drafts as [|d tl IH]; intros db; simpl; [repeat split|].
  destruct (IH (Marathons.add_marathon_habit db marathon_id (Flows.d_name d)
                  (Flows.d_habit_type d) (Flows.d_daily_goal d) (Flows.d_unit d) 1))
    as (A & B & C).
  simpl in *. rewrite A, B, C. repeat split.
Qed.

Lemma add_habits_frame (user_id marathon_id : Z) (drafts : list Flows.HabitDraft) :
  forall db,
    let db' :=
      fold_left
        (fun d h => fst (Catalog.create_habit d user_id (Flows.d_name h)
                           (Flows.d_habit_type h) (Flows.d_daily_goal h) (Flows.d_unit h)
                           None (Some marathon_id)))
        drafts db in
    users (base db') = users (base db)
    /\ habit_logs (base db') = habit_logs (base db)
    /\ next_log_id (base db') = next_log_id (base db)
    /\ user_info db' = user_info db
    /\ next_habit_id db' = next_habit_id db + Z.of_nat (List.length drafts).
Proof.
  induction drafts as [|d tl IH]; intros db; simpl.
  - rewrite Z.add_0_r. repeat split.
  - destruct (IH (Catalog.insert_habit db user_id (Flows.d_name d)
                    (Flows.d_habit_type d) (nan_to_null (Flows.d_daily_goal d))
                    (Flows.d_unit d) None (Some marathon_id)))
      as (A & B & C & D & E).
    simpl in *. rewrite A, B, C, D, E. repeat split. lia.
Qed.

Lemma finalize_marathon_nonempty
    (db : Db) (creator : Z) (name : string) (start_d end_d : Z) (code : string)
    (drafts : list Flows.HabitDraft) :
  drafts <> [] ->
  Flows.finalize_marathon db creator name start_d end_d code drafts
  = match Marathons.create_marathon db creator name start_d end_d code with
    | (db1, None) => (db1, None)
    | (db1, Some marathon_id) =>
        (fold_left
           (fun d h => fst (Catalog.create_habit d creator (Flows.d_name h)
                              (Flows.d_habit_type h) (Flows.d_daily_goal h)
                              (Flows.d_unit h) None (Some marathon_id)))
           drafts
           (fold_left
              (fun d h => Marathons.add_marathon_habit d marathon_id (Flows.d_name h)
                            (Flows.d_habit_type h) (Flows.d_daily_goal h)
                            (Flows.d_unit h) 1)
              drafts db1),
         Some marathon_id)
    end.
Proof. destruct drafts; [congruence | reflexivity]. Qed.

Lemma finalize_marathon_cases
    (db : Db) (creator : Z) (name : string) (start_d end_d : Z) (code : string)
    (drafts : list Flows.HabitDraft) :
  Forall (fun p => mp_marathon_id p < next_marathon_id db)
         (marathon_participants (base db)) ->
  let db' := fst (Flows.finalize_marathon db creator name start_d end_d code drafts) in
  db' = db
  \/ (Marathons.get_marathon_by_code db code = None
      /\ marathons db'
         = marathons db
           ++ [mkMarathon (next_marathon_id db) creator name code start_d end_d true]
      /\ marathon_participants (base db')
         = marathon_participants (base db)
           ++ [mkParticipant (next_marathon_id db) creator 0]
      /\ marathon_habits db'
         = marathon_habits db
           ++ new_templates (next_marathon_id db) (next_marathon_habit_id db)
                            (map shape_of_draft drafts)
      /\ habits (base db')
         = habits (base db)
           ++ new_habits creator (next_marathon_id db) (next_habit_id db)
                         (map shape_of_draft drafts)
      /\ next_marathon_id db' = next_marathon_id db + 1
      /\ users (base db') = users (base db)
      /\ habit_logs (base db') = habit_logs (base db)
      /\ next_log_id (base db') = next_log_id (base db)
      /\ user_info db' = user_info db
      /\ next_habit_id db' = next_habit_id db + Z.of_nat (List.length drafts)).
Proof.
  intros Hold db'.
  assert (Hcase : drafts = [] \/ drafts <> [])
    by (destruct drafts; [now left | right; discriminate]).
  destruct Hcase as [->|Hne]; [left; reflexivity|].
  destruct (Marathons.get_marathon_by_code db code) as [m|] eqn:Hcode.
  { left. unfold db'. rewrite (finalize_marathon_nonempty _ _ _ _ _ _ _ Hne).
    unfold Marathons.create_marathon.
    assert (Hex : existsb (fun m => String.eqb (invite_code m) code) (marathons db) = true).
    { unfold Marathons.get_marathon_by_code in Hcode. apply find_some in Hcode.
      apply existsb_exists. exists m. exact Hcode. }
    now rewrite Hex. }
  right. split; [reflexivity|].
  destruct (finalize_marathon_effect db creator name start_d end_d code drafts
              Hne Hcode Hold) as (db1 & Hfin & Fm & Fp & Ft & Fh & Fn).
  cbv zeta in Hfin.
  assert (Hdb' : db' = db1) by (unfold db'; now rewrite Hfin).
  rewrite Hdb'.
  split; [exact Fm|]. split; [exact Fp|]. split; [exact Ft|]. split; [exact Fh|].
  split; [exact Fn|].
  rewrite (finalize_marathon_nonempty _ _ _ _ _ _ _ Hne) in Hfin.
  unfold Marathons.create_marathon in Hfin.
  assert (Hfresh : existsb (fun m => String.eqb (invite_code m) code) (marathons db) = false).
  { unfold Marathons.get_marathon_by_code in Hcode.
    destruct (existsb _ (marathons db)) eqn:E; [|reflexivity].
    apply existsb_exists in E. destruct E as (m & Hin & E).
    apply (find_none _ _ Hcode) in Hin. congruence. }
  rewrite Hfresh in Hfin. cbv zeta in Hfin.
  match type of Hfin with
  | context [Marathons.is_participant ?d ?i ?c] =>
      assert (Hnew : Marathons.is_participant d i c = false)
        by (apply is_participant_older; exact Hold);
      rewrite Hnew in Hfin
  end.
  match type of Hfin with
  | context [fold_left ?f drafts (fold_left ?g drafts ?d1)] =>
      pose proof (add_templates_frame (next_marathon_id db) drafts d1) as S1;
      cbv zeta in S1;
      remember (fold_left g drafts d1) as db2 eqn:Hdb2 in *;
      pose proof (add_habits_frame creator (next_marathon_id db) drafts db2) as S2;
      cbv zeta in S2;
      remember (fold_left f drafts db2) as db3 eqn:Hdb3 in *
  end.
  injection Hfin as <-.
  destruct S1 as (A1 & B1 & C1). destruct S2 as (A2 & B2 & C2 & D2 & E2).
  simpl in A1, B1, C1.
  rewrite A2, B2, C2, D2, E2, A1, B1, C1. repeat split.
Qed.

Lemma new_templates_seq (marathon_id n : Z) (shapes : list Shape) :
  Forall (fun t => mh_marathon_id t = marathon_id) (new_templates marathon_id n shapes).
Proof. apply new_templates_facts. Qed.

Lemma finalize_marathon_wf
    (db : Db) (creator : Z) (name : string) (start_d end_d : Z) (code : string)
    (drafts : list Flows.HabitDraft) :
  db_wf db ->
  db_wf (fst (Flows.finalize_marathon db creator name start_d end_d code drafts)).
Proof.
  intros (U & Hh & M & P).
  destruct (finalize_marathon_cases db creator name start_d end_d code drafts)
    as [->|(Hcode & Fm & Fp & Ft & Fh & Fn & Fu & Fl & Fnl & Fi & Fnh)].
  { apply P. }
  { split; [exact U | split; [exact Hh | split; [exact M | exact P]]]. }
  set (db' := fst (Flows.finalize_marathon db creator name start_d end_d code drafts))
    in *.
  split; [|split; [|split]].
  - apply (users_wf_same db); assumption.
  - destruct (new_habits_wf creator (next_marathon_id db) (map shape_of_draft drafts)
                (next_habit_id db)) as [A B].
    rewrite length_map in B.
    apply (habits_wf_appended db db'
             (new_habits creator (next_marathon_id db) (next_habit_id db)
                         (map shape_of_draft drafts))
             (Z.of_nat (List.length drafts)));
      try assumption; try lia.
    eapply Forall_impl; [|exact B]. intros h (Hr & Hs & Hl).
    split; [exact Hr|]. split; [exact Hs|]. intros m Hm'. rewrite Fn.
    assert (m = next_marathon_id db) by congruence. lia.
  - destruct M as (M1 & M2 & M3). unfold marathons_wf. rewrite Fm, Fn, !map_app. simpl.
    split; [|split].
    + apply nodup_app_fresh; [exact M1 | repeat constructor; intros [] |].
      intros x Hx [<-|[]]. apply in_map_iff in Hx. destruct Hx as (m & Hid & Hin).
      rewrite Forall_forall in M2. specialize (M2 m Hin). lia.
    + apply Forall_app. split.
      * eapply Forall_impl; [|exact M2]. intros m Hlt. simpl in *. lia.
      * repeat constructor. simpl. lia.
    + apply nodup_app_fresh; [exact M3 | repeat constructor; intros [] |].
      intros x Hx [<-|[]]. apply in_map_iff in Hx. destruct Hx as (m & Hc & Hin).
      unfold Marathons.get_marathon_by_code in Hcode.
      apply (find_none _ _ Hcode) in Hin. simpl in Hin.
      rewrite Hc, String.eqb_refl in Hin. discriminate.
  - destruct P as (P1 & P2 & P3). unfold participants_wf. rewrite Fp, Ft, Fn.
    split; [|split].
    + rewrite map_app. apply nodup_app_fresh; [exact P1 | repeat constructor; intros [] |].
      intros x Hx [<-|[]]. apply in_map_iff in Hx. destruct Hx as (p & Hk & Hin).
      rewrite Forall_forall in P2. specialize (P2 p Hin).
      unfold participant_key in Hk. simpl in Hk. injection Hk as Hk _. lia.
    + apply Forall_app. split.
      * eapply Forall_impl; [|exact P2]. intros p Hlt. simpl in *. lia.
      * repeat constructor. simpl. lia.
    + apply Forall_app. split.
      * eapply Forall_impl; [|exact P3]. intros t Hlt. simpl in *. lia.
      * eapply Forall_impl; [|apply new_templates_seq]. intros t Ht. simpl in Ht. lia.
Qed.

Lemma leave_marathon_wf (db : Db) (user_id marathon_id : Z) (keep_habits : bool) :
  db_wf db -> db_wf (Marathons.leave_marathon db user_id marathon_id keep_habits).
Proof.
  intros (U & Hh & M & P).
  destruct (leave_marathon_effect db user_id marathon_id keep_habits)
    as (Lp & Lh & Ll & Ln & Lk).
  set (db' := Marathons.leave_marathon db user_id marathon_id keep_habits) in *.
  destruct Lk as (K1 & K2 & K3 & K4 & K5 & K6 & K7 & K8 & K9 & K10 & K11 & K12).
  simpl in K1, K3, K6, K9, K10, K11.
  split; [|split; [|split]].
  - apply (users_wf_same db); assumption.
  - destruct keep_habits.
    + apply (habits_wf_rewritten db db'
               (fun h => if Marathons.habit_of user_id marathon_id h
                         then unlinked h else h)); try assumption.
      * intros h. destruct (Marathons.habit_of user_id marathon_id h); reflexivity.
      * intros h. destruct (Marathons.habit_of user_id marathon_id h); split; reflexivity.
      * intros h. destruct (Marathons.habit_of user_id marathon_id h); [right | left];
          reflexivity.
    + apply (habits_wf_removed db db' (Marathons.habit_of user_id marathon_id)
               (fun l => negb (existsb (Z.eqb (hl_habit_id l))
                                 (map h_id (filter (Marathons.habit_of user_id marathon_id)
                                                   (habits (base db)))))));
        try assumption.
      intros l h Hkept Hin Hgone Hid. apply negb_true_iff in Hkept.
      assert (Hex : existsb (Z.eqb (hl_habit_id l))
                      (map h_id (filter (Marathons.habit_of user_id marathon_id)
                                        (habits (base db)))) = true).
      { apply existsb_exists. exists (h_id h). split; [|rewrite Hid; apply Z.eqb_refl].
        apply in_map. apply filter_In. auto. }
      congruence.
  - apply (marathons_wf_same db); assumption.
  - destruct P as (P1 & P2 & P3). unfold participants_wf. rewrite Lp, K10, K11.
    split; [now apply kept_rows_distinct|]. split; [now apply forall_filter | exact P3].
Qed.

Lemma delete_habit_wf (db : Db) (habit_id : Z) :
  db_wf db -> db_wf (with_base db (Catalog.delete_habit (base db) habit_id)).
Proof.
  intros Hwf. apply with_base_wf; [reflexivity | reflexivity | | exact Hwf].
  destruct Hwf as (_ & Hh & _).
  apply (habits_wf_removed db _ (fun h => h_id h =? habit_id)
           (fun l => negb (hl_habit_id l =? habit_id)));
    try reflexivity; [|exact Hh].
  intros l h Hkept _ Hgone Hid. apply negb_true_iff, Z.eqb_neq in Hkept.
  apply Z.eqb_eq in Hgone. congruence.
Qed.

Lemma update_habit_wf (db : Db) (habit_id : Z) (a : Catalog.Assignment) (st' : Store) :
  (forall h, h_marathon_id (Catalog.assign h a) = h_marathon_id h) ->
  (forall h, is_active (Catalog.assign h a) = is_active h) ->
  Catalog.update_habit (base db) habit_id [a] = Some st' ->
  db_wf db -> db_wf (with_base db st').
Proof.
  intros Hm _ Hu Hwf. unfold Catalog.update_habit in Hu. injection Hu as <-.
  apply with_base_wf; [reflexivity | reflexivity | | exact Hwf].
  destruct Hwf as (_ & Hh & _).
  apply (habits_wf_rewritten db _
           (fun h => if h_id h =? habit_id then fold_left Catalog.assign [a] h else h));
    try reflexivity; [| | |exact Hh].
  - intros h. destruct (h_id h =? habit_id); [|reflexivity]. destruct a; reflexivity.
  - intros h. destruct (h_id h =? habit_id); [|split; reflexivity].
    destruct a; split; reflexivity.
  - intros h. left. destruct (h_id h =? habit_id); [|reflexivity]. simpl. apply Hm.
Qed.

Lemma create_habit_wf (db : Db) (user_id : Z) (name : string) (type : HabitType)
    (goal : PyFloat) (unit_label : string) (category : option Z) :
  db_wf db ->
  db_wf (fst (Catalog.create_habit db user_id name type goal unit_label category None)).
Proof.
  intros (U & Hh & M & P). simpl.
  split; [|split; [|split]].
  - apply (users_wf_same db); [reflexivity | reflexivity | exact U].
  - apply (habits_wf_appended db _
             [mkHabit (next_habit_id db) user_id category name type (nan_to_null goal)
                      unit_label 0 0 true None] 1);
      try reflexivity; try lia; [| |exact Hh].
    + repeat constructor. intros [].
    + repeat constructor; simpl; try lia;
        try (unfold streak_invariant; simpl; lia); intros m Hm; discriminate.
  - apply (marathons_wf_same db); [reflexivity | reflexivity | exact M].
  - apply (participants_wf_same db); [reflexivity | reflexivity | reflexivity | exact P].
Qed.

Lemma update_notification_times_wf (db : Db) (user_id : Z) (times : list string) :
  db_wf db -> db_wf (Catalog.update_notification_times db user_id times).
Proof.
  intros (U & Hh & M & P).
  assert (Hids : map u_user_id
                   (map (fun u => if u_user_id u =? user_id
                                  then mkUser (u_user_id u) times else u)
                        (users (base db)))
                 = map u_user_id (users (base db))).
  { rewrite map_map. apply map_ext. intros u.
    destruct (u_user_id u =? user_id); reflexivity. }
  split; [|split; [|split]].
  - destruct U as [U1 U2]. unfold users_wf, users_aligned in *. simpl.
    rewrite Hids. auto.
  - apply (habits_wf_same db); try reflexivity. exact Hh.
  - apply (marathons_wf_same db); [reflexivity | reflexivity | exact M].
  - apply (participants_wf_same db); [reflexivity | reflexivity | reflexivity | exact P].
Qed.

Lemma set_user_language_wf (db : Db) (user_id : Z) (lang : string) :
  db_wf db -> db_wf (Catalog.set_user_language db user_id lang).
Proof.
  intros (U & Hh & M & P).
  split; [|split; [|split]].
  - destruct U as [U1 U2]. unfold users_wf, users_aligned in *. simpl.
    split; [exact U1|]. rewrite <- U2, map_map. apply map_ext. intros i.
    destruct (ui_user_id i =? user_id); reflexivity.
  - apply (habits_wf_same db); try reflexivity. exact Hh.
  - apply (marathons_wf_same db); [reflexivity | reflexivity | exact M].
  - apply (participants_wf_same db); [reflexivity | reflexivity | reflexivity | exact P].
Qed.

Lemma categories_wf (db db' : Db) :
  base db' = base db -> user_info db' = user_info db ->
  next_habit_id db' = next_habit_id db ->
  marathons db' = marathons db -> next_marathon_id db' = next_marathon_id db ->
  marathon_habits db' = marathon_habits db ->
  db_wf db -> db_wf db'.
Proof.
  intros Hb Hi Hn Hm Hnm Ht (U & Hh & M & P).
  split; [|split; [|split]].
  - apply (users_wf_same db); [now rewrite Hb | exact Hi | exact U].
  - apply (habits_wf_same db); try (now rewrite Hb); assumption.
  - apply (marathons_wf_same db); assumption.
  - apply (participants_wf_same db); try assumption. now rewrite Hb.
Qed.

(** *** The engine *)

Lemma log_habit_within `{Backend} (st st' : Store) (habit_id user_id : Z)
    (value : PyFloat) (d : Z) (r : Database.LogResult) :
  Database.log_habit st habit_id user_id value d = Some (st', r) ->
  habits st' = habits st
  /\ users st' = users st
  /\ marathon_participants st' = marathon_participants st
  /\ (logs_within (habits st) st -> logs_within (habits st) st').
Proof.
  unfold Database.log_habit, logs_within. intros Hlog.
  destruct (Database.get_habit st habit_id) as [habit|] eqn:Hh; [|discriminate].
  destruct (Database.get_daily_log st habit_id d) as [e|].
  - destruct (cell_add _ value) as [v|]; [|discriminate].
    destruct (cell_ge _ _) as [c|]; [|discriminate].
    injection Hlog as <- _; simpl.
    repeat split. intros Hw. apply Forall_map. eapply Forall_impl; [|exact Hw].
    intros l Hl. simpl. destruct (hl_id l =? hl_id e); exact Hl.
  - destruct (cell_ge _ _) as [c|]; [|discriminate].
    injection Hlog as <- _; simpl.
    repeat split. intros Hw. apply Forall_app. split; [exact Hw|].
    repeat constructor. simpl.
    unfold Database.get_habit in Hh. apply find_some in Hh. destruct Hh as [Hin Hid].
    apply Z.eqb_eq in Hid. rewrite <- Hid. now apply in_map.
Qed.

Lemma credited_keys (f : MarathonParticipant -> bool) (count : MarathonParticipant -> nat)
    (ps : list MarathonParticipant) :
  map participant_key (map (fun p => if f p then credit_n (count p) p else p) ps)
  = map participant_key ps.
Proof.
  rewrite map_map. apply map_ext. intros p.
  destruct (f p); [|reflexivity].
  unfold participant_key. destruct (credit_n_user (count p) p) as [-> ->]. reflexivity.
Qed.

Section EngineFrame.
Context `{Backend}.

(** Whatever [log_habit] and the writes to the ledger keep, the sweeps keep. *)
Lemma sweep_preserves (P : Store -> Prop) (bot_instance : option Bot) (w : World)
    (now now' today : Z) :
  (forall st habit_id user_id value d st' r,
     P st -> Database.log_habit st habit_id user_id value d = Some (st', r) -> P st') ->
  (forall st ps n, P st -> P (set_pending_notifications st ps n)) ->
  P (store w) ->
  P (store (Scheduler.check_expired_notifications bot_instance w now now' today))
  /\ P (store (HabitTracker.check_expired_notifications bot_instance w now now' today)).
Proof.
  intros Hlog Hled Hw. split.
  - unfold Scheduler.check_expired_notifications. cbv zeta. cbn [store].
    unfold Database.delete_expired_notifications. apply Hled.
    apply (fold_left_preserves (fun w' => P (store w'))); [|exact Hw].
    intros w1 notif Hw1. unfold Scheduler.expire_one.
    destruct (Database.log_habit (store w1) (pn_habit_id notif) (pn_user_id notif)
                (Finite 0) today)
      as [[st1 r]|] eqn:E; [|exact Hw1].
    assert (K : P st1) by (eapply Hlog; eauto).
    destruct bot_instance; [destruct (Database.get_habit st1 (pn_habit_id notif))|];
      exact K.
  - unfold HabitTracker.check_expired_notifications. cbv zeta. cbn [store].
    unfold Database.delete_expired_notifications. apply Hled.
    apply (fold_left_preserves (fun w' => P (store w'))); [|exact Hw].
    intros w1 notif Hw1. unfold HabitTracker.expire_one.
    set (w2 := match bot_instance, message_id notif, chat_id notif with
               | Some _, Some msg, Some chat =>
                   if truthy (message_id notif) && truthy (chat_id notif)
                   then call w1 (store w1) (DeleteMessage chat msg) else w1
               | _, _, _ => w1
               end).
    assert (H1 : store w2 = store w1).
    { unfold w2. destruct bot_instance, (message_id notif), (chat_id notif);
        try reflexivity.
      destruct (truthy (Some z) && truthy (Some z0)); reflexivity. }
    destruct (Database.get_user_habits (store w2) (pn_user_id notif)) as [|h0 tl].
    + now rewrite H1.
    + cbv beta iota zeta. cbn [store].
      assert (Hz : forall logs hs st, P st ->
                     P (HabitTracker.zero_fill st (pn_user_id notif) today logs hs)).
      { intros logs hs. induction hs as [|habit tl' IH]; simpl; intros st K; [exact K|].
        destruct (HabitTracker.not_completed logs habit); [|now apply IH].
        destruct (Database.log_habit st (h_id habit) (pn_user_id notif) (Finite 0) today)
          as [[st1 r]|] eqn:E; [|exact K].
        apply IH. eapply Hlog; eauto. }
      apply Hz. now rewrite H1.
Qed.

(** The loop of settlement keeps the rows of the participants but their
    points, however it ends. *)
Lemma settle_loop_keys (value_of : Habit -> Real) (user_id : Z) (hs : list Habit) :
  forall st lines,
    map participant_key
        (marathon_participants (fst (settle_loop value_of st user_id hs lines)))
    = map participant_key (marathon_participants st).
Proof.
  induction hs as [|habit tl IH]; intros st lines; simpl; [reflexivity|].
  destruct (value_of habit) as [v|]; [|reflexivity].
  destruct (Database.sql_real (daily_goal habit)) as [g|]; [|reflexivity].
  destruct (Database.update_streak st (h_id habit) (float_ge v g))
    as [[st1 [new_streak c]]|] eqn:Hu; [|reflexivity].
  destruct (update_streak_same _ _ _ _ _ Hu) as [_ Hp1].
  destruct (credit_step user_id habit (float_ge v g) st1) as [_ Hp2].
  cbv zeta in Hp2. rewrite IH, Hp2, Hp1, map_map.
  apply map_ext. intros p.
  destruct ((mp_user_id p =? user_id) && linked_to (mp_marathon_id p) habit
            && float_ge v g); reflexivity.
Qed.

(** A settlement run keeps the logs and the frame. *)
Lemma settle_frame (bot_instance : option Bot) (w : World) (today : Z) :
  let w' := Scheduler.process_end_of_day bot_instance w today in
  engine_frame (store w) (store w') /\ habit_logs (store w') = habit_logs (store w).
Proof.
  intros w'. unfold w', Scheduler.process_end_of_day.
  destruct bot_instance; [|repeat split].
  apply (fold_left_preserves
           (fun w1 => engine_frame (store w) (store w1)
                      /\ habit_logs (store w1) = habit_logs (store w)));
    [|repeat split].
  intros w1 user ((A & B & C) & D).
  destruct (settle_user_writes today w1 user) as (S1 & S2 & _ & _ & S5).
  assert (Sp : map participant_key
                   (marathon_participants (store (Scheduler.settle_user today w1 user)))
               = map participant_key (marathon_participants (store w1))).
  { rewrite settle_user_store.
    rewrite (scheduler_settle_loop (store w1)) by apply same_but_streaks_refl.
    apply settle_loop_keys. }
  unfold engine_frame. rewrite S1, S2, S5, Sp.
  repeat split; assumption.
Qed.

Lemma engine_step_frame (bot_instance : option Bot) (w w' : World) :
  engine_step bot_instance w w' ->
  logs_wf (store w) ->
  engine_frame (store w) (store w')
  /\ (logs_within (habits (store w)) (store w) ->
      logs_within (habits (store w)) (store w')).
Proof.
  intros Hstep Hwf.
  assert (Hsweep : forall st h u v d st1 r,
            (users st = users (store w) /\ habits st = habits (store w)
             /\ marathon_participants st = marathon_participants (store w)
             /\ (logs_within (habits (store w)) (store w) ->
                 logs_within (habits (store w)) st)) ->
            Database.log_habit st h u v d = Some (st1, r) ->
            users st1 = users (store w) /\ habits st1 = habits (store w)
            /\ marathon_participants st1 = marathon_participants (store w)
            /\ (logs_within (habits (store w)) (store w) ->
                logs_within (habits (store w)) st1)).
  { intros st h u v d st1 r (A & B & C & D) E.
    destruct (log_habit_within _ _ _ _ _ _ _ E) as (A' & B' & C' & D').
    rewrite A', B', C'. repeat split; try assumption.
    intros Hw. rewrite B in D'. apply D'. now apply D. }
  destruct Hstep as [w user_id habit_id value today st' Hlog
                    | w check_time now now_kz today | w check_time now today
                    | w now now' today | w now now' today
                    | w today | w today].
  - unfold Handlers.log_and_mark in Hlog.
    destruct (Database.log_habit (store w) habit_id user_id value today)
      as [[st1 r]|] eqn:E; [|discriminate].
    injection Hlog as <-. destruct (log_habit_within _ _ _ _ _ _ _ E) as (A & B & C & D).
    unfold engine_frame. simpl. rewrite A, B, C. repeat split. exact D.
  - destruct (check_notifications_only_ledger bot_instance w check_time now now_kz
                today) as [(A & B & C & _ & D) _].
    unfold engine_frame, logs_within. rewrite A, B, C, D. repeat split. auto.
  - destruct (check_notifications_only_ledger bot_instance w check_time now now today)
      as [_ (A & B & C & _ & D)].
    unfold engine_frame, logs_within. rewrite A, B, C, D. repeat split. auto.
  - destruct (sweep_preserves
                (fun st => users st = users (store w) /\ habits st = habits (store w)
                           /\ marathon_participants st = marathon_participants (store w)
                           /\ (logs_within (habits (store w)) (store w) ->
                               logs_within (habits (store w)) st))
                bot_instance w now now' today) as [(A & B & C & D) _].
    + exact Hsweep.
    + intros st ps n K. exact K.
    + repeat split. auto.
    + unfold engine_frame. rewrite A, B, C. repeat split. exact D.
  - destruct (sweep_preserves
                (fun st => users st = users (store w) /\ habits st = habits (store w)
                           /\ marathon_participants st = marathon_participants (store w)
                           /\ (logs_within (habits (store w)) (store w) ->
                               logs_within (habits (store w)) st))
                bot_instance w now now' today) as [_ (A & B & C & D)].
    + exact Hsweep.
    + intros st ps n K. exact K.
    + repeat split. auto.
    + unfold engine_frame. rewrite A, B, C. repeat split. exact D.
  - destruct (settle_frame bot_instance w today) as [A B].
    split; [exact A|]. unfold logs_within. now rewrite B.
  - rewrite (tracker_process_end_of_day_eq bot_instance w today) by apply Hwf.
    destruct (settle_frame bot_instance w today) as [A B].
    split; [exact A|]. unfold logs_within. now rewrite B.
Qed.

End EngineFrame.

Lemma erased_ids (l l' : list Habit) :
  map erase_streak l' = map erase_streak l -> map h_id l' = map h_id l.
Proof.
  intros E.
  assert (Hid : forall hs, map h_id hs = map h_id (map erase_streak hs)).
  { intros hs. rewrite map_map. reflexivity. }
  rewrite (Hid l'), (Hid l). now rewrite E.
Qed.

Lemma erased_forall (P : Habit -> Prop) (l l' : list Habit) :
  (forall h, P h <-> P (erase_streak h)) ->
  map erase_streak l' = map erase_streak l ->
  Forall P l -> Forall P l'.
Proof.
  intros HP E Hl.
  assert (H1 : Forall (fun h => P (erase_streak h)) l).
  { eapply Forall_impl; [|exact Hl]. intros h. apply HP. }
  rewrite <- (Forall_map erase_streak P) in H1. rewrite <- E in H1.
  rewrite (Forall_map erase_streak P) in H1.
  eapply Forall_impl; [|exact H1]. intros h. apply HP.
Qed.

Section Steps.
Context `{Backend}.

Lemma engine_step_wf (bot_instance : option Bot) (db : Db) (outbox : list GatewayCall)
    (w' : World) :
  engine_step bot_instance (mkWorld (base db) outbox) w' ->
  db_wf db -> db_wf (with_base db (store w')).
Proof.
  intros Hstep Hwf.
  pose proof Hwf as (_ & (A & B & C & D & E & F) & _).
  destruct (engine_step_frame bot_instance _ _ Hstep E) as [(Fu & Fh & Fp) Fl].
  cbn [store] in Fu, Fh, Fp, Fl.
  destruct (invariants_always bot_instance (mkWorld (base db) outbox) w' C E
              (reach_step _ _ _ _ (reach_start _ _) Hstep)) as (Is & Il & _).
  apply with_base_wf; [exact Fu | exact Fp | | exact Hwf].
  pose proof (erased_ids _ _ Fh) as Hids.
  unfold habits_wf. cbn [base with_base next_habit_id next_marathon_id].
  split; [now rewrite Hids|].
  split.
  { apply (erased_forall (fun h => h_id h < next_habit_id db) (habits (base db)));
      [intros h; reflexivity | exact Fh | exact B]. }
  split; [exact Is|].
  split.
  { apply (erased_forall
             (fun h => forall k, h_marathon_id h = Some k -> k < next_marathon_id db)
             (habits (base db))); [intros h; reflexivity | exact Fh | exact D]. }
  split; [exact Il|].
  rewrite Hids. apply Fl. exact F.
Qed.

Lemma db_step_wf (bot_instance : option Bot) (db db' : Db) :
  db_step bot_instance db db' -> db_wf db -> db_wf db'.
Proof.
  intros Hstep Hwf.
  destruct Hstep as [db user_id uname fname arg db' reply Hs
                    | db user_id name type goal unit_label category
                    | db habit_id
                    | db habit_id text_value
                    | db habit_id name st' He
                    | db creator name start_d end_d code drafts db' created Hf
                    | db user_id marathon_id action
                    | db marathon_id user_id
                    | db user_id times
                    | db user_id lang
                    | db user_id name icon
                    | db category_id
                    | db outbox w' He].
  - pose proof (cmd_start_wf db user_id uname fname arg Hwf) as K.
    now rewrite Hs in K.
  - now apply create_habit_wf.
  - now apply delete_habit_wf.
  - destruct text_value as [g|].
    + apply (update_habit_wf db habit_id (Catalog.set_daily_goal g));
        [reflexivity | reflexivity | reflexivity | exact Hwf].
    + apply (categories_wf db); try reflexivity. exact Hwf.
  - apply (update_habit_wf db habit_id (Catalog.set_name name));
      [reflexivity | reflexivity | exact He | exact Hwf].
  - pose proof (finalize_marathon_wf db creator name start_d end_d code drafts Hwf) as K.
    now rewrite Hf in K.
  - now apply leave_marathon_wf.
  - now apply leave_marathon_wf.
  - unfold Flows.save_notification_times. destruct times as [|t tl]; [exact Hwf|].
    now apply update_notification_times_wf.
  - now apply set_user_language_wf.
  - apply (categories_wf db); try reflexivity. exact Hwf.
  - apply (categories_wf db); try reflexivity. exact Hwf.
  - now apply (engine_step_wf bot_instance db outbox).
Qed.

(** X23. The database stays well formed along the writes of the handlers
    and the jobs of both schedulers: from a well-formed database, after any
    sequence of /start (with or without an invitation), habit creation,
    renaming, goal change and deletion, marathon creation, leaving and
    removal from a marathon, changes of the notification times, the
    language and the categories, log handlers, issuers, sweeps and
    settlements, user ids, habit ids, marathon ids and invite codes are
    distinct, ids lie below their sequences, a user takes part in a
    marathon at most once, streaks are within 0 and the maximum, the log
    table has one row per habit and date, and every log belongs to a habit
    of the table. *)
Theorem db_wf_always (bot_instance : option Bot) (db0 db : Db) :
  db_wf db0 ->
  db_reachable bot_instance db0 db ->
  db_wf db.
Proof.
  intros Hwf Hreach. induction Hreach as [|db db' _ IH Hstep]; [exact Hwf|].
  exact (db_step_wf bot_instance db db' Hstep IH).
Qed.

End Steps.

Lemma example_db_wf : db_wf ExampleDb.db0.
Proof.
  split; [|split; [|split]].
  - split; [|reflexivity]. simpl. repeat constructor. intros [].
  - unfold habits_wf, logs_wf, streak_invariant. simpl.
    split; [repeat constructor; simpl; intuition discriminate|].
    split; [repeat constructor|].
    split; [repeat constructor; simpl; lia|].
    split.
    { repeat constructor; simpl; intros k E; try discriminate.
      injection E as <-. reflexivity. }
    split; [repeat constructor | constructor].
  - unfold marathons_wf. simpl.
    split; [repeat constructor; intros []|].
    split; [repeat constructor | repeat constructor; intros []].
  - unfold participants_wf. simpl.
    split; [repeat constructor; intros []|]. split; repeat constructor.
Qed.

(** A second user opens the invitation of the example marathon, and the day
    is settled. *)
Lemma db_wf_always_witness :
  let joined := fst (Flows.cmd_start ExampleDb.db0 200 None (Some "Bob"%string)
                       (Some "marathon_Zk3vQ9xY2aB"%string)) in
  let w := Scheduler.process_end_of_day (H := sqlite_backend) (Some Example.bot)
             (mkWorld (base joined) []) Example.day in
  map h_id (habits (base joined)) = [1; 2; 3]
  /\ db_wf (with_base joined (store w)).
Proof.
  intros joined w. split; [reflexivity|].
  apply (db_wf_always (H := sqlite_backend) (Some Example.bot) ExampleDb.db0).
  - exact example_db_wf.
  - eapply db_reach_step; [eapply db_reach_step; [apply db_reach_start|]|].
    + apply (db_start (Some Example.bot) ExampleDb.db0 200 None (Some "Bob"%string)
               (Some "marathon_Zk3vQ9xY2aB"%string) joined
               (snd (Flows.cmd_start ExampleDb.db0 200 None (Some "Bob"%string)
                       (Some "marathon_Zk3vQ9xY2aB"%string)))).
      unfold joined. now destruct (Flows.cmd_start _ _ _ _ _).
    + apply (db_engine (Some Example.bot) joined [] w). apply step_settle.
Defined.

(** ** Menus *)

Lemma category_total_app (l l' : list Menus.HabitMenuButton) :
  category_total (l ++ l') = (category_total l + category_total l')%nat.
Proof.
  induction l as [|b tl IH]; simpl; [reflexivity|].
  destruct b; rewrite IH; lia.
Qed.

Lemma category_total_buttons (cats : list Category) (hs : list Habit) :
  category_total (Menus.habits_categories_keyboard cats hs)
  = fold_right
      (fun cat acc =>
         (List.length (filter (Menus.in_category (Some (c_id cat))) hs) + acc)%nat)
      O cats.
Proof.
  unfold Menus.habits_categories_keyboard. rewrite !category_total_app.
  assert (Hrest : forall l : list Menus.HabitMenuButton,
            (forall b, In b l -> forall c n, b <> Menus.CategoryButton c n) ->
            category_total l = O).
  { induction l as [|b tl IH]; intros Hl; simpl; [reflexivity|].
    destruct b; try (apply IH; intros b' Hb'; apply Hl; now right).
    exfalso. eapply Hl; [now left | reflexivity]. }
  rewrite (Hrest (if (0 <? _)%nat then _ else _)), (Hrest [_; _; _]).
  - rewrite !Nat.add_0_r. induction cats as [|cat tl IH]; simpl; [reflexivity|].
    now rewrite IH.
  - intros b [<-|[<-|[<-|[]]]] c n; discriminate.
  - intros b Hb c n. destruct (0 <? _)%nat; [|destruct Hb].
    destruct Hb as [<-|[]]. discriminate.
Qed.

Lemma category_sum_cons (cats : list Category) (h : Habit) (hs : list Habit) :
  fold_right
    (fun cat acc =>
       (List.length (filter (Menus.in_category (Some (c_id cat))) (h :: hs)) + acc)%nat)
    O cats
  = (List.length (filter (fun cat => Menus.in_category (Some (c_id cat)) h) cats)
     + fold_right
         (fun cat acc =>
            (List.length (filter (Menus.in_category (Some (c_id cat))) hs) + acc)%nat)
         O cats)%nat.
Proof.
  induction cats as [|cat tl IH]; [reflexivity|].
  cbn [fold_right]. rewrite IH. cbn [filter].
  destruct (Menus.in_category (Some (c_id cat)) h); cbn [List.length]; lia.
Qed.

Lemma one_class (cats : list Category) (h : Habit) :
  NoDup (map c_id cats) ->
  (List.length (filter (fun cat => Menus.in_category (Some (c_id cat)) h) cats)
   + (if Menus.in_category None h then 1 else 0)
   + (if dangling cats h then 1 else 0))%nat = 1%nat.
Proof.
  intros Hnd. unfold Menus.in_category, dangling, category_eqb.
  destruct (category_id h) as [c|].
  - assert (Hlen : List.length (filter (fun cat => c =? c_id cat) cats)
                   = if existsb (fun cat => c_id cat =? c) cats then 1%nat else 0%nat).
    { induction cats as [|cat tl IH]; simpl; [reflexivity|].
      inversion Hnd as [|? ? Hnotin Hnd']; subst.
      rewrite (Z.eqb_sym c (c_id cat)).
      destruct (c_id cat =? c) eqn:E; simpl.
      - apply Z.eqb_eq in E.
        assert (Hno : existsb (fun cat0 => c_id cat0 =? c) tl = false).
        { destruct (existsb _ tl) eqn:Ex; [|reflexivity].
          apply existsb_exists in Ex. destruct Ex as (x & Hx & Ex).
          apply Z.eqb_eq in Ex. exfalso. apply Hnotin. rewrite E, <- Ex.
          now apply in_map. }
        rewrite (IH Hnd'), Hno. reflexivity.
      - exact (IH Hnd'). }
    rewrite Hlen. destruct (existsb _ cats); reflexivity.
  - assert (Hlen : List.length (filter (fun _ : Category => false) cats) = O).
    { clear Hnd. induction cats as [|cat tl IH]; simpl; [reflexivity | exact IH]. }
    rewrite Hlen. reflexivity.
Qed.

Lemma class_sum (cats : list Category) (hs : list Habit) :
  NoDup (map c_id cats) ->
  List.length hs
  = (fold_right
       (fun cat acc =>
          (List.length (filter (Menus.in_category (Some (c_id cat))) hs) + acc)%nat)
       O cats
     + List.length (filter (Menus.in_category None) hs)
     + List.length (filter (dangling cats) hs))%nat.
Proof.
  intros Hcats. induction hs as [|h tl IH].
  - cbn [filter List.length]. clear Hcats.
    induction cats as [|cat tl IH]; [reflexivity|]. cbn [fold_right]. lia.
  - rewrite category_sum_cons. cbn [filter List.length].
    pose proof (one_class cats h Hcats) as H1.
    destruct (Menus.in_category None h), (dangling cats h); cbn [List.length]; lia.
Qed.

Section CategoryMenu.
Context `{Backend}.

Lemma category_view_length (db : Db) (user_id : Z) (c : option Z) :
  List.length (Catalog.get_habits_by_category db user_id c true)
  = List.length (filter (Menus.in_category c)
                        (Database.get_user_habits (base db) user_id)).
Proof.
  unfold Catalog.get_habits_by_category.
  rewrite (Permutation_length (sort_by_perm _ _)), get_user_habits_count.
  f_equal. apply filter_ext. intros h. unfold Menus.in_category. simpl.
  destruct (h_user_id h =? user_id), (category_eqb (category_id h) c), (is_active h);
    reflexivity.
Qed.

(** X24. The numbers on the menu of the categories.  A press on a button
    that carries a count lists exactly that many habits.  With distinct
    category ids, the count of all habits is the sum of the counts on the
    category buttons, the habits without category and the habits that refer
    to a category that is not one of the user's, such as a deleted one: each
    habit is counted in exactly one of these. *)
Theorem category_menu_counts (db : Db) (user_id : Z) :
  NoDup (map c_id (categories db)) ->
  let hs := Database.get_user_habits (base db) user_id in
  let cats := Catalog.get_user_categories db user_id in
  let menu := Menus.habits_categories_keyboard cats hs in
  (forall b s n,
     In b menu -> Menus.selector_of b = Some s -> Menus.count_of b = Some n ->
     List.length (Menus.show_habits_in_category db user_id s) = n)
  /\ List.length hs
     = (category_total menu
        + List.length (filter (Menus.in_category None) hs)
        + List.length (filter (dangling cats) hs))%nat.
Proof.
  intros Hnd hs cats menu. split.
  - intros b s n Hb Hs Hn. unfold menu, Menus.habits_categories_keyboard in Hb.
    apply in_app_or in Hb. destruct Hb as [Hb|Hb].
    + apply in_map_iff in Hb. destruct Hb as (cat & <- & _).
      injection Hs as <-. injection Hn as <-. simpl.
      apply category_view_length.
    + apply in_app_or in Hb. destruct Hb as [Hb|Hb].
      * cbv zeta in Hb. destruct (0 <? _)%nat; [|destruct Hb].
        destruct Hb as [<-|[]]. injection Hs as <-. injection Hn as <-. simpl.
        apply category_view_length.
      * destruct Hb as [<-|[<-|[<-|[]]]]; try discriminate.
        injection Hs as <-. injection Hn as <-. reflexivity.
  - unfold menu. rewrite category_total_buttons.
    assert (Hcats : NoDup (map c_id cats)).
    { unfold cats, Catalog.get_user_categories.
      eapply Permutation_NoDup;
        [apply Permutation_map, Permutation_sym, sort_by_perm|].
      now apply kept_rows_distinct. }
    now apply class_sum.
Qed.

End CategoryMenu.

Lemma category_menu_counts_witness :
  let deleted := Catalog.delete_category
                   (fst (fst (Catalog.get_or_create_user
                                (fst (Catalog.create_habit ExampleDb.db0 200 "swim"
                                        Boolean (Finite 1) "" (Some 1) None))
                                200 None None)))
                   1 in
  Menus.show_habits (H := sqlite_backend) deleted 200
  = Some [Menus.CategoryButton 3 0; Menus.CategoryButton 2 0;
          Menus.AllHabitsButton 1; Menus.CreateHabitButton; Menus.BackToMenuButton]
  /\ List.length (filter (dangling (Catalog.get_user_categories deleted 200))
                         (Database.get_user_habits (H := sqlite_backend)
                            (base deleted) 200)) = 1%nat.
Proof.
  intros deleted. split; [reflexivity|].
  assert (Hnd : NoDup (map c_id (categories deleted))).
  { simpl. repeat constructor; simpl; intuition discriminate. }
  destruct (category_menu_counts (H := sqlite_backend) deleted 200 Hnd) as [_ Hsum].
  cbv zeta in Hsum.
  assert (Hlen : List.length (Database.get_user_habits (H := sqlite_backend)
                                (base deleted) 200) = 1%nat) by reflexivity.
  assert (Hcat : category_total
                   (Menus.habits_categories_keyboard
                      (Catalog.get_user_categories deleted 200)
                      (Database.get_user_habits (H := sqlite_backend)
                         (base deleted) 200)) = 0%nat) by reflexivity.
  assert (Hnone : List.length
                    (filter (Menus.in_category None)
                            (Database.get_user_habits (H := sqlite_backend)
                               (base deleted) 200)) = 0%nat) by reflexivity.
  rewrite Hlen, Hcat, Hnone in Hsum. simpl in Hsum. now symmetry.
Defined.

(** ** The list of marathons *)

Lemma get_user_marathons_in (db : Db) (user_id : Z) (m : Marathon) :
  In m (Marathons.get_user_marathons db user_id)
  <-> In m (marathons db) /\ m_is_active m = true
      /\ Marathons.is_participant db (m_id m) user_id = true.
Proof.
  unfold Marathons.get_user_marathons, Marathons.is_participant.
  split.
  - intros Hin. apply (Permutation_in _ (sort_by_perm _ _)) in Hin.
    apply in_flat_map in Hin. destruct Hin as (x & Hx & Hin).
    apply filter_In in Hx. destruct Hx as [Hx Hact].
    apply in_map_iff in Hin. destruct Hin as (p & <- & Hp).
    apply filter_In in Hp. destruct Hp as [Hp Hmatch].
    split; [exact Hx|]. split; [exact Hact|].
    apply existsb_exists. exists p. auto.
  - intros (Hin & Hact & Hp). apply existsb_exists in Hp. destruct Hp as (p & Hp & Hmatch).
    apply (Permutation_in _ (Permutation_sym (sort_by_perm _ _))).
    apply in_flat_map. exists m. split; [apply filter_In; auto|].
    apply in_map_iff. exists p. split; [reflexivity|]. apply filter_In. auto.
Qed.

(** X25. The list of marathons shows a user the active marathons the user
    takes part in, and every button of the list opens a marathon of the id
    on the button.  [view_marathon] does not ask whether the user takes part
    in the marathon it shows: it raises for a user who takes part in no
    active marathon, also when the marathon exists, and otherwise shows the
    first marathon of the id, if there is one. *)
Theorem marathon_list_opens (db : Db) (user_id : Z) :
  (forall marathon_id,
     In marathon_id (Menus.list_marathons db user_id) <->
     exists m, In m (marathons db) /\ m_id m = marathon_id /\ m_is_active m = true
               /\ Marathons.is_participant db marathon_id user_id = true)
  /\ (forall marathon_id,
        In marathon_id (Menus.list_marathons db user_id) ->
        exists m, Menus.view_marathon db user_id marathon_id = Some m
                  /\ m_id m = marathon_id /\ In m (marathons db))
  /\ (Menus.list_marathons db user_id = [] ->
      forall marathon_id, Menus.view_marathon db user_id marathon_id = None)
  /\ (Menus.list_marathons db user_id <> [] ->
      forall marathon_id,
        Menus.view_marathon db user_id marathon_id
        = Marathons.get_marathon_by_id db marathon_id).
Proof.
  assert (Hlist : forall marathon_id,
     In marathon_id (Menus.list_marathons db user_id) <->
     exists m, In m (marathons db) /\ m_id m = marathon_id /\ m_is_active m = true
               /\ Marathons.is_participant db marathon_id user_id = true).
  { intros marathon_id. unfold Menus.list_marathons. rewrite in_map_iff. split.
    - intros (m & Hid & Hin). apply get_user_marathons_in in Hin.
      destruct Hin as (A & B & C). exists m. rewrite <- Hid. auto.
    - intros (m & A & Hid & B & C). exists m. split; [exact Hid|].
      apply get_user_marathons_in. rewrite Hid. auto. }
  split; [exact Hlist|].
  split.
  { intros marathon_id Hin. pose proof Hin as Hin'.
    apply Hlist in Hin. destruct Hin as (m & A & Hid & _).
    unfold Menus.view_marathon. unfold Menus.list_marathons in Hin'.
    destruct (Marathons.get_user_marathons db user_id) as [|m0 tl]; [destruct Hin'|].
    destruct (find (fun x => m_id x =? marathon_id) (marathons db)) as [found|] eqn:E.
    - exists found. apply find_some in E. destruct E as [E1 E2].
      apply Z.eqb_eq in E2. auto.
    - exfalso. apply (find_none _ _ E) in A. simpl in A.
      rewrite Hid, Z.eqb_refl in A. discriminate. }
  split.
  - intros Hnil marathon_id. unfold Menus.view_marathon, Menus.list_marathons in *.
    destruct (Marathons.get_user_marathons db user_id); [reflexivity | discriminate].
  - intros Hne marathon_id. unfold Menus.view_marathon, Menus.list_marathons in *.
    destruct (Marathons.get_user_marathons db user_id);
      [exfalso; apply Hne; reflexivity | reflexivity].
Qed.

(** ** The completed flag *)


Section CompletedFlag.
Context `{Backend}.


End CompletedFlag.

